(** * Defold DX12 graphics adapter: frame lifecycle, scratch allocator,
      deferred destruction, pipeline cache and program resource bindings.

    A shallow embedding of [engine/graphics/src/dx12/graphics_dx12.cpp].
    Integers of the source are [Z] with the wrap-around of their C type
    written out; arrays ([dmArray], C arrays) are lists indexed with
    stdpp's lookup; device objects are handles ([nat], 0 is the null
    handle); the Direct3D runtime is an explicit [World] threaded through
    every call. *)

From Stdlib Require Import ZArith Lia.
From stdpp Require Import base option list gmap.

Local Open Scope Z_scope.

(** ** Machine integers *)

Definition uint32 (z : Z) : Z := z mod 2 ^ 32.
Definition uint64 (z : Z) : Z := z mod 2 ^ 64.

(** ** Handles, pointers and addresses *)

(** A COM object or OS object. [null] is the value [memset] leaves. *)
Definition Handle := nat.
Definition null : Handle := 0%nat.

Definition is_null (h : Handle) : bool := Nat.eqb h null.

(** A CPU pointer into the mapping of resource [p_res], [p_ofs] bytes in. *)
Record Ptr := mkPtr { p_res : Handle; p_ofs : Z }.

(** A GPU virtual address inside resource [g_res], [g_ofs] bytes in. *)
Record GpuAddr := mkGpuAddr { g_res : Handle; g_ofs : Z }.

(** [ID3D12Resource::GetGPUVirtualAddress] and [ID3D12Resource::Map] both
    give the start of the resource, one in each address space. *)
Definition GetGPUVirtualAddress (res : Handle) : GpuAddr := mkGpuAddr res 0.
Definition gpu_add (a : GpuAddr) (n : Z) : GpuAddr := mkGpuAddr (g_res a) (g_ofs a + n).
Definition ptr_add (p : Ptr) (n : Z) : Ptr := mkPtr (p_res p) (p_ofs p + n).

(** The bytes a CPU pointer writes and the bytes a GPU address reads are
    the same bytes when they lie in the same resource at the same offset. *)
Definition same_region (p : Ptr) (a : GpuAddr) : Prop :=
  p_res p = g_res a /\ p_ofs p = g_ofs a.

(** ** HRESULT *)

Definition HRESULT := Z.
Definition S_OK : HRESULT := 0.
Definition FAILED (hr : HRESULT) : bool := hr <? 0.
Definition HRESULT_CODE (hr : HRESULT) : Z := Z.land hr 65535.

(** ** How a call ends *)

Inductive Outcome (A : Type) : Type :=
| Done (a : A)       (* the call returned *)
| AssertFailed       (* an [assert] did not hold *)
| NullDeref          (* a method was invoked through a null handle *)
| Hang               (* a wait or a loop that was not seen to end *)
| OutOfBounds.       (* a C array was indexed past its end *)
Arguments Done {A} a.
Arguments AssertFailed {A}.
Arguments NullDeref {A}.
Arguments Hang {A}.
Arguments OutOfBounds {A}.

Definition is_done {A} (o : Outcome A) : bool :=
  match o with Done _ => true | _ => false end.

(** ** Constants of the private headers *)

(** [graphics_dx12_private.h] and [graphics_private.h] are not among the
    sources; their constants are taken as a parameter of the model. *)
Record Constants := mkConstants {
  BLOCK_STEP_SIZE : Z;
  MAX_BLOCK_SIZE : Z;
  DESCRIPTORS_PER_POOL : nat;
  MAX_FRAMEBUFFERS : nat;
  RENDER_CONTEXT_STATE_FREE : Z;
  MAX_VERTEX_BUFFERS : nat;
  MAX_SET_COUNT : nat;
  MAX_BINDINGS_PER_SET_COUNT : nat;
  UNIFORM_BUFFERS_ALIGNMENT : Z;
  DM_RENDERTARGET_BACKBUFFER_ID : Z
}.

(** ** Vertex declarations *)

Inductive Type_ : Type :=
| TYPE_BYTE | TYPE_UNSIGNED_BYTE | TYPE_SHORT | TYPE_UNSIGNED_SHORT
| TYPE_INT | TYPE_UNSIGNED_INT | TYPE_FLOAT | TYPE_FLOAT_VEC4
| TYPE_FLOAT_MAT4 | TYPE_SAMPLER_2D | TYPE_OTHER.

Inductive DXGI_FORMAT : Type :=
| DXGI_FORMAT_UNKNOWN
| DXGI_FORMAT_R32_FLOAT | DXGI_FORMAT_R32G32_FLOAT
| DXGI_FORMAT_R32G32B32_FLOAT | DXGI_FORMAT_R32G32B32A32_FLOAT
| DXGI_FORMAT_R32_SINT | DXGI_FORMAT_R32G32_SINT
| DXGI_FORMAT_R32G32B32_SINT | DXGI_FORMAT_R32G32B32A32_SINT
| DXGI_FORMAT_R32_UINT | DXGI_FORMAT_R32G32_UINT
| DXGI_FORMAT_R32G32B32_UINT | DXGI_FORMAT_R32G32B32A32_UINT
| DXGI_FORMAT_R8_SNORM | DXGI_FORMAT_R8_SINT
| DXGI_FORMAT_R8G8_SNORM | DXGI_FORMAT_R8G8_SINT
| DXGI_FORMAT_R8G8B8A8_SNORM | DXGI_FORMAT_R8G8B8A8_SINT
| DXGI_FORMAT_R8_UNORM | DXGI_FORMAT_R8_UINT
| DXGI_FORMAT_R8G8_UNORM | DXGI_FORMAT_R8G8_UINT
| DXGI_FORMAT_R8G8B8A8_UNORM | DXGI_FORMAT_R8G8B8A8_UINT
| DXGI_FORMAT_R16_SNORM | DXGI_FORMAT_R16_SINT
| DXGI_FORMAT_R16G16_SNORM | DXGI_FORMAT_R16G16_SINT
| DXGI_FORMAT_R16G16B16A16_SNORM | DXGI_FORMAT_R16G16B16A16_SINT
| DXGI_FORMAT_R16_UNORM | DXGI_FORMAT_R16_UINT
| DXGI_FORMAT_R16G16_UNORM | DXGI_FORMAT_R16G16_UINT
| DXGI_FORMAT_R16G16B16A16_UNORM | DXGI_FORMAT_R16G16B16A16_UINT.

Record Stream := mkStream {
  s_NameHash : Z;
  s_Location : Z;
  s_Size : Z;
  s_Type : Type_;
  s_Normalize : bool;
  s_Offset : Z
}.

Record VertexDeclaration := mkVertexDeclaration {
  m_Streams : list Stream;
  m_StreamCount : nat;
  m_Stride : Z;
  m_StepFunction : Z;
  m_PipelineHash : Z
}.

(** ** Shader reflection and program resource bindings *)

Inductive BindingFamily : Type :=
| BINDING_FAMILY_GENERIC
| BINDING_FAMILY_UNIFORM_BUFFER
| BINDING_FAMILY_STORAGE_BUFFER
| BINDING_FAMILY_TEXTURE.

Record ShaderResourceType := mkShaderResourceType {
  m_UseTypeIndex : bool;
  m_TypeIndex : nat
}.

Record ShaderResourceBinding := mkShaderResourceBinding {
  m_NameHash : Z;
  m_Set : nat;
  m_Binding : nat;
  m_BindingFamily : BindingFamily;
  srb_BlockSize : Z;                 (* m_BlockSize of the reflection record *)
  m_Type : ShaderResourceType
}.

(** Of a type-info only the number of members is read. *)
Record ShaderResourceTypeInfo := mkShaderResourceTypeInfo {
  m_Members : nat
}.

Record ShaderMeta := mkShaderMeta {
  m_Inputs : list ShaderResourceBinding;
  m_UniformBuffers : list ShaderResourceBinding;
  m_StorageBuffers : list ShaderResourceBinding;
  m_Textures : list ShaderResourceBinding;
  m_TypeInfos : list ShaderResourceTypeInfo
}.

Record DX12ShaderModule := mkShaderModule {
  m_ShaderBlob : Handle;
  m_ShaderMeta : ShaderMeta
}.

(** [ShaderStageFlag], one bit per stage. *)
Definition SHADER_STAGE_FLAG_VERTEX : Z := 1.
Definition SHADER_STAGE_FLAG_FRAGMENT : Z := 2.
Definition SHADER_STAGE_FLAG_COMPUTE : Z := 4.

Record ProgramResourceBinding := mkProgramResourceBinding {
  m_Res : option ShaderResourceBinding;        (* null until a stage claims the slot *)
  m_ResTypeInfos : option (list ShaderResourceTypeInfo);
  m_DataOffset : Z;
  m_DynamicOffsetIndex : Z;
  m_TextureUnit : Z;
  m_StorageBufferUnit : Z;
  m_StageFlags : Z
}.

(** The zero-initialised entry of [m_ResourceBindings]. *)
Definition ProgramResourceBinding_zero : ProgramResourceBinding :=
  mkProgramResourceBinding None None 0 0 0 0 0.

Record ResourceBindingDesc := mkResourceBindingDesc {
  rb_Binding : Z;
  rb_Taken : bool
}.

Record ProgramResourceBindingsInfo := mkInfo {
  m_UniformBufferCount : Z;
  m_StorageBufferCount : Z;
  m_TextureCount : Z;
  m_TotalUniformCount : Z;
  m_UniformDataSize : Z;
  m_UniformDataSizeAligned : Z;
  m_MaxSet : Z;
  m_MaxBinding : Z
}.

(** The fixed-size tables [x[MAX_SET_COUNT][MAX_BINDINGS_PER_SET_COUNT]]:
    a finite map from (set, binding), absent entries being zero. *)
Definition at_slot {A} (zero : A) (t : gmap (nat * nat) A) (set binding : nat) : A :=
  default zero (t !! (set, binding)).

Record DX12ShaderProgram := mkProgram {
  m_VertexModule : option DX12ShaderModule;
  m_FragmentModule : option DX12ShaderModule;
  m_ComputeModule : option DX12ShaderModule;
  m_RootSignature : Handle;
  m_ResourceBindings : gmap (nat * nat) ProgramResourceBinding
}.

(** ** Pipeline state objects *)

(** [PipelineState] is hashed and copied as raw bytes; it is kept as the
    number those bytes spell, with the two fields [GetCullMode] reads. *)
Record PipelineState := mkPipelineState {
  ps_Bits : Z;
  m_CullFaceEnabled : bool;
  m_CullFaceType : Z
}.

Record D3D12_INPUT_ELEMENT_DESC := mkInputElement {
  SemanticIndex : Z;
  Format : DXGI_FORMAT;
  InputSlot : nat;
  AlignedByteOffset : Z;
  InstanceDataStepRate : Z
}.

Record D3D12_GRAPHICS_PIPELINE_STATE_DESC := mkPsoDesc {
  InputLayout : list D3D12_INPUT_ELEMENT_DESC;
  pRootSignature : Handle;
  VS : Handle;
  PS : Handle;
  RTVFormat : DXGI_FORMAT;
  NumRenderTargets : Z
}.

(** ** The platform calls whose result the adapter reads *)

Inductive DeviceCall : Type :=
| D3D12GetDebugInterface
| CreateDXGIFactory1
| EnumAdapters1 (i : nat)            (* [IDXGIFactory1::EnumAdapters1(i, &adapter)] *)
| GetDesc1_Flags (i : nat)           (* [desc.Flags] after [adapter->GetDesc1(&desc)] *)
| D3D12CreateDevice_probe (i : nat)  (* [D3D12CreateDevice(adapter, ..., NULL)] *)
| D3D12CreateDevice
| CreateCommandQueue
| CreateSwapChain
| CreateDescriptorHeap_Sampler
| CreateDescriptorHeap_Rtv
| SwapChain_GetBuffer (i : nat)
| CreateCommandAllocator (i : nat)
| CreateFence (i : nat)
| Scratch_CreateDescriptorHeap (frame pool : nat)
| Scratch_CreateCommittedResource (frame pool : nat)
| Scratch_Map (frame pool : nat)
| CreateEvent
| CreateCommandList
| Fence_SetEventOnCompletion
| CommandAllocator_Reset
| CommandList_Reset
| CommandQueue_Signal
| SwapChain_Present
| CreateGraphicsPipelineState.

(** ** Commands recorded into the command list *)

Inductive Command : Type :=
| SetGraphicsRootConstantBufferView (root_index : Z) (location : GpuAddr)
| SetGraphicsRootDescriptorTable_Texture (root_index : Z) (heap : Handle) (offset : Z)
| SetGraphicsRootDescriptorTable_Sampler (root_index : Z) (offset : Z)
| SetDescriptorHeaps (heaps : list Handle)
| ResourceBarrier_PresentToRenderTarget (res : Handle)
| ResourceBarrier_RenderTargetToPresent (res : Handle)
| OMSetRenderTargets (rtv_index : nat).

(** ** What the GPU has been asked to do *)

Inductive GpuOp : Type :=
| GpuExecute
| GpuSignal (fence : Handle) (value : Z).

(** ** Observable effects, in program order *)

Inductive Event : Type :=
| EvCall (c : DeviceCall) (hr : HRESULT)
| EvLogError (line : Z) (code : Z)          (* dmLogError("DX Error (%s:%d) code: %d") *)
| EvLogFatal                                 (* dmLogFatal("Unable to create fence event") *)
| EvWait (fence : Handle) (value : Z)        (* WaitForSingleObject returned *)
| EvRelease (res : Handle)                   (* ID3D12Resource::Release *)
| EvScratchReset (frame : nat)               (* DX12ScratchBuffer::Reset *)
| EvRecord (cmd : Command)                   (* a command went into the command list *)
| EvSubmit                                   (* ExecuteCommandLists *)
| EvSignal (fence : Handle) (value : Z)      (* ID3D12CommandQueue::Signal *)
| EvCreateSRV (heap : Handle) (slot : Z) (texture : Handle)
| EvCreatePipeline (desc : D3D12_GRAPHICS_PIPELINE_STATE_DESC) (pso : Handle).

(** ** The Direct3D runtime and the GPU behind it *)

Record World := mkWorld {
  w_hr : nat -> DeviceCall -> HRESULT;  (* result of the n-th platform call *)
  w_ncalls : nat;                       (* platform calls made so far *)
  w_next : Handle;                      (* next object the runtime creates *)
  w_trace : list Event;                 (* effects so far, oldest first *)
  w_queue : list GpuOp;                 (* submitted, not yet executed *)
  w_fence : Handle -> Z                 (* completed value of each fence *)
}.

Definition emit (e : Event) (w : World) : World :=
  mkWorld (w_hr w) (w_ncalls w) (w_next w) (w_trace w ++ [e]) (w_queue w) (w_fence w).

Definition emits (es : list Event) (w : World) : World :=
  mkWorld (w_hr w) (w_ncalls w) (w_next w) (w_trace w ++ es) (w_queue w) (w_fence w).

Definition enqueue (op : GpuOp) (w : World) : World :=
  mkWorld (w_hr w) (w_ncalls w) (w_next w) (w_trace w) (w_queue w ++ [op]) (w_fence w).

(** ** A state-and-outcome monad over the world *)

Definition M (A : Type) : Type := World -> Outcome A * World.

Definition ret {A} (a : A) : M A := fun w => (Done a, w).

Definition bind {A B} (m : M A) (k : A -> M B) : M B :=
  fun w =>
    match m w with
    | (Done a, w') => k a w'
    | (AssertFailed, w') => (AssertFailed, w')
    | (NullDeref, w') => (NullDeref, w')
    | (Hang, w') => (Hang, w')
    | (OutOfBounds, w') => (OutOfBounds, w')
    end.

Notation "'let*' x ':=' m 'in' k" := (bind m (fun x => k))
  (at level 10, x pattern, m at level 100, k at level 200).

Definition fail_assert {A} : M A := fun w => (AssertFailed, w).
Definition fail_null {A} : M A := fun w => (NullDeref, w).

Definition tell (e : Event) : M unit := fun w => (Done tt, emit e w).
Definition tells (es : list Event) : M unit := fun w => (Done tt, emits es w).

(** Invoking a method through [h]. *)
Definition deref (h : Handle) : M unit :=
  if is_null h then fail_null else ret tt.

(** A platform call that only reports a result. *)
Definition call (c : DeviceCall) : M HRESULT :=
  fun w =>
    let hr := w_hr w (w_ncalls w) c in
    (Done hr,
     mkWorld (w_hr w) (S (w_ncalls w)) (w_next w)
             (w_trace w ++ [EvCall c hr]) (w_queue w) (w_fence w)).

(** A platform call that creates an object: a fresh handle when the call
    did not fail, the null handle otherwise. *)
Definition create (c : DeviceCall) : M (HRESULT * Handle) :=
  fun w =>
    let hr := w_hr w (w_ncalls w) c in
    if FAILED hr
    then (Done (hr, null),
          mkWorld (w_hr w) (S (w_ncalls w)) (w_next w)
                  (w_trace w ++ [EvCall c hr]) (w_queue w) (w_fence w))
    else (Done (hr, w_next w),
          mkWorld (w_hr w) (S (w_ncalls w)) (S (w_next w))
                  (w_trace w ++ [EvCall c hr]) (w_queue w) (w_fence w)).

(** [CHECK_HR_ERROR(result)], expanded at source line [line]. *)
Definition CHECK_HR_ERROR (m_VerifyGraphicsCalls : bool) (line : Z) (result : HRESULT) : M unit :=
  if m_VerifyGraphicsCalls && negb (result =? S_OK)
  then let* _ := tell (EvLogError line (HRESULT_CODE result)) in fail_assert
  else ret tt.

(** [for (i = 0; i < n; ++i) body(i)], the loop state threaded through. *)
Fixpoint for_loop {St} (n : nat) (i : nat) (body : nat -> St -> M St) (s : St) : M St :=
  match n with
  | O => ret s
  | S n' => let* s' := body i s in for_loop n' (S i) body s'
  end.

Definition fail_oob {A} : M A := fun w => (OutOfBounds, w).
Definition fail_hang {A} : M A := fun w => (Hang, w).

(** ** The GPU timeline *)

Definition gpu_exec (op : GpuOp) (fence : Handle -> Z) : Handle -> Z :=
  match op with
  | GpuExecute => fence
  | GpuSignal f v => fun h => if Nat.eqb h f then v else fence h
  end.

(** The GPU retires up to [n] queued operations, oldest first. *)
Fixpoint gpu_retire (n : nat) (q : list GpuOp) (fence : Handle -> Z)
  : list GpuOp * (Handle -> Z) :=
  match n, q with
  | S n', op :: q' => gpu_retire n' q' (gpu_exec op fence)
  | _, _ => (q, fence)
  end.

Definition gpu_advance (n : nat) (w : World) : World :=
  let '(q, fence) := gpu_retire n (w_queue w) (w_fence w) in
  mkWorld (w_hr w) (w_ncalls w) (w_next w) (w_trace w) q fence.

(** The GPU runs until fence [f] has reached [v]; [None] when the queue
    runs dry first, so that the fence never gets there. *)
Fixpoint gpu_run_until (f : Handle) (v : Z) (q : list GpuOp) (fence : Handle -> Z)
  : option (list GpuOp * (Handle -> Z)) :=
  if v <=? fence f then Some (q, fence)
  else match q with
       | [] => None
       | op :: q' => gpu_run_until f v q' (gpu_exec op fence)
       end.

(** [ID3D12Fence::GetCompletedValue]. *)
Definition GetCompletedValue (f : Handle) : M Z :=
  fun w => (Done (w_fence w f), w).

(** [WaitForSingleObject(m_FenceEvent, INFINITE)] after
    [SetEventOnCompletion(v, m_FenceEvent)]: the event fires when fence [f]
    reaches [v], and only if the fence was armed with it. *)
Definition WaitForSingleObject (armed : bool) (f : Handle) (v : Z) : M unit :=
  fun w =>
    if armed then
      match gpu_run_until f v (w_queue w) (w_fence w) with
      | Some (q, fence) =>
          (Done tt, mkWorld (w_hr w) (w_ncalls w) (w_next w)
                            (w_trace w ++ [EvWait f v]) q fence)
      | None => (Hang, w)
      end
    else (Hang, w).

(** ** DX12ScratchBuffer *)

Record DX12MemoryPool := mkPool {
  m_DescriptorHeap : Handle;
  m_MemoryHeap : Handle;
  m_MappedDataPtr : Ptr;
  m_BlockSize : Z;
  m_DescriptorCursor : Z;
  m_MemoryCursor : Z
}.

Record DX12ScratchBuffer := mkScratchBuffer {
  m_MemoryPools : list DX12MemoryPool;
  m_FrameIndex : nat
}.

Definition set_cursors (p : DX12MemoryPool) (descriptor_cursor memory_cursor : Z) : DX12MemoryPool :=
  mkPool (m_DescriptorHeap p) (m_MemoryHeap p) (m_MappedDataPtr p) (m_BlockSize p)
         descriptor_cursor memory_cursor.

Section ScratchBuffer.
Variable K : Constants.

(** The body of the pool loop of [DX12ScratchBuffer::Initialize]. *)
Definition Initialize_pool (m_Device : Handle) (verify : bool) (frame_index i : nat)
  : M DX12MemoryPool :=
  let block_size := uint32 ((Z.of_nat i + 1) * BLOCK_STEP_SIZE K) in
  let* _ := deref m_Device in
  let* (hr, descriptor_heap) := create (Scratch_CreateDescriptorHeap frame_index i) in
  let* _ := CHECK_HR_ERROR verify 228 hr in
  let* (hr, memory_heap) := create (Scratch_CreateCommittedResource frame_index i) in
  let* _ := CHECK_HR_ERROR verify 240 hr in
  let* _ := for_loop (DESCRIPTORS_PER_POOL K) 0
              (fun _ _ => let* _ := deref memory_heap in deref descriptor_heap) tt in
  let* _ := deref memory_heap in
  let* hr := call (Scratch_Map frame_index i) in
  let* _ := CHECK_HR_ERROR verify 253 hr in
  ret (mkPool descriptor_heap memory_heap
              (if FAILED hr then mkPtr null 0 else mkPtr memory_heap 0)
              block_size 0 0).

Definition Initialize (m_Device : Handle) (verify : bool) (frame_index : nat)
  : M DX12ScratchBuffer :=
  let pool_block_count := Z.to_nat (MAX_BLOCK_SIZE K / BLOCK_STEP_SIZE K) in
  let* pools :=
    for_loop pool_block_count 0
      (fun i pools =>
         let* p := Initialize_pool m_Device verify frame_index i in
         ret (pools ++ [p])) [] in
  ret (mkScratchBuffer pools frame_index).

(** [dmArray::operator[]] asserts that the index is below [Size()]. *)
Definition AllocateConstantBuffer (sb : DX12ScratchBuffer)
           (buffer_index non_aligned_byte_size : Z)
  : M (Ptr * DX12ScratchBuffer) :=
  if negb (non_aligned_byte_size <? MAX_BLOCK_SIZE K) then fail_assert
  else
    let pool_index := Z.to_nat (non_aligned_byte_size / BLOCK_STEP_SIZE K) in
    match m_MemoryPools sb !! pool_index, m_MemoryPools sb !! 0%nat with
    | Some pool, Some pool0 =>
        let memory_cursor := m_MemoryCursor pool in
        let base_ptr := ptr_add (m_MappedDataPtr pool) memory_cursor in
        let* _ := deref (m_MemoryHeap pool0) in
        let* _ := tell (EvRecord (SetGraphicsRootConstantBufferView buffer_index
                      (gpu_add (GetGPUVirtualAddress (m_MemoryHeap pool0)) memory_cursor))) in
        let pool' := set_cursors pool
                       (uint32 (m_DescriptorCursor pool + 1))
                       (uint32 (m_MemoryCursor pool + m_BlockSize pool)) in
        ret (base_ptr,
             mkScratchBuffer (<[pool_index := pool']> (m_MemoryPools sb)) (m_FrameIndex sb))
    | _, _ => fail_assert
    end.

(** [desc_size] is what [GetDescriptorHandleIncrementSize] reports;
    [texture] is [texture->m_Resource], [sampler_offset] is
    [sampler.m_DescriptorOffset]. *)
Definition AllocateTexture2D (sb : DX12ScratchBuffer) (desc_size : Z)
           (texture : Handle) (texture_index : Z) (sampler_offset : Z) (sampler_index : Z)
  : M DX12ScratchBuffer :=
  match m_MemoryPools sb !! 0%nat with
  | Some pool0 =>
      let desc_offset := uint32 (desc_size * m_DescriptorCursor pool0) in
      let* _ := deref (m_DescriptorHeap pool0) in
      let* _ := tell (EvCreateSRV (m_DescriptorHeap pool0) (m_DescriptorCursor pool0) texture) in
      let pool0' := set_cursors pool0 (uint32 (m_DescriptorCursor pool0 + 1))
                                (m_MemoryCursor pool0) in
      let* _ := tell (EvRecord (SetGraphicsRootDescriptorTable_Texture
                                  texture_index (m_DescriptorHeap pool0) desc_offset)) in
      let* _ := tell (EvRecord (SetGraphicsRootDescriptorTable_Sampler
                                  sampler_index sampler_offset)) in
      ret (mkScratchBuffer (<[0%nat := pool0']> (m_MemoryPools sb)) (m_FrameIndex sb))
  | None => fail_assert
  end.

Definition Reset (sb : DX12ScratchBuffer) : DX12ScratchBuffer :=
  mkScratchBuffer ((fun p => set_cursors p 0 0) <$> m_MemoryPools sb) (m_FrameIndex sb).

End ScratchBuffer.

(** ** Frame resources and the context *)

Record DX12RenderTarget := mkRenderTarget {
  rt_Resource : Handle;
  rt_Id : Z;
  rt_Format : DXGI_FORMAT;
  rt_IsBound : bool
}.

(** A logical GPU resource: [m_Resource] is its handle, [m_Destroyed] the
    mark a retired resource carries. *)
Record DX12DeviceBuffer := mkDeviceBuffer {
  m_Resource : Handle;
  m_Destroyed : bool;
  m_DataSize : Z
}.

Record DX12FrameResource := mkFrameResource {
  m_RenderTarget_Resource : Handle;
  m_CommandAllocator : Handle;
  m_Fence : Handle;
  m_FenceValue : Z;
  m_ResourcesToDestroy : list Handle;
  m_ScratchBuffer : DX12ScratchBuffer
}.

(** [dmHashTable64<DX12Pipeline>]: the entries and the capacity. *)
Record PipelineCache := mkPipelineCache {
  pc_Entries : gmap Z Handle;
  pc_Capacity : nat
}.

Record DX12Context := mkContext {
  m_VerifyGraphicsCalls : bool;
  m_DebugInterface : Handle;
  m_Device : Handle;
  m_CommandQueue : Handle;
  m_SwapChain : Handle;
  m_SamplerPool : Handle;
  m_RtvDescriptorHeap : Handle;
  m_FenceEvent : Handle;
  m_CommandList : Handle;
  m_FrameResources : list DX12FrameResource;
  m_CurrentFrameIndex : nat;
  m_FrameBegun : bool;
  m_MainRenderTarget : DX12RenderTarget;
  m_PipelineState : PipelineState;
  m_CurrentProgram : option DX12ShaderProgram;
  m_CurrentVertexDeclaration : list (option VertexDeclaration);
  m_PipelineCache : PipelineCache
}.

Definition set_FrameResources (c : DX12Context) (frs : list DX12FrameResource) : DX12Context :=
  mkContext (m_VerifyGraphicsCalls c) (m_DebugInterface c) (m_Device c) (m_CommandQueue c)
    (m_SwapChain c) (m_SamplerPool c) (m_RtvDescriptorHeap c) (m_FenceEvent c)
    (m_CommandList c) frs (m_CurrentFrameIndex c) (m_FrameBegun c)
    (m_MainRenderTarget c) (m_PipelineState c) (m_CurrentProgram c)
    (m_CurrentVertexDeclaration c) (m_PipelineCache c).

Definition set_CurrentFrameIndex (c : DX12Context) (i : nat) : DX12Context :=
  mkContext (m_VerifyGraphicsCalls c) (m_DebugInterface c) (m_Device c) (m_CommandQueue c)
    (m_SwapChain c) (m_SamplerPool c) (m_RtvDescriptorHeap c) (m_FenceEvent c)
    (m_CommandList c) (m_FrameResources c) i (m_FrameBegun c)
    (m_MainRenderTarget c) (m_PipelineState c) (m_CurrentProgram c)
    (m_CurrentVertexDeclaration c) (m_PipelineCache c).

Definition set_FrameBegun (c : DX12Context) (b : bool) : DX12Context :=
  mkContext (m_VerifyGraphicsCalls c) (m_DebugInterface c) (m_Device c) (m_CommandQueue c)
    (m_SwapChain c) (m_SamplerPool c) (m_RtvDescriptorHeap c) (m_FenceEvent c)
    (m_CommandList c) (m_FrameResources c) (m_CurrentFrameIndex c) b
    (m_MainRenderTarget c) (m_PipelineState c) (m_CurrentProgram c)
    (m_CurrentVertexDeclaration c) (m_PipelineCache c).

Definition set_MainRenderTarget (c : DX12Context) (rt : DX12RenderTarget) : DX12Context :=
  mkContext (m_VerifyGraphicsCalls c) (m_DebugInterface c) (m_Device c) (m_CommandQueue c)
    (m_SwapChain c) (m_SamplerPool c) (m_RtvDescriptorHeap c) (m_FenceEvent c)
    (m_CommandList c) (m_FrameResources c) (m_CurrentFrameIndex c) (m_FrameBegun c)
    rt (m_PipelineState c) (m_CurrentProgram c)
    (m_CurrentVertexDeclaration c) (m_PipelineCache c).

Definition set_CurrentVertexDeclaration (c : DX12Context)
           (vds : list (option VertexDeclaration)) : DX12Context :=
  mkContext (m_VerifyGraphicsCalls c) (m_DebugInterface c) (m_Device c) (m_CommandQueue c)
    (m_SwapChain c) (m_SamplerPool c) (m_RtvDescriptorHeap c) (m_FenceEvent c)
    (m_CommandList c) (m_FrameResources c) (m_CurrentFrameIndex c) (m_FrameBegun c)
    (m_MainRenderTarget c) (m_PipelineState c) (m_CurrentProgram c)
    vds (m_PipelineCache c).

Definition set_CurrentProgram (c : DX12Context) (p : option DX12ShaderProgram) : DX12Context :=
  mkContext (m_VerifyGraphicsCalls c) (m_DebugInterface c) (m_Device c) (m_CommandQueue c)
    (m_SwapChain c) (m_SamplerPool c) (m_RtvDescriptorHeap c) (m_FenceEvent c)
    (m_CommandList c) (m_FrameResources c) (m_CurrentFrameIndex c) (m_FrameBegun c)
    (m_MainRenderTarget c) (m_PipelineState c) p
    (m_CurrentVertexDeclaration c) (m_PipelineCache c).

Definition set_PipelineCache (c : DX12Context) (pc : PipelineCache) : DX12Context :=
  mkContext (m_VerifyGraphicsCalls c) (m_DebugInterface c) (m_Device c) (m_CommandQueue c)
    (m_SwapChain c) (m_SamplerPool c) (m_RtvDescriptorHeap c) (m_FenceEvent c)
    (m_CommandList c) (m_FrameResources c) (m_CurrentFrameIndex c) (m_FrameBegun c)
    (m_MainRenderTarget c) (m_PipelineState c) (m_CurrentProgram c)
    (m_CurrentVertexDeclaration c) pc.

Definition set_FenceValue (fr : DX12FrameResource) (v : Z) : DX12FrameResource :=
  mkFrameResource (m_RenderTarget_Resource fr) (m_CommandAllocator fr) (m_Fence fr) v
                  (m_ResourcesToDestroy fr) (m_ScratchBuffer fr).

Definition set_ResourcesToDestroy (fr : DX12FrameResource) (l : list Handle) : DX12FrameResource :=
  mkFrameResource (m_RenderTarget_Resource fr) (m_CommandAllocator fr) (m_Fence fr)
                  (m_FenceValue fr) l (m_ScratchBuffer fr).

Definition set_ScratchBuffer (fr : DX12FrameResource) (sb : DX12ScratchBuffer) : DX12FrameResource :=
  mkFrameResource (m_RenderTarget_Resource fr) (m_CommandAllocator fr) (m_Fence fr)
                  (m_FenceValue fr) (m_ResourcesToDestroy fr) sb.

(** [context->m_FrameResources[i] = fr]. *)
Definition set_frame (c : DX12Context) (i : nat) (fr : DX12FrameResource) : DX12Context :=
  set_FrameResources c (<[i := fr]> (m_FrameResources c)).

(** ** Deferred destruction *)

(** [DestroyResourceDeferred]: [resource] is the pointer argument, [None]
    the null pointer. The array of pending handles grows before it is
    full, so [Push] never meets a full array. *)
Definition DestroyResourceDeferred (current_frame_resource : DX12FrameResource)
           (resource : option DX12DeviceBuffer)
  : DX12FrameResource * option DX12DeviceBuffer :=
  match resource with
  | None => (current_frame_resource, None)
  | Some r =>
      if is_null (m_Resource r) then (current_frame_resource, Some r)
      else (set_ResourcesToDestroy current_frame_resource
              (m_ResourcesToDestroy current_frame_resource ++ [m_Resource r]),
            Some (mkDeviceBuffer null true (m_DataSize r)))
  end.

Definition FlushResourcesToDestroy (current_frame_resource : DX12FrameResource)
  : M DX12FrameResource :=
  if (0 <? length (m_ResourcesToDestroy current_frame_resource))%nat then
    let* _ := tells (map EvRelease (m_ResourcesToDestroy current_frame_resource)) in
    ret (set_ResourcesToDestroy current_frame_resource [])
  else ret current_frame_resource.

(** [DX12DeleteVertexBuffer] and [DX12DeleteIndexBuffer]: the buffer's
    device buffer is retired into the current frame slot. *)
Definition DX12DeleteBuffer (ctx : DX12Context) (buffer : DX12DeviceBuffer)
  : Outcome (DX12Context * DX12DeviceBuffer) :=
  match m_FrameResources ctx !! m_CurrentFrameIndex ctx with
  | None => OutOfBounds
  | Some fr =>
      match DestroyResourceDeferred fr (Some buffer) with
      | (fr', Some buffer') => Done (set_frame ctx (m_CurrentFrameIndex ctx) fr', buffer')
      | (fr', None) => Done (set_frame ctx (m_CurrentFrameIndex ctx) fr', buffer)
      end
  end.

(** ** Render passes on the back buffer *)

Section Frames.
Variable K : Constants.

Definition EndRenderPass (ctx : DX12Context) : M (bool * DX12Context) :=
  let current_rt := m_MainRenderTarget ctx in
  if negb (rt_IsBound current_rt) then ret (false, ctx)
  else
    let* _ :=
      if rt_Id current_rt =? DM_RENDERTARGET_BACKBUFFER_ID K
      then let* _ := deref (m_CommandList ctx) in
           tell (EvRecord (ResourceBarrier_RenderTargetToPresent (rt_Resource current_rt)))
      else ret tt in
    ret (true, set_MainRenderTarget ctx
                 (mkRenderTarget (rt_Resource current_rt) (rt_Id current_rt)
                                 (rt_Format current_rt) false)).

(** [BeginRenderPass(context, context->m_MainRenderTarget)]: the adapter
    never makes another render target current, so [current_rt] and [rt]
    are the same asset. *)
Definition BeginRenderPass (ctx : DX12Context) : M DX12Context :=
  let current_rt := m_MainRenderTarget ctx in
  if rt_IsBound current_rt then ret ctx
  else
    let* _ :=
      if rt_Id current_rt =? DM_RENDERTARGET_BACKBUFFER_ID K
      then let* _ := deref (m_CommandList ctx) in
           tell (EvRecord (ResourceBarrier_PresentToRenderTarget (rt_Resource current_rt)))
      else ret tt in
    let* _ := deref (m_RtvDescriptorHeap ctx) in
    let* _ := deref (m_CommandList ctx) in
    let* _ := tell (EvRecord (OMSetRenderTargets (m_CurrentFrameIndex ctx))) in
    ret (set_MainRenderTarget ctx
           (mkRenderTarget (rt_Resource current_rt) (rt_Id current_rt)
                           (rt_Format current_rt) true)).

(** ** Frame synchronisation *)

(** [back_buffer] is what [GetCurrentBackBufferIndex] reports. *)
Definition SyncronizeFrame (ctx : DX12Context) (back_buffer : nat) : M DX12Context :=
  let* _ := deref (m_SwapChain ctx) in
  let ctx := set_CurrentFrameIndex ctx back_buffer in
  match m_FrameResources ctx !! back_buffer with
  | None => fail_oob
  | Some current_frame_resource =>
      let* _ := deref (m_Fence current_frame_resource) in
      let* completed := GetCompletedValue (m_Fence current_frame_resource) in
      let* _ :=
        if completed <? m_FenceValue current_frame_resource then
          let* hr := call Fence_SetEventOnCompletion in
          let* _ := CHECK_HR_ERROR (m_VerifyGraphicsCalls ctx) 583 hr in
          WaitForSingleObject (negb (FAILED hr)) (m_Fence current_frame_resource)
                              (m_FenceValue current_frame_resource)
        else ret tt in
      ret (set_frame ctx back_buffer
             (set_FenceValue current_frame_resource
                (uint64 (m_FenceValue current_frame_resource + 1))))
  end.

Definition DX12BeginFrame (ctx : DX12Context) (back_buffer : nat) : M DX12Context :=
  let* ctx := SyncronizeFrame ctx back_buffer in
  match m_FrameResources ctx !! m_CurrentFrameIndex ctx with
  | None => fail_oob
  | Some current_frame_resource =>
      let* _ := deref (m_CommandAllocator current_frame_resource) in
      let* hr := call CommandAllocator_Reset in
      let* _ := CHECK_HR_ERROR (m_VerifyGraphicsCalls ctx) 680 hr in
      let rt := m_MainRenderTarget ctx in
      let ctx := set_MainRenderTarget ctx
                   (mkRenderTarget (m_RenderTarget_Resource current_frame_resource)
                                   (rt_Id rt) (rt_Format rt) (rt_IsBound rt)) in
      let* current_frame_resource := FlushResourcesToDestroy current_frame_resource in
      let* _ := deref (m_CommandList ctx) in
      let* hr := call CommandList_Reset in
      let* _ := CHECK_HR_ERROR (m_VerifyGraphicsCalls ctx) 689 hr in
      let current_frame_resource :=
        set_ScratchBuffer current_frame_resource
                          (Reset (m_ScratchBuffer current_frame_resource)) in
      let* _ := tell (EvScratchReset (m_CurrentFrameIndex ctx)) in
      let ctx := set_frame ctx (m_CurrentFrameIndex ctx) current_frame_resource in
      let ctx := set_FrameBegun ctx true in
      match m_MemoryPools (m_ScratchBuffer current_frame_resource) !! 0%nat with
      | None => fail_assert
      | Some pool0 =>
          let* _ := tell (EvRecord (SetDescriptorHeaps
                                      [m_SamplerPool ctx; m_DescriptorHeap pool0])) in
          BeginRenderPass ctx
      end
  end.

Definition DX12Flip (ctx : DX12Context) : M DX12Context :=
  let* (_, ctx) := EndRenderPass ctx in
  match m_FrameResources ctx !! m_CurrentFrameIndex ctx with
  | None => fail_oob
  | Some current_frame_resource =>
      let* _ := deref (m_CommandList ctx) in
      let* _ := deref (m_CommandQueue ctx) in
      let* _ := tell EvSubmit in
      let* _ := (fun w => (Done tt, enqueue GpuExecute w)) in
      let* _ := tell (EvSignal (m_Fence current_frame_resource)
                               (m_FenceValue current_frame_resource)) in
      let* hr := call CommandQueue_Signal in
      let* _ := (fun w => (Done tt,
                   if FAILED hr then w
                   else enqueue (GpuSignal (m_Fence current_frame_resource)
                                           (m_FenceValue current_frame_resource)) w)) in
      let* _ := CHECK_HR_ERROR (m_VerifyGraphicsCalls ctx) 722 hr in
      let* _ := deref (m_SwapChain ctx) in
      let* hr := call SwapChain_Present in
      let* _ := CHECK_HR_ERROR (m_VerifyGraphicsCalls ctx) 725 hr in
      ret (set_FrameBegun ctx false)
  end.

(** [DX12DeleteContext]: every frame slot is flushed, then the context
    goes. *)
Definition DX12DeleteContext (ctx : DX12Context) : M unit :=
  let* _ := for_loop (length (m_FrameResources ctx)) 0
              (fun i frs =>
                 match frs !! i with
                 | None => fail_oob
                 | Some fr =>
                     let* fr' := FlushResourcesToDestroy fr in
                     ret (<[i := fr']> frs)
                 end) (m_FrameResources ctx) in
  ret tt.

End Frames.

(** ** Vertex input *)

Definition GetDXGIFormat (type : Type_) (size : Z) (normalized : bool) : M DXGI_FORMAT :=
  let unknown : M DXGI_FORMAT := fail_assert in
  let pick (s n : DXGI_FORMAT) : M DXGI_FORMAT := ret (if normalized then n else s) in
  match type with
  | TYPE_FLOAT =>
      if size =? 1 then ret DXGI_FORMAT_R32_FLOAT
      else if size =? 2 then ret DXGI_FORMAT_R32G32_FLOAT
      else if size =? 3 then ret DXGI_FORMAT_R32G32B32_FLOAT
      else if size =? 4 then ret DXGI_FORMAT_R32G32B32A32_FLOAT
      else unknown
  | TYPE_INT =>
      if size =? 1 then ret DXGI_FORMAT_R32_SINT
      else if size =? 2 then ret DXGI_FORMAT_R32G32_SINT
      else if size =? 3 then ret DXGI_FORMAT_R32G32B32_SINT
      else if size =? 4 then ret DXGI_FORMAT_R32G32B32A32_SINT
      else unknown
  | TYPE_UNSIGNED_INT =>
      if size =? 1 then ret DXGI_FORMAT_R32_UINT
      else if size =? 2 then ret DXGI_FORMAT_R32G32_UINT
      else if size =? 3 then ret DXGI_FORMAT_R32G32B32_UINT
      else if size =? 4 then ret DXGI_FORMAT_R32G32B32A32_UINT
      else unknown
  | TYPE_BYTE =>
      if size =? 1 then pick DXGI_FORMAT_R8_SINT DXGI_FORMAT_R8_SNORM
      else if size =? 2 then pick DXGI_FORMAT_R8G8_SINT DXGI_FORMAT_R8G8_SNORM
      else if size =? 4 then pick DXGI_FORMAT_R8G8B8A8_SINT DXGI_FORMAT_R8G8B8A8_SNORM
      else unknown
  | TYPE_UNSIGNED_BYTE =>
      if size =? 1 then pick DXGI_FORMAT_R8_UINT DXGI_FORMAT_R8_UNORM
      else if size =? 2 then pick DXGI_FORMAT_R8G8_UINT DXGI_FORMAT_R8G8_UNORM
      else if size =? 4 then pick DXGI_FORMAT_R8G8B8A8_UINT DXGI_FORMAT_R8G8B8A8_UNORM
      else unknown
  | TYPE_SHORT =>
      if size =? 1 then pick DXGI_FORMAT_R16_SINT DXGI_FORMAT_R16_SNORM
      else if size =? 2 then pick DXGI_FORMAT_R16G16_SINT DXGI_FORMAT_R16G16_SNORM
      else if size =? 4 then pick DXGI_FORMAT_R16G16B16A16_SINT DXGI_FORMAT_R16G16B16A16_SNORM
      else unknown
  | TYPE_UNSIGNED_SHORT =>
      if size =? 1 then pick DXGI_FORMAT_R16_UINT DXGI_FORMAT_R16_UNORM
      else if size =? 2 then pick DXGI_FORMAT_R16G16_UINT DXGI_FORMAT_R16G16_UNORM
      else if size =? 4 then pick DXGI_FORMAT_R16G16B16A16_UINT DXGI_FORMAT_R16G16B16A16_UNORM
      else unknown
  | TYPE_FLOAT_MAT4 => ret DXGI_FORMAT_R32_FLOAT
  | TYPE_FLOAT_VEC4 => ret DXGI_FORMAT_R32G32B32A32_FLOAT
  | _ => unknown
  end.

(** The first shader input whose name is [name_hash]: the inner loop of
    [DX12EnableVertexDeclaration], which breaks at the first match. *)
Fixpoint find_input (inputs : list ShaderResourceBinding) (name_hash : Z)
  : option ShaderResourceBinding :=
  match inputs with
  | [] => None
  | input :: rest =>
      if m_NameHash input =? name_hash then Some input else find_input rest name_hash
  end.

(** The streams of the declaration that the vertex shader consumes, in
    declaration order, each at the location the shader gives it. *)
Fixpoint match_streams (inputs : list ShaderResourceBinding) (streams : list Stream)
  : list Stream :=
  match streams with
  | [] => []
  | s :: rest =>
      match find_input inputs (s_NameHash s) with
      | Some input =>
          mkStream (m_NameHash input) (Z.of_nat (m_Binding input)) (s_Size s) (s_Type s)
                   (s_Normalize s) (s_Offset s)
          :: match_streams inputs rest
      | None => match_streams inputs rest
      end
  end.

(** [DX12EnableProgram]. *)
Definition DX12EnableProgram (ctx : DX12Context) (program : DX12ShaderProgram) : DX12Context :=
  set_CurrentProgram ctx (Some program).

Section Pipeline.
Variable K : Constants.

(** [dmHashInit64], [dmHashUpdateBuffer64] and [dmHashFinal64] of
    [dlib/hash.h] are not among the sources: [dmHash] is the digest of
    the buffers fed to the hash state, in the order they were fed. *)
Variable dmHash : list Z -> Z.

Definition DX12EnableVertexDeclaration (ctx : DX12Context)
           (vertex_declaration : VertexDeclaration) (binding_index : nat)
           (program : DX12ShaderProgram) : M DX12Context :=
  match m_VertexModule program with
  | None => fail_null
  | Some vertex_shader =>
      if negb (binding_index <? length (m_CurrentVertexDeclaration ctx))%nat then fail_oob
      else
        let streams :=
          match_streams (m_Inputs (m_ShaderMeta vertex_shader))
                        (take (m_StreamCount vertex_declaration)
                              (m_Streams vertex_declaration)) in
        let main :=
          mkVertexDeclaration streams (length streams)
                              (m_Stride vertex_declaration)
                              (m_StepFunction vertex_declaration)
                              (m_PipelineHash vertex_declaration) in
        ret (set_CurrentVertexDeclaration ctx
               (<[binding_index := Some main]> (m_CurrentVertexDeclaration ctx)))
  end.

(** The input elements one vertex buffer slot contributes. *)
Definition input_elements (i : nat) (vd : VertexDeclaration)
  : M (list D3D12_INPUT_ELEMENT_DESC) :=
  for_loop (m_StreamCount vd) 0
    (fun j layout =>
       match m_Streams vd !! j with
       | None => fail_oob
       | Some stream =>
           let* format := GetDXGIFormat (s_Type stream) (s_Size stream) (s_Normalize stream) in
           ret (layout ++ [mkInputElement (s_Location stream) format i (s_Offset stream) 0])
       end) [].

(** [CreatePipeline]. [input_layout] is an array of
    [MAX_VERTEX_STREAM_COUNT] elements in the source, a constant of a
    header that is not among the sources, and the source does not
    compare [stream_count] with it: the list below has no bound
    either, so a run with more streams than the array holds is not told
    apart from one that stays inside it. *)
Definition CreatePipeline (ctx : DX12Context) (rt : DX12RenderTarget) : M Handle :=
  match m_CurrentProgram ctx with
  | None => fail_null
  | Some program =>
      match m_VertexModule program, m_FragmentModule program with
      | Some vertex_module, Some fragment_module =>
          let* _ := deref (m_ShaderBlob vertex_module) in
          let* _ := deref (m_ShaderBlob fragment_module) in
          let* input_layout :=
            for_loop (MAX_VERTEX_BUFFERS K) 0
              (fun i layout =>
                 match m_CurrentVertexDeclaration ctx !! i with
                 | None => fail_oob
                 | Some None => ret layout
                 | Some (Some vd) =>
                     let* elements := input_elements i vd in
                     ret (layout ++ elements)
                 end) [] in
          let psoDesc :=
            mkPsoDesc input_layout (m_RootSignature program)
                      (m_ShaderBlob vertex_module) (m_ShaderBlob fragment_module)
                      (rt_Format rt) 1 in
          let* _ := deref (m_Device ctx) in
          let* (hr, pipeline) := create CreateGraphicsPipelineState in
          let* _ := tell (EvCreatePipeline psoDesc pipeline) in
          let* _ := CHECK_HR_ERROR (m_VerifyGraphicsCalls ctx) 1341 hr in
          ret pipeline
      | _, _ => fail_null
      end
  end.

(** The content hash of [GetOrCreatePipeline]: the pipeline state, the
    render target's id and the program's root signature pointer. *)
Definition pipeline_hash (ctx : DX12Context) (current_rt : DX12RenderTarget)
           (program : DX12ShaderProgram) : Z :=
  dmHash [ps_Bits (m_PipelineState ctx); rt_Id current_rt;
          Z.of_nat (m_RootSignature program)].

(** [dmHashTable64]: [Full], and [Put], which asserts that a new key
    finds room. *)
Definition cache_Full (pc : PipelineCache) : bool :=
  (pc_Capacity pc <=? size (pc_Entries pc))%nat.

Definition cache_Put (pc : PipelineCache) (key : Z) (value : Handle) : M PipelineCache :=
  match pc_Entries pc !! key with
  | Some _ => ret (mkPipelineCache (<[key := value]> (pc_Entries pc)) (pc_Capacity pc))
  | None =>
      if cache_Full pc then fail_assert
      else ret (mkPipelineCache (<[key := value]> (pc_Entries pc)) (pc_Capacity pc))
  end.

(** The result is the slot of the table the returned pointer points to,
    named by its key, and the pipeline object the slot holds. *)
Definition GetOrCreatePipeline (ctx : DX12Context) (current_rt : DX12RenderTarget)
  : M (Z * Handle * DX12Context) :=
  match m_CurrentProgram ctx with
  | None => fail_null
  | Some program =>
      let pipeline_hash := pipeline_hash ctx current_rt program in
      match pc_Entries (m_PipelineCache ctx) !! pipeline_hash with
      | Some cached_pipeline => ret (pipeline_hash, cached_pipeline, ctx)
      | None =>
          let pc := m_PipelineCache ctx in
          let pc := if cache_Full pc
                    then mkPipelineCache (pc_Entries pc) (pc_Capacity pc + 4)
                    else pc in
          let* pc := cache_Put pc pipeline_hash null in
          let* pipeline := CreatePipeline ctx current_rt in
          let pc := mkPipelineCache (<[pipeline_hash := pipeline]> (pc_Entries pc))
                                    (pc_Capacity pc) in
          ret (pipeline_hash, pipeline, set_PipelineCache ctx pc)
      end
  end.

End Pipeline.

(** ** Program resource bindings *)

(** [DM_ALIGN(x, a)]. *)
Definition DM_ALIGN (x a : Z) : Z := Z.land (x + a - 1) (Z.lnot (a - 1)).

Record FillState := mkFillState {
  fs_ResourceBindings : gmap (nat * nat) ProgramResourceBinding;  (* program->m_ResourceBindings *)
  fs_bindings : gmap (nat * nat) ResourceBindingDesc;             (* bindings *)
  fs_info : ProgramResourceBindingsInfo                            (* info *)
}.

Section ResourceBindings.
Variable K : Constants.

(** One iteration of the loop of [FillProgramResourceBindings]. The
    counters of [info] are kept unbounded: their types are declared in
    [graphics_private.h]. *)
Definition Fill_resource (stage_type_infos : list ShaderResourceTypeInfo)
           (ubo_alignment : Z) (stage_flag : Z) (res : ShaderResourceBinding)
           (st : FillState) : M FillState :=
  if negb ((m_Set res <? MAX_SET_COUNT K)%nat
           && (m_Binding res <? MAX_BINDINGS_PER_SET_COUNT K)%nat)
  then fail_oob
  else
    let binding :=
      at_slot (mkResourceBindingDesc 0 false) (fs_bindings st) (m_Set res) (m_Binding res) in
    let prb :=
      at_slot ProgramResourceBinding_zero (fs_ResourceBindings st) (m_Set res) (m_Binding res) in
    let info := fs_info st in
    if rb_Taken binding then ret st
    else
      let binding' := mkResourceBindingDesc (Z.of_nat (m_Binding res)) true in
      let flags := Z.lor (m_StageFlags prb) stage_flag in
      let* (prb', info') :=
        match m_BindingFamily res with
        | BINDING_FAMILY_TEXTURE =>
            ret (mkProgramResourceBinding (Some res) (Some stage_type_infos)
                   (m_DataOffset prb) (m_DynamicOffsetIndex prb)
                   (m_TextureCount info) (m_StorageBufferUnit prb) flags,
                 mkInfo (m_UniformBufferCount info) (m_StorageBufferCount info)
                        (m_TextureCount info + 1) (m_TotalUniformCount info + 1)
                        (m_UniformDataSize info) (m_UniformDataSizeAligned info)
                        (m_MaxSet info) (m_MaxBinding info))
        | BINDING_FAMILY_STORAGE_BUFFER =>
            ret (mkProgramResourceBinding (Some res) (Some stage_type_infos)
                   (m_DataOffset prb) (m_DynamicOffsetIndex prb)
                   (m_TextureUnit prb) (m_StorageBufferCount info) flags,
                 mkInfo (m_UniformBufferCount info) (m_StorageBufferCount info + 1)
                        (m_TextureCount info) (m_TotalUniformCount info + 1)
                        (m_UniformDataSize info) (m_UniformDataSizeAligned info)
                        (m_MaxSet info) (m_MaxBinding info))
        | BINDING_FAMILY_UNIFORM_BUFFER =>
            if negb (m_UseTypeIndex (m_Type res)) then fail_assert
            else
              match stage_type_infos !! m_TypeIndex (m_Type res) with
              | None => fail_assert
              | Some type_info =>
                  ret (mkProgramResourceBinding (Some res) (Some stage_type_infos)
                         (m_UniformDataSize info) (m_UniformBufferCount info)
                         (m_TextureUnit prb) (m_StorageBufferUnit prb) flags,
                       mkInfo (m_UniformBufferCount info + 1) (m_StorageBufferCount info)
                              (m_TextureCount info)
                              (m_TotalUniformCount info + Z.of_nat (m_Members type_info))
                              (m_UniformDataSize info + srb_BlockSize res)
                              (m_UniformDataSizeAligned info
                               + DM_ALIGN (srb_BlockSize res) ubo_alignment)
                              (m_MaxSet info) (m_MaxBinding info))
              end
        | BINDING_FAMILY_GENERIC =>
            ret (mkProgramResourceBinding (Some res) (Some stage_type_infos)
                   (m_DataOffset prb) (m_DynamicOffsetIndex prb)
                   (m_TextureUnit prb) (m_StorageBufferUnit prb) flags,
                 info)
        end in
      let info'' :=
        mkInfo (m_UniformBufferCount info') (m_StorageBufferCount info')
               (m_TextureCount info') (m_TotalUniformCount info')
               (m_UniformDataSize info') (m_UniformDataSizeAligned info')
               (Z.max (m_MaxSet info') (Z.of_nat (m_Set res) + 1))
               (Z.max (m_MaxBinding info') (Z.of_nat (m_Binding res) + 1)) in
      ret (mkFillState
             (<[(m_Set res, m_Binding res) := prb']> (fs_ResourceBindings st))
             (<[(m_Set res, m_Binding res) := binding']> (fs_bindings st))
             info'').

(** [FillProgramResourceBindings] over one resource list. *)
Fixpoint FillProgramResourceBindings_list (resources : list ShaderResourceBinding)
         (stage_type_infos : list ShaderResourceTypeInfo)
         (ubo_alignment : Z) (stage_flag : Z) (st : FillState) : M FillState :=
  match resources with
  | [] => ret st
  | res :: rest =>
      let* st' := Fill_resource stage_type_infos ubo_alignment stage_flag res st in
      FillProgramResourceBindings_list rest stage_type_infos ubo_alignment stage_flag st'
  end.

(** [FillProgramResourceBindings] over one shader module, [None] being
    the null module. *)
Definition FillProgramResourceBindings (module : option DX12ShaderModule)
           (ubo_alignment : Z) (stage_flag : Z) (st : FillState) : M FillState :=
  match module with
  | None => ret st
  | Some module =>
      let meta := m_ShaderMeta module in
      let* st := FillProgramResourceBindings_list (m_UniformBuffers meta) (m_TypeInfos meta)
                   ubo_alignment stage_flag st in
      let* st := FillProgramResourceBindings_list (m_StorageBuffers meta) (m_TypeInfos meta)
                   ubo_alignment stage_flag st in
      FillProgramResourceBindings_list (m_Textures meta) (m_TypeInfos meta)
        ubo_alignment stage_flag st
  end.

Definition info_zero : ProgramResourceBindingsInfo := mkInfo 0 0 0 0 0 0 0 0.

(** [CreateProgramResourceBindings]: the program's table and the counts
    the program copies out of [binding_info]. *)
Definition CreateProgramResourceBindings (program : DX12ShaderProgram)
           (vertex_module fragment_module compute_module : option DX12ShaderModule)
  : M (DX12ShaderProgram * ProgramResourceBindingsInfo) :=
  let ubo_alignment := UNIFORM_BUFFERS_ALIGNMENT K in
  let st := mkFillState (m_ResourceBindings program) ∅ info_zero in
  let* st := FillProgramResourceBindings vertex_module ubo_alignment
               SHADER_STAGE_FLAG_VERTEX st in
  let* st := FillProgramResourceBindings fragment_module ubo_alignment
               SHADER_STAGE_FLAG_FRAGMENT st in
  let* st := FillProgramResourceBindings compute_module ubo_alignment
               SHADER_STAGE_FLAG_COMPUTE st in
  ret (mkProgram (m_VertexModule program) (m_FragmentModule program)
                 (m_ComputeModule program) (m_RootSignature program)
                 (fs_ResourceBindings st),
       fs_info st).

(** The merged table of a fresh program, as [DX12NewProgram] gets it. *)
Definition new_program_bindings (vertex_program fragment_program : option DX12ShaderModule)
  : M (DX12ShaderProgram * ProgramResourceBindingsInfo) :=
  CreateProgramResourceBindings
    (mkProgram vertex_program fragment_program None null ∅)
    vertex_program fragment_program None.

End ResourceBindings.

(** [GetShaderVisibilityFromStage]. *)
Inductive D3D12_SHADER_VISIBILITY : Type :=
| D3D12_SHADER_VISIBILITY_ALL
| D3D12_SHADER_VISIBILITY_VERTEX
| D3D12_SHADER_VISIBILITY_PIXEL.

Definition has_flag (flags flag : Z) : bool := negb (Z.land flags flag =? 0).

Definition GetShaderVisibilityFromStage (stage_flag : Z) : D3D12_SHADER_VISIBILITY :=
  if has_flag stage_flag SHADER_STAGE_FLAG_VERTEX && has_flag stage_flag SHADER_STAGE_FLAG_FRAGMENT
  then D3D12_SHADER_VISIBILITY_ALL
  else if has_flag stage_flag SHADER_STAGE_FLAG_VERTEX then D3D12_SHADER_VISIBILITY_VERTEX
  else if has_flag stage_flag SHADER_STAGE_FLAG_FRAGMENT then D3D12_SHADER_VISIBILITY_PIXEL
  else D3D12_SHADER_VISIBILITY_ALL.

(** ** Initialisation *)

(** [ID3D12Device::CreateFence(0, ...)]: the fence starts at 0. *)
Definition new_fence (f : Handle) : M unit :=
  fun w => (Done tt,
            mkWorld (w_hr w) (w_ncalls w) (w_next w) (w_trace w) (w_queue w)
                    (fun h => if Nat.eqb h f then 0 else w_fence w h)).

(** [winerror.h] and [dxgi.h]. *)
Definition SUCCEEDED (hr : HRESULT) : bool := 0 <=? hr.
Definition DXGI_ERROR_NOT_FOUND : HRESULT := -2005270526.   (* 0x887A0002 *)
Definition DXGI_ADAPTER_FLAG_SOFTWARE : Z := 2.

(** [CreateDeviceAdapter]: the first adapter that is not a software
    adapter and on which the probing [D3D12CreateDevice] succeeds, or
    what [EnumAdapters1] left in [adapter] when it reported that there
    is no adapter at the index. The results of the three calls are read
    but never passed to [CHECK_HR_ERROR]. What the platform answers to
    [GetDesc1_Flags] is the [Flags] field of the description; the
    [HRESULT] of [GetDesc1] is not read. The [while] loop of the source
    has no bound of its own: the model follows it for [rounds] adapters
    and is [Hang] on a platform that keeps it going longer. *)
Fixpoint CreateDeviceAdapter_loop (rounds : nat) (dxgiFactory : Handle) (adapterIndex : nat)
  : M Handle :=
  match rounds with
  | O => fail_hang
  | S rounds' =>
      let* _ := deref dxgiFactory in
      let* (hr, adapter) := create (EnumAdapters1 adapterIndex) in
      if hr =? DXGI_ERROR_NOT_FOUND then ret adapter
      else
        let* _ := deref adapter in
        let* flags := call (GetDesc1_Flags adapterIndex) in
        if negb (Z.land flags DXGI_ADAPTER_FLAG_SOFTWARE =? 0)
        then CreateDeviceAdapter_loop rounds' dxgiFactory (S adapterIndex)
        else
          let* hr := call (D3D12CreateDevice_probe adapterIndex) in
          if SUCCEEDED hr then ret adapter
          else CreateDeviceAdapter_loop rounds' dxgiFactory (S adapterIndex)
  end.

Definition CreateDeviceAdapter (rounds : nat) (dxgiFactory : Handle) : M Handle :=
  CreateDeviceAdapter_loop rounds dxgiFactory 0.

Section Initialization.
Variable K : Constants.

(** The body of the frame loop of [DX12Initialize]. *)
Definition Initialize_frame (device swap_chain : Handle) (verify : bool) (i : nat)
  : M DX12FrameResource :=
  let* _ := deref swap_chain in
  let* (hr, render_target) := create (SwapChain_GetBuffer i) in
  let* _ := CHECK_HR_ERROR verify 400 hr in
  let* _ := deref device in
  let* (hr, command_allocator) := create (CreateCommandAllocator i) in
  let* _ := CHECK_HR_ERROR verify 409 hr in
  let* (hr, fence) := create (CreateFence i) in
  let* _ := CHECK_HR_ERROR verify 413 hr in
  let* _ := new_fence fence in
  let* scratch_buffer := Initialize K device verify i in
  ret (mkFrameResource render_target command_allocator fence
                       (RENDER_CONTEXT_STATE_FREE K) [] scratch_buffer).

(** [DX12Initialize]. [verify] is [params.m_VerifyGraphicsCalls], which
    the constructor copied into the context; [default_state] is what
    [GetDefaultPipelineState] returns; [rounds] bounds the adapter loop
    of [CreateDeviceAdapter]. The result pairs the returned [bool] with
    the context as initialisation left it. *)
Definition DX12Initialize (rounds : nat) (verify : bool) (default_state : PipelineState)
  : M (bool * DX12Context) :=
  let* (hr, debug_interface) := create D3D12GetDebugInterface in
  let* _ := CHECK_HR_ERROR verify 333 hr in
  let* _ := deref debug_interface in
  let* (_, factory) := create CreateDXGIFactory1 in
  let* adapter := CreateDeviceAdapter rounds factory in
  let* (hr, device) := create D3D12CreateDevice in
  let* _ := CHECK_HR_ERROR verify 342 hr in
  let* _ := deref device in
  let* (hr, command_queue) := create CreateCommandQueue in
  let* _ := CHECK_HR_ERROR verify 346 hr in
  let* _ := deref factory in
  let* (_, swap_chain) := create CreateSwapChain in
  let* (hr, sampler_heap) := create CreateDescriptorHeap_Sampler in
  let* _ := CHECK_HR_ERROR verify 378 hr in
  let* (hr, rtv_heap) := create CreateDescriptorHeap_Rtv in
  let* _ := CHECK_HR_ERROR verify 387 hr in
  let* _ := deref rtv_heap in
  let* frames :=
    for_loop (MAX_FRAMEBUFFERS K) 0
      (fun i frames =>
         let* fr := Initialize_frame device swap_chain verify i in
         ret (frames ++ [fr])) [] in
  let* (_, fence_event) := create CreateEvent in
  let ctx (command_list : Handle) (rt : DX12RenderTarget) :=
    mkContext verify debug_interface device command_queue swap_chain sampler_heap
              rtv_heap fence_event command_list frames 0 false rt default_state None
              (replicate (MAX_VERTEX_BUFFERS K) None) (mkPipelineCache ∅ 0) in
  let no_rt := mkRenderTarget null 0 DXGI_FORMAT_UNKNOWN false in
  if is_null fence_event then
    let* _ := tell EvLogFatal in
    ret (false, ctx null no_rt)
  else
    match frames !! 0%nat with
    | None => fail_oob
    | Some _ =>
        let* (hr, command_list) := create CreateCommandList in
        let* _ := CHECK_HR_ERROR verify 430 hr in
        let* _ := deref command_list in
        let rt := mkRenderTarget null (DM_RENDERTARGET_BACKBUFFER_ID K)
                                 DXGI_FORMAT_R8G8B8A8_UNORM false in
        let* _ := deref sampler_heap in
        ret (true, ctx command_list rt)
    end.

End Initialization.

(** ** A concrete configuration *)

(** The values below stand in for the constants of the private headers
    wherever a statement needs a closed term. *)
Definition K0 : Constants :=
  mkConstants 256 1024 4 2 0 2 4 8 256 0.

(** A platform on which every call returns [S_OK]. *)
Definition all_ok : nat -> DeviceCall -> HRESULT := fun _ _ => S_OK.

Definition world0 (hr : nat -> DeviceCall -> HRESULT) : World :=
  mkWorld hr 0%nat 1%nat [] [] (fun _ => 0).

Definition default_state0 : PipelineState := mkPipelineState 0 false 0.

(** Adapters the concrete runs follow [CreateDeviceAdapter] through. *)
Definition rounds0 : nat := 4.

(** A scratch buffer as [DX12Initialize] leaves it on that platform. *)
Definition scratch0 : DX12ScratchBuffer :=
  Eval vm_compute in
    match fst (Initialize K0 1%nat true 0 (world0 all_ok)) with
    | Done sb => sb
    | _ => mkScratchBuffer [] 0
    end.

(** The platform after that initialisation. *)
Definition world1 : World :=
  Eval vm_compute in snd (Initialize K0 1%nat true 0 (world0 all_ok)).

(** ** Well-formedness of the constants and of a scratch buffer *)

(** The step is positive and divides the maximum block size, which is a
    [uint32_t]. *)
Definition constants_ok (K : Constants) : Prop :=
  (0 <? BLOCK_STEP_SIZE K) && (MAX_BLOCK_SIZE K mod BLOCK_STEP_SIZE K =? 0)
  && (0 <? MAX_BLOCK_SIZE K) && (MAX_BLOCK_SIZE K <? 2 ^ 32) = true.

Definition ptr_eqb (p q : Ptr) : bool :=
  Nat.eqb (p_res p) (p_res q) && (p_ofs p =? p_ofs q).

(** Pool [i] as [Initialize] builds it, whatever its cursors are. *)
Definition pool_ok (K : Constants) (i : nat) (p : DX12MemoryPool) : bool :=
  (m_BlockSize p =? (Z.of_nat i + 1) * BLOCK_STEP_SIZE K)
  && negb (is_null (m_MemoryHeap p))
  && negb (is_null (m_DescriptorHeap p))
  && ptr_eqb (m_MappedDataPtr p) (mkPtr (m_MemoryHeap p) 0).

Fixpoint pools_ok (K : Constants) (i : nat) (pools : list DX12MemoryPool) : bool :=
  match pools with
  | [] => true
  | p :: rest => pool_ok K i p && pools_ok K (S i) rest
  end.

(** One pool per size class, each with a memory heap of its own. *)
Definition scratch_wf (K : Constants) (sb : DX12ScratchBuffer) : Prop :=
  Nat.eqb (length (m_MemoryPools sb)) (Z.to_nat (MAX_BLOCK_SIZE K / BLOCK_STEP_SIZE K))
  && pools_ok K 0 (m_MemoryPools sb)
  && bool_decide (NoDup (m_MemoryHeap <$> m_MemoryPools sb)) = true.

(** ** The claim of the specification about size classes, in its words *)

(** Size classes are the successive multiples of the step. *)
Definition size_class (K : Constants) (k : nat) : Z := (Z.of_nat k + 1) * BLOCK_STEP_SIZE K.

(** A request fits a block that is at least as large. *)
Definition fits (size block : Z) : Prop := size <= block.

(** [block] is the smallest size class that fits [size]. *)
Definition smallest_fitting_class (K : Constants) (size block : Z) : Prop :=
  (exists k, block = size_class K k) /\ fits size block
  /\ forall k, fits size (size_class K k) -> block <= size_class K k.

(** The block size of the pool [AllocateConstantBuffer] takes for [size]. *)
Definition selected_block (K : Constants) (sb : DX12ScratchBuffer) (size : Z) : option Z :=
  m_BlockSize <$> (m_MemoryPools sb !! Z.to_nat (size / BLOCK_STEP_SIZE K)).

(** Allocations made from a scratch buffer, one after the other. *)
Inductive AllocOp : Type :=
| OpConstantBuffer (buffer_index size : Z)
| OpTexture2D (desc_size : Z) (texture : Handle) (texture_index sampler_offset sampler_index : Z).

Fixpoint run_allocs (K : Constants) (ops : list AllocOp) (sb : DX12ScratchBuffer)
  : M DX12ScratchBuffer :=
  match ops with
  | [] => ret sb
  | OpConstantBuffer buffer_index size :: rest =>
      let* (_, sb') := AllocateConstantBuffer K sb buffer_index size in
      run_allocs K rest sb'
  | OpTexture2D desc_size texture texture_index sampler_offset sampler_index :: rest =>
      let* sb' := AllocateTexture2D sb desc_size texture texture_index
                                    sampler_offset sampler_index in
      run_allocs K rest sb'
  end.

(** Three allocations made from the fresh buffer, and the buffer and the
    platform after them. *)
Definition ops0 : list AllocOp :=
  [OpConstantBuffer 0 300; OpTexture2D 32 77%nat 1 0 2; OpConstantBuffer 0 10].

Definition scratch1 : DX12ScratchBuffer :=
  Eval vm_compute in
    match fst (run_allocs K0 ops0 scratch0 world1) with
    | Done sb => sb
    | _ => scratch0
    end.

Definition world2 : World :=
  Eval vm_compute in snd (run_allocs K0 ops0 scratch0 world1).

(** ** Frames: what a frame needs and what it leaves *)

(** Every platform call returns [S_OK]. *)
Definition calls_succeed (w : World) : Prop := forall n c, w_hr w n c = S_OK.

(** Frame slot [s] of the context can be begun: the objects
    [DX12BeginFrame] and [DX12Flip] go through exist. *)
Definition frame_ready (ctx : DX12Context) (s : nat) : Prop :=
  match m_FrameResources ctx !! s with
  | Some fr =>
      negb (is_null (m_SwapChain ctx)) && negb (is_null (m_CommandList ctx))
      && negb (is_null (m_CommandQueue ctx)) && negb (is_null (m_RtvDescriptorHeap ctx))
      && negb (is_null (m_Fence fr)) && negb (is_null (m_CommandAllocator fr))
      && negb (Nat.eqb (length (m_MemoryPools (m_ScratchBuffer fr))) 0)
  | None => false
  end = true.

(** The GPU will get fence [f] to [v]: a wait for it returns. *)
Definition fence_reachable (w : World) (f : Handle) (v : Z) : Prop :=
  is_Some (gpu_run_until f v (w_queue w) (w_fence w)).

(** The world after the fence wait of [SyncronizeFrame], when it returns. *)
Definition after_wait (w : World) (f : Handle) (v : Z) : option World :=
  if w_fence w f <? v then
    match gpu_run_until f v (w_queue w) (w_fence w) with
    | Some (q, fence) =>
        Some (mkWorld (w_hr w) (S (w_ncalls w)) (w_next w)
                      (w_trace w ++ [EvCall Fence_SetEventOnCompletion S_OK; EvWait f v])
                      q fence)
    | None => None
    end
  else Some w.

(** The frame slot and the context as [DX12BeginFrame] leaves them. *)
Definition frame_begun (fr : DX12FrameResource) : DX12FrameResource :=
  mkFrameResource (m_RenderTarget_Resource fr) (m_CommandAllocator fr) (m_Fence fr)
                  (uint64 (m_FenceValue fr + 1)) [] (Reset (m_ScratchBuffer fr)).

Definition context_begun (ctx : DX12Context) (s : nat) (fr : DX12FrameResource)
           (rt : DX12RenderTarget) : DX12Context :=
  set_MainRenderTarget
    (set_FrameBegun (set_frame (set_CurrentFrameIndex ctx s) s (frame_begun fr)) true) rt.

(** ** The concrete context *)

Definition context_null : DX12Context :=
  mkContext false null null null null null null null null [] 0 false
            (mkRenderTarget null 0 DXGI_FORMAT_UNKNOWN false) default_state0 None []
            (mkPipelineCache ∅ 0).

(** The context and the platform after [DX12Initialize] on the platform
    where every call succeeds. *)
Definition context0 : DX12Context :=
  Eval vm_compute in
    match fst (DX12Initialize K0 rounds0 true default_state0 (world0 all_ok)) with
    | Done (_, ctx) => ctx
    | _ => context_null
    end.

Definition world_init : World :=
  Eval vm_compute in snd (DX12Initialize K0 rounds0 true default_state0 (world0 all_ok)).

Definition lift {A} (o : Outcome A) : M A := fun w => (o, w).

(** A frame in which a buffer is deleted, followed by shutdown, the GPU
    not having executed anything yet. *)
Definition shutdown_run : Outcome unit * World :=
  Eval vm_compute in
    (let* ctx := DX12BeginFrame K0 context0 0 in
     let* (ctx, _) := lift (DX12DeleteBuffer ctx (mkDeviceBuffer 100%nat false 64)) in
     let* ctx := DX12Flip K0 ctx in
     DX12DeleteContext ctx) world_init.

(** The first frame of slot 0 up to its [DX12Flip]: three allocations
    are made from the slot's scratch buffer and a buffer is deleted. The
    GPU has not executed anything yet. *)
Definition used_run : Outcome DX12Context * World :=
  Eval vm_compute in
    (let* ctx := DX12BeginFrame K0 context0 0 in
     match m_FrameResources ctx !! 0%nat with
     | None => fail_oob
     | Some fr =>
         let* sb := run_allocs K0 ops0 (m_ScratchBuffer fr) in
         let ctx := set_frame ctx 0 (set_ScratchBuffer fr sb) in
         let* (ctx, _) := lift (DX12DeleteBuffer ctx (mkDeviceBuffer 100%nat false 64)) in
         DX12Flip K0 ctx
     end) world_init.

Definition context_used : DX12Context :=
  Eval vm_compute in
    match fst used_run with
    | Done ctx => ctx
    | _ => context_null
    end.

Definition world_used : World := Eval vm_compute in snd used_run.

(** The next [DX12BeginFrame] of slot 0 after that frame. *)
Definition begun_again : Outcome DX12Context * World :=
  Eval vm_compute in DX12BeginFrame K0 context_used 0 world_used.

Definition is_EvWait (e : Event) : bool :=
  match e with EvWait _ _ => true | _ => false end.

(** The resources pending in a list of frame slots, in release order. *)
Definition pending_releases (frs : list DX12FrameResource) : list Event :=
  flat_map (fun fr => map EvRelease (m_ResourcesToDestroy fr)) frs.

(** A computation that leaves the world alone. *)
Definition pure_m {A} (m : M A) : Prop := forall w, snd (m w) = w.

(** ** A concrete program and its vertex input *)

Definition ubo0 : ShaderResourceBinding :=
  mkShaderResourceBinding 7 0 0 BINDING_FAMILY_UNIFORM_BUFFER 64 (mkShaderResourceType true 0).

Definition texture0 : ShaderResourceBinding :=
  mkShaderResourceBinding 8 0 1 BINDING_FAMILY_TEXTURE 0 (mkShaderResourceType false 0).

Definition input_position : ShaderResourceBinding :=
  mkShaderResourceBinding 1 0 0 BINDING_FAMILY_GENERIC 0 (mkShaderResourceType false 0).

Definition input_texcoord : ShaderResourceBinding :=
  mkShaderResourceBinding 2 0 1 BINDING_FAMILY_GENERIC 0 (mkShaderResourceType false 0).

(** A vertex and a fragment shader that both read the uniform block at
    set 0, binding 0; the fragment shader also samples a texture. *)
Definition vertex_module0 : DX12ShaderModule :=
  mkShaderModule 40%nat
    (mkShaderMeta [input_position; input_texcoord] [ubo0] [] [] [mkShaderResourceTypeInfo 1]).

Definition fragment_module0 : DX12ShaderModule :=
  mkShaderModule 41%nat
    (mkShaderMeta [] [ubo0] [] [texture0] [mkShaderResourceTypeInfo 1]).

Definition program0 : DX12ShaderProgram :=
  mkProgram (Some vertex_module0) (Some fragment_module0) None 50%nat ∅.

Definition streams0 : list Stream :=
  [mkStream 1 (-1) 3 TYPE_FLOAT false 0; mkStream 2 (-1) 2 TYPE_FLOAT false 12].

(** Three declarations of the same streams: a stride of 20 bytes, a
    stride of 32 bytes, and a stride of 20 bytes with another step
    function. *)
Definition declaration_stride20 : VertexDeclaration := mkVertexDeclaration streams0 2 20 0 0.
Definition declaration_stride32 : VertexDeclaration := mkVertexDeclaration streams0 2 32 0 0.
Definition declaration_instanced : VertexDeclaration := mkVertexDeclaration streams0 2 20 1 0.

Definition with_declaration (ctx : DX12Context) (vd : VertexDeclaration) : DX12Context :=
  match fst (DX12EnableVertexDeclaration ctx vd 0 program0 world_init) with
  | Done ctx' => ctx'
  | _ => ctx
  end.

(** The context after [DX12EnableProgram] and [DX12EnableVertexDeclaration]
    with each of the declarations. *)
Definition context_stride20 : DX12Context :=
  Eval vm_compute in with_declaration (DX12EnableProgram context0 program0) declaration_stride20.
Definition context_stride32 : DX12Context :=
  Eval vm_compute in with_declaration (DX12EnableProgram context0 program0) declaration_stride32.
Definition context_instanced : DX12Context :=
  Eval vm_compute in with_declaration (DX12EnableProgram context0 program0) declaration_instanced.

Definition rt0 : DX12RenderTarget := Eval vm_compute in m_MainRenderTarget context0.

(** A digest to run the cache with. *)
Definition hash0 (l : list Z) : Z := fold_right (fun x h => (31 * h + x) mod 2 ^ 64) 0 l.

(** The declaration with its stride and step function blanked. *)
Definition forget_stride (vd : VertexDeclaration) : VertexDeclaration :=
  mkVertexDeclaration (m_Streams vd) (m_StreamCount vd) 0 0 (m_PipelineHash vd).

(** The table holds no more entries than it has room for. *)
Definition cache_wf (pc : PipelineCache) : Prop := (size (pc_Entries pc) <= pc_Capacity pc)%nat.

(** The first lookup with the 20-byte declaration, run with [hash0]. *)
Definition lookup0 : Outcome (Z * Handle * DX12Context) * World :=
  Eval vm_compute in GetOrCreatePipeline K0 hash0 context_stride20 rt0 world_init.

(** The pipeline [CreatePipeline] builds for that lookup. *)
Definition created0 : Outcome Handle * World :=
  Eval vm_compute in CreatePipeline K0 context_stride20 rt0 world_init.

(** ** Checked calls and what a trace reports *)

(** The source line of the [CHECK_HR_ERROR] that follows each platform
    call of [DX12Initialize]; [None] for a call whose result is not
    checked. *)
Definition check_line (c : DeviceCall) : option Z :=
  match c with
  | D3D12GetDebugInterface => Some 333
  | D3D12CreateDevice => Some 342
  | CreateCommandQueue => Some 346
  | CreateDescriptorHeap_Sampler => Some 378
  | CreateDescriptorHeap_Rtv => Some 387
  | SwapChain_GetBuffer _ => Some 400
  | CreateCommandAllocator _ => Some 409
  | CreateFence _ => Some 413
  | Scratch_CreateDescriptorHeap _ _ => Some 228
  | Scratch_CreateCommittedResource _ _ => Some 240
  | Scratch_Map _ _ => Some 253
  | CreateCommandList => Some 430
  | _ => None
  end.

(** No checked call of the trace returned anything but [S_OK]. *)
Definition clean (tr : list Event) : Prop :=
  forall c hr line, EvCall c hr ∈ tr -> check_line c = Some line -> hr = S_OK.

(** The outcome reports the trace: an assertion failure comes right
    after the first checked call that did not return [S_OK] and the log
    line for it; any other outcome has seen no such call. *)
Definition reported {A} (tr : list Event) (o : Outcome A) : Prop :=
  match o with
  | AssertFailed =>
      exists tr0 c hr line,
        tr = tr0 ++ [EvCall c hr; EvLogError line (HRESULT_CODE hr)]
        /\ clean tr0 /\ check_line c = Some line /\ hr <> S_OK
  | _ => clean tr
  end.

Definition Checked {A} (m : M A) : Prop :=
  forall w, exists tr, w_trace (snd (m w)) = w_trace w ++ tr /\ reported tr (fst (m w)).


#[global] Instance DeviceCall_eq_dec : EqDecision DeviceCall.
Proof. solve_decision. Defined.

(** ** Platforms on which one call fails *)

Definition E_FAIL : HRESULT := -2147467259.

(** Every call returns [S_OK] but [c0], which returns [hr0]. *)
Definition fail_at (c0 : DeviceCall) (hr0 : HRESULT) : nat -> DeviceCall -> HRESULT :=
  fun _ c => if decide (c = c0) then hr0 else S_OK.




(** ** The platform calls of initialisation, in order *)









(** Some platform call of the trace failed. *)
Definition failed_call (tr : list Event) : Prop :=
  exists c hr, EvCall c hr ∈ tr /\ FAILED hr = true.

(** Where the objects [P] speaks of exist, [m] invokes a method through
    a null handle only after a platform call of its own has failed. *)
Definition NullAfterFailure {A} (P : Prop) (m : M A) : Prop :=
  forall w, (0 < w_next w)%nat ->
    exists tr,
      w_trace (snd (m w)) = w_trace w ++ tr
      /\ (0 < w_next (snd (m w)))%nat
      /\ (P -> fst (m w) = NullDeref -> failed_call tr).



(** ** Constant-buffer requests of one frame *)

(** The size of the upload heap behind every pool: [memory_heap_size] of
    [DX12ScratchBuffer::Initialize]. *)
Definition memory_heap_size : Z := 1024 * 64.

(** [AllocateConstantBuffer] called once for every request, a request
    being the root parameter index and the size asked for. The result
    lists the pointer each call returned with the size it was asked. *)
Fixpoint allocate_all (K : Constants) (requests : list (Z * Z)) (sb : DX12ScratchBuffer)
  : M (list (Ptr * Z) * DX12ScratchBuffer) :=
  match requests with
  | [] => ret ([], sb)
  | (buffer_index, size) :: rest =>
      let* (p, sb') := AllocateConstantBuffer K sb buffer_index size in
      let* (ps, sb'') := allocate_all K rest sb' in
      ret ((p, size) :: ps, sb'')
  end.

(** The index of the pool a request of [size] bytes is served from. *)
Definition pool_index_of (K : Constants) (size : Z) : nat :=
  Z.to_nat (size / BLOCK_STEP_SIZE K).

(** How many of the first [k] requests are served from pool [c]. *)
Definition earlier_in_pool (K : Constants) (requests : list (Z * Z)) (k c : nat) : Z :=
  Z.of_nat (length (filter (fun r => pool_index_of K r.2 = c) (take k requests))).

(** A region, a pointer and a length, lies in the [memory_heap_size]
    bytes that the heap of its pointer maps. *)
Definition region_in_heap (a : Ptr * Z) : Prop :=
  0 <= p_ofs a.1 /\ 0 <= a.2 /\ p_ofs a.1 + a.2 <= memory_heap_size.

(** Two regions share no byte: each lies in the mapping of its heap, and
    they lie in different heaps or one ends before the other starts. *)
Definition region_disjoint (a b : Ptr * Z) : Prop :=
  region_in_heap a /\ region_in_heap b
  /\ (p_res a.1 <> p_res b.1
      \/ p_ofs a.1 + a.2 <= p_ofs b.1
      \/ p_ofs b.1 + b.2 <= p_ofs a.1).

(** Five requests of 300 bytes and one of 10. *)
Definition requests0 : list (Z * Z) := [(0, 300); (1, 300); (0, 10); (2, 300); (0, 300); (1, 300)].

(** ** Frames: a failing signal *)

(** Every platform call returns [S_OK] but [CommandQueue::Signal], which
    returns [hr]. *)
Definition only_Signal_fails (hr : HRESULT) (w : World) : Prop :=
  forall n c, w_hr w n c = if decide (c = CommandQueue_Signal) then hr else S_OK.

(** The context of the concrete configuration with verified calls off,
    after its first [DX12BeginFrame], and the platform then, on which
    [Signal] fails. *)
Definition context_unverified : DX12Context :=
  Eval vm_compute in
    match fst (DX12Initialize K0 rounds0 false default_state0
                 (world0 (fail_at CommandQueue_Signal E_FAIL))) with
    | Done (_, ctx) =>
        match fst (DX12BeginFrame K0 ctx 0
                     (snd (DX12Initialize K0 rounds0 false default_state0
                             (world0 (fail_at CommandQueue_Signal E_FAIL))))) with
        | Done ctx' => ctx'
        | _ => context_null
        end
    | _ => context_null
    end.

Definition world_unverified : World :=
  match fst (DX12Initialize K0 rounds0 false default_state0
               (world0 (fail_at CommandQueue_Signal E_FAIL))) with
  | Done (_, ctx) =>
      snd (DX12BeginFrame K0 ctx 0
             (snd (DX12Initialize K0 rounds0 false default_state0
                     (world0 (fail_at CommandQueue_Signal E_FAIL)))))
  | _ => world0 (fail_at CommandQueue_Signal E_FAIL)
  end.

(** ** The merged binding table, entry by entry *)

Definition is_uniform_buffer (res : ShaderResourceBinding) : bool :=
  match m_BindingFamily res with BINDING_FAMILY_UNIFORM_BUFFER => true | _ => false end.

Definition is_storage_buffer (res : ShaderResourceBinding) : bool :=
  match m_BindingFamily res with BINDING_FAMILY_STORAGE_BUFFER => true | _ => false end.

Definition is_texture (res : ShaderResourceBinding) : bool :=
  match m_BindingFamily res with BINDING_FAMILY_TEXTURE => true | _ => false end.

(** The number of uniforms a resource stands for: one for a texture or
    a storage buffer, one for every member of a uniform block. *)
Definition uniform_weight (type_infos : list ShaderResourceTypeInfo)
           (res : ShaderResourceBinding) : Z :=
  match m_BindingFamily res with
  | BINDING_FAMILY_TEXTURE | BINDING_FAMILY_STORAGE_BUFFER => 1
  | BINDING_FAMILY_UNIFORM_BUFFER =>
      match type_infos !! m_TypeIndex (m_Type res) with
      | Some type_info => Z.of_nat (m_Members type_info)
      | None => 0
      end
  | BINDING_FAMILY_GENERIC => 0
  end.

(** The entry [FillProgramResourceBindings] writes into a free slot, and
    the counters after it. *)
Definition new_entry (type_infos : list ShaderResourceTypeInfo) (stage_flag : Z)
           (res : ShaderResourceBinding) (info : ProgramResourceBindingsInfo)
  : ProgramResourceBinding :=
  mkProgramResourceBinding (Some res) (Some type_infos)
    (if is_uniform_buffer res then m_UniformDataSize info else 0)
    (if is_uniform_buffer res then m_UniformBufferCount info else 0)
    (if is_texture res then m_TextureCount info else 0)
    (if is_storage_buffer res then m_StorageBufferCount info else 0)
    stage_flag.

Definition new_info (type_infos : list ShaderResourceTypeInfo) (ubo_alignment : Z)
           (res : ShaderResourceBinding) (info : ProgramResourceBindingsInfo)
  : ProgramResourceBindingsInfo :=
  mkInfo (m_UniformBufferCount info + (if is_uniform_buffer res then 1 else 0))
         (m_StorageBufferCount info + (if is_storage_buffer res then 1 else 0))
         (m_TextureCount info + (if is_texture res then 1 else 0))
         (m_TotalUniformCount info + uniform_weight type_infos res)
         (m_UniformDataSize info + (if is_uniform_buffer res then srb_BlockSize res else 0))
         (m_UniformDataSizeAligned info
          + (if is_uniform_buffer res then DM_ALIGN (srb_BlockSize res) ubo_alignment else 0))
         (Z.max (m_MaxSet info) (Z.of_nat (m_Set res) + 1))
         (Z.max (m_MaxBinding info) (Z.of_nat (m_Binding res) + 1)).

(** The slot of a resource, and the resources of a module in the order
    [FillProgramResourceBindings] goes through them. *)
Definition slot_of (res : ShaderResourceBinding) : nat * nat := (m_Set res, m_Binding res).

Definition module_resources (module : option DX12ShaderModule) : list ShaderResourceBinding :=
  match module with
  | None => []
  | Some module =>
      m_UniformBuffers (m_ShaderMeta module) ++ m_StorageBuffers (m_ShaderMeta module)
        ++ m_Textures (m_ShaderMeta module)
  end.

(** The local table [bindings] marks the slots of the program's table
    that hold a resource, and only those. *)
Definition tables_agree (st : FillState) : Prop :=
  (forall k, fs_bindings st !! k = None <-> fs_ResourceBindings st !! k = None)
  /\ (forall k d, fs_bindings st !! k = Some d -> rb_Taken d = true).
(** The entries are those of resources, each at the slot of its
    resource and below [m_MaxSet] and [m_MaxBinding]. *)
Definition entries_in_range (K : Constants) (st : FillState) : Prop :=
  0 <= m_MaxSet (fs_info st) <= Z.of_nat (MAX_SET_COUNT K)
  /\ 0 <= m_MaxBinding (fs_info st) <= Z.of_nat (MAX_BINDINGS_PER_SET_COUNT K)
  /\ (m_MaxSet (fs_info st) = 0
      \/ exists k e, fs_ResourceBindings st !! k = Some e
                     /\ Z.of_nat k.1 + 1 = m_MaxSet (fs_info st))
  /\ (m_MaxBinding (fs_info st) = 0
      \/ exists k e, fs_ResourceBindings st !! k = Some e
                     /\ Z.of_nat k.2 + 1 = m_MaxBinding (fs_info st))
  /\ forall k e, fs_ResourceBindings st !! k = Some e ->
       Z.of_nat k.1 < m_MaxSet (fs_info st) /\ Z.of_nat k.2 < m_MaxBinding (fs_info st)
       /\ exists res tis,
           m_Res e = Some res /\ m_ResTypeInfos e = Some tis /\ slot_of res = k
           /\ (is_uniform_buffer res = true ->
               m_UseTypeIndex (m_Type res) = true
               /\ is_Some (tis !! m_TypeIndex (m_Type res))).

(** Where the uniform blocks and the textures of the entries go. *)
Definition layout_ok (st : FillState) : Prop :=
  0 <= m_UniformDataSize (fs_info st)
  /\ 0 <= m_TextureCount (fs_info st)
  /\ 0 <= m_UniformBufferCount (fs_info st)
  /\ (forall k e res,
         fs_ResourceBindings st !! k = Some e -> m_Res e = Some res ->
         (is_uniform_buffer res = true ->
          0 <= m_DataOffset e
          /\ m_DataOffset e + srb_BlockSize res <= m_UniformDataSize (fs_info st)
          /\ 0 <= m_DynamicOffsetIndex e < m_UniformBufferCount (fs_info st))
         /\ (is_texture res = true ->
             0 <= m_TextureUnit e < m_TextureCount (fs_info st)))
  /\ (forall k1 k2 e1 e2 r1 r2,
         k1 <> k2 ->
         fs_ResourceBindings st !! k1 = Some e1 -> fs_ResourceBindings st !! k2 = Some e2 ->
         m_Res e1 = Some r1 -> m_Res e2 = Some r2 ->
         (is_uniform_buffer r1 = true -> is_uniform_buffer r2 = true ->
          (m_DataOffset e1 + srb_BlockSize r1 <= m_DataOffset e2
           \/ m_DataOffset e2 + srb_BlockSize r2 <= m_DataOffset e1)
          /\ m_DynamicOffsetIndex e1 <> m_DynamicOffsetIndex e2)
         /\ (is_texture r1 = true -> is_texture r2 = true ->
             m_TextureUnit e1 <> m_TextureUnit e2)).

(** ** Uniform names *)

Definition uint8 (z : Z) : Z := z mod 2 ^ 8.

(** What [GetUniformName] found at [index]: a texture or a storage
    buffer, or a member of a uniform block. It is the name, the type and
    the size of that resource or member that the function writes out;
    the value it returns is the length of the name. *)
Inductive UniformName : Type :=
| NameOfResource (res : ShaderResourceBinding)
| NameOfMember (res : ShaderResourceBinding) (member : nat).

(** The loop over the members of a uniform block: [n] members to go,
    [i] the next. The result is the member found, or [search_index] as
    the loop leaves it. *)
Fixpoint GetUniformName_members (res : ShaderResourceBinding) (n i : nat)
         (search_index index : Z) : UniformName + Z :=
  match n with
  | O => inr search_index
  | S n' =>
      if search_index =? index then inl (NameOfMember res i)
      else GetUniformName_members res n' (S i) (uint32 (search_index + 1)) index
  end.

(** The body of the inner loop of [GetUniformName], at one slot. *)
Definition GetUniformName_slot (K : Constants)
           (bindings : gmap (nat * nat) ProgramResourceBinding) (set binding : nat)
           (search_index index : Z) : Outcome (UniformName + Z) :=
  if negb ((set <? MAX_SET_COUNT K)%nat && (binding <? MAX_BINDINGS_PER_SET_COUNT K)%nat)
  then OutOfBounds
  else
    let pgm_res := at_slot ProgramResourceBinding_zero bindings set binding in
    match m_Res pgm_res with
    | None => Done (inr search_index)
    | Some res =>
        match m_BindingFamily res with
        | BINDING_FAMILY_TEXTURE | BINDING_FAMILY_STORAGE_BUFFER =>
            if search_index =? index then Done (inl (NameOfResource res))
            else Done (inr (uint32 (search_index + 1)))
        | BINDING_FAMILY_UNIFORM_BUFFER =>
            if negb (m_UseTypeIndex (m_Type res)) then AssertFailed
            else
              match m_ResTypeInfos pgm_res with
              | None => NullDeref
              | Some type_infos =>
                  match type_infos !! m_TypeIndex (m_Type res) with
                  | None => AssertFailed
                  | Some type_info =>
                      Done (GetUniformName_members res (m_Members type_info) 0
                                                   search_index index)
                  end
              end
        | BINDING_FAMILY_GENERIC => Done (inr search_index)
        end
    end.

(** The loop over the bindings of one set, [n] bindings to go. *)
Fixpoint GetUniformName_bindings (K : Constants)
         (bindings : gmap (nat * nat) ProgramResourceBinding) (set : nat) (n binding : nat)
         (search_index index : Z) : Outcome (UniformName + Z) :=
  match n with
  | O => Done (inr search_index)
  | S n' =>
      match GetUniformName_slot K bindings set binding search_index index with
      | Done (inr search_index') =>
          GetUniformName_bindings K bindings set n' (S binding) search_index' index
      | o => o
      end
  end.

(** The loop over the sets, [n] sets to go. *)
Fixpoint GetUniformName_sets (K : Constants)
         (bindings : gmap (nat * nat) ProgramResourceBinding) (n set : nat)
         (max_binding : nat) (search_index index : Z) : Outcome (UniformName + Z) :=
  match n with
  | O => Done (inr search_index)
  | S n' =>
      match GetUniformName_bindings K bindings set max_binding 0 search_index index with
      | Done (inr search_index') =>
          GetUniformName_sets K bindings n' (S set) max_binding search_index' index
      | o => o
      end
  end.

(** [GetUniformName]: [None] is the [return 0] after the loops. *)
Definition GetUniformName (K : Constants)
           (bindings : gmap (nat * nat) ProgramResourceBinding)
           (max_set max_binding : Z) (index : Z) : Outcome (option UniformName) :=
  match GetUniformName_sets K bindings (Z.to_nat max_set) 0 (Z.to_nat max_binding) 0 index with
  | Done (inl name) => Done (Some name)
  | Done (inr _) => Done None
  | AssertFailed => AssertFailed
  | NullDeref => NullDeref
  | Hang => Hang
  | OutOfBounds => OutOfBounds
  end.

(** [DX12GetUniformName] and [DX12GetUniformCount]. A program is the
    table with the counts [CreateProgramResourceBindings] copied into
    it; [None] is the null program. [max_set] and [max_binding] are
    [uint8_t] parameters of [GetUniformName]. *)
Definition DX12GetUniformName (K : Constants)
           (prog : option (DX12ShaderProgram * ProgramResourceBindingsInfo)) (index : Z)
  : Outcome (option UniformName) :=
  match prog with
  | None => AssertFailed
  | Some (program, info) =>
      GetUniformName K (m_ResourceBindings program)
                     (uint8 (m_MaxSet info)) (uint8 (m_MaxBinding info)) index
  end.

Definition DX12GetUniformCount (prog : DX12ShaderProgram * ProgramResourceBindingsInfo) : Z :=
  m_TotalUniformCount prog.2.

(** The number of uniforms behind an entry. *)
Definition entry_weight (e : ProgramResourceBinding) : Z :=
  match m_Res e, m_ResTypeInfos e with
  | Some res, Some type_infos => uniform_weight type_infos res
  | _, _ => 0
  end.

(** The sum of [f] over [n] bindings of a set, and over [n] sets of the
    table. *)
Fixpoint row_sum (f : ProgramResourceBinding -> Z)
         (bindings : gmap (nat * nat) ProgramResourceBinding)
         (set : nat) (n binding : nat) : Z :=
  match n with
  | O => 0
  | S n' => f (at_slot ProgramResourceBinding_zero bindings set binding)
            + row_sum f bindings set n' (S binding)
  end.

Fixpoint grid_sum (f : ProgramResourceBinding -> Z)
         (bindings : gmap (nat * nat) ProgramResourceBinding)
         (n set : nat) (max_binding : nat) : Z :=
  match n with
  | O => 0
  | S n' => row_sum f bindings set max_binding 0
            + grid_sum f bindings n' (S set) max_binding
  end.

(** [m_TotalUniformCount] counts the uniforms of the table. *)
Definition weight_ok (st : FillState) : Prop :=
  forall max_set max_binding : nat,
    m_MaxSet (fs_info st) <= Z.of_nat max_set ->
    m_MaxBinding (fs_info st) <= Z.of_nat max_binding ->
    grid_sum entry_weight (fs_ResourceBindings st) max_set 0 max_binding
    = m_TotalUniformCount (fs_info st).

(** The table of the concrete program. *)
Definition program_bindings0 : DX12ShaderProgram * ProgramResourceBindingsInfo :=
  Eval vm_compute in
    match fst (new_program_bindings K0 (Some vertex_module0) (Some fragment_module0)
                                    world_init) with
    | Done r => r
    | _ => (program0, info_zero)
    end.

(** ** Vertex streams and mip levels *)

(** What a stream says about the vertex data: everything but the
    location. *)
Definition stream_layout (s : Stream) : Z * Z * Type_ * bool * Z :=
  (s_NameHash s, s_Size s, s_Type s, s_Normalize s, s_Offset s).

(** Whether the vertex shader has an input of that name. *)
Definition names_input (inputs : list ShaderResourceBinding) (s : Stream) : bool :=
  bool_decide (s_NameHash s ∈ m_NameHash <$> inputs).

(** The 8-bit and 16-bit integer types. *)
Definition is_narrow (type : Type_) : bool :=
  match type with
  | TYPE_BYTE | TYPE_UNSIGNED_BYTE | TYPE_SHORT | TYPE_UNSIGNED_SHORT => true
  | _ => false
  end.

(** [GetPitchFromMipMap]: [n] iterations of the loop to go. *)
Fixpoint GetPitchFromMipMap_loop (n : nat) (pitch : Z) : Z :=
  match n with
  | O => pitch
  | S n' => GetPitchFromMipMap_loop n' (pitch / 2)
  end.

(** [GetPitchFromMipMap(uint32_t pitch, uint8_t mipmap)]: the arguments
    are converted to the types of the parameters. *)
Definition GetPitchFromMipMap (pitch mipmap : Z) : Z :=
  GetPitchFromMipMap_loop (Z.to_nat (uint8 mipmap)) (uint32 pitch).

(** A declaration with a three-component unsigned byte stream. *)
Definition declaration_rgb8 : VertexDeclaration :=
  mkVertexDeclaration [mkStream 1 (-1) 3 TYPE_FLOAT false 0;
                       mkStream 2 (-1) 3 TYPE_UNSIGNED_BYTE true 12] 2 16 0 0.

Definition context_rgb8 : DX12Context :=
  Eval vm_compute in with_declaration (DX12EnableProgram context0 program0) declaration_rgb8.

(** ** The root parameters of a program *)

Inductive D3D12_DESCRIPTOR_RANGE_TYPE : Type :=
| D3D12_DESCRIPTOR_RANGE_TYPE_SRV
| D3D12_DESCRIPTOR_RANGE_TYPE_SAMPLER.

(** An element of [root_parameter_descs]: as [SetSize] leaves it, or as
    one of the two initialisers of [CD3DX12_ROOT_PARAMETER] sets it. A
    descriptor table has one range, named here by its type; the register
    space and the base register are always 0. *)
Inductive CD3DX12_ROOT_PARAMETER : Type :=
| RootParameter_uninitialized
| InitAsConstantBufferView (shaderRegister : Z) (visibility : D3D12_SHADER_VISIBILITY)
| InitAsDescriptorTable (rangeType : D3D12_DESCRIPTOR_RANGE_TYPE)
                        (visibility : D3D12_SHADER_VISIBILITY).

(** [root_parameter_descs[ix] = v]: [dmArray::operator[]] asserts that
    the index is below the size. *)
Definition root_parameter_init (descs : list CD3DX12_ROOT_PARAMETER) (ix : Z)
           (v : CD3DX12_ROOT_PARAMETER) : M (list CD3DX12_ROOT_PARAMETER) :=
  if ix <? Z.of_nat (length descs) then ret (<[Z.to_nat ix := v]> descs) else fail_assert.

(** The body of the inner loop of [DX12NewProgram]; the state is
    [root_parameter_descs], [texture_ix] and [ubo_ix]. *)
Definition NewProgram_slot (K : Constants)
           (bindings : gmap (nat * nat) ProgramResourceBinding) (texture_unit_start : Z)
           (set binding : nat) (st : list CD3DX12_ROOT_PARAMETER * Z * Z)
  : M (list CD3DX12_ROOT_PARAMETER * Z * Z) :=
  if negb ((set <? MAX_SET_COUNT K)%nat && (binding <? MAX_BINDINGS_PER_SET_COUNT K)%nat)
  then fail_oob
  else
    let pgm_res := at_slot ProgramResourceBinding_zero bindings set binding in
    let '(descs, texture_ix, ubo_ix) := st in
    match m_Res pgm_res with
    | None => ret st
    | Some res =>
        match m_BindingFamily res with
        | BINDING_FAMILY_TEXTURE =>
            let ix := uint32 (texture_unit_start + m_TextureUnit pgm_res * 2) in
            let visibility := GetShaderVisibilityFromStage (m_StageFlags pgm_res) in
            let* descs :=
              root_parameter_init descs (uint32 (ix + 0))
                (InitAsDescriptorTable D3D12_DESCRIPTOR_RANGE_TYPE_SRV visibility) in
            let* descs :=
              root_parameter_init descs (uint32 (ix + 1))
                (InitAsDescriptorTable D3D12_DESCRIPTOR_RANGE_TYPE_SAMPLER visibility) in
            ret (descs, uint32 (texture_ix + 1), ubo_ix)
        | BINDING_FAMILY_STORAGE_BUFFER => fail_assert
        | BINDING_FAMILY_UNIFORM_BUFFER =>
            let* descs :=
              root_parameter_init descs ubo_ix
                (InitAsConstantBufferView (Z.of_nat (m_Binding res))
                   (GetShaderVisibilityFromStage (m_StageFlags pgm_res))) in
            ret (descs, texture_ix, uint32 (ubo_ix + 1))
        | BINDING_FAMILY_GENERIC => ret st
        end
    end.

(** The root parameters [DX12NewProgram] hands to [CreateRootSignature]
    for a program whose table [CreateProgramResourceBindings] has
    filled; [m_TextureSamplerCount] of the program is [m_TextureCount]
    of the counts. *)
Definition NewProgram_root_parameters (K : Constants)
           (prog : DX12ShaderProgram * ProgramResourceBindingsInfo)
  : M (list CD3DX12_ROOT_PARAMETER) :=
  let program := prog.1 in
  let info := prog.2 in
  let root_parameter_descs :=
    replicate (Z.to_nat (uint32 (m_UniformBufferCount info + m_TextureCount info * 2)))
              RootParameter_uninitialized in
  let texture_unit_start := m_UniformBufferCount info in
  let* st :=
    for_loop (Z.to_nat (m_MaxSet info)) 0
      (fun set st =>
         for_loop (Z.to_nat (m_MaxBinding info)) 0
           (fun binding st =>
              NewProgram_slot K (m_ResourceBindings program) texture_unit_start set binding st)
           st)
      (root_parameter_descs, 0, 0) in
  ret st.1.1.

(** One for a uniform-buffer entry. *)
Definition ubo_one (e : ProgramResourceBinding) : Z :=
  match m_Res e with
  | Some res => if is_uniform_buffer res then 1 else 0
  | None => 0
  end.

(** The counts of the uniform buffers and of the textures are those of
    the entries, and the texture units are the numbers below the count. *)
Definition units_ok (st : FillState) : Prop :=
  0 <= m_TextureCount (fs_info st)
  /\ (forall max_set max_binding : nat,
         m_MaxSet (fs_info st) <= Z.of_nat max_set ->
         m_MaxBinding (fs_info st) <= Z.of_nat max_binding ->
         grid_sum ubo_one (fs_ResourceBindings st) max_set 0 max_binding
         = m_UniformBufferCount (fs_info st))
  /\ (forall k e res,
         fs_ResourceBindings st !! k = Some e -> m_Res e = Some res ->
         is_texture res = true -> 0 <= m_TextureUnit e < m_TextureCount (fs_info st))
  /\ (forall k1 k2 e1 e2 r1 r2,
         k1 <> k2 ->
         fs_ResourceBindings st !! k1 = Some e1 -> fs_ResourceBindings st !! k2 = Some e2 ->
         m_Res e1 = Some r1 -> m_Res e2 = Some r2 ->
         is_texture r1 = true -> is_texture r2 = true ->
         m_TextureUnit e1 <> m_TextureUnit e2)
  /\ (forall u, 0 <= u < m_TextureCount (fs_info st) ->
         exists k e res,
           fs_ResourceBindings st !! k = Some e /\ m_Res e = Some res
           /\ is_texture res = true /\ m_TextureUnit e = u).

(** The entries hold resources of the two modules. *)
Definition entries_from (vp fp : option DX12ShaderModule) (st : FillState) : Prop :=
  forall k e res,
    fs_ResourceBindings st !! k = Some e -> m_Res e = Some res ->
    res ∈ module_resources vp ++ module_resources fp.

(** The cells of the table that the loops have been through when they
    are at [(set, binding)]. *)
Definition scanned (set binding : nat) (k : nat * nat) : Prop :=
  (k.1 < set)%nat \/ (k.1 = set /\ (k.2 < binding)%nat).

(** What the loops of [DX12NewProgram] have done when they are at
    [(set, binding)]. *)
Definition scan_ok (bindings : gmap (nat * nat) ProgramResourceBinding)
           (max_binding : nat) (texture_unit_start : Z) (size : nat)
           (set binding : nat) (st : list CD3DX12_ROOT_PARAMETER * Z * Z) : Prop :=
  length st.1.1 = size
  /\ st.2 = grid_sum ubo_one bindings set 0 max_binding + row_sum ubo_one bindings set binding 0
  /\ (forall i, 0 <= i < st.2 ->
        exists k e res,
          bindings !! k = Some e /\ m_Res e = Some res /\ is_uniform_buffer res = true
          /\ st.1.1 !! Z.to_nat i
             = Some (InitAsConstantBufferView (Z.of_nat (m_Binding res))
                       (GetShaderVisibilityFromStage (m_StageFlags e))))
  /\ (forall k e res,
        bindings !! k = Some e -> m_Res e = Some res -> is_texture res = true ->
        scanned set binding k ->
        st.1.1 !! Z.to_nat (texture_unit_start + m_TextureUnit e * 2)
        = Some (InitAsDescriptorTable D3D12_DESCRIPTOR_RANGE_TYPE_SRV
                  (GetShaderVisibilityFromStage (m_StageFlags e)))
        /\ st.1.1 !! Z.to_nat (texture_unit_start + m_TextureUnit e * 2 + 1)
           = Some (InitAsDescriptorTable D3D12_DESCRIPTOR_RANGE_TYPE_SAMPLER
                     (GetShaderVisibilityFromStage (m_StageFlags e)))).

(** A vertex module with a storage buffer. *)
Definition ssbo0 : ShaderResourceBinding :=
  mkShaderResourceBinding 9 0 2 BINDING_FAMILY_STORAGE_BUFFER 0 (mkShaderResourceType false 0).

Definition vertex_module_ssbo : DX12ShaderModule :=
  mkShaderModule 42%nat
    (mkShaderMeta [input_position] [ubo0] [ssbo0] [] [mkShaderResourceTypeInfo 1]).

Definition program_bindings_ssbo : DX12ShaderProgram * ProgramResourceBindingsInfo :=
  Eval vm_compute in
    match fst (new_program_bindings K0 (Some vertex_module_ssbo) (Some fragment_module0)
                                    world_init) with
    | Done r => r
    | _ => (program0, info_zero)
    end.

(** ** The context after initialisation *)

(** A frame slot as [DX12Initialize] leaves it. *)
Definition frame_fresh (K : Constants) (fr : DX12FrameResource) : Prop :=
  is_null (m_Fence fr) = false
  /\ is_null (m_CommandAllocator fr) = false
  /\ scratch_wf K (m_ScratchBuffer fr)
  /\ (forall p, p ∈ m_MemoryPools (m_ScratchBuffer fr) ->
                m_MemoryCursor p = 0 /\ m_DescriptorCursor p = 0)
  /\ m_FenceValue fr = RENDER_CONTEXT_STATE_FREE K
  /\ m_ResourcesToDestroy fr = [].

(** ** The commands of a frame *)

(** The commands among the events, in the order they were recorded. *)
Definition recorded_commands (tr : list Event) : list Command :=
  omap (fun e => match e with EvRecord cmd => Some cmd | _ => None end) tr.

(** The main render target is the back buffer, and no render pass is
    open on it. *)
Definition back_buffer_unbound (K : Constants) (ctx : DX12Context) : Prop :=
  rt_Id (m_MainRenderTarget ctx) = DM_RENDERTARGET_BACKBUFFER_ID K
  /\ rt_IsBound (m_MainRenderTarget ctx) = false.

(** ** Descriptor slots of one frame *)

(** Whether an allocation moves the descriptor cursor of pool 0: every
    texture does, and a constant buffer of less than one step. *)
Definition uses_pool0 (K : Constants) (op : AllocOp) : bool :=
  match op with
  | OpConstantBuffer _ size => Nat.eqb (pool_index_of K size) 0
  | OpTexture2D _ _ _ _ _ => true
  end.

(** How many of the first [k] allocations move that cursor. *)
Definition pool0_descriptors (K : Constants) (ops : list AllocOp) (k : nat) : Z :=
  Z.of_nat (length (filter (fun op => uses_pool0 K op = true) (take k ops))).

(** The constant buffers asked for are below the maximum block size. *)
Definition alloc_in_range (K : Constants) (op : AllocOp) : Prop :=
  match op with
  | OpConstantBuffer _ size => 0 <= size < MAX_BLOCK_SIZE K
  | OpTexture2D _ _ _ _ _ => True
  end.

(** Six textures, with a small and a large constant buffer between them. *)
Definition ops_textures : list AllocOp :=
  [OpTexture2D 32 71%nat 1 0 2; OpConstantBuffer 0 10; OpTexture2D 32 72%nat 3 0 4;
   OpConstantBuffer 0 300; OpTexture2D 32 73%nat 5 0 6; OpTexture2D 32 74%nat 7 0 8;
   OpTexture2D 32 75%nat 9 0 10; OpTexture2D 32 76%nat 11 0 12].

(** * Proofs *)

(** ** The monad *)

Lemma bind_Done_inv {A B} (m : M A) (k : A -> M B) w b w' :
  bind m k w = (Done b, w') ->
  exists a w1, m w = (Done a, w1) /\ k a w1 = (Done b, w').
Proof.
  unfold bind. destruct (m w) as [[a| | | |] w1]; intros H; try discriminate.
  eauto.
Qed.

Lemma deref_Done_inv h w u w' :
  deref h w = (Done u, w') -> is_null h = false /\ w' = w.
Proof.
  unfold deref. destruct (is_null h); cbn; intros H; [discriminate|].
  inversion H; auto.
Qed.

Lemma deref_nonnull h w : is_null h = false -> deref h w = (Done tt, w).
Proof. unfold deref. intros ->. reflexivity. Qed.

Lemma CHECK_HR_ERROR_Done_inv v line hr w u w' :
  CHECK_HR_ERROR v line hr w = (Done u, w') -> w' = w /\ (v = true -> hr = S_OK).
Proof.
  unfold CHECK_HR_ERROR. destruct v; cbn.
  - destruct (hr =? S_OK) eqn:E; cbn; intros H; [|discriminate].
    inversion H. split; [reflexivity|]. intros _. lia.
  - intros H. inversion H. split; [reflexivity|discriminate].
Qed.

(** ** The scratch buffer *)

Section AllocatorProofs.
Variable K : Constants.
Hypothesis HK : constants_ok K.

Local Abbreviation STEP := (BLOCK_STEP_SIZE K).
Local Abbreviation MAXB := (MAX_BLOCK_SIZE K).

Lemma constants_ok_facts :
  0 < STEP /\ MAXB mod STEP = 0 /\ 0 < MAXB /\ MAXB < 2 ^ 32.
Proof.
  unfold constants_ok in HK.
  repeat (apply andb_prop in HK; destruct HK as [HK ?]). lia.
Qed.

Lemma pool_index_lt size :
  0 <= size < MAXB ->
  (Z.to_nat (size / STEP) < Z.to_nat (MAXB / STEP))%nat.
Proof.
  destruct constants_ok_facts as (Hs & Hm & _ & _). intros Hsz.
  assert (0 <= size / STEP) by (apply Z.div_pos; lia).
  assert (size / STEP < MAXB / STEP).
  { apply Z.div_lt_upper_bound; [lia|].
    rewrite <- Z.div_exact in Hm by lia. lia. }
  lia.
Qed.

Lemma pools_ok_lookup i pools j p :
  pools_ok K i pools = true -> pools !! j = Some p -> pool_ok K (i + j) p = true.
Proof.
  revert i j. induction pools as [|q rest IH]; intros i j Hok Hl; [discriminate|].
  cbn in Hok. apply andb_prop in Hok as [Hq Hrest].
  destruct j as [|j]; cbn in Hl.
  - inversion Hl; subst. rewrite Nat.add_0_r. exact Hq.
  - replace (i + S j)%nat with (S i + j)%nat by lia. eauto.
Qed.

Lemma scratch_wf_lookup sb i :
  scratch_wf K sb -> (i < Z.to_nat (MAXB / STEP))%nat ->
  exists p, m_MemoryPools sb !! i = Some p
            /\ m_BlockSize p = (Z.of_nat i + 1) * STEP
            /\ is_null (m_MemoryHeap p) = false
            /\ is_null (m_DescriptorHeap p) = false
            /\ m_MappedDataPtr p = mkPtr (m_MemoryHeap p) 0.
Proof.
  unfold scratch_wf. intros Hwf Hi.
  apply andb_prop in Hwf as [Hwf _]. apply andb_prop in Hwf as [Hlen Hok].
  apply Nat.eqb_eq in Hlen.
  destruct (lookup_lt_is_Some_2 (m_MemoryPools sb) i) as [p Hp]; [lia|].
  exists p. split; [exact Hp|].
  pose proof (pools_ok_lookup 0 _ _ _ Hok Hp) as Hp'. cbn in Hp'.
  unfold pool_ok in Hp'.
  repeat (apply andb_prop in Hp'; destruct Hp' as [Hp' ?]).
  repeat split.
  - lia.
  - destruct (is_null (m_MemoryHeap p)); [discriminate|reflexivity].
  - destruct (is_null (m_DescriptorHeap p)); [discriminate|reflexivity].
  - unfold ptr_eqb in *. cbn in *.
    match goal with H : _ && _ = true |- _ => apply andb_prop in H as [Hr Ho] end.
    apply Nat.eqb_eq in Hr. destruct (m_MappedDataPtr p) as [r o]. cbn in *.
    f_equal; lia.
Qed.

Lemma scratch_wf_heaps_distinct sb i j p q :
  scratch_wf K sb ->
  m_MemoryPools sb !! i = Some p -> m_MemoryPools sb !! j = Some q ->
  m_MemoryHeap p = m_MemoryHeap q -> i = j.
Proof.
  unfold scratch_wf. intros Hwf Hp Hq Heq.
  apply andb_prop in Hwf as [_ Hnd]. apply bool_decide_eq_true in Hnd.
  eapply NoDup_lookup; [exact Hnd| |].
  - rewrite list_lookup_fmap, Hp. reflexivity.
  - rewrite list_lookup_fmap, Hq. cbn. congruence.
Qed.

(** What [AllocateConstantBuffer] does once its guards are passed. *)
Lemma AllocateConstantBuffer_eval sb buffer_index size w pool pool0 :
  size < MAXB ->
  m_MemoryPools sb !! Z.to_nat (size / STEP) = Some pool ->
  m_MemoryPools sb !! 0%nat = Some pool0 ->
  is_null (m_MemoryHeap pool0) = false ->
  AllocateConstantBuffer K sb buffer_index size w =
  (Done (ptr_add (m_MappedDataPtr pool) (m_MemoryCursor pool),
         mkScratchBuffer
           (<[Z.to_nat (size / STEP) :=
                set_cursors pool (uint32 (m_DescriptorCursor pool + 1))
                            (uint32 (m_MemoryCursor pool + m_BlockSize pool))]>
              (m_MemoryPools sb))
           (m_FrameIndex sb)),
   emit (EvRecord (SetGraphicsRootConstantBufferView buffer_index
           (gpu_add (GetGPUVirtualAddress (m_MemoryHeap pool0)) (m_MemoryCursor pool)))) w).
Proof.
  intros Hlt Hp Hp0 Hnn. unfold AllocateConstantBuffer.
  destruct (size <? MAXB) eqn:E; [|lia]. cbn [negb].
  rewrite Hp, Hp0. unfold bind. rewrite (deref_nonnull _ _ Hnn). reflexivity.
Qed.

End AllocatorProofs.

Lemma for_loop_Done_inv {St} (P : nat -> St -> Prop) (body : nat -> St -> M St) :
  (forall j s w s1 w1, body j s w = (Done s1, w1) -> P j s -> P (S j) s1) ->
  forall n i s w s' w',
    P i s -> for_loop n i body s w = (Done s', w') -> P (n + i)%nat s'.
Proof.
  intros Hbody. induction n as [|n IH]; intros i s w s' w' HP Hrun; cbn in Hrun.
  - inversion Hrun; subst. exact HP.
  - apply bind_Done_inv in Hrun as (s1 & w1 & Hb & Hrest).
    replace (S n + i)%nat with (n + S i)%nat by lia.
    eapply IH; [|exact Hrest]. eauto.
Qed.

Lemma Initialize_pool_cursors K dev verify frame i w p w' :
  Initialize_pool K dev verify frame i w = (Done p, w') ->
  m_MemoryCursor p = 0 /\ m_DescriptorCursor p = 0.
Proof.
  unfold Initialize_pool. intros H.
  repeat (apply bind_Done_inv in H as (? & ? & _ & H);
          try match type of H with (let (_, _) := ?x in _) _ = _ => destruct x end).
  inversion H; subst. cbn. auto.
Qed.

Lemma Initialize_cursors K dev verify frame w sb w' :
  Initialize K dev verify frame w = (Done sb, w') ->
  forall p, p ∈ m_MemoryPools sb -> m_MemoryCursor p = 0 /\ m_DescriptorCursor p = 0.
Proof.
  unfold Initialize. intros H.
  apply bind_Done_inv in H as (pools & w1 & Hloop & H). inversion H; subst. cbn.
  eapply (for_loop_Done_inv
            (fun _ pools => forall p, p ∈ pools ->
                                      m_MemoryCursor p = 0 /\ m_DescriptorCursor p = 0));
    [| |exact Hloop].
  - intros j s w0 s1 w2 Hb Hs p Hin.
    apply bind_Done_inv in Hb as (q & w3 & Hq & Hb). inversion Hb; subst.
    apply elem_of_app in Hin as [Hin|Hin]; [auto|].
    apply list_elem_of_singleton in Hin. subst.
    eapply Initialize_pool_cursors; eauto.
  - intros p Hin. apply elem_of_nil in Hin. contradiction.
Qed.

Lemma Reset_cursors sb p :
  p ∈ m_MemoryPools (Reset sb) -> m_MemoryCursor p = 0 /\ m_DescriptorCursor p = 0.
Proof.
  unfold Reset. cbn. intros Hin.
  apply list_elem_of_fmap in Hin as (q & -> & _). cbn. auto.
Qed.

Lemma Reset_fixes_zero_cursors sb :
  (forall p, p ∈ m_MemoryPools sb -> m_MemoryCursor p = 0 /\ m_DescriptorCursor p = 0) ->
  Reset sb = sb.
Proof.
  destruct sb as [pools fi]. unfold Reset. cbn. intros H. f_equal.
  induction pools as [|p rest IH]; [reflexivity|].
  cbn. f_equal.
  - destruct (H p) as [Hm Hd]; [left|]. destruct p; cbn in *. subst. reflexivity.
  - apply IH. intros q Hq. apply H. right. exact Hq.
Qed.

Lemma Reset_insert_cursors pools fi i pool a b :
  pools !! i = Some pool ->
  Reset (mkScratchBuffer (<[i := set_cursors pool a b]> pools) fi)
  = Reset (mkScratchBuffer pools fi).
Proof.
  intros Hp. unfold Reset. cbn. f_equal.
  rewrite list_fmap_insert. cbn.
  apply list_insert_id. rewrite list_lookup_fmap, Hp. reflexivity.
Qed.

Lemma AllocateConstantBuffer_Done_inv K sb buffer_index size w p sb' w' :
  AllocateConstantBuffer K sb buffer_index size w = (Done (p, sb'), w') ->
  exists pool a b,
    m_MemoryPools sb !! Z.to_nat (size / BLOCK_STEP_SIZE K) = Some pool
    /\ p = ptr_add (m_MappedDataPtr pool) (m_MemoryCursor pool)
    /\ sb' = mkScratchBuffer
               (<[Z.to_nat (size / BLOCK_STEP_SIZE K) := set_cursors pool a b]>
                  (m_MemoryPools sb)) (m_FrameIndex sb).
Proof.
  unfold AllocateConstantBuffer. intros H.
  destruct (negb (size <? MAX_BLOCK_SIZE K)); [discriminate|].
  destruct (m_MemoryPools sb !! Z.to_nat (size / BLOCK_STEP_SIZE K)) as [pool|];
    [|discriminate].
  destruct (m_MemoryPools sb !! 0%nat) as [pool0|]; [|discriminate].
  apply bind_Done_inv in H as (? & ? & _ & H).
  apply bind_Done_inv in H as (? & ? & _ & H).
  inversion H; subst. do 3 eexists. repeat split; reflexivity.
Qed.

Lemma AllocateTexture2D_Done_inv sb desc_size texture ti so si w sb' w' :
  AllocateTexture2D sb desc_size texture ti so si w = (Done sb', w') ->
  exists pool0 a b,
    m_MemoryPools sb !! 0%nat = Some pool0
    /\ sb' = mkScratchBuffer (<[0%nat := set_cursors pool0 a b]> (m_MemoryPools sb))
                             (m_FrameIndex sb).
Proof.
  unfold AllocateTexture2D. intros H.
  destruct (m_MemoryPools sb !! 0%nat) as [pool0|]; [|discriminate].
  repeat (apply bind_Done_inv in H as (? & ? & _ & H)).
  inversion H; subst. do 3 eexists. repeat split; reflexivity.
Qed.

Lemma run_allocs_Reset K ops : forall sb w sb' w',
  run_allocs K ops sb w = (Done sb', w') -> Reset sb' = Reset sb.
Proof.
  induction ops as [|op ops IH]; intros sb w sb' w' H; cbn in H.
  - inversion H; reflexivity.
  - destruct op.
    + apply bind_Done_inv in H as ([p sb1] & w1 & Ha & H).
      apply IH in H. rewrite H.
      apply AllocateConstantBuffer_Done_inv in Ha as (pool & a & b & Hp & _ & ->).
      destruct sb. apply Reset_insert_cursors. exact Hp.
    + apply bind_Done_inv in H as (sb1 & w1 & Ha & H).
      apply IH in H. rewrite H.
      apply AllocateTexture2D_Done_inv in Ha as (pool & a & b & Hp & ->).
      destruct sb. apply Reset_insert_cursors. exact Hp.
Qed.

(** ** Well-formed scratch buffers are the ones the adapter builds *)

Lemma for_loop_Done_inv_w {St} (P : nat -> St -> World -> Prop)
      (body : nat -> St -> M St) (N : nat) :
  (forall j s w s1 w1,
      (j < N)%nat -> body j s w = (Done s1, w1) -> P j s w -> P (S j) s1 w1) ->
  forall n i s w s' w',
    (n + i <= N)%nat -> P i s w -> for_loop n i body s w = (Done s', w') ->
    P (n + i)%nat s' w'.
Proof.
  intros Hbody. induction n as [|n IH]; intros i s w s' w' Hle HP Hrun; cbn in Hrun.
  - inversion Hrun; subst. exact HP.
  - apply bind_Done_inv in Hrun as (s1 & w1 & Hb & Hrest).
    replace (S n + i)%nat with (n + S i)%nat by lia.
    eapply IH; [lia| |exact Hrest]. eapply Hbody; [|exact Hb|exact HP]. lia.
Qed.

Lemma create_Done_inv c w hr h w' :
  create c w = (Done (hr, h), w') ->
  w_trace w' = w_trace w ++ [EvCall c hr]
  /\ if FAILED hr then h = null /\ w_next w' = w_next w
     else h = w_next w /\ w_next w' = S (w_next w).
Proof.
  unfold create. destruct (FAILED (w_hr w (w_ncalls w) c)) eqn:E; intros H;
    inversion H; subst; rewrite E; cbn; auto.
Qed.

Lemma call_Done_inv c w hr w' :
  call c w = (Done hr, w') -> w_next w' = w_next w.
Proof. unfold call. intros H. inversion H; subst. reflexivity. Qed.

Lemma deref_loop_Done_inv n h1 h2 : forall i w u w',
  for_loop n i (fun _ _ => let* _ := deref h1 in deref h2) tt w = (Done u, w') -> w' = w.
Proof.
  induction n as [|n IH]; intros i w u w' H; cbn in H.
  - inversion H; reflexivity.
  - apply bind_Done_inv in H as ([] & w1 & Hb & H).
    apply bind_Done_inv in Hb as (? & w2 & H1 & H2).
    apply deref_Done_inv in H1 as [_ ->]. apply deref_Done_inv in H2 as [_ ->].
    eapply IH. exact H.
Qed.

(** With verified calls on, a pool that [Initialize] gets to build has
    two fresh objects behind it and a mapping of its memory heap. *)
Lemma Initialize_pool_verified K dev frame i w p w' :
  Initialize_pool K dev true frame i w = (Done p, w') ->
  p = mkPool (w_next w) (S (w_next w)) (mkPtr (S (w_next w)) 0)
             (uint32 ((Z.of_nat i + 1) * BLOCK_STEP_SIZE K)) 0 0
  /\ w_next w' = S (S (w_next w)).
Proof.
  unfold Initialize_pool. intros H.
  apply bind_Done_inv in H as (? & w1 & H1 & H). apply deref_Done_inv in H1 as [_ ->].
  apply bind_Done_inv in H as ([hr1 dh] & w2 & Hc1 & H).
  apply bind_Done_inv in H as (? & w3 & Hk1 & H).
  apply CHECK_HR_ERROR_Done_inv in Hk1 as [-> Hok1]. specialize (Hok1 eq_refl). subst hr1.
  apply create_Done_inv in Hc1 as [_ Hn1].
  apply bind_Done_inv in H as ([hr2 mh] & w4 & Hc2 & H).
  apply bind_Done_inv in H as (? & w5 & Hk2 & H).
  apply CHECK_HR_ERROR_Done_inv in Hk2 as [-> Hok2]. specialize (Hok2 eq_refl). subst hr2.
  apply create_Done_inv in Hc2 as [_ Hn2].
  apply bind_Done_inv in H as (? & w6 & Hl & H). apply deref_loop_Done_inv in Hl as ->.
  apply bind_Done_inv in H as (? & w7 & Hd & H). apply deref_Done_inv in Hd as [_ ->].
  apply bind_Done_inv in H as (hr3 & w8 & Hm & H).
  apply bind_Done_inv in H as (? & w9 & Hk3 & H).
  apply CHECK_HR_ERROR_Done_inv in Hk3 as [-> Hok3]. specialize (Hok3 eq_refl). subst hr3.
  apply call_Done_inv in Hm.
  inversion H; subst. cbn in *. destruct Hn1 as [-> Hn1], Hn2 as [-> Hn2].
  rewrite Hn1. split; [reflexivity|]. congruence.
Qed.

Lemma pools_ok_app K pools : forall i p,
  pools_ok K i (pools ++ [p]) = pools_ok K i pools && pool_ok K (i + length pools) p.
Proof.
  induction pools as [|q rest IH]; intros i p; cbn.
  - rewrite Nat.add_0_r, andb_true_r. reflexivity.
  - rewrite IH, Nat.add_succ_r, andb_assoc. reflexivity.
Qed.

Lemma pools_ok_insert K pools : forall i j p a b,
  pools !! j = Some p ->
  pools_ok K i (<[j := set_cursors p a b]> pools) = pools_ok K i pools.
Proof.
  induction pools as [|q rest IH]; intros i j p a b Hp; [discriminate|].
  destruct j as [|j]; cbn in *.
  - inversion Hp; subst. reflexivity.
  - f_equal. eauto.
Qed.

Lemma pools_ok_Reset K pools : forall i,
  pools_ok K i ((fun p => set_cursors p 0 0) <$> pools) = pools_ok K i pools.
Proof.
  induction pools as [|q rest IH]; intros i; cbn; [reflexivity|].
  rewrite IH. reflexivity.
Qed.

Section ScratchInvariant.
Variable K : Constants.
Hypothesis HK : constants_ok K.

(** [DX12ScratchBuffer::Initialize], run with verified calls on a
    platform that never hands out the null handle, returns a well-formed
    buffer whenever it returns. *)
Lemma Initialize_scratch_wf dev frame w sb w' :
  (0 < w_next w)%nat ->
  Initialize K dev true frame w = (Done sb, w') -> scratch_wf K sb.
Proof.
  intros Hpos H. unfold Initialize in H.
  apply bind_Done_inv in H as (pools & w1 & Hloop & H). inversion H; subst. clear H.
  destruct (constants_ok_facts K HK) as (Hs & Hm & Hmax & H32).
  set (N := Z.to_nat (MAX_BLOCK_SIZE K / BLOCK_STEP_SIZE K)) in *.
  assert (Hinv : length pools = (N + 0)%nat /\ pools_ok K 0 pools = true
                 /\ NoDup (m_MemoryHeap <$> pools)
                 /\ (forall h, h ∈ (m_MemoryHeap <$> pools) -> (h < w_next w')%nat)
                 /\ (0 < w_next w')%nat);
    [|destruct Hinv as (Hlen & Hok & Hnd & _ & _)].
  eapply (for_loop_Done_inv_w
    (fun j pools w =>
       length pools = j /\ pools_ok K 0 pools = true
       /\ NoDup (m_MemoryHeap <$> pools)
       /\ (forall h, h ∈ (m_MemoryHeap <$> pools) -> (h < w_next w)%nat)
       /\ (0 < w_next w)%nat) _ N); [| | |exact Hloop].
  - intros j s w0 s1 w2 Hj Hb (Hl & Hp & Hn & Hlt & Hw).
    apply bind_Done_inv in Hb as (q & w3 & Hq & Hb). inversion Hb; subst. clear Hb.
    apply Initialize_pool_verified in Hq as [-> Hnext].
    rewrite length_app, pools_ok_app, fmap_app, Hp. cbn.
    split; [lia|]. split.
    + unfold pool_ok, ptr_eqb, is_null, null. cbn.
      rewrite Nat.eqb_refl.
      replace (w_next w0 =? 0)%nat with false by (symmetry; apply Nat.eqb_neq; lia).
      cbn. rewrite !andb_true_r. apply Z.eqb_eq.
      unfold uint32. apply Z.mod_small.
      assert (Z.of_nat (length s) + 1 <= MAX_BLOCK_SIZE K / BLOCK_STEP_SIZE K).
      { subst N. assert (0 <= MAX_BLOCK_SIZE K / BLOCK_STEP_SIZE K)
          by (apply Z.div_pos; lia). lia. }
      assert (MAX_BLOCK_SIZE K = BLOCK_STEP_SIZE K * (MAX_BLOCK_SIZE K / BLOCK_STEP_SIZE K))
        by (apply Z.div_exact; lia).
      nia.
    + split; [|split].
      * apply NoDup_app. split; [exact Hn|]. split; [|apply NoDup_singleton].
        intros h Hin Hin'. apply list_elem_of_singleton in Hin'. subst.
        apply Hlt in Hin. lia.
      * intros h Hin. rewrite Hnext. apply elem_of_app in Hin as [Hin|Hin].
        -- apply Hlt in Hin. lia.
        -- apply list_elem_of_singleton in Hin. subst. lia.
      * lia.
  - lia.
  - cbn. repeat split; auto using NoDup_nil_2.
    intros h Hin. apply elem_of_nil in Hin. contradiction.
  - unfold scratch_wf. cbn. rewrite Nat.add_0_r in Hlen.
    rewrite Hlen, Nat.eqb_refl, Hok. cbn. apply bool_decide_eq_true. exact Hnd.
Qed.

(** The allocator only moves cursors, which well-formedness does not
    look at. *)
Lemma scratch_wf_insert_cursors sb i pool a b :
  scratch_wf K sb -> m_MemoryPools sb !! i = Some pool ->
  scratch_wf K (mkScratchBuffer (<[i := set_cursors pool a b]> (m_MemoryPools sb))
                                (m_FrameIndex sb)).
Proof.
  unfold scratch_wf. cbn. intros Hwf Hp.
  rewrite length_insert, pools_ok_insert by exact Hp.
  rewrite list_fmap_insert. cbn.
  rewrite list_insert_id by (rewrite list_lookup_fmap, Hp; reflexivity).
  exact Hwf.
Qed.

Lemma AllocateConstantBuffer_scratch_wf sb buffer_index size w p sb' w' :
  scratch_wf K sb ->
  AllocateConstantBuffer K sb buffer_index size w = (Done (p, sb'), w') ->
  scratch_wf K sb'.
Proof.
  intros Hwf H.
  apply AllocateConstantBuffer_Done_inv in H as (pool & a & b & Hp & _ & ->).
  apply scratch_wf_insert_cursors; assumption.
Qed.

Lemma AllocateTexture2D_scratch_wf sb desc_size texture ti so si w sb' w' :
  scratch_wf K sb ->
  AllocateTexture2D sb desc_size texture ti so si w = (Done sb', w') ->
  scratch_wf K sb'.
Proof.
  intros Hwf H.
  apply AllocateTexture2D_Done_inv in H as (pool & a & b & Hp & ->).
  apply scratch_wf_insert_cursors; assumption.
Qed.

Lemma Reset_scratch_wf sb : scratch_wf K sb -> scratch_wf K (Reset sb).
Proof.
  unfold scratch_wf, Reset. cbn. intros Hwf.
  rewrite length_fmap, pools_ok_Reset, <- list_fmap_compose.
  exact Hwf.
Qed.

End ScratchInvariant.

Lemma run_allocs_scratch_wf K ops : forall sb w sb' w',
  scratch_wf K sb -> run_allocs K ops sb w = (Done sb', w') -> scratch_wf K sb'.
Proof.
  induction ops as [|op ops IH]; intros sb w sb' w' Hwf H; cbn in H.
  - inversion H; subst. exact Hwf.
  - destruct op.
    + apply bind_Done_inv in H as ([p sb1] & w1 & Ha & H).
      eapply IH; [|exact H]. eapply AllocateConstantBuffer_scratch_wf; eauto.
    + apply bind_Done_inv in H as (sb1 & w1 & Ha & H).
      eapply IH; [|exact H]. eapply AllocateTexture2D_scratch_wf; eauto.
Qed.

Section AllocatorClaims.
Variable K : Constants.

Local Abbreviation STEP := (BLOCK_STEP_SIZE K).
Local Abbreviation MAXB := (MAX_BLOCK_SIZE K).

(** C5, as amended. For every request strictly below the maximum block
    size, [AllocateConstantBuffer] takes the pool at index
    [size / BLOCK_STEP_SIZE], whose block size is the smallest size
    class strictly greater than the request; it returns the pool's
    mapped pointer advanced by the pool's byte cursor and moves that
    cursor on by the pool's block size, not by the request. *)
Theorem AllocateConstantBuffer_size_class sb buffer_index size w :
  constants_ok K -> scratch_wf K sb -> 0 <= size < MAXB ->
  exists pool pool0,
    m_MemoryPools sb !! Z.to_nat (size / STEP) = Some pool
    /\ m_MemoryPools sb !! 0%nat = Some pool0
    /\ m_BlockSize pool = size_class K (Z.to_nat (size / STEP))
    /\ size < m_BlockSize pool
    /\ (forall k, size < size_class K k -> m_BlockSize pool <= size_class K k)
    /\ AllocateConstantBuffer K sb buffer_index size w =
       (Done (ptr_add (m_MappedDataPtr pool) (m_MemoryCursor pool),
              mkScratchBuffer
                (<[Z.to_nat (size / STEP) :=
                     set_cursors pool (uint32 (m_DescriptorCursor pool + 1))
                                 (uint32 (m_MemoryCursor pool + m_BlockSize pool))]>
                   (m_MemoryPools sb))
                (m_FrameIndex sb)),
        emit (EvRecord (SetGraphicsRootConstantBufferView buffer_index
                (gpu_add (GetGPUVirtualAddress (m_MemoryHeap pool0))
                         (m_MemoryCursor pool)))) w).
Proof.
  intros HK Hwf Hsz.
  destruct (constants_ok_facts K HK) as (Hs & Hm & Hmax & _).
  pose proof (pool_index_lt K HK size Hsz) as Hi.
  destruct (scratch_wf_lookup K sb _ Hwf Hi) as (pool & Hp & Hb & _ & _ & _).
  assert (H0 : (0 < Z.to_nat (MAXB / STEP))%nat) by lia.
  destruct (scratch_wf_lookup K sb _ Hwf H0) as (pool0 & Hp0 & _ & Hnn & _ & _).

  assert (Hq : 0 <= size / STEP) by (apply Z.div_pos; lia).
  exists pool, pool0. split; [exact Hp|]. split; [exact Hp0|].
  unfold size_class.
  split; [exact Hb|]. rewrite Z2Nat.id in Hb by lia.
  split.
  { rewrite Hb. pose proof (Z.mod_pos_bound size STEP Hs).
    pose proof (Z.div_mod size STEP). nia. }
  split.
  { intros k Hk. rewrite Hb.
    assert (size / STEP < Z.of_nat k + 1).
    { apply Z.div_lt_upper_bound; lia. }
    nia. }
  apply AllocateConstantBuffer_eval; auto. lia.
Qed.

(** C6. With [0 <= size], [AllocateConstantBuffer] gets past its
    assertion and returns exactly when [size < MAX_BLOCK_SIZE]: a
    request of [MAX_BLOCK_SIZE - 1] returns, a request of
    [MAX_BLOCK_SIZE] or more ends in the failed assertion. *)
Theorem AllocateConstantBuffer_precondition sb buffer_index size w :
  constants_ok K -> scratch_wf K sb -> 0 <= size ->
  (is_done (fst (AllocateConstantBuffer K sb buffer_index size w)) = true <-> size < MAXB)
  /\ (MAXB <= size ->
      fst (AllocateConstantBuffer K sb buffer_index size w) = AssertFailed)
  /\ is_done (fst (AllocateConstantBuffer K sb buffer_index (MAXB - 1) w)) = true.
Proof.
  intros HK Hwf Hsz.
  destruct (constants_ok_facts K HK) as (Hs & Hm & Hmax & _).
  assert (Hge : MAXB <= size ->
                fst (AllocateConstantBuffer K sb buffer_index size w) = AssertFailed).
  { intros Hle. unfold AllocateConstantBuffer.
    destruct (size <? MAXB) eqn:E; [lia|]. reflexivity. }
  assert (Hlt : forall s, 0 <= s < MAXB ->
                is_done (fst (AllocateConstantBuffer K sb buffer_index s w)) = true).
  { intros s Hs'.
    pose proof (pool_index_lt K HK s Hs') as Hi.
    destruct (scratch_wf_lookup K sb _ Hwf Hi) as (pool & Hp & _).
    assert (H0 : (0 < Z.to_nat (MAXB / STEP))%nat) by lia.
    destruct (scratch_wf_lookup K sb _ Hwf H0) as (pool0 & Hp0 & _ & Hnn & _).
    rewrite (AllocateConstantBuffer_eval K sb buffer_index s w pool pool0)
      by (auto; lia).
    reflexivity. }
  split; [split|split].
  - intros Hd. destruct (Z.lt_ge_cases size MAXB) as [|Hle]; [assumption|].
    rewrite (Hge Hle) in Hd. discriminate.
  - intros Hl. apply Hlt. lia.
  - exact Hge.
  - apply Hlt. lia.
Qed.

(** C8. After [Reset] every pool's byte cursor and descriptor cursor is
    zero, whatever was allocated before; the buffer is again the
    freshly initialised one, so an allocation of any size made right
    after [Reset] returns what it returns on the fresh buffer: the
    start of its pool's mapping, relative offset zero. *)
Theorem Reset_restores_fresh_offsets dev verify frame w0 sb0 w0' ops w1 sb w1' :
  Initialize K dev verify frame w0 = (Done sb0, w0') ->
  run_allocs K ops sb0 w1 = (Done sb, w1') ->
  (forall p, p ∈ m_MemoryPools (Reset sb) ->
             m_MemoryCursor p = 0 /\ m_DescriptorCursor p = 0)
  /\ Reset sb = sb0
  /\ (forall buffer_index size w,
        AllocateConstantBuffer K (Reset sb) buffer_index size w
        = AllocateConstantBuffer K sb0 buffer_index size w)
  /\ (forall buffer_index size w p sb' w',
        AllocateConstantBuffer K (Reset sb) buffer_index size w = (Done (p, sb'), w') ->
        exists pool,
          m_MemoryPools sb0 !! Z.to_nat (size / STEP) = Some pool
          /\ p = ptr_add (m_MappedDataPtr pool) 0).
Proof.
  intros Hinit Hrun.
  assert (Hfresh : Reset sb = sb0).
  { rewrite (run_allocs_Reset K ops _ _ _ _ Hrun).
    apply Reset_fixes_zero_cursors. eapply Initialize_cursors; eauto. }
  split; [apply Reset_cursors|]. split; [exact Hfresh|].
  rewrite Hfresh. split; [reflexivity|].
  intros buffer_index size w p sb' w' Ha.
  apply AllocateConstantBuffer_Done_inv in Ha as (pool & a & b & Hp & -> & _).
  exists pool. split; [exact Hp|].
  destruct (Initialize_cursors K _ _ _ _ _ _ Hinit pool) as [-> _]; [|reflexivity].
  eapply list_elem_of_lookup_2; eauto.
Qed.

(** C10. The constant-buffer view [AllocateConstantBuffer] binds is at
    pool 0's GPU base address plus the selected pool's byte cursor,
    while the pointer it returns lies in the selected pool's mapping at
    that cursor; the two are the same bytes exactly when the request
    falls in pool 0. [AllocateTexture2D] writes its shader-resource
    view into pool 0's descriptor heap, at pool 0's descriptor cursor,
    and takes no size. *)
Theorem constant_buffer_view_is_bound_in_pool0 sb buffer_index size w :
  constants_ok K -> scratch_wf K sb -> 0 <= size < MAXB ->
  exists pool pool0,
    m_MemoryPools sb !! Z.to_nat (size / STEP) = Some pool
    /\ m_MemoryPools sb !! 0%nat = Some pool0
    /\ (exists p sb',
          AllocateConstantBuffer K sb buffer_index size w =
          (Done (p, sb'),
           emit (EvRecord (SetGraphicsRootConstantBufferView buffer_index
                   (mkGpuAddr (m_MemoryHeap pool0) (m_MemoryCursor pool)))) w)
          /\ p = mkPtr (m_MemoryHeap pool) (m_MemoryCursor pool)
          /\ (same_region p (mkGpuAddr (m_MemoryHeap pool0) (m_MemoryCursor pool))
              <-> size < STEP))
    /\ (forall desc_size texture texture_index sampler_offset sampler_index w1,
          AllocateTexture2D sb desc_size texture texture_index
                            sampler_offset sampler_index w1 =
          (Done (mkScratchBuffer
                   (<[0%nat := set_cursors pool0 (uint32 (m_DescriptorCursor pool0 + 1))
                                           (m_MemoryCursor pool0)]> (m_MemoryPools sb))
                   (m_FrameIndex sb)),
           emits [EvCreateSRV (m_DescriptorHeap pool0) (m_DescriptorCursor pool0) texture;
                  EvRecord (SetGraphicsRootDescriptorTable_Texture texture_index
                              (m_DescriptorHeap pool0)
                              (uint32 (desc_size * m_DescriptorCursor pool0)));
                  EvRecord (SetGraphicsRootDescriptorTable_Sampler
                              sampler_index sampler_offset)] w1)).
Proof.
  intros HK Hwf Hsz.
  destruct (constants_ok_facts K HK) as (Hs & Hm & Hmax & _).
  pose proof (pool_index_lt K HK size Hsz) as Hi.
  destruct (scratch_wf_lookup K sb _ Hwf Hi) as (pool & Hp & Hb & _ & _ & Hmap).
  assert (H0 : (0 < Z.to_nat (MAXB / STEP))%nat) by lia.
  destruct (scratch_wf_lookup K sb _ Hwf H0) as (pool0 & Hp0 & _ & Hnn & Hdn & _).
  exists pool, pool0. split; [exact Hp|]. split; [exact Hp0|]. split.
  - do 2 eexists. split; [|split].
    + rewrite (AllocateConstantBuffer_eval K sb buffer_index size w pool pool0)
        by (auto; lia).
      unfold gpu_add, GetGPUVirtualAddress. cbn. reflexivity.
    + rewrite Hmap. unfold ptr_add. cbn. reflexivity.
    + unfold same_region, ptr_add. rewrite Hmap. cbn.
      assert (Hq : 0 <= size / STEP) by (apply Z.div_pos; lia).
      split.
      * intros [Hres _].
        assert (Z.to_nat (size / STEP) = 0%nat)
          by (eapply scratch_wf_heaps_distinct; eauto).
        assert (size / STEP = 0) by lia.
        apply Z.div_small_iff in H1; lia.
      * intros Hlt.
        replace (Z.to_nat (size / STEP)) with 0%nat in Hp
          by (rewrite Z.div_small by lia; reflexivity).
        rewrite Hp0 in Hp. inversion Hp; subst. split; reflexivity.
  - intros. unfold AllocateTexture2D. rewrite Hp0. unfold bind.
    rewrite (deref_nonnull _ _ Hdn). cbn.
    unfold emit, emits. cbn. rewrite <- !app_assoc. reflexivity.
Qed.

End AllocatorClaims.

(** The constants and the scratch buffer of the concrete configuration
    meet the hypotheses above. *)
Lemma constants_ok_K0 : constants_ok K0.
Proof. vm_compute. reflexivity. Qed.

Lemma scratch_wf_scratch0 : scratch_wf K0 scratch0.
Proof. vm_compute. reflexivity. Qed.

(** C5 at 300 bytes: pool 1, whose blocks are 512 bytes. *)
Lemma AllocateConstantBuffer_size_class_witness :
  constants_ok K0 /\ scratch_wf K0 scratch0 /\ 0 <= 300 < MAX_BLOCK_SIZE K0
  /\ selected_block K0 scratch0 300 = Some 512
  /\ is_done (fst (AllocateConstantBuffer K0 scratch0 0 300 (world0 all_ok))) = true.
Proof.
  assert (H3 : 0 <= 300 < MAX_BLOCK_SIZE K0) by (cbn; lia).
  split; [exact constants_ok_K0|]. split; [exact scratch_wf_scratch0|].
  split; [exact H3|].
  destruct (AllocateConstantBuffer_size_class K0 scratch0 0 300 (world0 all_ok)
              constants_ok_K0 scratch_wf_scratch0 H3)
    as (pool & pool0 & Hp & _ & Hb & _ & _ & Hrun).
  split.
  - unfold selected_block. rewrite Hp. cbn. rewrite Hb. reflexivity.
  - rewrite Hrun. reflexivity.
Defined.

(** C5 as the specification words it does not hold: a request of exactly
    one step fits the 256-byte class, yet the pool taken is the one with
    512-byte blocks. *)
Lemma smallest_fitting_class_counterexample :
  selected_block K0 scratch0 256 = Some 512
  /\ is_done (fst (AllocateConstantBuffer K0 scratch0 0 256 (world0 all_ok))) = true
  /\ smallest_fitting_class K0 256 256
  /\ ~ smallest_fitting_class K0 256 512.
Proof.
  split; [vm_compute; reflexivity|]. split; [vm_compute; reflexivity|]. split.
  - split; [exists 0%nat; reflexivity|]. split; [unfold fits; lia|].
    intros k _. unfold size_class. cbn. lia.
  - intros (_ & _ & Hmin). specialize (Hmin 0%nat).
    unfold fits, size_class in Hmin. cbn in Hmin. lia.
Qed.

(** The same holds whatever the constants are, as soon as there are two
    pools: a request of exactly one step goes to the second. *)
Lemma exact_multiple_takes_next_class K sb :
  constants_ok K -> scratch_wf K sb -> 2 * BLOCK_STEP_SIZE K <= MAX_BLOCK_SIZE K ->
  selected_block K sb (BLOCK_STEP_SIZE K) = Some (2 * BLOCK_STEP_SIZE K)
  /\ ~ smallest_fitting_class K (BLOCK_STEP_SIZE K) (2 * BLOCK_STEP_SIZE K).
Proof.
  intros HK Hwf H2.
  destruct (constants_ok_facts K HK) as (Hs & Hm & Hmax & _).
  assert (Hsz : 0 <= BLOCK_STEP_SIZE K < MAX_BLOCK_SIZE K) by lia.
  pose proof (pool_index_lt K HK _ Hsz) as Hi.
  destruct (scratch_wf_lookup K sb _ Hwf Hi) as (pool & Hp & Hb & _).
  split.
  - unfold selected_block. rewrite Hp. cbn. rewrite Hb.
    rewrite Z_div_same_full by lia. reflexivity.
  - intros (_ & _ & Hmin). specialize (Hmin 0%nat).
    unfold fits, size_class in Hmin. cbn in Hmin. lia.
Qed.

(** C6 at the concrete constants: 1023 bytes pass, 1024 bytes do not. *)
Lemma AllocateConstantBuffer_precondition_witness :
  constants_ok K0 /\ scratch_wf K0 scratch0 /\ 0 <= 1024
  /\ fst (AllocateConstantBuffer K0 scratch0 0 1024 (world0 all_ok)) = AssertFailed
  /\ is_done (fst (AllocateConstantBuffer K0 scratch0 0 1023 (world0 all_ok))) = true.
Proof.
  assert (H3 : 0 <= 1024) by lia.
  split; [exact constants_ok_K0|]. split; [exact scratch_wf_scratch0|].
  split; [exact H3|].
  destruct (AllocateConstantBuffer_precondition K0 scratch0 0 1024 (world0 all_ok)
              constants_ok_K0 scratch_wf_scratch0 H3) as (_ & Hge & Hmax).
  split; [apply Hge; cbn; lia|exact Hmax].
Defined.

(** C8 after three allocations from the fresh buffer. *)
Lemma Reset_restores_fresh_offsets_witness :
  Initialize K0 1%nat true 0 (world0 all_ok) = (Done scratch0, world1)
  /\ run_allocs K0 ops0 scratch0 world1 = (Done scratch1, world2)
  /\ scratch1 <> scratch0
  /\ Reset scratch1 = scratch0.
Proof.
  assert (H0 : Initialize K0 1%nat true 0 (world0 all_ok) = (Done scratch0, world1))
    by (vm_compute; reflexivity).
  assert (H1 : run_allocs K0 ops0 scratch0 world1 = (Done scratch1, world2))
    by (vm_compute; reflexivity).
  split; [exact H0|]. split; [exact H1|]. split; [discriminate|].
  exact (proj1 (proj2 (Reset_restores_fresh_offsets K0 1%nat true 0%nat (world0 all_ok)
                         scratch0 world1 ops0 world1 scratch1 world2 H0 H1))).
Defined.

(** C10 at 300 bytes: the view is bound in pool 0's heap, the pointer
    returned lies in pool 1's. *)
Lemma constant_buffer_view_is_bound_in_pool0_witness :
  constants_ok K0 /\ scratch_wf K0 scratch0 /\ 0 <= 300 < MAX_BLOCK_SIZE K0
  /\ exists pool pool0,
       m_MemoryPools scratch0 !! 1%nat = Some pool
       /\ m_MemoryPools scratch0 !! 0%nat = Some pool0
       /\ m_MemoryHeap pool <> m_MemoryHeap pool0.
Proof.
  assert (H3 : 0 <= 300 < MAX_BLOCK_SIZE K0) by (cbn; lia).
  split; [exact constants_ok_K0|]. split; [exact scratch_wf_scratch0|].
  split; [exact H3|].
  destruct (constant_buffer_view_is_bound_in_pool0 K0 scratch0 0 300 (world0 all_ok)
              constants_ok_K0 scratch_wf_scratch0 H3)
    as (pool & pool0 & Hp & Hp0 & (p & sb' & _ & -> & Hiff) & _).
  exists pool, pool0. split; [exact Hp|]. split; [exact Hp0|].
  intros Heq. assert (300 < BLOCK_STEP_SIZE K0); [|cbn in *; lia].
  apply Hiff. split; [exact Heq|reflexivity].
Defined.

(** ** Frames *)

Lemma call_ok c w :
  calls_succeed w ->
  call c w = (Done S_OK,
              mkWorld (w_hr w) (S (w_ncalls w)) (w_next w)
                      (w_trace w ++ [EvCall c S_OK]) (w_queue w) (w_fence w)).
Proof. intros H. unfold call. rewrite H. reflexivity. Qed.

Lemma CHECK_HR_ERROR_ok v line w : CHECK_HR_ERROR v line S_OK w = (Done tt, w).
Proof. unfold CHECK_HR_ERROR. cbn. rewrite andb_false_r. reflexivity. Qed.

Lemma gpu_run_until_reaches f v q : forall fence q' fence',
  gpu_run_until f v q fence = Some (q', fence') -> v <= fence' f.
Proof.
  induction q as [|op q IH]; intros fence q' fence' H; cbn in H.
  - destruct (v <=? fence f) eqn:E; [|discriminate]. inversion H; subst. lia.
  - destruct (v <=? fence f) eqn:E.
    + inversion H; subst. lia.
    + eauto.
Qed.

Lemma gpu_run_until_signal f v q0 : forall fence,
  is_Some (gpu_run_until f v (q0 ++ [GpuSignal f v]) fence).
Proof.
  induction q0 as [|op q0 IH]; intros fence; cbn.
  - destruct (v <=? fence f); [eauto|].
    rewrite Nat.eqb_refl. rewrite Z.leb_refl. eauto.
  - destruct (v <=? fence f); [eauto|]. apply IH.
Qed.

Lemma gpu_retire_signal f v n : forall q0 fence q' fence',
  gpu_retire n (q0 ++ [GpuSignal f v]) fence = (q', fence') ->
  (exists q1, q' = q1 ++ [GpuSignal f v]) \/ fence' f = v.
Proof.
  induction n as [|n IH]; intros q0 fence q' fence' H; cbn in H.
  - inversion H; subst. left. eauto.
  - destruct q0 as [|op q0]; cbn in H.
    + destruct n; cbn in H; inversion H; subst; right; cbn;
        rewrite Nat.eqb_refl; reflexivity.
    + eauto.
Qed.

Lemma after_wait_facts w f v w1 :
  after_wait w f v = Some w1 ->
  v <= w_fence w1 f /\ w_hr w1 = w_hr w /\ w_next w1 = w_next w
  /\ w_trace w1 = w_trace w
                  ++ (if w_fence w f <? v
                      then [EvCall Fence_SetEventOnCompletion S_OK; EvWait f v] else []).
Proof.
  unfold after_wait. destruct (w_fence w f <? v) eqn:E.
  - destruct (gpu_run_until f v (w_queue w) (w_fence w)) as [[q fence]|] eqn:R;
      [|discriminate].
    intros H. inversion H; subst. cbn.
    apply gpu_run_until_reaches in R. auto.
  - intros H. inversion H; subst. rewrite app_nil_r. repeat split. lia.
Qed.

Lemma fence_reachable_after_wait w f v :
  fence_reachable w f v -> is_Some (after_wait w f v).
Proof.
  unfold fence_reachable, after_wait. intros [[q fence] H].
  destruct (w_fence w f <? v); [|eauto]. rewrite H. eauto.
Qed.

Lemma FlushResourcesToDestroy_eval fr w :
  FlushResourcesToDestroy fr w
  = (Done (set_ResourcesToDestroy fr []), emits (map EvRelease (m_ResourcesToDestroy fr)) w).
Proof.
  unfold FlushResourcesToDestroy.
  destruct (m_ResourcesToDestroy fr) as [|h l] eqn:E; cbn.
  - destruct fr, w; cbn in *; subst. unfold emits, ret. cbn. rewrite app_nil_r. reflexivity.
  - reflexivity.
Qed.

Lemma frame_ready_facts ctx s :
  frame_ready ctx s ->
  exists fr pool0,
    m_FrameResources ctx !! s = Some fr
    /\ m_MemoryPools (m_ScratchBuffer fr) !! 0%nat = Some pool0
    /\ is_null (m_SwapChain ctx) = false /\ is_null (m_CommandList ctx) = false
    /\ is_null (m_CommandQueue ctx) = false /\ is_null (m_RtvDescriptorHeap ctx) = false
    /\ is_null (m_Fence fr) = false /\ is_null (m_CommandAllocator fr) = false.
Proof.
  unfold frame_ready. destruct (m_FrameResources ctx !! s) as [fr|]; [|discriminate].
  intros H. repeat (apply andb_prop in H; destruct H as [H ?]).
  destruct (m_MemoryPools (m_ScratchBuffer fr)) as [|pool0 rest] eqn:E; [discriminate|].
  exists fr, pool0.
  repeat match goal with
         | H : negb ?b = true |- _ => apply negb_true_iff in H
         end.
  rewrite E. repeat split; auto.
Qed.

Lemma emits_nil w : emits [] w = w.
Proof. destruct w. unfold emits. cbn. rewrite app_nil_r. reflexivity. Qed.

Lemma emits_emits es1 es2 w : emits es2 (emits es1 w) = emits (es1 ++ es2) w.
Proof. unfold emits. cbn. rewrite app_assoc. reflexivity. Qed.

Lemma emit_emits e w : emit e w = emits [e] w.
Proof. reflexivity. Qed.

Lemma set_MainRenderTarget_id ctx : set_MainRenderTarget ctx (m_MainRenderTarget ctx) = ctx.
Proof. destruct ctx. reflexivity. Qed.

Lemma SyncronizeFrame_eval ctx s w fr w1 :
  is_null (m_SwapChain ctx) = false -> is_null (m_Fence fr) = false ->
  calls_succeed w ->
  m_FrameResources ctx !! s = Some fr ->
  after_wait w (m_Fence fr) (m_FenceValue fr) = Some w1 ->
  SyncronizeFrame ctx s w =
  (Done (set_frame (set_CurrentFrameIndex ctx s) s
           (set_FenceValue fr (uint64 (m_FenceValue fr + 1)))), w1).
Proof.
  intros Hsc Hf Hok Hfr Hw. unfold SyncronizeFrame.
  unfold bind at 1. rewrite (deref_nonnull _ _ Hsc).
  cbn [m_FrameResources set_CurrentFrameIndex]. rewrite Hfr.
  unfold bind at 1. rewrite (deref_nonnull _ _ Hf).
  unfold bind at 1. unfold GetCompletedValue at 1.
  unfold after_wait in Hw.
  unfold bind at 1.
  destruct (w_fence w (m_Fence fr) <? m_FenceValue fr) eqn:E.
  - unfold bind at 1. rewrite (call_ok _ _ Hok).
    unfold bind at 1. rewrite CHECK_HR_ERROR_ok.
    unfold WaitForSingleObject.
    cbn [FAILED S_OK negb w_queue w_fence w_hr w_ncalls w_next w_trace].
    change (negb (0 <? 0)) with true. cbn iota.
    destruct (gpu_run_until (m_Fence fr) (m_FenceValue fr) (w_queue w) (w_fence w))
      as [[q fence]|]; [|discriminate].
    inversion Hw; subst. rewrite <- app_assoc. reflexivity.
  - inversion Hw; subst. reflexivity.
Qed.

Section FrameProofs.
Variable K : Constants.

Lemma BeginRenderPass_spec ctx w :
  is_null (m_CommandList ctx) = false -> is_null (m_RtvDescriptorHeap ctx) = false ->
  exists rt recorded,
    BeginRenderPass K ctx w
    = (Done (set_MainRenderTarget ctx rt), emits (map EvRecord recorded) w)
    /\ rt_IsBound rt = true.
Proof.
  intros Hcl Hrtv. unfold BeginRenderPass.
  destruct (rt_IsBound (m_MainRenderTarget ctx)) eqn:Hb.
  - exists (m_MainRenderTarget ctx), []. cbn.
    rewrite set_MainRenderTarget_id, emits_nil. auto.
  - destruct (rt_Id (m_MainRenderTarget ctx) =? DM_RENDERTARGET_BACKBUFFER_ID K).
    + eexists _, [_; _]. split.
      * unfold bind. rewrite !(deref_nonnull _ _ Hcl). cbn.
        rewrite (deref_nonnull _ _ Hrtv). rewrite !(deref_nonnull _ _ Hcl). cbn.
        unfold emit, emits. cbn. rewrite <- app_assoc. reflexivity.
      * reflexivity.
    + eexists _, [_]. split.
      * unfold bind. cbn.
        rewrite (deref_nonnull _ _ Hrtv). rewrite !(deref_nonnull _ _ Hcl). cbn.
        reflexivity.
      * reflexivity.
Qed.

Lemma EndRenderPass_spec ctx w :
  is_null (m_CommandList ctx) = false ->
  exists b rt recorded,
    EndRenderPass K ctx w
    = (Done (b, set_MainRenderTarget ctx rt), emits (map EvRecord recorded) w).
Proof.
  intros Hcl. unfold EndRenderPass.
  destruct (rt_IsBound (m_MainRenderTarget ctx)) eqn:Hb; cbn [negb].
  - destruct (rt_Id (m_MainRenderTarget ctx) =? DM_RENDERTARGET_BACKBUFFER_ID K).
    + eexists _, _, [_]. unfold bind. rewrite (deref_nonnull _ _ Hcl). cbn. reflexivity.
    + eexists _, _, []. unfold bind. cbn. rewrite emits_nil. reflexivity.
  - exists false, (m_MainRenderTarget ctx), []. cbn.
    rewrite set_MainRenderTarget_id, emits_nil. reflexivity.
Qed.

End FrameProofs.

(** Projections of updated contexts and frame slots. *)
Ltac simpl_ctx :=
  cbn [m_VerifyGraphicsCalls m_DebugInterface m_Device m_CommandQueue m_SwapChain
       m_SamplerPool m_RtvDescriptorHeap m_FenceEvent m_CommandList m_FrameResources
       m_CurrentFrameIndex m_FrameBegun m_MainRenderTarget m_PipelineState
       m_CurrentProgram m_CurrentVertexDeclaration m_PipelineCache
       set_FrameResources set_CurrentFrameIndex set_FrameBegun set_MainRenderTarget
       set_CurrentVertexDeclaration set_PipelineCache set_CurrentProgram set_frame
       m_RenderTarget_Resource m_CommandAllocator m_Fence m_FenceValue
       m_ResourcesToDestroy m_ScratchBuffer
       set_FenceValue set_ResourcesToDestroy set_ScratchBuffer
       rt_Resource rt_Id rt_Format rt_IsBound
       m_MemoryPools m_FrameIndex Reset
       w_hr w_ncalls w_next w_trace w_queue w_fence].

Section FrameSpecs.
Variable K : Constants.

Lemma DX12BeginFrame_spec ctx s w fr pool0 w1 :
  is_null (m_SwapChain ctx) = false -> is_null (m_CommandList ctx) = false ->
  is_null (m_RtvDescriptorHeap ctx) = false ->
  is_null (m_Fence fr) = false -> is_null (m_CommandAllocator fr) = false ->
  calls_succeed w ->
  m_FrameResources ctx !! s = Some fr ->
  m_MemoryPools (m_ScratchBuffer fr) !! 0%nat = Some pool0 ->
  after_wait w (m_Fence fr) (m_FenceValue fr) = Some w1 ->
  exists rt recorded,
    DX12BeginFrame K ctx s w =
    (Done (context_begun ctx s fr rt),
     mkWorld (w_hr w1) (S (S (w_ncalls w1))) (w_next w1)
       (w_trace w1 ++ [EvCall CommandAllocator_Reset S_OK]
          ++ map EvRelease (m_ResourcesToDestroy fr)
          ++ [EvCall CommandList_Reset S_OK; EvScratchReset s]
          ++ map EvRecord
               (SetDescriptorHeaps [m_SamplerPool ctx; m_DescriptorHeap pool0] :: recorded))
       (w_queue w1) (w_fence w1))
    /\ rt_IsBound rt = true.
Proof.
  intros Hsc Hcl Hrtv Hf Hca Hok Hfr Hp0 Hw.
  assert (Hok1 : calls_succeed w1).
  { destruct (after_wait_facts _ _ _ _ Hw) as (_ & Hhr & _). unfold calls_succeed.
    rewrite Hhr. exact Hok. }
  assert (Hlt : (s < length (m_FrameResources ctx))%nat)
    by (eapply lookup_lt_Some; eauto).
  unfold DX12BeginFrame. unfold bind at 1.
  rewrite (SyncronizeFrame_eval ctx s w fr w1) by auto.
  simpl_ctx. rewrite list_lookup_insert_eq by exact Hlt. simpl_ctx.
  unfold bind at 1. rewrite (deref_nonnull _ _ Hca).
  unfold bind at 1. rewrite (call_ok _ _ Hok1).
  unfold bind at 1. rewrite CHECK_HR_ERROR_ok.
  unfold bind at 1. rewrite FlushResourcesToDestroy_eval. simpl_ctx.
  unfold bind at 1. rewrite (deref_nonnull _ _ Hcl).
  unfold bind at 1. rewrite call_ok by (intros n c; cbn; apply Hok1).
  unfold bind at 1. rewrite CHECK_HR_ERROR_ok.
  unfold bind at 1. unfold tell at 1.
  rewrite list_lookup_fmap, Hp0. cbn [fmap option_fmap option_map].
  unfold bind at 1. unfold tell at 1.
  match goal with
  | |- context [BeginRenderPass K ?c ?w0] =>
      destruct (BeginRenderPass_spec K c w0) as (rt & recorded & Hbrp & Hbound);
      [exact Hcl|exact Hrtv|rewrite Hbrp]
  end.
  exists rt, recorded. split; [|exact Hbound].
  f_equal.
  - f_equal. unfold context_begun, frame_begun. destruct ctx.
    cbv beta iota delta
        [set_frame set_MainRenderTarget set_FrameBegun set_FrameResources
         set_CurrentFrameIndex m_VerifyGraphicsCalls m_DebugInterface m_Device
         m_CommandQueue m_SwapChain m_SamplerPool m_RtvDescriptorHeap m_FenceEvent
         m_CommandList m_FrameResources m_CurrentFrameIndex m_FrameBegun
         m_MainRenderTarget m_PipelineState m_CurrentProgram
         m_CurrentVertexDeclaration m_PipelineCache].
    rewrite list_insert_insert_eq. reflexivity.
  - unfold emit, emits. cbn. f_equal.
    rewrite <- !app_assoc. cbn. reflexivity.
Qed.

Lemma DX12Flip_spec ctx w fr :
  is_null (m_SwapChain ctx) = false -> is_null (m_CommandList ctx) = false ->
  is_null (m_CommandQueue ctx) = false ->
  calls_succeed w ->
  m_FrameResources ctx !! m_CurrentFrameIndex ctx = Some fr ->
  exists rt recorded,
    DX12Flip K ctx w =
    (Done (set_FrameBegun (set_MainRenderTarget ctx rt) false),
     mkWorld (w_hr w) (S (S (w_ncalls w))) (w_next w)
       (w_trace w ++ map EvRecord recorded
          ++ [EvSubmit; EvSignal (m_Fence fr) (m_FenceValue fr);
              EvCall CommandQueue_Signal S_OK; EvCall SwapChain_Present S_OK])
       (w_queue w ++ [GpuExecute; GpuSignal (m_Fence fr) (m_FenceValue fr)])
       (w_fence w)).
Proof.
  intros Hsc Hcl Hq Hok Hfr.
  unfold DX12Flip. unfold bind at 1.
  destruct (EndRenderPass_spec K ctx w Hcl) as (b & rt & recorded & Herp).
  rewrite Herp. simpl_ctx. rewrite Hfr.
  unfold bind at 1. rewrite (deref_nonnull _ _ Hcl).
  unfold bind at 1. rewrite (deref_nonnull _ _ Hq).
  unfold bind at 1. unfold tell at 1.
  unfold bind at 1.
  unfold bind at 1. unfold tell at 1.
  unfold bind at 1. rewrite call_ok by (intros n c; cbn; apply Hok).
  unfold bind at 1. change (FAILED S_OK) with false. cbn iota.
  unfold bind at 1. rewrite CHECK_HR_ERROR_ok.
  unfold bind at 1. rewrite (deref_nonnull _ _ Hsc).
  unfold bind at 1. rewrite call_ok by (intros n c; cbn; apply Hok).
  unfold bind at 1. rewrite CHECK_HR_ERROR_ok.
  exists rt, recorded. unfold ret. f_equal.
  unfold emit, emits, enqueue. cbn. f_equal.
  - rewrite <- !app_assoc. reflexivity.
  - rewrite <- !app_assoc. reflexivity.
Qed.

End FrameSpecs.

Lemma gpu_run_until_reached f v q fence :
  v <= fence f -> gpu_run_until f v q fence = Some (q, fence).
Proof.
  intros H. destruct q; cbn; destruct (v <=? fence f) eqn:E; try reflexivity; lia.
Qed.

Lemma gpu_advance_facts n w :
  w_hr (gpu_advance n w) = w_hr w /\ w_trace (gpu_advance n w) = w_trace w
  /\ w_ncalls (gpu_advance n w) = w_ncalls w /\ w_next (gpu_advance n w) = w_next w.
Proof.
  unfold gpu_advance. destruct (gpu_retire n (w_queue w) (w_fence w)). cbn. auto.
Qed.

Lemma fence_reachable_after_signal w q0 f v n :
  w_queue w = q0 ++ [GpuSignal f v] -> fence_reachable (gpu_advance n w) f v.
Proof.
  intros Hq. unfold fence_reachable, gpu_advance.
  destruct (gpu_retire n (w_queue w) (w_fence w)) as [q' fence'] eqn:R. cbn.
  rewrite Hq in R. apply gpu_retire_signal in R as [[q1 ->]|Hv].
  - apply gpu_run_until_signal.
  - rewrite gpu_run_until_reached by lia. eauto.
Qed.

Lemma uint64_succ v : 0 <= v < 2 ^ 64 - 1 -> uint64 (v + 1) = v + 1.
Proof. intros H. unfold uint64. apply Z.mod_small. lia. Qed.

Section FrameClaims.
Variable K : Constants.

(** C1, as amended. [DX12BeginFrame] on a frame slot first waits on the
    slot's fence when the fence's completed value is below the slot's
    recorded fence value, and does not wait otherwise. Only then, in
    this order: the command allocator is reset, the slot's pending
    resources are released, the command list is reset (which puts it in
    record mode), the slot's scratch buffer is reset, and the first
    command is recorded. When it returns the fence has reached the
    recorded value, the slot's fence value is that value plus one, its
    list of pending resources is empty, and every pool of its scratch
    buffer is the pool it was with both cursors at zero. [DX12Flip]
    signals the slot's fence with that incremented value, and it is that
    value the next [DX12BeginFrame] of the slot waits for, however far
    the GPU has got in between. *)
Theorem BeginFrame_waits_then_flushes_and_resets ctx s w fr :
  frame_ready ctx s -> calls_succeed w ->
  m_FrameResources ctx !! s = Some fr ->
  fence_reachable w (m_Fence fr) (m_FenceValue fr) ->
  let f := m_Fence fr in
  let v := m_FenceValue fr in
  let v' := uint64 (v + 1) in
  (0 <= v < 2 ^ 64 - 1 -> v' = v + 1)
  /\ exists ctx1 w1 recorded fr1,
      DX12BeginFrame K ctx s w = (Done ctx1, w1)
      /\ w_trace w1 =
         w_trace w
           ++ (if w_fence w f <? v
               then [EvCall Fence_SetEventOnCompletion S_OK; EvWait f v] else [])
           ++ [EvCall CommandAllocator_Reset S_OK]
           ++ map EvRelease (m_ResourcesToDestroy fr)
           ++ [EvCall CommandList_Reset S_OK; EvScratchReset s]
           ++ map EvRecord recorded
      /\ recorded <> []
      /\ v <= w_fence w1 f
      /\ m_FrameResources ctx1 !! s = Some fr1
      /\ m_Fence fr1 = f
      /\ m_FenceValue fr1 = v'
      /\ m_ResourcesToDestroy fr1 = []
      /\ m_MemoryPools (m_ScratchBuffer fr1)
         = (fun p => mkPool (m_DescriptorHeap p) (m_MemoryHeap p) (m_MappedDataPtr p)
                            (m_BlockSize p) 0 0)
             <$> m_MemoryPools (m_ScratchBuffer fr)
      /\ (forall p, p ∈ m_MemoryPools (m_ScratchBuffer fr1) ->
                    m_DescriptorCursor p = 0 /\ m_MemoryCursor p = 0)
      /\ exists ctx2 w2 recorded2,
          DX12Flip K ctx1 w1 = (Done ctx2, w2)
          /\ w_trace w2 =
             w_trace w1 ++ map EvRecord recorded2
               ++ [EvSubmit; EvSignal f v';
                   EvCall CommandQueue_Signal S_OK; EvCall SwapChain_Present S_OK]
          /\ w_queue w2 = w_queue w1 ++ [GpuExecute; GpuSignal f v']
          /\ m_FrameResources ctx2 !! s = Some fr1
          /\ forall n,
              let w2' := gpu_advance n w2 in
              exists ctx3 w3 recorded3,
                DX12BeginFrame K ctx2 s w2' = (Done ctx3, w3)
                /\ w_trace w3 =
                   w_trace w2
                     ++ (if w_fence w2' f <? v'
                         then [EvCall Fence_SetEventOnCompletion S_OK; EvWait f v']
                         else [])
                     ++ [EvCall CommandAllocator_Reset S_OK]
                     ++ [EvCall CommandList_Reset S_OK; EvScratchReset s]
                     ++ map EvRecord recorded3
                /\ v' <= w_fence w3 f.
Proof.
  intros Hready Hok Hfr Hreach f v v'.
  split; [apply uint64_succ|].
  destruct (frame_ready_facts ctx s Hready)
    as (fr0 & pool0 & Hfr0 & Hp0 & Hsc & Hcl & Hq & Hrtv & Hf & Hca).
  rewrite Hfr in Hfr0. inversion Hfr0; subst fr0. clear Hfr0.
  destruct (fence_reachable_after_wait _ _ _ Hreach) as [w1 Hw].
  destruct (after_wait_facts _ _ _ _ Hw) as (Hv & Hhr & Hnext & Htr).
  destruct (DX12BeginFrame_spec K ctx s w fr pool0 w1 Hsc Hcl Hrtv Hf Hca Hok Hfr Hp0 Hw)
    as (rt & recorded & Hbegin & Hbound).
  assert (Hlt : (s < length (m_FrameResources ctx))%nat)
    by (eapply lookup_lt_Some; eauto).
  assert (Hok1 : calls_succeed w1) by (unfold calls_succeed; rewrite Hhr; exact Hok).
  eexists _, _, _, (frame_begun fr). split; [exact Hbegin|]. simpl_ctx.
  split; [rewrite Htr, <- !app_assoc; reflexivity|].
  split; [discriminate|]. split; [exact Hv|].
  assert (Hfr1 : m_FrameResources (context_begun ctx s fr rt) !! s = Some (frame_begun fr)).
  { unfold context_begun. simpl_ctx. apply list_lookup_insert_eq. exact Hlt. }
  split; [exact Hfr1|]. split; [reflexivity|]. split; [reflexivity|].
  split; [reflexivity|]. split; [reflexivity|].
  split.
  { intros p Hp. unfold frame_begun in Hp. cbn [m_ScratchBuffer m_MemoryPools Reset] in Hp.
    apply list_elem_of_fmap in Hp as (p0 & Hp0e & _). subst p. split; reflexivity. }
  match type of Hbegin with _ = (_, ?w1') => set (wb := w1') in * end.
  assert (Hokb : calls_succeed wb) by (intros n c; apply Hok1).
  destruct (DX12Flip_spec K (context_begun ctx s fr rt) wb (frame_begun fr))
    as (rt2 & recorded2 & Hflip); auto.
  eexists _, _, recorded2. split; [exact Hflip|]. simpl_ctx.
  split; [reflexivity|]. split; [reflexivity|].
  split; [exact Hfr1|].
  intros n. cbv zeta.
  match type of Hflip with _ = (Done ?c2, ?w2') => set (ctx2 := c2) in *; set (w2 := w2') in * end.
  destruct (gpu_advance_facts n w2) as (Hhr2 & Htr2 & _ & _).
  assert (Hok2 : calls_succeed (gpu_advance n w2)).
  { unfold calls_succeed. rewrite Hhr2. intros; apply Hok1. }
  assert (Hreach2 : fence_reachable (gpu_advance n w2) f v').
  { apply (fence_reachable_after_signal w2 (w_queue w1 ++ [GpuExecute])).
    subst w2 wb. cbn. rewrite <- app_assoc. reflexivity. }
  destruct (fence_reachable_after_wait _ _ _ Hreach2) as [w3 Hw3].
  destruct (after_wait_facts _ _ _ _ Hw3) as (Hv3 & _ & _ & Htr3).
  assert (Hp0' : m_MemoryPools (m_ScratchBuffer (frame_begun fr)) !! 0%nat
                 = Some (set_cursors pool0 0 0)).
  { unfold frame_begun. simpl_ctx. rewrite list_lookup_fmap, Hp0. reflexivity. }
  destruct (DX12BeginFrame_spec K ctx2 s (gpu_advance n w2) (frame_begun fr)
              (set_cursors pool0 0 0) w3)
    as (rt3 & recorded3 & Hbegin3 & _); auto.
  eexists _, _, (_ :: recorded3). split; [exact Hbegin3|]. simpl_ctx.
  split; [|exact Hv3].
  rewrite Htr3, Htr2. unfold frame_begun. subst w2. simpl_ctx.
  rewrite <- !app_assoc. cbn [map app]. reflexivity.
Qed.

End FrameClaims.

(** ** Deferred destruction *)

Lemma DX12DeleteContext_eval ctx w :
  DX12DeleteContext ctx w = (Done tt, emits (pending_releases (m_FrameResources ctx)) w).
Proof.
  unfold DX12DeleteContext.
  assert (H : forall n i frs w0,
             (i + n = length frs)%nat ->
             exists frs',
               for_loop n i
                 (fun i frs =>
                    match frs !! i with
                    | Some fr => let* fr' := FlushResourcesToDestroy fr in
                                 ret (<[i := fr']> frs)
                    | None => fail_oob
                    end) frs w0
               = (Done frs', emits (pending_releases (drop i frs)) w0)).
  { induction n as [|n IH]; intros i frs w0 Hlen; cbn [for_loop].
    - exists frs. rewrite drop_ge by lia. cbn. rewrite emits_nil. reflexivity.
    - destruct (lookup_lt_is_Some_2 frs i) as [fr Hfr]; [lia|].
      unfold bind at 1. rewrite Hfr.
      unfold bind at 1. rewrite FlushResourcesToDestroy_eval. unfold ret at 1.
      destruct (IH (S i) (<[i := set_ResourcesToDestroy fr []]> frs)
                   (emits (map EvRelease (m_ResourcesToDestroy fr)) w0))
        as (frs' & Hrun).
      { rewrite length_insert. lia. }
      exists frs'. rewrite Hrun. f_equal.
      rewrite drop_insert_lt by lia.
      rewrite (drop_S frs fr i Hfr). unfold pending_releases. cbn [flat_map].
      rewrite emits_emits. reflexivity. }
  destruct (H (length (m_FrameResources ctx)) 0%nat (m_FrameResources ctx) w) as (frs' & Hrun);
    [lia|].
  unfold bind at 1. rewrite Hrun. reflexivity.
Qed.

Section DestructionClaims.
Variable K : Constants.

(** What holds of C2 on the way through [DX12BeginFrame]. A logical
    destruction of a resource whose handle is not null pushes the handle
    onto the frame slot's pending list once, nulls the handle and marks
    the resource destroyed; destroying it again, or destroying a null
    resource or one with a null handle, pushes nothing.
    [FlushResourcesToDestroy] releases the queued handles, each once and
    in order, and leaves the list empty. In [DX12BeginFrame] the slot's
    handles are released after the fence wait, when the fence has
    reached the slot's recorded value. *)
Theorem deferred_destruction_released_after_wait ctx s w fr :
  frame_ready ctx s -> calls_succeed w ->
  m_FrameResources ctx !! s = Some fr ->
  fence_reachable w (m_Fence fr) (m_FenceValue fr) ->
  let f := m_Fence fr in
  let v := m_FenceValue fr in
  (forall fr0 r,
      is_null (m_Resource r) = false ->
      let fr1 := set_ResourcesToDestroy fr0 (m_ResourcesToDestroy fr0 ++ [m_Resource r]) in
      let r1 := mkDeviceBuffer null true (m_DataSize r) in
      DestroyResourceDeferred fr0 (Some r) = (fr1, Some r1)
      /\ DestroyResourceDeferred fr1 (Some r1) = (fr1, Some r1))
  /\ (forall fr0 r, is_null (m_Resource r) = true ->
                    DestroyResourceDeferred fr0 (Some r) = (fr0, Some r))
  /\ (forall fr0, DestroyResourceDeferred fr0 None = (fr0, None))
  /\ (forall fr0 w0,
         FlushResourcesToDestroy fr0 w0
         = (Done (set_ResourcesToDestroy fr0 []),
            emits (map EvRelease (m_ResourcesToDestroy fr0)) w0))
  /\ (exists ctx1 w1 recorded,
         DX12BeginFrame K ctx s w = (Done ctx1, w1)
         /\ w_trace w1 =
            w_trace w
              ++ (if w_fence w f <? v
                  then [EvCall Fence_SetEventOnCompletion S_OK; EvWait f v] else [])
              ++ [EvCall CommandAllocator_Reset S_OK]
              ++ map EvRelease (m_ResourcesToDestroy fr)
              ++ [EvCall CommandList_Reset S_OK; EvScratchReset s]
              ++ map EvRecord recorded
         /\ v <= w_fence w1 f
         /\ exists fr1, m_FrameResources ctx1 !! s = Some fr1
                        /\ m_ResourcesToDestroy fr1 = []).
Proof.
  intros Hready Hok Hfr Hreach f v.
  split.
  { intros fr0 r Hnn fr1 r1. unfold DestroyResourceDeferred. rewrite Hnn. cbn.
    split; reflexivity. }
  split.
  { intros fr0 r Hn. unfold DestroyResourceDeferred. rewrite Hn. reflexivity. }
  split; [reflexivity|].
  split; [apply FlushResourcesToDestroy_eval|].
  destruct (frame_ready_facts ctx s Hready)
    as (fr0 & pool0 & Hfr0 & Hp0 & Hsc & Hcl & Hq & Hrtv & Hf & Hca).
  rewrite Hfr in Hfr0. inversion Hfr0; subst fr0. clear Hfr0.
  destruct (fence_reachable_after_wait _ _ _ Hreach) as [w1 Hw].
  destruct (after_wait_facts _ _ _ _ Hw) as (Hv & Hhr & Hnext & Htr).
  destruct (DX12BeginFrame_spec K ctx s w fr pool0 w1 Hsc Hcl Hrtv Hf Hca Hok Hfr Hp0 Hw)
    as (rt & recorded & Hbegin & Hbound).
  assert (Hlt : (s < length (m_FrameResources ctx))%nat)
    by (eapply lookup_lt_Some; eauto).
  eexists _, _, _. split; [exact Hbegin|]. simpl_ctx.
  split; [rewrite Htr, <- !app_assoc; reflexivity|].
  split; [exact Hv|].
  exists (frame_begun fr). split; [|reflexivity].
  unfold context_begun. simpl_ctx. apply list_lookup_insert_eq. exact Hlt.
Qed.

End DestructionClaims.

Lemma calls_succeed_world_init : calls_succeed world_init.
Proof. intros n c. reflexivity. Qed.

Lemma frame_ready_context0 : frame_ready context0 0.
Proof. vm_compute. reflexivity. Qed.

Lemma calls_succeed_world_used : calls_succeed world_used.
Proof. intros n c. reflexivity. Qed.

Lemma frame_ready_context_used : frame_ready context_used 0.
Proof. vm_compute. reflexivity. Qed.

(** The frame that [context_used] and [world_used] come from. *)
Lemma used_run_eq :
  (let* ctx := DX12BeginFrame K0 context0 0 in
   match m_FrameResources ctx !! 0%nat with
   | None => fail_oob
   | Some fr =>
       let* sb := run_allocs K0 ops0 (m_ScratchBuffer fr) in
       let ctx := set_frame ctx 0 (set_ScratchBuffer fr sb) in
       let* (ctx, _) := lift (DX12DeleteBuffer ctx (mkDeviceBuffer 100%nat false 64)) in
       DX12Flip K0 ctx
   end) world_init
  = (Done context_used, world_used).
Proof. vm_compute. reflexivity. Qed.

(** C1 on the second frame of slot 0, the first having made three
    allocations and deleted a buffer, with the GPU still to execute the
    first: the fence is at 0 below the recorded value 1, a buffer is
    pending and two pools have cursors that are not zero; the frame
    waits for the value 1 that [DX12Flip] signalled, releases the
    buffer after the wait and leaves every cursor at zero. *)
Lemma BeginFrame_waits_then_flushes_and_resets_witness :
  frame_ready context_used 0 /\ calls_succeed world_used
  /\ exists fr,
      m_FrameResources context_used !! 0%nat = Some fr
      /\ fence_reachable world_used (m_Fence fr) (m_FenceValue fr)
      /\ w_fence world_used (m_Fence fr) < m_FenceValue fr
      /\ m_ResourcesToDestroy fr = [100%nat]
      /\ m_MemoryCursor <$> m_MemoryPools (m_ScratchBuffer fr) = [256; 512; 0; 0]
      /\ m_DescriptorCursor <$> m_MemoryPools (m_ScratchBuffer fr) = [2; 1; 0; 0]
      /\ last (w_queue world_used) = Some (GpuSignal (m_Fence fr) (m_FenceValue fr))
      /\ exists ctx1 w1 recorded fr1,
          DX12BeginFrame K0 context_used 0 world_used = (Done ctx1, w1)
          /\ w_trace w1 =
             w_trace world_used
               ++ [EvCall Fence_SetEventOnCompletion S_OK;
                   EvWait (m_Fence fr) (m_FenceValue fr);
                   EvCall CommandAllocator_Reset S_OK;
                   EvRelease 100%nat;
                   EvCall CommandList_Reset S_OK; EvScratchReset 0]
               ++ map EvRecord recorded
          /\ recorded <> []
          /\ m_FrameResources ctx1 !! 0%nat = Some fr1
          /\ m_ResourcesToDestroy fr1 = []
          /\ m_MemoryCursor <$> m_MemoryPools (m_ScratchBuffer fr1) = [0; 0; 0; 0]
          /\ m_DescriptorCursor <$> m_MemoryPools (m_ScratchBuffer fr1) = [0; 0; 0; 0].
Proof.
  split; [exact frame_ready_context_used|]. split; [exact calls_succeed_world_used|].
  eexists. split; [reflexivity|].
  assert (Hreach : fence_reachable world_used 11%nat 1) by (vm_compute; eauto).
  split; [exact Hreach|].
  split; [reflexivity|]. split; [reflexivity|]. split; [reflexivity|].
  split; [reflexivity|]. split; [reflexivity|].
  destruct (BeginFrame_waits_then_flushes_and_resets K0 context_used 0 world_used _
              frame_ready_context_used calls_succeed_world_used eq_refl Hreach)
    as (_ & ctx1 & w1 & recorded & fr1 & Hbegin & Htr & Hrec & _ & Hfr1 & _ & _ & Hpend
        & Hpools & _).
  exists ctx1, w1, recorded, fr1.
  split; [exact Hbegin|]. split; [exact Htr|]. split; [exact Hrec|].
  split; [exact Hfr1|]. split; [exact Hpend|].
  rewrite Hpools. split; reflexivity.
Defined.

(** C1 as the specification words it does not hold: in the second frame
    of slot 0 the command list is reset, which puts it in record mode,
    before the scratch buffer is reset; the scratch reset comes between
    the start of recording and the first recorded command. *)
Lemma command_list_is_reset_before_the_scratch_buffer :
  DX12BeginFrame K0 context_used 0 world_used = begun_again
  /\ is_done (fst begun_again) = true
  /\ drop (length (w_trace world_used)) (w_trace (snd begun_again))
     = [EvCall Fence_SetEventOnCompletion S_OK;
        EvWait 11%nat 1;
        EvCall CommandAllocator_Reset S_OK;
        EvRelease 100%nat;
        EvCall CommandList_Reset S_OK;
        EvScratchReset 0;
        EvRecord (SetDescriptorHeaps [7%nat; 12%nat]);
        EvRecord (ResourceBarrier_PresentToRenderTarget 9%nat);
        EvRecord (OMSetRenderTargets 0)].
Proof. split; [vm_compute; reflexivity|]. split; reflexivity. Qed.

(** The positive part of C2 on that frame: the buffer deleted in the
    first frame of the slot is released after the wait for the value
    the first frame signalled. *)
Lemma deferred_destruction_released_after_wait_witness :
  frame_ready context_used 0 /\ calls_succeed world_used
  /\ exists fr,
      m_FrameResources context_used !! 0%nat = Some fr
      /\ fence_reachable world_used (m_Fence fr) (m_FenceValue fr)
      /\ m_ResourcesToDestroy fr = [100%nat]
      /\ exists ctx1 w1 fr1,
          DX12BeginFrame K0 context_used 0 world_used = (Done ctx1, w1)
          /\ m_FenceValue fr <= w_fence w1 (m_Fence fr)
          /\ m_FrameResources ctx1 !! 0%nat = Some fr1
          /\ m_ResourcesToDestroy fr1 = [].
Proof.
  split; [exact frame_ready_context_used|]. split; [exact calls_succeed_world_used|].
  eexists. split; [reflexivity|].
  assert (Hreach : fence_reachable world_used 11%nat 1) by (vm_compute; eauto).
  split; [exact Hreach|]. split; [reflexivity|].
  destruct (deferred_destruction_released_after_wait K0 context_used 0 world_used _
              frame_ready_context_used calls_succeed_world_used eq_refl Hreach)
    as (_ & _ & _ & _ & (ctx1 & w1 & _ & Hbegin & _ & Hv & fr1 & Hfr1 & Hempty)).
  exists ctx1, w1, fr1. auto.
Defined.

(** C2. The claim does not hold of shutdown: [DX12DeleteContext]
    releases the pending handles of every slot without a fence wait,
    whatever the GPU has completed. In the run [shutdown_run] a buffer
    is deleted during the first frame of slot 0 and the context is
    deleted after the frame's [DX12Flip]: the buffer is released last,
    no wait has been made at any point, and the fence of the slot,
    signalled with 1 by the frame, is still at 0, the GPU having
    executed neither the frame nor the signal. *)
Lemma DeleteContext_releases_without_wait :
  (forall ctx w,
      DX12DeleteContext ctx w = (Done tt, emits (pending_releases (m_FrameResources ctx)) w))
  /\ (let* ctx := DX12BeginFrame K0 context0 0 in
      let* (ctx, _) := lift (DX12DeleteBuffer ctx (mkDeviceBuffer 100%nat false 64)) in
      let* ctx := DX12Flip K0 ctx in
      DX12DeleteContext ctx) world_init = shutdown_run
  /\ fst shutdown_run = Done tt
  /\ last (w_trace (snd shutdown_run)) = Some (EvRelease 100%nat)
  /\ forallb (fun e => negb (is_EvWait e)) (w_trace (snd shutdown_run)) = true
  /\ w_queue (snd shutdown_run) = [GpuExecute; GpuSignal 11%nat 1]
  /\ w_fence (snd shutdown_run) 11%nat = 0.
Proof.
  split; [exact DX12DeleteContext_eval|]. split; [vm_compute; reflexivity|].
  vm_compute. repeat split; reflexivity.
Qed.

(** ** The pipeline cache *)

Lemma pure_ret {A} (a : A) : pure_m (ret a).
Proof. intros w. reflexivity. Qed.

Lemma pure_fail_assert {A} : pure_m (@fail_assert A).
Proof. intros w. reflexivity. Qed.

Lemma pure_fail_oob {A} : pure_m (@fail_oob A).
Proof. intros w. reflexivity. Qed.

Lemma pure_deref h : pure_m (deref h).
Proof. intros w. unfold deref. destruct (is_null h); reflexivity. Qed.

Lemma pure_bind {A B} (m : M A) (k : A -> M B) :
  pure_m m -> (forall a, pure_m (k a)) -> pure_m (bind m k).
Proof.
  intros Hm Hk w. unfold bind. specialize (Hm w).
  destruct (m w) as [[a| | | |] w1]; cbn in Hm; subst; try reflexivity.
  apply Hk.
Qed.

Lemma pure_for_loop {St} (body : nat -> St -> M St) :
  (forall j s, pure_m (body j s)) -> forall n i s, pure_m (for_loop n i body s).
Proof.
  intros Hb. induction n as [|n IH]; intros i s; cbn.
  - apply pure_ret.
  - apply pure_bind; auto.
Qed.

Lemma pure_GetDXGIFormat type size normalized : pure_m (GetDXGIFormat type size normalized).
Proof.
  intros w. unfold GetDXGIFormat.
  destruct type; repeat (destruct (size =? _)); reflexivity.
Qed.

Lemma pure_input_elements i vd : pure_m (input_elements i vd).
Proof.
  unfold input_elements. apply pure_for_loop. intros j s.
  destruct (m_Streams vd !! j); [|apply pure_fail_oob].
  apply pure_bind; [apply pure_GetDXGIFormat|]. intros; apply pure_ret.
Qed.

Lemma pure_Done_inv {A} (m : M A) w a w' : pure_m m -> m w = (Done a, w') -> w' = w.
Proof. intros Hm H. specialize (Hm w). rewrite H in Hm. exact Hm. Qed.

Lemma for_loop_ext {St} (b1 b2 : nat -> St -> M St) :
  (forall j s w, b1 j s w = b2 j s w) ->
  forall n i s w, for_loop n i b1 s w = for_loop n i b2 s w.
Proof.
  intros Hb. induction n as [|n IH]; intros i s w; cbn; [reflexivity|].
  unfold bind. rewrite Hb. destruct (b2 i s w) as [[s1| | | |] w1]; auto.
Qed.

Section PipelineProofs.
Variable K : Constants.
Variable dmHash : list Z -> Z.

Lemma CreatePipeline_Done_inv ctx rt w p w1 :
  CreatePipeline K ctx rt w = (Done p, w1) ->
  exists desc hr,
    w_trace w1 = w_trace w ++ [EvCall CreateGraphicsPipelineState hr; EvCreatePipeline desc p].
Proof.
  unfold CreatePipeline. intros H.
  destruct (m_CurrentProgram ctx) as [program|]; [|discriminate].
  destruct (m_VertexModule program) as [vm|]; [|discriminate].
  destruct (m_FragmentModule program) as [fm|]; [|discriminate].
  apply bind_Done_inv in H as (? & wa & Ha & H).
  apply deref_Done_inv in Ha as [_ ->].
  apply bind_Done_inv in H as (? & wb & Hb & H).
  apply deref_Done_inv in Hb as [_ ->].
  apply bind_Done_inv in H as (layout & wc & Hc & H).
  apply pure_Done_inv in Hc as ->.
  2:{ apply pure_for_loop. intros j s.
      destruct (m_CurrentVertexDeclaration ctx !! j) as [[vd|]|];
        [|apply pure_ret|apply pure_fail_oob].
      apply pure_bind; [apply pure_input_elements|]. intros; apply pure_ret. }
  apply bind_Done_inv in H as (? & wd & Hd & H).
  apply deref_Done_inv in Hd as [_ ->].
  apply bind_Done_inv in H as ([hr pso] & we & He & H).
  apply bind_Done_inv in H as (? & wf & Hf & H).
  apply bind_Done_inv in H as (? & wg & Hg & H).
  apply CHECK_HR_ERROR_Done_inv in Hg as [-> _].
  inversion H; subst. inversion Hf; subst. clear H Hf.
  eexists _, hr. unfold create in He.
  destruct (FAILED (w_hr w (w_ncalls w) CreateGraphicsPipelineState));
    inversion He; subst; cbn; rewrite <- app_assoc; reflexivity.
Qed.

(** What a lookup that returns did. *)
Lemma GetOrCreatePipeline_Done_inv ctx rt w slot pso ctx1 w1 :
  GetOrCreatePipeline K dmHash ctx rt w = (Done (slot, pso, ctx1), w1) ->
  exists program,
    m_CurrentProgram ctx = Some program
    /\ slot = pipeline_hash dmHash ctx rt program
    /\ pc_Entries (m_PipelineCache ctx1) !! slot = Some pso
    /\ ((pc_Entries (m_PipelineCache ctx) !! slot = Some pso /\ ctx1 = ctx /\ w1 = w)
        \/ (pc_Entries (m_PipelineCache ctx) !! slot = None
            /\ (exists capacity,
                   ctx1 = set_PipelineCache ctx
                            (mkPipelineCache
                               (<[slot := pso]> (pc_Entries (m_PipelineCache ctx)))
                               capacity))
            /\ exists desc hr,
                w_trace w1 = w_trace w ++ [EvCall CreateGraphicsPipelineState hr;
                                           EvCreatePipeline desc pso])).
Proof.
  unfold GetOrCreatePipeline. intros H.
  destruct (m_CurrentProgram ctx) as [program|]; [|discriminate].
  exists program. split; [reflexivity|].
  destruct (pc_Entries (m_PipelineCache ctx) !! pipeline_hash dmHash ctx rt program)
    as [cached|] eqn:Hget.
  - inversion H; subst. split; [reflexivity|]. split; [exact Hget|]. left. auto.
  - apply bind_Done_inv in H as (pc & wa & Hput & H).
    apply bind_Done_inv in H as (pipeline & wb & Hcreate & H).
    inversion H; subst. clear H.
    split; [reflexivity|]. simpl_ctx. cbn [pc_Entries].
    split; [apply lookup_insert_eq|]. right. split; [exact Hget|].
    assert (Hpc : pc_Entries pc
                  = <[pipeline_hash dmHash ctx rt program := null]>
                      (pc_Entries (m_PipelineCache ctx)) /\ wa = w).
    { unfold cache_Put in Hput.
      destruct (cache_Full (m_PipelineCache ctx)); cbn [pc_Entries pc_Capacity] in Hput;
        rewrite Hget in Hput;
        match type of Hput with
        | (if ?c then _ else _) _ = _ => destruct c; [discriminate|]
        end; inversion Hput; subst; auto. }
    destruct Hpc as [Hpc ->].
    split.
    + exists (pc_Capacity pc). rewrite Hpc, insert_insert_eq. reflexivity.
    + eapply CreatePipeline_Done_inv. exact Hcreate.
Qed.

(** A lookup in a context holding the entry is a hit. *)
Lemma GetOrCreatePipeline_hit ctx rt w program pso :
  m_CurrentProgram ctx = Some program ->
  pc_Entries (m_PipelineCache ctx) !! pipeline_hash dmHash ctx rt program = Some pso ->
  GetOrCreatePipeline K dmHash ctx rt w
  = (Done (pipeline_hash dmHash ctx rt program, pso, ctx), w).
Proof.
  intros Hp Hget. unfold GetOrCreatePipeline. rewrite Hp, Hget. reflexivity.
Qed.

(** A lookup never drops or replaces an entry. *)
Lemma GetOrCreatePipeline_keeps_entries ctx rt w slot pso ctx1 w1 :
  GetOrCreatePipeline K dmHash ctx rt w = (Done (slot, pso, ctx1), w1) ->
  forall k p, pc_Entries (m_PipelineCache ctx) !! k = Some p ->
              pc_Entries (m_PipelineCache ctx1) !! k = Some p.
Proof.
  intros H k p Hk.
  apply GetOrCreatePipeline_Done_inv in H
    as (program & _ & _ & _ & [(_ & -> & _)|(Hnone & (cap & ->) & _)]); [exact Hk|].
  simpl_ctx. cbn [pc_Entries].
  rewrite lookup_insert_ne; [exact Hk|]. intros <-. congruence.
Qed.

End PipelineProofs.

Section PipelineClaims.
Variable K : Constants.
Variable dmHash : list Z -> Z.

Lemma GetOrCreatePipeline_miss ctx rt w program p w1 :
  cache_wf (m_PipelineCache ctx) ->
  m_CurrentProgram ctx = Some program ->
  pc_Entries (m_PipelineCache ctx) !! pipeline_hash dmHash ctx rt program = None ->
  CreatePipeline K ctx rt w = (Done p, w1) ->
  exists capacity,
    GetOrCreatePipeline K dmHash ctx rt w
    = (Done (pipeline_hash dmHash ctx rt program, p,
             set_PipelineCache ctx
               (mkPipelineCache
                  (<[pipeline_hash dmHash ctx rt program := p]>
                     (pc_Entries (m_PipelineCache ctx))) capacity)), w1)
    /\ cache_wf (mkPipelineCache
                   (<[pipeline_hash dmHash ctx rt program := p]>
                      (pc_Entries (m_PipelineCache ctx))) capacity).
Proof.
  unfold cache_wf. intros Hwf Hp Hget Hcreate. unfold GetOrCreatePipeline.
  rewrite Hp, Hget.
  set (h := pipeline_hash dmHash ctx rt program) in *.
  set (pc := m_PipelineCache ctx) in *.
  assert (Hsize : size (<[h := p]> (pc_Entries pc)) = S (size (pc_Entries pc)))
    by (apply map_size_insert_None; exact Hget).
  unfold cache_Put.
  destruct (cache_Full pc) eqn:Hfull; cbn [pc_Entries pc_Capacity]; rewrite Hget;
    unfold cache_Full in *; cbn [pc_Entries pc_Capacity].
  - destruct (pc_Capacity pc + 4 <=? size (pc_Entries pc))%nat eqn:E.
    { apply Nat.leb_le in E. lia. }
    unfold bind, ret. rewrite Hcreate. cbn [pc_Entries pc_Capacity].
    rewrite insert_insert_eq. eexists. split; [reflexivity|]. cbn. lia.
  - rewrite Hfull. unfold bind, ret. rewrite Hcreate. cbn [pc_Entries pc_Capacity].
    rewrite insert_insert_eq. eexists. split; [reflexivity|]. cbn.
    apply Nat.leb_gt in Hfull. lia.
Qed.

(** C3. When [GetOrCreatePipeline] has returned a pipeline, calling it
    again with the same program, render target and pipeline state
    returns the same slot and the same pipeline object and does
    nothing else. Over the two calls the pipeline is created exactly
    once when the hash was not in the table, and not at all when it
    was. The table maps each hash to one object, and a call neither
    drops nor replaces the object of any hash already present. *)
Theorem GetOrCreatePipeline_twice ctx rt w slot pso ctx1 w1 :
  GetOrCreatePipeline K dmHash ctx rt w = (Done (slot, pso, ctx1), w1) ->
  GetOrCreatePipeline K dmHash ctx1 rt w1 = (Done (slot, pso, ctx1), w1)
  /\ (pc_Entries (m_PipelineCache ctx) !! slot = None ->
      exists desc hr,
        w_trace w1 = w_trace w ++ [EvCall CreateGraphicsPipelineState hr;
                                   EvCreatePipeline desc pso])
  /\ (is_Some (pc_Entries (m_PipelineCache ctx) !! slot) -> w1 = w /\ ctx1 = ctx)
  /\ pc_Entries (m_PipelineCache ctx1) !! slot = Some pso
  /\ (forall k p, pc_Entries (m_PipelineCache ctx) !! k = Some p ->
                  pc_Entries (m_PipelineCache ctx1) !! k = Some p)
  /\ (forall k, k <> slot ->
                pc_Entries (m_PipelineCache ctx1) !! k
                = pc_Entries (m_PipelineCache ctx) !! k).
Proof.
  intros H.
  pose proof (GetOrCreatePipeline_keeps_entries K dmHash _ _ _ _ _ _ _ H) as Hkeep.
  apply GetOrCreatePipeline_Done_inv in H as (program & Hp & -> & Hslot & Hcase).
  assert (Hkey : m_CurrentProgram ctx1 = Some program
                 /\ pipeline_hash dmHash ctx1 rt program
                    = pipeline_hash dmHash ctx rt program).
  { destruct Hcase as [(_ & -> & _)|(_ & (cap & ->) & _)]; auto. }
  destruct Hkey as [Hp1 Hh1].
  split.
  { rewrite <- Hh1. apply GetOrCreatePipeline_hit; [exact Hp1|].
    rewrite Hh1. exact Hslot. }
  split.
  { intros Hnone. destruct Hcase as [(Hsome & _)|(_ & _ & Htr)]; [congruence|exact Htr]. }
  split.
  { intros [p Hsome]. destruct Hcase as [(_ & -> & ->)|(Hnone & _)]; [auto|congruence]. }
  split; [exact Hslot|]. split; [exact Hkeep|].
  intros k Hk. destruct Hcase as [(_ & -> & _)|(_ & (cap & ->) & _)]; [reflexivity|].
  simpl_ctx. cbn [pc_Entries]. apply lookup_insert_ne. congruence.
Qed.

(** C4, as amended. Two lookups that agree in pipeline state, render
    target id and program root signature compute the same content
    hash, whatever the vertex declarations in force are: the second is
    a hit that returns the pipeline the first one left in the table,
    and creates nothing. Stride and step function do not reach the
    pipeline either: [CreatePipeline] builds the same pipeline from
    declarations that differ only in those two fields. *)
Theorem pipeline_hash_ignores_vertex_input ctx1 rt1 program1 ctx2 rt2 program2 :
  m_PipelineState ctx1 = m_PipelineState ctx2 ->
  rt_Id rt1 = rt_Id rt2 ->
  m_CurrentProgram ctx1 = Some program1 ->
  m_CurrentProgram ctx2 = Some program2 ->
  m_RootSignature program1 = m_RootSignature program2 ->
  pipeline_hash dmHash ctx1 rt1 program1 = pipeline_hash dmHash ctx2 rt2 program2
  /\ (forall w slot pso ctx1' w1,
         GetOrCreatePipeline K dmHash ctx1 rt1 w = (Done (slot, pso, ctx1'), w1) ->
         m_PipelineCache ctx2 = m_PipelineCache ctx1' ->
         forall w2,
           GetOrCreatePipeline K dmHash ctx2 rt2 w2 = (Done (slot, pso, ctx2), w2))
  /\ (forall ctx rt w,
         CreatePipeline K ctx rt w
         = CreatePipeline K
             (set_CurrentVertexDeclaration ctx
                (option_map forget_stride <$> m_CurrentVertexDeclaration ctx)) rt w).
Proof.
  intros Hstate Hrt Hp1 Hp2 Hsig.
  assert (Hhash : pipeline_hash dmHash ctx1 rt1 program1
                  = pipeline_hash dmHash ctx2 rt2 program2).
  { unfold pipeline_hash. rewrite Hstate, Hrt, Hsig. reflexivity. }
  split; [exact Hhash|]. split.
  - intros w slot pso ctx1' w1 H Hcache w2.
    apply GetOrCreatePipeline_Done_inv in H as (program & Hp & -> & Hslot & _).
    rewrite Hp1 in Hp. inversion Hp; subst program.
    rewrite Hhash. apply GetOrCreatePipeline_hit; [exact Hp2|].
    rewrite Hcache, <- Hhash. exact Hslot.
  - intros ctx rt w. unfold CreatePipeline. simpl_ctx.
    destruct (m_CurrentProgram ctx) as [program|]; [|reflexivity].
    destruct (m_VertexModule program) as [vm|]; [|reflexivity].
    destruct (m_FragmentModule program) as [fm|]; [|reflexivity].
    unfold bind at 1. unfold bind at 8.
    destruct (deref (m_ShaderBlob vm) w) as [[?| | | |] wa]; try reflexivity.
    unfold bind at 1. unfold bind at 7.
    destruct (deref (m_ShaderBlob fm) wa) as [[?| | | |] wb]; try reflexivity.
    unfold bind at 1. unfold bind at 6.
    rewrite (for_loop_ext
               (fun i layout =>
                  match m_CurrentVertexDeclaration ctx !! i with
                  | Some (Some vd) => let* elements := input_elements i vd in
                                      ret (layout ++ elements)
                  | Some None => ret layout
                  | None => fail_oob
                  end)
               (fun i layout =>
                  match (option_map forget_stride <$> m_CurrentVertexDeclaration ctx) !! i with
                  | Some (Some vd) => let* elements := input_elements i vd in
                                      ret (layout ++ elements)
                  | Some None => ret layout
                  | None => fail_oob
                  end)); [reflexivity|].
    intros j s w0. rewrite list_lookup_fmap.
    destruct (m_CurrentVertexDeclaration ctx !! j) as [[vd|]|]; reflexivity.
Qed.

End PipelineClaims.

(** C3 on the concrete program. *)
Lemma GetOrCreatePipeline_twice_witness :
  exists slot pso ctx1 w1,
    GetOrCreatePipeline K0 hash0 context_stride20 rt0 world_init = (Done (slot, pso, ctx1), w1)
    /\ GetOrCreatePipeline K0 hash0 ctx1 rt0 w1 = (Done (slot, pso, ctx1), w1).
Proof.
  assert (H : GetOrCreatePipeline K0 hash0 context_stride20 rt0 world_init = lookup0)
    by (vm_compute; reflexivity).
  unfold lookup0 in H.
  eexists _, _, _, _. split; [exact H|].
  exact (proj1 (GetOrCreatePipeline_twice K0 hash0 _ _ _ _ _ _ _ H)).
Defined.

(** C4 on the concrete program: the declarations differ in stride, the
    hashes agree. *)
Lemma pipeline_hash_ignores_vertex_input_witness :
  m_PipelineState context_stride20 = m_PipelineState context_stride32
  /\ m_CurrentProgram context_stride20 = Some program0
  /\ m_CurrentProgram context_stride32 = Some program0
  /\ m_CurrentVertexDeclaration context_stride20 <> m_CurrentVertexDeclaration context_stride32
  /\ pipeline_hash hash0 context_stride20 rt0 program0
     = pipeline_hash hash0 context_stride32 rt0 program0.
Proof.
  assert (H1 : m_PipelineState context_stride20 = m_PipelineState context_stride32)
    by reflexivity.
  assert (H2 : m_CurrentProgram context_stride20 = Some program0) by reflexivity.
  assert (H3 : m_CurrentProgram context_stride32 = Some program0) by reflexivity.
  split; [exact H1|]. split; [exact H2|]. split; [exact H3|]. split; [discriminate|].
  exact (proj1 (pipeline_hash_ignores_vertex_input K0 hash0 context_stride20 rt0 program0
                  context_stride32 rt0 program0 H1 eq_refl H2 H3 eq_refl)).
Defined.

(** C4 as the specification words it does not hold: with the program,
    the render target and the pipeline state unchanged, enabling a
    declaration of another stride, or of another step function, leaves
    the content hash as it was, whatever the digest is, and the next
    lookup reuses the pipeline compiled for the first declaration. *)
Lemma stride_change_is_a_cache_hit :
  m_Stride declaration_stride20 <> m_Stride declaration_stride32
  /\ m_StepFunction declaration_stride20 <> m_StepFunction declaration_instanced
  /\ forall dmHash : list Z -> Z,
      pipeline_hash dmHash context_stride20 rt0 program0
      = pipeline_hash dmHash context_stride32 rt0 program0
      /\ pipeline_hash dmHash context_stride20 rt0 program0
         = pipeline_hash dmHash context_instanced rt0 program0
      /\ exists slot pso ctx1 w1,
          GetOrCreatePipeline K0 dmHash context_stride20 rt0 world_init
          = (Done (slot, pso, ctx1), w1)
          /\ forall vd, vd = declaration_stride32 \/ vd = declaration_instanced ->
               exists ctx2,
                 DX12EnableVertexDeclaration ctx1 vd 0 program0 w1 = (Done ctx2, w1)
                 /\ GetOrCreatePipeline K0 dmHash ctx2 rt0 w1 = (Done (slot, pso, ctx2), w1).
Proof.
  split; [discriminate|]. split; [discriminate|]. intros dmHash.
  split; [reflexivity|]. split; [reflexivity|].
  assert (Hc : CreatePipeline K0 context_stride20 rt0 world_init = created0)
    by (vm_compute; reflexivity).
  unfold created0 in Hc.
  assert (Hwf : cache_wf (m_PipelineCache context_stride20))
    by (unfold cache_wf; vm_compute; lia).
  assert (Hnone : pc_Entries (m_PipelineCache context_stride20)
                    !! pipeline_hash dmHash context_stride20 rt0 program0 = None)
    by (change (pc_Entries (m_PipelineCache context_stride20)) with (∅ : gmap Z Handle);
        apply lookup_empty).
  destruct (GetOrCreatePipeline_miss K0 dmHash context_stride20 rt0 world_init program0
              _ _ Hwf eq_refl Hnone Hc) as (capacity & Hrun & _).
  eexists _, _, _, _. split; [exact Hrun|].
  intros vd [-> | ->]; eexists; (split; [reflexivity|]);
    (etransitivity;
     [apply (GetOrCreatePipeline_hit K0 dmHash _ rt0 _ program0);
      [reflexivity|apply lookup_insert_eq]
     |reflexivity]).
Qed.

(** ** Program resource bindings *)

(** A slot that is taken is left as it is: nothing of the resource, and
    no stage flag, is written. *)
Lemma Fill_resource_taken K stage_type_infos ubo_alignment stage_flag res st w :
  (m_Set res < MAX_SET_COUNT K)%nat ->
  (m_Binding res < MAX_BINDINGS_PER_SET_COUNT K)%nat ->
  rb_Taken (at_slot (mkResourceBindingDesc 0 false) (fs_bindings st)
                    (m_Set res) (m_Binding res)) = true ->
  Fill_resource K stage_type_infos ubo_alignment stage_flag res st w = (Done st, w).
Proof.
  intros Hs Hb Ht. unfold Fill_resource.
  apply Nat.ltb_lt in Hs, Hb. rewrite Hs, Hb. cbn [andb negb].
  rewrite Ht. reflexivity.
Qed.

(** A free slot gets the resource and the flag of the stage that claims
    it. *)
Lemma Fill_resource_free_flags K stage_type_infos ubo_alignment stage_flag res st w st' w' :
  rb_Taken (at_slot (mkResourceBindingDesc 0 false) (fs_bindings st)
                    (m_Set res) (m_Binding res)) = false ->
  Fill_resource K stage_type_infos ubo_alignment stage_flag res st w = (Done st', w') ->
  let prb := at_slot ProgramResourceBinding_zero (fs_ResourceBindings st')
                     (m_Set res) (m_Binding res) in
  m_Res prb = Some res
  /\ m_StageFlags prb
     = Z.lor (m_StageFlags (at_slot ProgramResourceBinding_zero (fs_ResourceBindings st)
                                    (m_Set res) (m_Binding res))) stage_flag
  /\ rb_Taken (at_slot (mkResourceBindingDesc 0 false) (fs_bindings st')
                       (m_Set res) (m_Binding res)) = true.
Proof.
  intros Ht. unfold Fill_resource.
  destruct (negb _); [discriminate|]. rewrite Ht.
  intros H. apply bind_Done_inv in H as ([prb' info'] & w1 & Hm & H).
  inversion H; subst. clear H. cbn [fs_ResourceBindings fs_bindings].
  unfold at_slot. rewrite !lookup_insert_eq. cbn [default].
  destruct (m_BindingFamily res).
  - inversion Hm; subst. auto.
  - destruct (negb (m_UseTypeIndex (m_Type res))); [discriminate|].
    destruct (stage_type_infos !! m_TypeIndex (m_Type res)); [|discriminate].
    inversion Hm; subst. auto.
  - inversion Hm; subst. auto.
  - inversion Hm; subst. auto.
Qed.

(** C7. The vertex and the fragment shader of [program0] both list the
    uniform block at set 0, binding 0. The merged table keeps the entry
    the vertex stage made, and its stage flags are the vertex flag alone:
    the fragment stage has added nothing, so the root parameter built
    from the entry is visible to the vertex shader only. *)
Theorem later_stage_adds_no_stage_flag :
  ubo0 ∈ m_UniformBuffers (m_ShaderMeta vertex_module0)
  /\ ubo0 ∈ m_UniformBuffers (m_ShaderMeta fragment_module0)
  /\ exists program info w,
      new_program_bindings K0 (Some vertex_module0) (Some fragment_module0) world_init
      = (Done (program, info), w)
      /\ let entry := at_slot ProgramResourceBinding_zero (m_ResourceBindings program) 0 0 in
         m_Res entry = Some ubo0
         /\ m_StageFlags entry = SHADER_STAGE_FLAG_VERTEX
         /\ m_StageFlags entry <> Z.lor SHADER_STAGE_FLAG_VERTEX SHADER_STAGE_FLAG_FRAGMENT
         /\ GetShaderVisibilityFromStage (m_StageFlags entry) = D3D12_SHADER_VISIBILITY_VERTEX.
Proof.
  split; [left|]. split; [left|].
  destruct (new_program_bindings K0 (Some vertex_module0) (Some fragment_module0) world_init)
    as [[[program info]| | | |] w] eqn:E; try (vm_compute in E; discriminate).
  exists program, info, w. split; [reflexivity|].
  vm_compute in E. inversion E; subst. vm_compute. repeat split; discriminate.
Qed.

(** ** Initialisation *)

Lemma clean_nil : clean [].
Proof. intros c hr line H. apply elem_of_nil in H. contradiction. Qed.

Lemma clean_app tr1 tr2 : clean tr1 -> clean tr2 -> clean (tr1 ++ tr2).
Proof.
  intros H1 H2 c hr line Hin. apply elem_of_app in Hin as [Hin|Hin]; eauto.
Qed.

Lemma Checked_silent {A} (m : M A) :
  (forall w, snd (m w) = w /\ fst (m w) <> AssertFailed) -> Checked m.
Proof.
  intros H w. destruct (H w) as [Hw Ho]. exists []. rewrite Hw, app_nil_r.
  split; [reflexivity|]. destruct (fst (m w)); cbn; try apply clean_nil. congruence.
Qed.

Lemma Checked_ret {A} (a : A) : Checked (ret a).
Proof. apply Checked_silent. intros w. split; [reflexivity|discriminate]. Qed.

Lemma Checked_fail_null {A} : Checked (@fail_null A).
Proof. apply Checked_silent. intros w. split; [reflexivity|discriminate]. Qed.

Lemma Checked_fail_oob {A} : Checked (@fail_oob A).
Proof. apply Checked_silent. intros w. split; [reflexivity|discriminate]. Qed.

Lemma Checked_deref h : Checked (deref h).
Proof.
  apply Checked_silent. intros w. unfold deref.
  destruct (is_null h); split; try reflexivity; discriminate.
Qed.

Lemma Checked_new_fence f : Checked (new_fence f).
Proof.
  intros w. exists []. cbn. rewrite app_nil_r. split; [reflexivity|apply clean_nil].
Qed.

Lemma Checked_tell_fatal : Checked (tell EvLogFatal).
Proof.
  intros w. exists [EvLogFatal]. split; [reflexivity|].
  intros c hr line Hin. apply list_elem_of_singleton in Hin. discriminate.
Qed.

Lemma Checked_bind {A B} (m : M A) (k : A -> M B) :
  Checked m -> (forall a, Checked (k a)) -> Checked (bind m k).
Proof.
  intros Hm Hk w. destruct (Hm w) as (tr1 & Htr1 & Hrep1). unfold bind.
  destruct (m w) as [[a| | | |] w1]; cbn in *;
    try (exists tr1; split; [exact Htr1|exact Hrep1]).
  destruct (Hk a w1) as (tr2 & Htr2 & Hrep2).
  exists (tr1 ++ tr2). split; [rewrite Htr2, Htr1, app_assoc; reflexivity|].
  destruct (fst (k a w1)); cbn [reported] in *; try (apply clean_app; assumption).
  destruct Hrep2 as (tr0 & c & hr & line & -> & Hc & Hl & Hhr).
  exists (tr1 ++ tr0), c, hr, line. rewrite app_assoc.
  repeat split; auto. apply clean_app; assumption.
Qed.

Lemma Checked_for_loop {St} (body : nat -> St -> M St) :
  (forall j s, Checked (body j s)) -> forall n i s, Checked (for_loop n i body s).
Proof.
  intros Hb. induction n as [|n IH]; intros i s; cbn.
  - apply Checked_ret.
  - apply Checked_bind; auto.
Qed.

Lemma clean_call_ok c : clean [EvCall c S_OK].
Proof.
  intros c' hr line Hin _. apply list_elem_of_singleton in Hin. congruence.
Qed.

Lemma clean_call_unchecked c hr : check_line c = None -> clean [EvCall c hr].
Proof.
  intros Hn c' hr' line Hin Hl. apply list_elem_of_singleton in Hin.
  inversion Hin; subst. congruence.
Qed.

(** A checked call in verified mode: the call, then its [CHECK_HR_ERROR]. *)
Lemma Checked_then_check {A B} (m : M A) (c : DeviceCall) (result : A -> HRESULT)
      (line : Z) (k : A -> M B) :
  check_line c = Some line ->
  (forall w, exists a w1,
      m w = (Done a, w1) /\ w_trace w1 = w_trace w ++ [EvCall c (result a)]) ->
  (forall a, Checked (k a)) ->
  Checked (bind m (fun a => bind (CHECK_HR_ERROR true line (result a)) (fun _ => k a))).
Proof.
  intros Hl Hm Hk w. destruct (Hm w) as (a & w1 & Hrun & Htr). unfold bind.
  rewrite Hrun. unfold CHECK_HR_ERROR. cbn [andb].
  destruct (result a =? S_OK) eqn:E; cbn [negb].
  - apply Z.eqb_eq in E. change (ret () w1) with (Done (), w1). cbv beta iota.
    destruct (Hk a w1) as (tr2 & Htr2 & Hrep2).
    exists ([EvCall c (result a)] ++ tr2).
    split; [rewrite Htr2, Htr, <- app_assoc; reflexivity|].
    rewrite E in *.
    destruct (fst (k a w1)); cbn [reported] in *;
      try (apply clean_app; [apply clean_call_ok|assumption]).
    destruct Hrep2 as (tr0 & c0 & hr0 & line0 & -> & Hc & Hl0 & Hhr).
    exists ([EvCall c S_OK] ++ tr0), c0, hr0, line0.
    repeat split; auto. apply clean_app; [apply clean_call_ok|assumption].
  - apply Z.eqb_neq in E. unfold bind, tell, fail_assert, emit. cbn.
    exists [EvCall c (result a); EvLogError line (HRESULT_CODE (result a))].
    split; [rewrite Htr, <- app_assoc; reflexivity|].
    exists [], c, (result a), line. repeat split; auto. apply clean_nil.
Qed.

Lemma create_runs c w :
  exists a w1, create c w = (Done a, w1) /\ w_trace w1 = w_trace w ++ [EvCall c (fst a)].
Proof.
  unfold create. destruct (FAILED (w_hr w (w_ncalls w) c)); eexists _, _; split; reflexivity.
Qed.

Lemma call_runs c w :
  exists a w1, call c w = (Done a, w1) /\ w_trace w1 = w_trace w ++ [EvCall c a].
Proof. unfold call. eexists _, _; split; reflexivity. Qed.

Lemma Checked_create_check {B} c line (k : HRESULT -> Handle -> M B) :
  check_line c = Some line ->
  (forall hr h, Checked (k hr h)) ->
  Checked (bind (create c)
                (fun x => let (hr, h) := x in
                          bind (CHECK_HR_ERROR true line hr) (fun _ => k hr h))).
Proof.
  intros Hl Hk.
  pose proof (Checked_then_check (create c) c fst line (fun x => k (fst x) (snd x))
                                 Hl (create_runs c) (fun x => Hk _ _)) as H.
  intros w. specialize (H w). unfold bind in *.
  destruct (create c w) as [[[hr h]| | | |] w1]; exact H.
Qed.

Lemma Checked_call_check {B} c line (k : HRESULT -> M B) :
  check_line c = Some line ->
  (forall hr, Checked (k hr)) ->
  Checked (bind (call c) (fun hr => bind (CHECK_HR_ERROR true line hr) (fun _ => k hr))).
Proof.
  intros Hl Hk.
  exact (Checked_then_check (call c) c (fun hr => hr) line k Hl (call_runs c) Hk).
Qed.

Lemma Checked_create_unchecked c : check_line c = None -> Checked (create c).
Proof.
  intros Hn w. exists [EvCall c (w_hr w (w_ncalls w) c)]. unfold create.
  destruct (FAILED (w_hr w (w_ncalls w) c)); cbn;
    (split; [reflexivity|apply clean_call_unchecked; exact Hn]).
Qed.

Lemma Checked_call_unchecked c : check_line c = None -> Checked (call c).
Proof.
  intros Hn w. exists [EvCall c (w_hr w (w_ncalls w) c)].
  split; [reflexivity|apply clean_call_unchecked; exact Hn].
Qed.

Lemma Checked_fail_hang {A} : Checked (@fail_hang A).
Proof. intros w. exists []. cbn. rewrite app_nil_r. split; [reflexivity|apply clean_nil]. Qed.

Ltac checked :=
  repeat first
    [ apply Checked_ret | apply Checked_fail_null | apply Checked_fail_oob
    | apply Checked_fail_hang
    | apply Checked_deref | apply Checked_new_fence | apply Checked_tell_fatal
    | apply Checked_create_check; [reflexivity|intros ? ?]
    | apply Checked_call_check; [reflexivity|intros ?]
    | apply Checked_create_unchecked; reflexivity
    | apply Checked_call_unchecked; reflexivity
    | apply Checked_for_loop; intros ? ?
    | apply Checked_bind; [|intros ?]
    | match goal with
      | |- Checked (let (_, _) := ?a in _) => destruct a
      | |- Checked (if ?b then _ else _) => destruct b
      | |- Checked (match ?x with _ => _ end) => destruct x
      end ].


Section InitializationProofs.
Variable K : Constants.

Lemma Checked_Initialize_pool device frame i :
  Checked (Initialize_pool K device true frame i).
Proof. unfold Initialize_pool. checked. Qed.

Lemma Checked_Initialize device frame : Checked (Initialize K device true frame).
Proof.
  unfold Initialize. checked.
Qed.



End InitializationProofs.



















(** ** Initialisation with verified calls off *)




















Section UnverifiedInitialization.
Variable K : Constants.





(** A null dereference comes only after a failed call. *)

Lemma failed_call_app_l tr1 tr2 : failed_call tr1 -> failed_call (tr1 ++ tr2).
Proof. intros (c & hr & Hin & Hf). exists c, hr. split; [apply elem_of_app; auto|exact Hf]. Qed.

Lemma failed_call_app_r tr1 tr2 : failed_call tr2 -> failed_call (tr1 ++ tr2).
Proof. intros (c & hr & Hin & Hf). exists c, hr. split; [apply elem_of_app; auto|exact Hf]. Qed.

Lemma NullAfterFailure_silent {A} P (m : M A) :
  (forall w, snd (m w) = w /\ (P -> fst (m w) <> NullDeref)) -> NullAfterFailure P m.
Proof.
  intros H w Hpos. destruct (H w) as [Hw Ho]. exists []. rewrite Hw, app_nil_r.
  split; [reflexivity|]. split; [exact Hpos|]. intros HP Hn. exfalso. exact (Ho HP Hn).
Qed.

Lemma NullAfterFailure_ret {A} P (a : A) : NullAfterFailure P (ret a).
Proof. apply NullAfterFailure_silent. intros w. split; [reflexivity|discriminate]. Qed.

Lemma NullAfterFailure_fail_oob {A} P : NullAfterFailure P (@fail_oob A).
Proof. apply NullAfterFailure_silent. intros w. split; [reflexivity|discriminate]. Qed.

Lemma NullAfterFailure_fail_hang {A} P : NullAfterFailure P (@fail_hang A).
Proof. apply NullAfterFailure_silent. intros w. split; [reflexivity|discriminate]. Qed.

Lemma NullAfterFailure_check_off P line hr : NullAfterFailure P (CHECK_HR_ERROR false line hr).
Proof. apply NullAfterFailure_ret. Qed.

Lemma NullAfterFailure_deref (P : Prop) h :
  (P -> is_null h = false) -> NullAfterFailure P (deref h).
Proof.
  intros Hh. apply NullAfterFailure_silent. intros w. unfold deref.
  split; [destruct (is_null h); reflexivity|].
  intros HP. rewrite (Hh HP). discriminate.
Qed.

Lemma NullAfterFailure_new_fence P f : NullAfterFailure P (new_fence f).
Proof.
  intros w Hpos. exists []. cbn. rewrite app_nil_r.
  split; [reflexivity|]. split; [exact Hpos|discriminate].
Qed.

Lemma NullAfterFailure_tell_fatal P : NullAfterFailure P (tell EvLogFatal).
Proof.
  intros w Hpos. exists [EvLogFatal]. split; [reflexivity|]. split; [exact Hpos|discriminate].
Qed.

Lemma NullAfterFailure_call P c : NullAfterFailure P (call c).
Proof.
  intros w Hpos. exists [EvCall c (w_hr w (w_ncalls w) c)].
  split; [reflexivity|]. split; [exact Hpos|discriminate].
Qed.

Lemma NullAfterFailure_bind {A B} P (m : M A) (k : A -> M B) :
  NullAfterFailure P m -> (forall a, NullAfterFailure P (k a)) ->
  NullAfterFailure P (bind m k).
Proof.
  intros Hm Hk w Hpos. destruct (Hm w Hpos) as (tr1 & Htr1 & Hpos1 & Hn1). unfold bind.
  destruct (m w) as [[a| | | |] w1]; cbn in *;
    try (exists tr1; split; [exact Htr1|]; split; [exact Hpos1|];
         intros HP Hn; first [discriminate Hn|exact (Hn1 HP eq_refl)]).
  destruct (Hk a w1 Hpos1) as (tr2 & Htr2 & Hpos2 & Hn2).
  exists (tr1 ++ tr2). split; [rewrite Htr2, Htr1, app_assoc; reflexivity|].
  split; [exact Hpos2|]. intros HP Hn. apply failed_call_app_r. exact (Hn2 HP Hn).
Qed.

(** The object a creation left is null only where the creation failed. *)
Lemma NullAfterFailure_create {B} (P : Prop) c (k : HRESULT * Handle -> M B) :
  (forall hr h, NullAfterFailure (P /\ is_null h = false) (k (hr, h))) ->
  NullAfterFailure P (bind (create c) k).
Proof.
  intros Hk w Hpos. unfold bind, create.
  destruct (FAILED (w_hr w (w_ncalls w) c)) eqn:Hf.
  - match goal with |- context [k ?a ?w1] =>
      destruct (Hk (fst a) (snd a) w1 Hpos) as (tr2 & Htr2 & Hpos2 & _) end.
    cbn [fst snd] in *.
    exists ([EvCall c (w_hr w (w_ncalls w) c)] ++ tr2).
    split; [rewrite Htr2; cbn; rewrite <- app_assoc; reflexivity|].
    split; [exact Hpos2|]. intros _ _. apply failed_call_app_l.
    exists c, (w_hr w (w_ncalls w) c). split; [apply list_elem_of_singleton; reflexivity|exact Hf].
  - match goal with |- context [k ?a ?w1] =>
      destruct (Hk (fst a) (snd a) w1) as (tr2 & Htr2 & Hpos2 & Hn2) end.
    { cbn. lia. }
    cbn [fst snd] in *.
    exists ([EvCall c (w_hr w (w_ncalls w) c)] ++ tr2).
    split; [rewrite Htr2; cbn; rewrite <- app_assoc; reflexivity|].
    split; [exact Hpos2|]. intros HP Hn. apply failed_call_app_r. apply Hn2; [|exact Hn].
    split; [exact HP|]. unfold is_null, null. apply Nat.eqb_neq. lia.
Qed.

Lemma NullAfterFailure_for_loop {St} P (body : nat -> St -> M St) :
  (forall j s, NullAfterFailure P (body j s)) ->
  forall n i s, NullAfterFailure P (for_loop n i body s).
Proof.
  intros Hb. induction n as [|n IH]; intros i s; cbn.
  - apply NullAfterFailure_ret.
  - apply NullAfterFailure_bind; auto.
Qed.

Lemma NullAfterFailure_weaken {A} (P Q : Prop) (m : M A) :
  NullAfterFailure P m -> (Q -> P) -> NullAfterFailure Q m.
Proof.
  intros H HQ w Hpos. destruct (H w Hpos) as (tr & Htr & Hpos' & Hn).
  exists tr. split; [exact Htr|]. split; [exact Hpos'|]. auto.
Qed.

Ltac null_after_failure :=
  repeat first
    [ apply NullAfterFailure_ret | apply NullAfterFailure_fail_oob
    | apply NullAfterFailure_fail_hang | apply NullAfterFailure_check_off
    | apply NullAfterFailure_new_fence | apply NullAfterFailure_tell_fatal
    | apply NullAfterFailure_call
    | apply NullAfterFailure_deref; tauto
    | apply NullAfterFailure_create; intros ? ?; cbv beta iota
    | apply NullAfterFailure_for_loop; intros ? ?
    | apply NullAfterFailure_bind; [|intros ?]
    | match goal with
      | |- NullAfterFailure _ (if ?b then _ else _) => destruct b
      | |- NullAfterFailure _ (match ?x with _ => _ end) => destruct x
      end ].


Lemma NullAfterFailure_Initialize_pool device frame i :
  NullAfterFailure (is_null device = false) (Initialize_pool K device false frame i).
Proof. unfold Initialize_pool. null_after_failure. Qed.

Lemma NullAfterFailure_Initialize device frame :
  NullAfterFailure (is_null device = false) (Initialize K device false frame).
Proof.
  unfold Initialize. null_after_failure.
Qed.

Lemma NullAfterFailure_Initialize_frame device swap_chain i :
  NullAfterFailure (is_null device = false /\ is_null swap_chain = false)
                   (Initialize_frame K device swap_chain false i).
Proof.
  pose proof NullAfterFailure_Initialize as Hscratch.
  unfold Initialize_frame. null_after_failure.
  all: eapply NullAfterFailure_weaken; [apply Hscratch|tauto].
Qed.


End UnverifiedInitialization.






(** ** The scratch buffer over a frame *)

Section AllocationRuns.
Variable K : Constants.
Hypothesis HK : constants_ok K.

Local Abbreviation STEP := (BLOCK_STEP_SIZE K).
Local Abbreviation MAXB := (MAX_BLOCK_SIZE K).

Lemma block_le_max sb i pool :
  scratch_wf K sb -> m_MemoryPools sb !! i = Some pool ->
  0 < m_BlockSize pool <= MAXB.
Proof.
  intros Hwf Hp.
  destruct (constants_ok_facts K HK) as (Hs & Hm & Hmax & _).
  assert (Hi : (i < Z.to_nat (MAXB / STEP))%nat).
  { unfold scratch_wf in Hwf. apply andb_prop in Hwf as [Hwf _].
    apply andb_prop in Hwf as [Hlen _]. apply Nat.eqb_eq in Hlen.
    rewrite <- Hlen. eapply lookup_lt_Some; eauto. }
  destruct (scratch_wf_lookup K sb i Hwf Hi) as (p & Hp' & Hb & _).
  rewrite Hp in Hp'. inversion Hp'; subst p. rewrite Hb.
  assert (Z.of_nat i + 1 <= MAXB / STEP).
  { assert (0 <= MAXB / STEP) by (apply Z.div_pos; lia). lia. }
  assert (MAXB = STEP * (MAXB / STEP)) by (apply Z.div_exact; lia).
  nia.
Qed.

Lemma size_below_block sb size pool :
  scratch_wf K sb -> 0 <= size < MAXB ->
  m_MemoryPools sb !! pool_index_of K size = Some pool ->
  size < m_BlockSize pool.
Proof.
  intros Hwf Hsz Hp.
  destruct (constants_ok_facts K HK) as (Hs & Hm & Hmax & _).
  pose proof (pool_index_lt K HK size Hsz) as Hi.
  destruct (scratch_wf_lookup K sb _ Hwf Hi) as (p & Hp' & Hb & _).
  unfold pool_index_of in Hp. rewrite Hp in Hp'. inversion Hp'; subst p.
  rewrite Hb. rewrite Z2Nat.id by (apply Z.div_pos; lia).
  pose proof (Z.mod_pos_bound size STEP Hs). pose proof (Z.div_mod size STEP). nia.
Qed.

Lemma earlier_in_pool_cons r rest k c :
  earlier_in_pool K (r :: rest) (S k) c
  = (if decide (pool_index_of K r.2 = c) then 1 else 0) + earlier_in_pool K rest k c.
Proof.
  unfold earlier_in_pool. cbn [take]. rewrite filter_cons.
  destruct (decide (pool_index_of K r.2 = c)); cbn [length]; lia.
Qed.

Lemma earlier_in_pool_bounds requests k c :
  0 <= earlier_in_pool K requests k c <= Z.of_nat (length requests).
Proof.
  unfold earlier_in_pool. split; [lia|].
  apply inj_le. etransitivity; [apply length_filter|].
  rewrite length_take. lia.
Qed.

Lemma earlier_in_pool_lt requests : forall k1 k2 r,
  requests !! k1 = Some r -> (k1 < k2)%nat ->
  earlier_in_pool K requests k1 (pool_index_of K r.2)
  < earlier_in_pool K requests k2 (pool_index_of K r.2).
Proof.
  induction requests as [|r0 rest IH]; intros k1 k2 r Hk Hlt; [discriminate|].
  destruct k2 as [|k2]; [lia|].
  destruct k1 as [|k1].
  - cbn in Hk. inversion Hk; subst r0.
    rewrite earlier_in_pool_cons. rewrite decide_True by reflexivity.
    unfold earlier_in_pool at 1. cbn [take filter length].
    pose proof (earlier_in_pool_bounds rest k2 (pool_index_of K r.2)).
    change (filter _ []) with (@nil (Z * Z)). cbn. lia.
  - cbn in Hk. rewrite !earlier_in_pool_cons.
    specialize (IH k1 k2 r Hk ltac:(lia)). lia.
Qed.

(** The pointers a run of requests returns, in closed form. *)
Lemma allocate_all_offsets requests : forall sb w bound,
  scratch_wf K sb ->
  Forall (fun r => 0 <= r.2 < MAXB) requests ->
  (forall pool, pool ∈ m_MemoryPools sb -> 0 <= m_MemoryCursor pool <= bound) ->
  bound + Z.of_nat (length requests) * MAXB < 2 ^ 32 ->
  exists ps sb' w',
    allocate_all K requests sb w = (Done (ps, sb'), w')
    /\ length ps = length requests
    /\ forall k r pool,
        requests !! k = Some r ->
        m_MemoryPools sb !! pool_index_of K r.2 = Some pool ->
        ps !! k = Some (mkPtr (m_MemoryHeap pool)
                              (m_MemoryCursor pool
                               + m_BlockSize pool
                                 * earlier_in_pool K requests k (pool_index_of K r.2)),
                        r.2).
Proof.
  destruct (constants_ok_facts K HK) as (Hs & Hm & Hmax & _).
  induction requests as [|[bi size] rest IH]; intros sb w bound Hwf Hall Hcur Hbound.
  - exists [], sb, w. split; [reflexivity|]. split; [reflexivity|].
    intros k r pool Hk. discriminate.
  - apply Forall_cons in Hall as [Hsz Hall]. cbn [snd] in Hsz.
    pose proof (pool_index_lt K HK size Hsz) as Hi.
    destruct (scratch_wf_lookup K sb _ Hwf Hi) as (pool & Hp & Hb & _ & _ & Hmap).
    assert (H0 : (0 < Z.to_nat (MAXB / STEP))%nat) by lia.
    destruct (scratch_wf_lookup K sb _ Hwf H0) as (pool0 & Hp0 & _ & Hnn & _ & _).
    pose proof (block_le_max sb _ pool Hwf Hp) as Hblock.
    assert (Hin : pool ∈ m_MemoryPools sb) by (eapply list_elem_of_lookup_2; eauto).
    pose proof (Hcur pool Hin) as Hc.
    cbn [length] in Hbound. rewrite Nat2Z.inj_succ in Hbound.
    assert (Hnowrap : uint32 (m_MemoryCursor pool + m_BlockSize pool)
                      = m_MemoryCursor pool + m_BlockSize pool).
    { unfold uint32. apply Z.mod_small. nia. }
    cbn [allocate_all]. unfold bind at 1.
    rewrite (AllocateConstantBuffer_eval K sb bi size w pool pool0) by (auto; lia).
    rewrite Hnowrap.
    set (pool' := set_cursors pool (uint32 (m_DescriptorCursor pool + 1))
                              (m_MemoryCursor pool + m_BlockSize pool)).
    set (sb1 := mkScratchBuffer (<[Z.to_nat (size / STEP) := pool']> (m_MemoryPools sb))
                                (m_FrameIndex sb)).
    assert (Hwf1 : scratch_wf K sb1) by (apply scratch_wf_insert_cursors; assumption).
    set (w1 := emit (EvRecord (SetGraphicsRootConstantBufferView bi
                       (gpu_add (GetGPUVirtualAddress (m_MemoryHeap pool0))
                                (m_MemoryCursor pool)))) w).
    destruct (IH sb1 w1 (bound + MAXB) Hwf1 Hall) as (ps & sb' & w' & Hrun & Hlen & Hps).
    { intros q Hq. subst sb1. cbn [m_MemoryPools] in Hq.
      apply list_elem_of_lookup_1 in Hq as [j Hj].
      destruct (decide (j = Z.to_nat (size / STEP))) as [->|Hne].
      - rewrite list_lookup_insert_eq in Hj by (eapply lookup_lt_Some; eauto).
        inversion Hj; subst q. cbn. lia.
      - rewrite list_lookup_insert_ne in Hj by congruence.
        assert (q ∈ m_MemoryPools sb) by (eapply list_elem_of_lookup_2; eauto).
        specialize (Hcur q H). lia. }
    { lia. }
    unfold bind at 1. rewrite Hrun. unfold ret.
    exists ((ptr_add (m_MappedDataPtr pool) (m_MemoryCursor pool), size) :: ps), sb', w'.
    split; [reflexivity|]. split; [cbn; lia|].
    intros k r poolk Hk Hpk. destruct k as [|k].
    + cbn in Hk. inversion Hk; subst r. cbn [snd] in Hpk.
      unfold pool_index_of in Hpk. rewrite Hp in Hpk. inversion Hpk; subst poolk.
      cbn [lookup list_lookup]. rewrite Hmap. unfold ptr_add. cbn [p_res p_ofs snd].
      unfold earlier_in_pool. cbn [take]. rewrite filter_nil. cbn [length].
      do 3 f_equal. lia.
    + change ((((bi, size) :: rest) !! S k)) with (rest !! k) in Hk.
      change (((ptr_add (m_MappedDataPtr pool) (m_MemoryCursor pool), size) :: ps) !! S k)
        with (ps !! k).
      rewrite earlier_in_pool_cons. cbn [snd].
      destruct (decide (pool_index_of K size = pool_index_of K r.2)) as [Heq|Hne].
      * unfold pool_index_of in Heq at 1. rewrite <- Heq in Hpk.
        rewrite Hp in Hpk. inversion Hpk; subst poolk.
        assert (Hp1 : m_MemoryPools sb1 !! pool_index_of K r.2 = Some pool').
        { subst sb1. cbn [m_MemoryPools]. rewrite <- Heq.
          apply list_lookup_insert_eq. eapply lookup_lt_Some; eauto. }
        rewrite (Hps k r pool' Hk Hp1). subst pool'. cbn. do 3 f_equal; try lia.
      * assert (Hp1 : m_MemoryPools sb1 !! pool_index_of K r.2 = Some poolk).
        { subst sb1. cbn [m_MemoryPools].
          rewrite list_lookup_insert_ne by exact Hne. exact Hpk. }
        rewrite (Hps k r poolk Hk Hp1). do 3 f_equal; lia.
Qed.

Lemma Reset_lookup sb i pool :
  m_MemoryPools sb !! i = Some pool ->
  m_MemoryPools (Reset sb) !! i = Some (set_cursors pool 0 0).
Proof. intros H. unfold Reset. cbn. rewrite list_lookup_fmap, H. reflexivity. Qed.

(** X2. After [Reset], the pointer a constant-buffer request gets lies
    in the heap of its pool, at the pool's block size times the number
    of earlier requests served from that pool. *)
Theorem allocation_offsets_after_Reset sb requests w :
  scratch_wf K sb ->
  Forall (fun r => 0 <= r.2 < MAXB) requests ->
  Z.of_nat (length requests) * MAXB < 2 ^ 32 ->
  exists ps sb' w',
    allocate_all K requests (Reset sb) w = (Done (ps, sb'), w')
    /\ length ps = length requests
    /\ forall k r pool,
        requests !! k = Some r ->
        m_MemoryPools sb !! pool_index_of K r.2 = Some pool ->
        ps !! k = Some (mkPtr (m_MemoryHeap pool)
                              (m_BlockSize pool
                               * earlier_in_pool K requests k (pool_index_of K r.2)),
                        r.2).
Proof.
  intros Hwf Hall Hbound.
  destruct (allocate_all_offsets requests (Reset sb) w 0) as (ps & sb' & w' & Hrun & Hlen & Hps).
  - apply Reset_scratch_wf. exact Hwf.
  - exact Hall.
  - intros pool Hin. apply Reset_cursors in Hin as [-> _]. lia.
  - lia.
  - exists ps, sb', w'. split; [exact Hrun|]. split; [exact Hlen|].
    intros k r pool Hk Hp.
    rewrite (Hps k r _ Hk (Reset_lookup _ _ _ Hp)). cbn. reflexivity.
Qed.

(** X3. When the blocks that the constant-buffer requests made between
    two [Reset]s take from each pool fit in the heap of the pool, the
    regions handed out lie in the mappings of the heaps and share no
    byte: two requests served from the same pool get blocks one after
    the other, two requests served from different pools get memory of
    different heaps. *)
Theorem allocations_of_a_frame_are_disjoint sb requests w :
  scratch_wf K sb ->
  Forall (fun r => 0 <= r.2 < MAXB) requests ->
  Z.of_nat (length requests) * MAXB < 2 ^ 32 ->
  (forall c pool,
      m_MemoryPools sb !! c = Some pool ->
      m_BlockSize pool * earlier_in_pool K requests (length requests) c <= memory_heap_size) ->
  exists ps sb' w',
    allocate_all K requests (Reset sb) w = (Done (ps, sb'), w')
    /\ length ps = length requests
    /\ (forall k a, ps !! k = Some a -> region_in_heap a)
    /\ forall k1 k2 a b,
        (k1 < k2)%nat -> ps !! k1 = Some a -> ps !! k2 = Some b ->
        region_disjoint a b.
Proof.
  intros Hwf Hall Hbound Hfit.
  destruct (allocate_all_offsets requests (Reset sb) w 0) as (ps & sb' & w' & Hrun & Hlen & Hps).
  - apply Reset_scratch_wf. exact Hwf.
  - exact Hall.
  - intros pool Hin. apply Reset_cursors in Hin as [-> _]. lia.
  - lia.
  - exists ps, sb', w'. split; [exact Hrun|]. split; [exact Hlen|].
    assert (Hwf' : scratch_wf K (Reset sb)) by (apply Reset_scratch_wf; exact Hwf).
    assert (Hin : forall k a, ps !! k = Some a ->
              exists r p,
                requests !! k = Some r
                /\ m_MemoryPools sb !! pool_index_of K r.2 = Some p
                /\ a = (mkPtr (m_MemoryHeap p)
                               (m_BlockSize p * earlier_in_pool K requests k (pool_index_of K r.2)),
                        r.2)
                /\ region_in_heap a).
    { intros k a Ha.
      assert (Hk : (k < length requests)%nat)
        by (rewrite <- Hlen; eapply lookup_lt_Some; eauto).
      destruct (lookup_lt_is_Some_2 requests k Hk) as [r Hr].
      assert (Hs : 0 <= r.2 < MAXB)
        by (eapply (proj1 (Forall_forall _ _) Hall), list_elem_of_lookup_2; eauto).
      destruct (scratch_wf_lookup K sb _ Hwf (pool_index_lt K HK _ Hs)) as (p & Hp & _).
      fold (pool_index_of K r.2) in Hp.
      rewrite (Hps k r _ Hr (Reset_lookup _ _ _ Hp)) in Ha.
      cbn [m_MemoryHeap m_MemoryCursor m_BlockSize set_cursors] in Ha.
      rewrite Z.add_0_l in Ha. inversion Ha; subst a. clear Ha.
      exists r, p. split; [exact Hr|]. split; [exact Hp|]. split; [reflexivity|].
      unfold region_in_heap. cbn [fst snd p_ofs].
      pose proof (earlier_in_pool_lt requests k (length requests) r Hr Hk) as He.
      pose proof (earlier_in_pool_bounds requests k (pool_index_of K r.2)) as Hb0.
      pose proof (size_below_block sb r.2 p Hwf Hs Hp) as Hsz.
      pose proof (block_le_max sb _ p Hwf Hp) as Hblock.
      pose proof (Hfit _ _ Hp) as Hf.
      split; [nia|]. split; [lia|]. nia. }
    split; [intros k a Ha; destruct (Hin k a Ha) as (_ & _ & _ & _ & _ & H); exact H|].
    intros k1 k2 a b Hlt Ha Hb.
    destruct (Hin k1 a Ha) as (r1 & p1 & Hr1 & Hp1 & -> & Hin1).
    destruct (Hin k2 b Hb) as (r2 & p2 & Hr2 & Hp2 & -> & Hin2).
    split; [exact Hin1|]. split; [exact Hin2|].
    cbn [fst snd p_res p_ofs].
    assert (Hs1 : 0 <= r1.2 < MAXB)
      by (eapply (proj1 (Forall_forall _ _) Hall), list_elem_of_lookup_2; eauto).
    destruct (decide (pool_index_of K r1.2 = pool_index_of K r2.2)) as [Heq|Hne].
    + right. left. rewrite <- Heq in Hp2. rewrite Hp1 in Hp2. inversion Hp2; subst p2.
      pose proof (earlier_in_pool_lt requests k1 k2 r1 Hr1 Hlt) as He.
      rewrite <- Heq.
      pose proof (size_below_block sb r1.2 p1 Hwf Hs1 Hp1) as Hsz.
      pose proof (block_le_max sb _ p1 Hwf Hp1) as Hblock.
      nia.
    + left. intros Hres. apply Hne.
      eapply (scratch_wf_heaps_distinct K sb); eauto.
Qed.

(** X4. Nothing compares a pool's cursor with the size of its heap:
    once the blocks handed out from a pool since the last [Reset] fill
    the heap, the next request served from that pool still returns, and
    the pointer it gets lies at or past the end of the heap. *)
Theorem allocation_past_the_end_of_the_heap sb n buffer_index size pool w :
  scratch_wf K sb -> 0 <= size < MAXB ->
  m_MemoryPools sb !! pool_index_of K size = Some pool ->
  memory_heap_size <= Z.of_nat n * m_BlockSize pool ->
  (Z.of_nat n + 1) * MAXB < 2 ^ 32 ->
  exists ps sb' w' p sb'' w'',
    allocate_all K (replicate n (buffer_index, size)) (Reset sb) w = (Done (ps, sb'), w')
    /\ AllocateConstantBuffer K sb' buffer_index size w' = (Done (p, sb''), w'')
    /\ p_res p = m_MemoryHeap pool
    /\ memory_heap_size <= p_ofs p.
Proof.
  intros Hwf Hsz Hp Hfull Hbound.
  set (requests := replicate (S n) (buffer_index, size)).
  assert (Hall : Forall (fun r => 0 <= r.2 < MAXB) requests).
  { apply Forall_forall. intros r Hr. apply elem_of_replicate in Hr as [-> _]. exact Hsz. }
  destruct (allocate_all_offsets requests (Reset sb) w 0)
    as (ps & sb' & w' & Hrun & Hlen & Hps).
  - apply Reset_scratch_wf. exact Hwf.
  - exact Hall.
  - intros q Hin. apply Reset_cursors in Hin as [-> _]. lia.
  - subst requests. rewrite length_replicate. lia.
  - assert (Hk : requests !! n = Some (buffer_index, size)).
    { subst requests. apply lookup_replicate. split; [reflexivity|lia]. }
    pose proof (Hps n _ _ Hk (Reset_lookup _ _ _ Hp)) as Hn.
    cbn [snd m_MemoryHeap m_MemoryCursor m_BlockSize set_cursors] in Hn.
    assert (He : earlier_in_pool K requests n (pool_index_of K size) = Z.of_nat n).
    { unfold earlier_in_pool. subst requests. rewrite take_replicate.
      rewrite Nat.min_l by lia.
      assert (Hf : forall m, filter (fun r : Z * Z => pool_index_of K r.2 = pool_index_of K size)
                                    (replicate m (buffer_index, size))
                             = replicate m (buffer_index, size)).
      { induction m as [|m IHm]; [reflexivity|]. cbn [replicate].
        rewrite filter_cons, decide_True by reflexivity. rewrite IHm. reflexivity. }
      rewrite Hf, length_replicate. reflexivity. }
    rewrite He in Hn.
    (* the run of [S n] requests is the run of [n] followed by one more *)
    assert (Hsplit : forall m sb0 w0 ps0 sb1 w1,
               allocate_all K (replicate (S m) (buffer_index, size)) sb0 w0
               = (Done (ps0, sb1), w1) ->
               exists ps1 sb2 w2 p,
                 allocate_all K (replicate m (buffer_index, size)) sb0 w0
                 = (Done (ps1, sb2), w2)
                 /\ AllocateConstantBuffer K sb2 buffer_index size w2 = (Done (p, sb1), w1)
                 /\ ps0 = ps1 ++ [(p, size)]).
    { induction m as [|m IHm]; intros sb0 w0 ps0 sb1 w1 H.
      - cbn in H. apply bind_Done_inv in H as ([p sbx] & wx & Ha & H).
        inversion H; subst. exists [], sb0, w0, p. auto.
      - cbn [replicate allocate_all] in H.
        apply bind_Done_inv in H as ([p sbx] & wx & Ha & H).
        apply bind_Done_inv in H as ([psx sby] & wy & Hr & H).
        inversion H; subst. clear H.
        apply IHm in Hr as (ps1 & sb2 & w2 & q & Hr & Hq & ->).
        exists ((p, size) :: ps1), sb2, w2, q.
        split; [|auto].
        cbn [replicate allocate_all]. unfold bind at 1. rewrite Ha.
        unfold bind at 1. rewrite Hr. reflexivity. }
    apply Hsplit in Hrun as (ps1 & sb2 & w2 & p & Hrun & Hlast & ->).
    exists ps1, sb2, w2, p.
    assert (Hlen1 : length ps1 = n).
    { rewrite length_app in Hlen. subst requests. rewrite length_replicate in Hlen.
      cbn in Hlen. lia. }
    rewrite lookup_app_r in Hn by lia.
    rewrite Hlen1, Nat.sub_diag in Hn. cbn in Hn. inversion Hn; subst p.
    do 2 eexists. split; [exact Hrun|]. split; [exact Hlast|].
    cbn. split; [reflexivity|]. lia.
Qed.

End AllocationRuns.



Lemma requests0_in_range : Forall (fun r : Z * Z => 0 <= r.2 < MAX_BLOCK_SIZE K0) requests0.
Proof. repeat constructor; cbn; lia. Qed.

Lemma allocation_offsets_after_Reset_witness :
  scratch_wf K0 scratch1
  /\ Forall (fun r : Z * Z => 0 <= r.2 < MAX_BLOCK_SIZE K0) requests0
  /\ Z.of_nat (length requests0) * MAX_BLOCK_SIZE K0 < 2 ^ 32
  /\ exists ps sb' w',
      allocate_all K0 requests0 (Reset scratch1) world2 = (Done (ps, sb'), w')
      /\ p_ofs <$> (fst <$> ps) = [0; 512; 0; 1024; 1536; 2048].
Proof.
  assert (Hwf : scratch_wf K0 scratch1) by (vm_compute; reflexivity).
  assert (Hb : Z.of_nat (length requests0) * MAX_BLOCK_SIZE K0 < 2 ^ 32) by (cbn; lia).
  split; [exact Hwf|]. split; [exact requests0_in_range|]. split; [exact Hb|].
  destruct (allocation_offsets_after_Reset K0 constants_ok_K0 scratch1 requests0 world2
              Hwf requests0_in_range Hb) as (ps & sb' & w' & Hrun & _ & _).
  exists ps, sb', w'. split; [exact Hrun|].
  vm_compute in Hrun. inversion Hrun. reflexivity.
Defined.

Lemma requests0_fit c pool :
  m_MemoryPools scratch1 !! c = Some pool ->
  m_BlockSize pool * earlier_in_pool K0 requests0 (length requests0) c <= memory_heap_size.
Proof.
  intros Hc. destruct c as [|[|[|[|c]]]]; cbn in Hc; inversion Hc; subst pool;
    vm_compute; discriminate.
Qed.

Lemma allocations_of_a_frame_are_disjoint_witness :
  scratch_wf K0 scratch1
  /\ Forall (fun r : Z * Z => 0 <= r.2 < MAX_BLOCK_SIZE K0) requests0
  /\ Z.of_nat (length requests0) * MAX_BLOCK_SIZE K0 < 2 ^ 32
  /\ (forall c pool,
         m_MemoryPools scratch1 !! c = Some pool ->
         m_BlockSize pool * earlier_in_pool K0 requests0 (length requests0) c
         <= memory_heap_size)
  /\ exists ps sb' w' a b,
      allocate_all K0 requests0 (Reset scratch1) world2 = (Done (ps, sb'), w')
      /\ length ps = 6%nat
      /\ ps !! 0%nat = Some a /\ ps !! 1%nat = Some b
      /\ region_disjoint a b.
Proof.
  assert (Hwf : scratch_wf K0 scratch1) by (vm_compute; reflexivity).
  assert (Hb : Z.of_nat (length requests0) * MAX_BLOCK_SIZE K0 < 2 ^ 32) by (cbn; lia).
  split; [exact Hwf|]. split; [exact requests0_in_range|]. split; [exact Hb|].
  split; [exact requests0_fit|].
  destruct (allocations_of_a_frame_are_disjoint K0 constants_ok_K0 scratch1 requests0 world2
              Hwf requests0_in_range Hb requests0_fit)
    as (ps & sb' & w' & Hrun & Hlen & _ & Hdis).
  destruct (lookup_lt_is_Some_2 ps 0) as [a Ha]; [rewrite Hlen; cbn; lia|].
  destruct (lookup_lt_is_Some_2 ps 1) as [b Hb1]; [rewrite Hlen; cbn; lia|].
  exists ps, sb', w', a, b. split; [exact Hrun|]. split; [exact Hlen|].
  split; [exact Ha|]. split; [exact Hb1|].
  exact (Hdis 0%nat 1%nat a b ltac:(lia) Ha Hb1).
Defined.

Lemma allocation_past_the_end_of_the_heap_witness :
  scratch_wf K0 scratch0 /\ 0 <= 300 < MAX_BLOCK_SIZE K0
  /\ exists pool,
      m_MemoryPools scratch0 !! pool_index_of K0 300 = Some pool
      /\ memory_heap_size <= Z.of_nat 128 * m_BlockSize pool
      /\ (Z.of_nat 128 + 1) * MAX_BLOCK_SIZE K0 < 2 ^ 32
      /\ exists ps sb' w' p sb'' w'',
          allocate_all K0 (replicate 128 (0, 300)) (Reset scratch0) world1
          = (Done (ps, sb'), w')
          /\ AllocateConstantBuffer K0 sb' 0 300 w' = (Done (p, sb''), w'')
          /\ memory_heap_size <= p_ofs p.
Proof.
  assert (Hsz : 0 <= 300 < MAX_BLOCK_SIZE K0) by (cbn; lia).
  split; [exact scratch_wf_scratch0|]. split; [exact Hsz|].
  eexists. split; [reflexivity|].
  assert (Hfull : memory_heap_size <= Z.of_nat 128 * 512) by (vm_compute; discriminate).
  assert (Hb : (Z.of_nat 128 + 1) * MAX_BLOCK_SIZE K0 < 2 ^ 32) by (vm_compute; reflexivity).
  split; [exact Hfull|]. split; [exact Hb|].
  destruct (allocation_past_the_end_of_the_heap K0 constants_ok_K0 scratch0 128 0 300 _
              world1 scratch_wf_scratch0 Hsz eq_refl Hfull Hb)
    as (ps & sb' & w' & p & sb'' & w'' & Hrun & Hlast & _ & Hofs).
  exists ps, sb', w', p, sb'', w''. auto.
Defined.

(** ** Frames, one after the other *)

Section FrameRuns.
Variable K : Constants.

Lemma elem_of_map_EvRelease h l : EvRelease h ∈ map EvRelease l <-> h ∈ l.
Proof.
  split.
  - intros H. apply list_elem_of_fmap in H as (h' & Heq & Hin).
    inversion Heq; subst. exact Hin.
  - intros H. apply list_elem_of_fmap. eauto.
Qed.

Lemma EvRelease_not_recorded h l : EvRelease h ∉ map EvRecord l.
Proof. intros H. apply list_elem_of_fmap in H as (c & Heq & _). discriminate. Qed.

(** X5. [DX12BeginFrame] on one frame slot releases the handles pending
    in that slot and no other handle, and leaves every other slot as it
    was: its pending handles, its fence value and the cursors of its
    scratch buffer. *)
Theorem BeginFrame_touches_only_its_slot ctx s w fr :
  frame_ready ctx s -> calls_succeed w ->
  m_FrameResources ctx !! s = Some fr ->
  fence_reachable w (m_Fence fr) (m_FenceValue fr) ->
  exists ctx1 w1 tr,
    DX12BeginFrame K ctx s w = (Done ctx1, w1)
    /\ w_trace w1 = w_trace w ++ tr
    /\ (forall h, EvRelease h ∈ tr <-> h ∈ m_ResourcesToDestroy fr)
    /\ (forall s', s' <> s -> m_FrameResources ctx1 !! s' = m_FrameResources ctx !! s')
    /\ length (m_FrameResources ctx1) = length (m_FrameResources ctx)
    /\ m_CurrentFrameIndex ctx1 = s
    /\ m_FrameBegun ctx1 = true.
Proof.
  intros Hready Hok Hfr Hreach.
  destruct (frame_ready_facts ctx s Hready)
    as (fr0 & pool0 & Hfr0 & Hp0 & Hsc & Hcl & Hq & Hrtv & Hf & Hca).
  rewrite Hfr in Hfr0. inversion Hfr0; subst fr0. clear Hfr0.
  destruct (fence_reachable_after_wait _ _ _ Hreach) as [w1 Hw].
  destruct (after_wait_facts _ _ _ _ Hw) as (Hv & Hhr & Hnext & Htr).
  destruct (DX12BeginFrame_spec K ctx s w fr pool0 w1 Hsc Hcl Hrtv Hf Hca Hok Hfr Hp0 Hw)
    as (rt & recorded & Hbegin & Hbound).
  eexists _, _, _. split; [exact Hbegin|]. simpl_ctx.
  split; [rewrite Htr, <- !app_assoc; reflexivity|].
  split.
  { intros h. rewrite !elem_of_app, elem_of_map_EvRelease. split.
    - intros [H|[H|[H|[H|H]]]]; [| |exact H| |].
      + destruct (w_fence w (m_Fence fr) <? m_FenceValue fr);
          repeat (apply elem_of_cons in H as [H|H]; [discriminate|]);
          apply elem_of_nil in H; contradiction.
      + apply list_elem_of_singleton in H. discriminate.
      + repeat (apply elem_of_cons in H as [H|H]; [discriminate|]).
        apply elem_of_nil in H. contradiction.
      + exfalso. eapply EvRelease_not_recorded. exact H.
    - intros H. right. right. left. exact H. }
  unfold context_begun. simpl_ctx.
  split.
  { intros s' Hne. apply list_lookup_insert_ne. congruence. }
  split; [apply length_insert|]. split; reflexivity.
Qed.

(** X6. A buffer deleted during the frame of a slot is not released
    while that frame is recorded and submitted. It is released by the
    next [DX12BeginFrame] of the slot, after the wait for the value
    [DX12Flip] signalled at the end of the frame in which the buffer was
    deleted, however far the GPU has got by then. *)
Theorem deleted_buffer_is_released_by_the_next_frame_of_its_slot ctx s w fr buffer :
  frame_ready ctx s -> calls_succeed w ->
  m_FrameResources ctx !! s = Some fr ->
  fence_reachable w (m_Fence fr) (m_FenceValue fr) ->
  is_null (m_Resource buffer) = false ->
  let f := m_Fence fr in
  let v' := uint64 (m_FenceValue fr + 1) in
  exists ctx1 w1 ctx2 buffer' ctx3 w3 tr,
    DX12BeginFrame K ctx s w = (Done ctx1, w1)
    /\ DX12DeleteBuffer ctx1 buffer = Done (ctx2, buffer')
    /\ m_Resource buffer' = null /\ m_Destroyed buffer' = true
    /\ DX12Flip K ctx2 w1 = (Done ctx3, w3)
    /\ w_trace w3 = w_trace w1 ++ tr
    /\ (EvRelease (m_Resource buffer) ∉ tr)
    /\ (EvSignal f v' ∈ tr)
    /\ forall n,
        let w3' := gpu_advance n w3 in
        exists ctx4 w4 recorded,
          DX12BeginFrame K ctx3 s w3' = (Done ctx4, w4)
          /\ w_trace w4 =
             w_trace w3
               ++ (if w_fence w3' f <? v'
                   then [EvCall Fence_SetEventOnCompletion S_OK; EvWait f v'] else [])
               ++ [EvCall CommandAllocator_Reset S_OK; EvRelease (m_Resource buffer);
                   EvCall CommandList_Reset S_OK; EvScratchReset s]
               ++ map EvRecord recorded
          /\ v' <= w_fence w4 f.
Proof.
  intros Hready Hok Hfr Hreach Hnn f v'.
  destruct (frame_ready_facts ctx s Hready)
    as (fr0 & pool0 & Hfr0 & Hp0 & Hsc & Hcl & Hq & Hrtv & Hf & Hca).
  rewrite Hfr in Hfr0. inversion Hfr0; subst fr0. clear Hfr0.
  destruct (fence_reachable_after_wait _ _ _ Hreach) as [w1 Hw].
  destruct (after_wait_facts _ _ _ _ Hw) as (Hv & Hhr & Hnext & Htr).
  destruct (DX12BeginFrame_spec K ctx s w fr pool0 w1 Hsc Hcl Hrtv Hf Hca Hok Hfr Hp0 Hw)
    as (rt & recorded & Hbegin & Hbound).
  assert (Hlt : (s < length (m_FrameResources ctx))%nat)
    by (eapply lookup_lt_Some; eauto).
  assert (Hok1 : calls_succeed w1) by (unfold calls_succeed; rewrite Hhr; exact Hok).
  match type of Hbegin with _ = (_, ?w1') => set (wb := w1') in * end.
  assert (Hokb : calls_succeed wb) by (intros n c; apply Hok1).
  set (ctx1 := context_begun ctx s fr rt) in *.
  assert (Hfr1 : m_FrameResources ctx1 !! s = Some (frame_begun fr)).
  { subst ctx1. unfold context_begun. simpl_ctx. apply list_lookup_insert_eq. exact Hlt. }
  assert (Hcur1 : m_CurrentFrameIndex ctx1 = s) by reflexivity.
  set (fr' := set_ResourcesToDestroy (frame_begun fr) [m_Resource buffer]).
  set (ctx2 := set_frame ctx1 s fr').
  assert (Hdel : DX12DeleteBuffer ctx1 buffer
                 = Done (ctx2, mkDeviceBuffer null true (m_DataSize buffer))).
  { unfold DX12DeleteBuffer. rewrite Hcur1, Hfr1.
    unfold DestroyResourceDeferred. rewrite Hnn. reflexivity. }
  assert (Hlt1 : (s < length (m_FrameResources ctx1))%nat)
    by (eapply lookup_lt_Some; eauto).
  assert (Hfr2 : m_FrameResources ctx2 !! m_CurrentFrameIndex ctx2 = Some fr').
  { subst ctx2. simpl_ctx. apply list_lookup_insert_eq. exact Hlt1. }
  destruct (DX12Flip_spec K ctx2 wb fr') as (rt2 & recorded2 & Hflip); auto.
  match type of Hflip with _ = (Done ?c3, ?w3') => set (ctx3 := c3) in *; set (w3 := w3') in * end.
  exists ctx1, wb, ctx2, (mkDeviceBuffer null true (m_DataSize buffer)), ctx3, w3.
  eexists. split; [exact Hbegin|]. split; [exact Hdel|].
  split; [reflexivity|]. split; [reflexivity|]. split; [exact Hflip|].
  split; [subst w3; simpl_ctx; reflexivity|].
  split.
  { intros H. apply elem_of_app in H as [H|H].
    - eapply EvRelease_not_recorded. exact H.
    - repeat (apply elem_of_cons in H as [H|H]; [discriminate|]).
      apply elem_of_nil in H. contradiction. }
  split.
  { apply elem_of_app. right. right. left. }
  intros n. cbv zeta.
  destruct (gpu_advance_facts n w3) as (Hhr3 & Htr3 & _ & _).
  assert (Hok3 : calls_succeed (gpu_advance n w3)).
  { unfold calls_succeed. rewrite Hhr3. intros; apply Hok1. }
  assert (Hreach3 : fence_reachable (gpu_advance n w3) f v').
  { apply (fence_reachable_after_signal w3 (w_queue wb ++ [GpuExecute])).
    subst w3. cbn. rewrite <- app_assoc. reflexivity. }
  destruct (fence_reachable_after_wait _ _ _ Hreach3) as [w4 Hw4].
  destruct (after_wait_facts _ _ _ _ Hw4) as (Hv4 & _ & _ & Htr4).
  assert (Hfr3 : m_FrameResources ctx3 !! s = Some fr').
  { subst ctx3 ctx2. simpl_ctx. apply list_lookup_insert_eq. exact Hlt1. }
  assert (Hp0' : m_MemoryPools (m_ScratchBuffer fr') !! 0%nat = Some (set_cursors pool0 0 0)).
  { subst fr'. unfold frame_begun. simpl_ctx. rewrite list_lookup_fmap, Hp0. reflexivity. }
  destruct (DX12BeginFrame_spec K ctx3 s (gpu_advance n w3) fr' (set_cursors pool0 0 0) w4)
    as (rt4 & recorded4 & Hbegin4 & _); auto.
  eexists _, _, (_ :: recorded4). split; [exact Hbegin4|]. simpl_ctx.
  split; [|exact Hv4].
  rewrite Htr4, Htr3. subst fr'. unfold frame_begun. simpl_ctx.
  rewrite <- !app_assoc. cbn [map app]. reflexivity.
Qed.

(** What [DX12Flip] does when [Signal] fails and nobody checks. *)
Lemma DX12Flip_Signal_fails ctx w fr hr :
  m_VerifyGraphicsCalls ctx = false ->
  is_null (m_SwapChain ctx) = false -> is_null (m_CommandList ctx) = false ->
  is_null (m_CommandQueue ctx) = false ->
  only_Signal_fails hr w -> FAILED hr = true ->
  m_FrameResources ctx !! m_CurrentFrameIndex ctx = Some fr ->
  exists rt recorded,
    DX12Flip K ctx w =
    (Done (set_FrameBegun (set_MainRenderTarget ctx rt) false),
     mkWorld (w_hr w) (S (S (w_ncalls w))) (w_next w)
       (w_trace w ++ map EvRecord recorded
          ++ [EvSubmit; EvSignal (m_Fence fr) (m_FenceValue fr);
              EvCall CommandQueue_Signal hr; EvCall SwapChain_Present S_OK])
       (w_queue w ++ [GpuExecute])
       (w_fence w)).
Proof.
  intros Hv Hsc Hcl Hq Hw Hfail Hfr.
  unfold DX12Flip. unfold bind at 1.
  destruct (EndRenderPass_spec K ctx w Hcl) as (b & rt & recorded & Herp).
  rewrite Herp. simpl_ctx. rewrite Hfr.
  unfold bind at 1. rewrite (deref_nonnull _ _ Hcl).
  unfold bind at 1. rewrite (deref_nonnull _ _ Hq).
  unfold bind at 1. unfold tell at 1.
  unfold bind at 1.
  unfold bind at 1. unfold tell at 1.
  unfold bind at 1. unfold call at 1. unfold emit, emits, enqueue. simpl_ctx.
  rewrite (Hw _ CommandQueue_Signal). rewrite decide_True by reflexivity.
  unfold bind at 1. rewrite Hfail.
  unfold bind at 1. unfold CHECK_HR_ERROR at 1. rewrite Hv. cbn [andb].
  unfold ret at 1.
  unfold bind at 1. rewrite (deref_nonnull _ _ Hsc).
  unfold bind at 1. unfold call at 1. unfold emit, emits, enqueue. simpl_ctx.
  rewrite (Hw _ SwapChain_Present). rewrite decide_False by discriminate.
  unfold bind at 1. unfold CHECK_HR_ERROR at 1. cbn [andb].
  exists rt, recorded. unfold ret. f_equal. f_equal.
  rewrite <- !app_assoc. reflexivity.
Qed.

(** X7. With verified calls off, a [Signal] that fails at the end of a
    frame goes unnoticed by [DX12Flip], which returns; the fence is then
    never asked to reach the slot's value, and the next
    [DX12BeginFrame] of the slot, which waits for that value without a
    timeout, does not return. It releases nothing before it blocks. *)
Theorem failed_Signal_blocks_the_next_BeginFrame ctx w fr hr :
  m_VerifyGraphicsCalls ctx = false ->
  frame_ready ctx (m_CurrentFrameIndex ctx) ->
  m_FrameResources ctx !! m_CurrentFrameIndex ctx = Some fr ->
  only_Signal_fails hr w -> FAILED hr = true ->
  gpu_run_until (m_Fence fr) (m_FenceValue fr) (w_queue w ++ [GpuExecute]) (w_fence w) = None ->
  exists ctx1 w1 w2,
    DX12Flip K ctx w = (Done ctx1, w1)
    /\ (EvCall CommandQueue_Signal hr ∈ w_trace w1)
    /\ DX12BeginFrame K ctx1 (m_CurrentFrameIndex ctx) w1 = (Hang, w2)
    /\ w_trace w2 = w_trace w1 ++ [EvCall Fence_SetEventOnCompletion S_OK].
Proof.
  intros Hv Hready Hfr Hw Hfail Hnone.
  destruct (frame_ready_facts ctx _ Hready)
    as (fr0 & pool0 & Hfr0 & Hp0 & Hsc & Hcl & Hq & Hrtv & Hf & Hca).
  rewrite Hfr in Hfr0. inversion Hfr0; subst fr0. clear Hfr0.
  destruct (DX12Flip_Signal_fails ctx w fr hr Hv Hsc Hcl Hq Hw Hfail Hfr)
    as (rt & recorded & Hflip).
  match type of Hflip with _ = (Done ?c1, ?w1') => set (ctx1 := c1) in *; set (w1 := w1') in * end.
  exists ctx1, w1. eexists. split; [exact Hflip|].
  split.
  { subst w1. simpl_ctx. rewrite !elem_of_app. right. right.
    right. right. left. }
  assert (Hlow : (w_fence w (m_Fence fr) <? m_FenceValue fr) = true).
  { destruct (w_queue w ++ [GpuExecute]) eqn:E; cbn in Hnone;
      destruct (m_FenceValue fr <=? w_fence w (m_Fence fr)) eqn:E'; try discriminate; lia. }
  unfold DX12BeginFrame. unfold bind at 1. unfold SyncronizeFrame.
  unfold bind at 1. subst ctx1. simpl_ctx. rewrite (deref_nonnull _ _ Hsc).
  rewrite Hfr.
  unfold bind at 1. rewrite (deref_nonnull _ _ Hf).
  unfold bind at 1. unfold GetCompletedValue at 1. subst w1. simpl_ctx.
  rewrite Hlow.
  unfold bind at 1. unfold bind at 1. unfold call at 1. simpl_ctx.
  rewrite (Hw _ Fence_SetEventOnCompletion). rewrite decide_False by discriminate.
  unfold bind at 1. unfold CHECK_HR_ERROR at 1. rewrite Hv. cbn [andb]. unfold ret at 1.
  unfold WaitForSingleObject. change (negb (FAILED S_OK)) with true. cbn iota. simpl_ctx.
  rewrite Hnone. split; [reflexivity|].
  simpl_ctx. reflexivity.
Qed.

End FrameRuns.

Lemma BeginFrame_touches_only_its_slot_witness :
  frame_ready context0 0 /\ calls_succeed world_init
  /\ exists fr,
      m_FrameResources context0 !! 0%nat = Some fr
      /\ fence_reachable world_init (m_Fence fr) (m_FenceValue fr)
      /\ exists ctx1 w1,
          DX12BeginFrame K0 context0 0 world_init = (Done ctx1, w1)
          /\ m_FrameResources ctx1 !! 1%nat = m_FrameResources context0 !! 1%nat.
Proof.
  split; [exact frame_ready_context0|]. split; [exact calls_succeed_world_init|].
  eexists. split; [reflexivity|].
  assert (Hreach : fence_reachable world_init 11%nat 0) by (vm_compute; eauto).
  split; [exact Hreach|].
  destruct (BeginFrame_touches_only_its_slot K0 context0 0 world_init _
              frame_ready_context0 calls_succeed_world_init eq_refl Hreach)
    as (ctx1 & w1 & tr & Hbegin & _ & _ & Hother & _).
  exists ctx1, w1. split; [exact Hbegin|]. apply Hother. discriminate.
Defined.

Lemma deleted_buffer_is_released_by_the_next_frame_of_its_slot_witness :
  frame_ready context0 0 /\ calls_succeed world_init
  /\ exists fr,
      m_FrameResources context0 !! 0%nat = Some fr
      /\ fence_reachable world_init (m_Fence fr) (m_FenceValue fr)
      /\ is_null (m_Resource (mkDeviceBuffer 100%nat false 64)) = false
      /\ exists ctx1 w1 ctx2 buffer' ctx3 w3,
          DX12BeginFrame K0 context0 0 world_init = (Done ctx1, w1)
          /\ DX12DeleteBuffer ctx1 (mkDeviceBuffer 100%nat false 64) = Done (ctx2, buffer')
          /\ DX12Flip K0 ctx2 w1 = (Done ctx3, w3)
          /\ exists ctx4 w4, DX12BeginFrame K0 ctx3 0 (gpu_advance 0 w3) = (Done ctx4, w4).
Proof.
  split; [exact frame_ready_context0|]. split; [exact calls_succeed_world_init|].
  eexists. split; [reflexivity|].
  assert (Hreach : fence_reachable world_init 11%nat 0) by (vm_compute; eauto).
  split; [exact Hreach|]. split; [reflexivity|].
  destruct (deleted_buffer_is_released_by_the_next_frame_of_its_slot K0 context0 0 world_init
              _ (mkDeviceBuffer 100%nat false 64)
              frame_ready_context0 calls_succeed_world_init eq_refl Hreach eq_refl)
    as (ctx1 & w1 & ctx2 & buffer' & ctx3 & w3 & tr & Hbegin & Hdel & _ & _ & Hflip
        & _ & _ & _ & Hnext).
  exists ctx1, w1, ctx2, buffer', ctx3, w3.
  split; [exact Hbegin|]. split; [exact Hdel|]. split; [exact Hflip|].
  destruct (Hnext 0%nat) as (ctx4 & w4 & recorded & H4 & _).
  exists ctx4, w4. exact H4.
Defined.

Lemma only_Signal_fails_world_unverified : only_Signal_fails E_FAIL world_unverified.
Proof. intros n c. reflexivity. Qed.

Lemma failed_Signal_blocks_the_next_BeginFrame_witness :
  m_VerifyGraphicsCalls context_unverified = false
  /\ frame_ready context_unverified (m_CurrentFrameIndex context_unverified)
  /\ only_Signal_fails E_FAIL world_unverified /\ FAILED E_FAIL = true
  /\ exists ctx1 w1 w2,
      DX12Flip K0 context_unverified world_unverified = (Done ctx1, w1)
      /\ DX12BeginFrame K0 ctx1 0 w1 = (Hang, w2).
Proof.
  assert (Hr : frame_ready context_unverified (m_CurrentFrameIndex context_unverified))
    by (vm_compute; reflexivity).
  split; [reflexivity|]. split; [exact Hr|].
  split; [exact only_Signal_fails_world_unverified|]. split; [reflexivity|].
  destruct (failed_Signal_blocks_the_next_BeginFrame K0 context_unverified world_unverified
              _ E_FAIL eq_refl Hr eq_refl only_Signal_fails_world_unverified eq_refl)
    as (ctx1 & w1 & w2 & Hflip & _ & Hhang & _).
  { vm_compute. reflexivity. }
  exists ctx1, w1, w2. split; [exact Hflip|exact Hhang].
Defined.

(** ** Program resource bindings: the merged table *)

Section BindingTable.
Variable K : Constants.

Lemma tables_agree_empty : tables_agree (mkFillState ∅ ∅ info_zero).
Proof.
  split.
  - intros k. cbn. rewrite !lookup_empty. tauto.
  - intros k d H. cbn in H. rewrite lookup_empty in H. discriminate.
Qed.

(** One resource: either its slot is taken and nothing changes, or the
    slot is free and gets [new_entry]. *)
Lemma Fill_resource_step tis align flag res st w st' w' :
  tables_agree st ->
  Fill_resource K tis align flag res st w = (Done st', w') ->
  w' = w
  /\ (m_Set res < MAX_SET_COUNT K)%nat /\ (m_Binding res < MAX_BINDINGS_PER_SET_COUNT K)%nat
  /\ ((st' = st /\ is_Some (fs_ResourceBindings st !! slot_of res))
      \/ (fs_ResourceBindings st !! slot_of res = None
          /\ st' = mkFillState
                     (<[slot_of res := new_entry tis flag res (fs_info st)]>
                        (fs_ResourceBindings st))
                     (<[slot_of res := mkResourceBindingDesc (Z.of_nat (m_Binding res)) true]>
                        (fs_bindings st))
                     (new_info tis align res (fs_info st))
          /\ (is_uniform_buffer res = true ->
              m_UseTypeIndex (m_Type res) = true
              /\ is_Some (tis !! m_TypeIndex (m_Type res))))).
Proof.
  intros [J1 J2] H. unfold Fill_resource in H.
  destruct (m_Set res <? MAX_SET_COUNT K)%nat eqn:Hs; [|discriminate].
  destruct (m_Binding res <? MAX_BINDINGS_PER_SET_COUNT K)%nat eqn:Hb; [|discriminate].
  cbn [andb negb] in H. cbv zeta in H. apply Nat.ltb_lt in Hs, Hb.
  unfold at_slot in H. fold (slot_of res) in H.
  destruct (fs_bindings st !! slot_of res) as [d|] eqn:Hd; cbn [default from_option id] in H.
  - rewrite (J2 _ _ Hd) in H. unfold ret in H. injection H as <- <-. repeat split; auto.
    left. split; [reflexivity|].
    destruct (fs_ResourceBindings st !! slot_of res) eqn:E; [eauto|].
    apply J1 in E. congruence.
  - cbn [rb_Taken] in H.
    assert (Hnone : fs_ResourceBindings st !! slot_of res = None) by (apply J1; exact Hd).
    rewrite Hnone in H. cbn [default from_option id] in H.
    apply bind_Done_inv in H as ([prb' info'] & w1 & Hm & H).
    unfold ret in H. injection H as <- <-.
    assert (Hcase : w1 = w
                    /\ prb' = new_entry tis flag res (fs_info st)
                    /\ mkInfo (m_UniformBufferCount info') (m_StorageBufferCount info')
                              (m_TextureCount info') (m_TotalUniformCount info')
                              (m_UniformDataSize info') (m_UniformDataSizeAligned info')
                              (Z.max (m_MaxSet info') (Z.of_nat (m_Set res) + 1))
                              (Z.max (m_MaxBinding info') (Z.of_nat (m_Binding res) + 1))
                       = new_info tis align res (fs_info st)
                    /\ (is_uniform_buffer res = true ->
                        m_UseTypeIndex (m_Type res) = true
                        /\ is_Some (tis !! m_TypeIndex (m_Type res)))).
    { unfold new_entry, new_info, is_uniform_buffer, is_texture, is_storage_buffer,
        uniform_weight.
      cbn [m_StageFlags ProgramResourceBinding_zero m_DataOffset m_DynamicOffsetIndex
           m_TextureUnit m_StorageBufferUnit] in Hm.
      rewrite Z.lor_0_l in Hm.
      destruct (m_BindingFamily res).
      - inversion Hm; subst. cbn. rewrite !Z.add_0_r.
        repeat split; try reflexivity; discriminate.
      - destruct (m_UseTypeIndex (m_Type res)) eqn:Hu; [|discriminate]. cbn [negb] in Hm.
        destruct (tis !! m_TypeIndex (m_Type res)) as [ti|] eqn:Hti; [|discriminate].
        inversion Hm; subst. cbn. rewrite !Z.add_0_r.
        repeat split; eauto.
      - inversion Hm; subst. cbn. rewrite !Z.add_0_r.
        repeat split; try reflexivity; discriminate.
      - inversion Hm; subst. cbn. rewrite !Z.add_0_r.
        repeat split; try reflexivity; discriminate. }
    destruct Hcase as (-> & -> & -> & Hubo).
    repeat split; auto.
Qed.

Lemma tables_agree_step tis align flag res st w st' w' :
  tables_agree st ->
  Fill_resource K tis align flag res st w = (Done st', w') ->
  tables_agree st'.
Proof.
  intros HJ H. pose proof HJ as [J1 J2].
  destruct (Fill_resource_step _ _ _ _ _ _ _ _ HJ H)
    as (_ & _ & _ & [(-> & _)|(Hnone & -> & _)]); [exact HJ|].
  split; cbn [fs_bindings fs_ResourceBindings].
  - intros k. destruct (decide (k = slot_of res)) as [->|Hne].
    + rewrite !lookup_insert_eq. split; discriminate.
    + rewrite !lookup_insert_ne by congruence. apply J1.
  - intros k d. destruct (decide (k = slot_of res)) as [->|Hne].
    + rewrite lookup_insert_eq. intros Hd. inversion Hd. reflexivity.
    + rewrite lookup_insert_ne by congruence. apply J2.
Qed.

(** An invariant of single steps is an invariant of a resource list, of
    a module and of the three stages. *)
Lemma Fill_list_invariant (P : FillState -> Prop) tis align flag resources :
  (forall res st w st' w',
      res ∈ resources -> tables_agree st -> P st ->
      Fill_resource K tis align flag res st w = (Done st', w') -> P st') ->
  forall st w st' w',
    tables_agree st -> P st ->
    FillProgramResourceBindings_list K resources tis align flag st w = (Done st', w') ->
    tables_agree st' /\ P st' /\ w' = w.
Proof.
  induction resources as [|res rest IH]; intros Hstep st w st' w' HJ HP H; cbn in H.
  - inversion H; subst. auto.
  - apply bind_Done_inv in H as (st1 & w1 & H1 & H).
    assert (w1 = w) by (eapply Fill_resource_step; eauto). subst w1.
    eapply IH; [|eapply tables_agree_step; eauto| |exact H].
    + intros res0 st0 w0 st0' w0' Hin. apply Hstep. right. exact Hin.
    + eapply Hstep; [left| | |exact H1]; auto.
Qed.

Lemma Fill_module_invariant (P : FillState -> Prop) align flag module :
  (forall res st w st' w' m,
      module = Some m -> res ∈ module_resources module -> tables_agree st -> P st ->
      Fill_resource K (m_TypeInfos (m_ShaderMeta m)) align flag res st w = (Done st', w') ->
      P st') ->
  forall st w st' w',
    tables_agree st -> P st ->
    FillProgramResourceBindings K module align flag st w = (Done st', w') ->
    tables_agree st' /\ P st' /\ w' = w.
Proof.
  intros Hstep st w st' w' HJ HP H. destruct module as [m|]; cbn in H.
  - apply bind_Done_inv in H as (st1 & w1 & H1 & H).
    apply bind_Done_inv in H as (st2 & w2 & H2 & H3).
    eapply Fill_list_invariant in H1 as (HJ1 & HP1 & ->); [| |exact HJ|exact HP].
    2:{ intros res s0 w0 s0' w0' Hin. apply (Hstep res s0 w0 s0' w0' m eq_refl).
        cbn. apply elem_of_app. left. exact Hin. }
    eapply Fill_list_invariant in H2 as (HJ2 & HP2 & ->); [| |exact HJ1|exact HP1].
    2:{ intros res s0 w0 s0' w0' Hin. apply (Hstep res s0 w0 s0' w0' m eq_refl).
        cbn. apply elem_of_app. right. apply elem_of_app. left. exact Hin. }
    eapply Fill_list_invariant in H3 as (HJ3 & HP3 & ->); [| |exact HJ2|exact HP2].
    2:{ intros res s0 w0 s0' w0' Hin. apply (Hstep res s0 w0 s0' w0' m eq_refl).
        cbn. apply elem_of_app. right. apply elem_of_app. right. exact Hin. }
    auto.
  - inversion H; subst. auto.
Qed.

(** What [new_program_bindings] returns is the state after the vertex
    stage and the fragment stage. *)
Lemma new_program_bindings_stages vp fp w program info w' :
  new_program_bindings K vp fp w = (Done (program, info), w') ->
  exists st1 st2,
    FillProgramResourceBindings K vp (UNIFORM_BUFFERS_ALIGNMENT K) SHADER_STAGE_FLAG_VERTEX
      (mkFillState ∅ ∅ info_zero) w = (Done st1, w)
    /\ FillProgramResourceBindings K fp (UNIFORM_BUFFERS_ALIGNMENT K)
         SHADER_STAGE_FLAG_FRAGMENT st1 w = (Done st2, w)
    /\ m_ResourceBindings program = fs_ResourceBindings st2
    /\ info = fs_info st2 /\ w' = w
    /\ tables_agree st1 /\ tables_agree st2.
Proof.
  unfold new_program_bindings, CreateProgramResourceBindings. intros H.
  cbn [m_ResourceBindings] in H.
  apply bind_Done_inv in H as (st1 & w1 & H1 & H).
  apply bind_Done_inv in H as (st2 & w2 & H2 & H).
  apply bind_Done_inv in H as (st3 & w3 & H3 & H).
  cbn in H3. inversion H3; subst st3 w3. inversion H; subst. clear H H3.
  pose proof H1 as H1'.
  eapply (Fill_module_invariant (fun _ => True)) in H1' as (HJ1 & _ & ->);
    [|auto|apply tables_agree_empty|exact I].
  pose proof H2 as H2'.
  eapply (Fill_module_invariant (fun _ => True)) in H2' as (HJ2 & _ & ->);
    [|auto|exact HJ1|exact I].
  exists st1, st2. auto 10.
Qed.

Lemma new_program_bindings_invariant (P : FillState -> Prop) vp fp w program info w' :
  P (mkFillState ∅ ∅ info_zero) ->
  (forall flag module m res st w0 st' w0',
      (flag = SHADER_STAGE_FLAG_VERTEX /\ module = vp
       \/ flag = SHADER_STAGE_FLAG_FRAGMENT /\ module = fp) ->
      module = Some m -> res ∈ module_resources module -> tables_agree st -> P st ->
      Fill_resource K (m_TypeInfos (m_ShaderMeta m)) (UNIFORM_BUFFERS_ALIGNMENT K) flag res st w0
      = (Done st', w0') -> P st') ->
  new_program_bindings K vp fp w = (Done (program, info), w') ->
  exists st, P st /\ tables_agree st
             /\ m_ResourceBindings program = fs_ResourceBindings st /\ info = fs_info st.
Proof.
  intros H0 Hstep H.
  apply new_program_bindings_stages in H
    as (st1 & st2 & H1 & H2 & Hrb & Hinfo & _ & _ & _).
  eapply (Fill_module_invariant P) in H1 as (HJ1 & HP1 & _);
    [| |apply tables_agree_empty|exact H0].
  2:{ intros res s0 w0 s0' w0' m Hm Hin. eapply Hstep; eauto. }
  eapply (Fill_module_invariant P) in H2 as (HJ2 & HP2 & _); [| |exact HJ1|exact HP1].
  2:{ intros res s0 w0 s0' w0' m Hm Hin. eapply Hstep; eauto. }
  exists st2. auto.
Qed.


(** Entries are never dropped or rewritten by a later resource. *)
Lemma Fill_step_preserves tis align flag res st w st' w' k e :
  tables_agree st ->
  Fill_resource K tis align flag res st w = (Done st', w') ->
  fs_ResourceBindings st !! k = Some e -> fs_ResourceBindings st' !! k = Some e.
Proof.
  intros HJ H Hk.
  destruct (Fill_resource_step _ _ _ _ _ _ _ _ HJ H)
    as (_ & _ & _ & [(-> & _)|(Hnone & -> & _)]); [exact Hk|].
  cbn. rewrite lookup_insert_ne; [exact Hk|]. intros <-. congruence.
Qed.

(** A stage adds entries for the slots its resources find free, each
    with the flag of the stage, keeps the entries that were there, and
    leaves no resource of its module without an entry. *)
Lemma Fill_list_stage tis align flag resources : forall st w st' w',
  tables_agree st ->
  FillProgramResourceBindings_list K resources tis align flag st w = (Done st', w') ->
  tables_agree st'
  /\ (forall k e, fs_ResourceBindings st !! k = Some e ->
                  fs_ResourceBindings st' !! k = Some e)
  /\ (forall k e, fs_ResourceBindings st' !! k = Some e ->
                  fs_ResourceBindings st !! k = Some e
                  \/ (fs_ResourceBindings st !! k = None /\ m_StageFlags e = flag
                      /\ exists res, res ∈ resources /\ slot_of res = k))
  /\ (forall res, res ∈ resources -> is_Some (fs_ResourceBindings st' !! slot_of res)).
Proof.
  induction resources as [|res rest IH]; intros st w st' w' HJ H; cbn in H.
  - inversion H; subst. split; [exact HJ|]. split; [auto|]. split; [auto|].
    intros res Hin. apply elem_of_nil in Hin. contradiction.
  - apply bind_Done_inv in H as (st1 & w1 & H1 & H).
    pose proof (tables_agree_step _ _ _ _ _ _ _ _ HJ H1) as HJ1.
    destruct (IH _ _ _ _ HJ1 H) as (HJ' & Hkeep & Hnew & Hcover).
    pose proof (fun k e => Fill_step_preserves _ _ _ _ _ _ _ _ k e HJ H1) as Hpres.
    split; [exact HJ'|]. split; [|split].
    + intros k e Hk. apply Hkeep, Hpres, Hk.
    + intros k e Hk. apply Hnew in Hk as [Hk|(Hnone & Hflag & res' & Hin & Hslot)].
      * destruct (Fill_resource_step _ _ _ _ _ _ _ _ HJ H1)
          as (_ & _ & _ & [(-> & _)|(Hnone & -> & _)]); [left; exact Hk|].
        cbn in Hk. destruct (decide (k = slot_of res)) as [->|Hne].
        -- rewrite lookup_insert_eq in Hk. inversion Hk; subst e.
           right. split; [exact Hnone|]. split; [reflexivity|].
           exists res. split; [left|reflexivity].
        -- rewrite lookup_insert_ne in Hk by congruence. left. exact Hk.
      * right. split.
        -- destruct (fs_ResourceBindings st !! k) eqn:E; [|reflexivity].
           apply Hpres in E. congruence.
        -- split; [exact Hflag|]. exists res'. split; [right; exact Hin|exact Hslot].
    + intros res' Hin. apply elem_of_cons in Hin as [->|Hin]; [|auto].
      assert (Hsome : is_Some (fs_ResourceBindings st1 !! slot_of res)).
      { destruct (Fill_resource_step _ _ _ _ _ _ _ _ HJ H1)
          as (_ & _ & _ & [(-> & Hs)|(Hnone & -> & _)]); [exact Hs|].
        cbn. rewrite lookup_insert_eq. eauto. }
      destruct Hsome as [e He]. exists e. apply Hkeep. exact He.
Qed.

Lemma Fill_module_stage align flag module st w st' w' :
  tables_agree st ->
  FillProgramResourceBindings K module align flag st w = (Done st', w') ->
  tables_agree st'
  /\ (forall k e, fs_ResourceBindings st !! k = Some e ->
                  fs_ResourceBindings st' !! k = Some e)
  /\ (forall k e, fs_ResourceBindings st' !! k = Some e ->
                  fs_ResourceBindings st !! k = Some e
                  \/ (fs_ResourceBindings st !! k = None /\ m_StageFlags e = flag
                      /\ exists res, res ∈ module_resources module /\ slot_of res = k))
  /\ (forall res, res ∈ module_resources module ->
                  is_Some (fs_ResourceBindings st' !! slot_of res)).
Proof.
  intros HJ H. destruct module as [m|]; cbn in H.
  - apply bind_Done_inv in H as (st1 & w1 & H1 & H).
    apply bind_Done_inv in H as (st2 & w2 & H2 & H3).
    destruct (Fill_list_stage _ _ _ _ _ _ _ _ HJ H1) as (HJ1 & K1 & N1 & C1).
    destruct (Fill_list_stage _ _ _ _ _ _ _ _ HJ1 H2) as (HJ2 & K2 & N2 & C2).
    destruct (Fill_list_stage _ _ _ _ _ _ _ _ HJ2 H3) as (HJ3 & K3 & N3 & C3).
    split; [exact HJ3|]. split; [auto|]. split.
    + intros k e Hk. cbn [module_resources].
      apply N3 in Hk as [Hk|(Hn3 & Hf & res & Hin & Hs)].
      * apply N2 in Hk as [Hk|(Hn2 & Hf & res & Hin & Hs)].
        -- apply N1 in Hk as [Hk|(Hn1 & Hf & res & Hin & Hs)]; [left; exact Hk|].
           right. split; [exact Hn1|]. split; [exact Hf|].
           exists res. split; [|exact Hs]. apply elem_of_app. left. exact Hin.
        -- right. split.
           { destruct (fs_ResourceBindings st !! k) eqn:E; [|reflexivity].
             apply K1 in E. congruence. }
           split; [exact Hf|]. exists res. split; [|exact Hs].
           apply elem_of_app. right. apply elem_of_app. left. exact Hin.
      * right. split.
        { destruct (fs_ResourceBindings st !! k) eqn:E; [|reflexivity].
          apply K1, K2 in E. congruence. }
        split; [exact Hf|]. exists res. split; [|exact Hs].
        apply elem_of_app. right. apply elem_of_app. right. exact Hin.
    + intros res Hin. cbn [module_resources] in Hin.
      apply elem_of_app in Hin as [Hin|Hin].
      * destruct (C1 res Hin) as [e He]. exists e. auto.
      * apply elem_of_app in Hin as [Hin|Hin].
        -- destruct (C2 res Hin) as [e He]. exists e. auto.
        -- auto.
  - inversion H; subst. split; [exact HJ|]. split; [auto|]. split; [auto|].
    intros res Hin. apply elem_of_nil in Hin. contradiction.
Qed.

(** X8. In the table [CreateProgramResourceBindings] builds for a
    vertex and a fragment module, every resource of either module has
    an entry at its slot, and the entry carries one stage flag: the
    vertex flag when the vertex module lists a resource at that slot,
    the fragment flag otherwise. No entry carries both, so the root
    parameter made from an entry is never visible to all stages. *)
Theorem stage_flag_is_that_of_the_first_stage vp fp w program info w' :
  new_program_bindings K vp fp w = (Done (program, info), w') ->
  (forall res, res ∈ module_resources vp ->
     exists e, m_ResourceBindings program !! slot_of res = Some e
               /\ m_StageFlags e = SHADER_STAGE_FLAG_VERTEX)
  /\ (forall res, res ∈ module_resources fp ->
        exists e, m_ResourceBindings program !! slot_of res = Some e
                  /\ (m_StageFlags e = SHADER_STAGE_FLAG_VERTEX
                      <-> exists r, r ∈ module_resources vp /\ slot_of r = slot_of res)
                  /\ (m_StageFlags e = SHADER_STAGE_FLAG_FRAGMENT
                      <-> ~ exists r, r ∈ module_resources vp /\ slot_of r = slot_of res))
  /\ (forall k e, m_ResourceBindings program !! k = Some e ->
        (m_StageFlags e = SHADER_STAGE_FLAG_VERTEX
         \/ m_StageFlags e = SHADER_STAGE_FLAG_FRAGMENT)
        /\ GetShaderVisibilityFromStage (m_StageFlags e) <> D3D12_SHADER_VISIBILITY_ALL).
Proof.
  intros H.
  apply new_program_bindings_stages in H
    as (st1 & st2 & H1 & H2 & Hrb & _ & _ & _ & _).
  destruct (Fill_module_stage _ _ _ _ _ _ _ tables_agree_empty H1) as (HJ1 & _ & N1 & C1).
  destruct (Fill_module_stage _ _ _ _ _ _ _ HJ1 H2) as (HJ2 & K2 & N2 & C2).
  rewrite Hrb. clear Hrb.
  assert (Hv : forall k e, fs_ResourceBindings st1 !! k = Some e ->
                           m_StageFlags e = SHADER_STAGE_FLAG_VERTEX
                           /\ exists r, r ∈ module_resources vp /\ slot_of r = k).
  { intros k e Hk. apply N1 in Hk as [Hk|(_ & Hf & Hr)]; [|auto].
    cbn in Hk. rewrite lookup_empty in Hk. discriminate. }
  split; [|split].
  - intros res Hin. destruct (C1 res Hin) as [e He].
    exists e. split; [apply K2; exact He|]. apply (Hv _ _ He).
  - intros res Hin. destruct (C2 res Hin) as [e He].
    exists e. split; [exact He|].
    pose proof He as Hcase. apply N2 in Hcase as [Hk|(Hnone & Hf & _)].
    + destruct (Hv _ _ Hk) as [Hflag Hr]. rewrite Hflag. split.
      * split; [intros _; exact Hr|reflexivity].
      * split; [discriminate|]. intros Hn. contradiction.
    + rewrite Hf.
      assert (Hno : ~ exists r, r ∈ module_resources vp /\ slot_of r = slot_of res).
      { intros (r & Hr & Hs). destruct (C1 r Hr) as [e1 He1].
        rewrite Hs in He1. congruence. }
      split.
      * split; [discriminate|]. intros Hr. contradiction.
      * split; [intros _; exact Hno|reflexivity].
  - intros k e Hk.
    assert (Hflag : m_StageFlags e = SHADER_STAGE_FLAG_VERTEX
                    \/ m_StageFlags e = SHADER_STAGE_FLAG_FRAGMENT).
    { apply N2 in Hk as [Hk|(_ & Hf & _)]; [left; apply (Hv _ _ Hk)|right; exact Hf]. }
    split; [exact Hflag|].
    destruct Hflag as [-> | ->]; discriminate.
Qed.

Lemma entries_in_range_step tis align flag res st w st' w' :
  tables_agree st -> entries_in_range K st ->
  Fill_resource K tis align flag res st w = (Done st', w') ->
  entries_in_range K st'.
Proof.
  intros HJ (Hs & Hb & Hts & Htb & Hall) H.
  destruct (Fill_resource_step _ _ _ _ _ _ _ _ HJ H)
    as (_ & Hsr & Hbr & [(-> & _)|(Hnone & -> & Hubo)]).
  { exact (conj Hs (conj Hb (conj Hts (conj Htb Hall)))). }
  unfold entries_in_range. cbn [fs_info fs_ResourceBindings new_info m_MaxSet m_MaxBinding].
  split; [lia|]. split; [lia|]. split; [|split].
  - right. destruct (Z.max_spec (m_MaxSet (fs_info st)) (Z.of_nat (m_Set res) + 1))
      as [[Hlt ->]|[Hge ->]].
    + exists (slot_of res), (new_entry tis flag res (fs_info st)).
      rewrite lookup_insert_eq. split; reflexivity.
    + destruct Hts as [H0|(k & e & Hk & Hmax)]; [lia|].
      exists k, e. split; [|exact Hmax].
      rewrite lookup_insert_ne; [exact Hk|]. intros <-. congruence.
  - right. destruct (Z.max_spec (m_MaxBinding (fs_info st)) (Z.of_nat (m_Binding res) + 1))
      as [[Hlt ->]|[Hge ->]].
    + exists (slot_of res), (new_entry tis flag res (fs_info st)).
      rewrite lookup_insert_eq. split; reflexivity.
    + destruct Htb as [H0|(k & e & Hk & Hmax)]; [lia|].
      exists k, e. split; [|exact Hmax].
      rewrite lookup_insert_ne; [exact Hk|]. intros <-. congruence.
  - intros k e Hk. destruct (decide (k = slot_of res)) as [->|Hne].
    + rewrite lookup_insert_eq in Hk. inversion Hk; subst e. cbn [slot_of fst snd].
      split; [lia|]. split; [lia|].
      exists res, tis. cbn. auto.
    + rewrite lookup_insert_ne in Hk by congruence.
      destruct (Hall k e Hk) as (H1 & H2 & Hres). split; [lia|]. split; [lia|]. exact Hres.
Qed.

Lemma entries_in_range_empty : entries_in_range K (mkFillState ∅ ∅ info_zero).
Proof.
  unfold entries_in_range. cbn. split; [lia|]. split; [lia|]. split; [auto|].
  split; [auto|]. intros k e Hk. rewrite lookup_empty in Hk. discriminate.
Qed.

(** X9. Every entry of the merged table sits at the slot of the resource
    it describes, below [m_MaxSet] and [m_MaxBinding], which are one
    more than the largest set and the largest binding in use and do not
    exceed the dimensions of the table: the loops that walk the table up
    to [m_MaxSet] and [m_MaxBinding] stay inside it and miss no entry. *)
Theorem entries_lie_below_MaxSet_and_MaxBinding vp fp w program info w' :
  new_program_bindings K vp fp w = (Done (program, info), w') ->
  0 <= m_MaxSet info <= Z.of_nat (MAX_SET_COUNT K)
  /\ 0 <= m_MaxBinding info <= Z.of_nat (MAX_BINDINGS_PER_SET_COUNT K)
  /\ (forall set binding e,
         m_ResourceBindings program !! (set, binding) = Some e ->
         Z.of_nat set < m_MaxSet info /\ Z.of_nat binding < m_MaxBinding info
         /\ exists res, m_Res e = Some res /\ m_Set res = set /\ m_Binding res = binding)
  /\ (0 < m_MaxSet info ->
      exists set binding e,
        m_ResourceBindings program !! (set, binding) = Some e
        /\ Z.of_nat set + 1 = m_MaxSet info)
  /\ (0 < m_MaxBinding info ->
      exists set binding e,
        m_ResourceBindings program !! (set, binding) = Some e
        /\ Z.of_nat binding + 1 = m_MaxBinding info).
Proof.
  intros H.
  apply (new_program_bindings_invariant (entries_in_range K)) in H
    as (st & (Hs & Hb & Hts & Htb & Hall) & _ & -> & ->).
  - split; [exact Hs|]. split; [exact Hb|]. split; [|split].
    + intros set binding e Hk. destruct (Hall _ _ Hk) as (H1 & H2 & res & tis & Hr & _ & Hslot & _).
      split; [exact H1|]. split; [exact H2|]. exists res.
      unfold slot_of in Hslot. inversion Hslot. auto.
    + intros Hpos. destruct Hts as [H0|([s b] & e & Hk & Hmax)]; [lia|]. eauto.
    + intros Hpos. destruct Htb as [H0|([s b] & e & Hk & Hmax)]; [lia|]. eauto.
  - apply entries_in_range_empty.
  - intros flag module m res st w0 st' w0' _ _ _ HJ HP Hstep.
    eapply entries_in_range_step; eauto.
Qed.

Lemma layout_ok_step tis align flag res st w st' w' :
  0 <= srb_BlockSize res ->
  tables_agree st -> layout_ok st ->
  Fill_resource K tis align flag res st w = (Done st', w') ->
  layout_ok st'.
Proof.
  intros Hsize HJ (Hu & Ht & Hc & Hin & Hdis) H.
  destruct (Fill_resource_step _ _ _ _ _ _ _ _ HJ H)
    as (_ & Hsr & Hbr & [(-> & _)|(Hnone & -> & Hubo)]).
  { exact (conj Hu (conj Ht (conj Hc (conj Hin Hdis)))). }
  assert (Hold : forall k e, k <> slot_of res ->
                   <[slot_of res := new_entry tis flag res (fs_info st)]>
                     (fs_ResourceBindings st) !! k = Some e ->
                   fs_ResourceBindings st !! k = Some e).
  { intros k e Hne Hk. rewrite lookup_insert_ne in Hk by congruence. exact Hk. }
  unfold layout_ok.
  cbn [fs_info fs_ResourceBindings new_info m_UniformDataSize m_TextureCount
       m_UniformBufferCount].
  split; [destruct (is_uniform_buffer res); lia|].
  split; [destruct (is_texture res); lia|].
  split; [destruct (is_uniform_buffer res); lia|].
  split.
  - intros k e r Hk Hr. destruct (decide (k = slot_of res)) as [->|Hne].
    + rewrite lookup_insert_eq in Hk. inversion Hk; subst e.
      cbn in Hr. inversion Hr; subst r. cbn.
      split; intros ->; lia.
    + apply Hold in Hk; [|exact Hne].
      destruct (Hin k e r Hk Hr) as [Hub Htx].
      split.
      * intros Hf. specialize (Hub Hf). destruct (is_uniform_buffer res); lia.
      * intros Hf. specialize (Htx Hf). destruct (is_texture res); lia.
  - intros k1 k2 e1 e2 r1 r2 Hne H1 H2 Hr1 Hr2.
    destruct (decide (k1 = slot_of res)) as [->|Hne1];
      destruct (decide (k2 = slot_of res)) as [->|Hne2]; [congruence| | |].
    + rewrite lookup_insert_eq in H1. inversion H1; subst e1.
      cbn in Hr1. inversion Hr1; subst r1.
      apply Hold in H2; [|exact Hne2].
      destruct (Hin k2 e2 r2 H2 Hr2) as [Hub Htx]. cbn.
      split.
      * intros Hf1 Hf2. rewrite Hf1. specialize (Hub Hf2). lia.
      * intros Hf1 Hf2. rewrite Hf1. specialize (Htx Hf2). lia.
    + rewrite lookup_insert_eq in H2. inversion H2; subst e2.
      cbn in Hr2. inversion Hr2; subst r2.
      apply Hold in H1; [|exact Hne1].
      destruct (Hin k1 e1 r1 H1 Hr1) as [Hub Htx]. cbn.
      split.
      * intros Hf1 Hf2. rewrite Hf2. specialize (Hub Hf1). lia.
      * intros Hf1 Hf2. rewrite Hf2. specialize (Htx Hf1). lia.
    + apply Hold in H1; [|exact Hne1]. apply Hold in H2; [|exact Hne2].
      exact (Hdis k1 k2 e1 e2 r1 r2 Hne H1 H2 Hr1 Hr2).
Qed.

Lemma layout_ok_empty : layout_ok (mkFillState ∅ ∅ info_zero).
Proof.
  unfold layout_ok. cbn. split; [lia|]. split; [lia|]. split; [lia|]. split.
  - intros k e r Hk. rewrite lookup_empty in Hk. discriminate.
  - intros k1 k2 e1 e2 r1 r2 _ Hk. rewrite lookup_empty in Hk. discriminate.
Qed.

(** X10. Where the counters of [binding_info] stay in range, the data
    size below 2^32 and the numbers of uniform buffers and of textures
    below 2^16, so that neither the additions of the source nor the
    stores into the offset and unit fields of an entry wrap, the
    uniform blocks of a program are laid out one after the other in
    [m_UniformData]: the data of every uniform-buffer entry lies inside
    the [m_UniformDataSize] bytes that are allocated, the data of two
    entries never overlap, and the entries have different
    dynamic-offset indices below [m_UniformBufferCount]. The texture
    entries have different texture units below [m_TextureCount]. *)
Theorem uniform_data_layout vp fp w program info w' :
  (forall res, res ∈ module_resources vp ++ module_resources fp -> 0 <= srb_BlockSize res) ->
  new_program_bindings K vp fp w = (Done (program, info), w') ->
  m_UniformDataSize info < 2 ^ 32 ->
  m_UniformBufferCount info < 2 ^ 16 ->
  m_TextureCount info < 2 ^ 16 ->
  0 <= m_UniformDataSize info < 2 ^ 32
  /\ (forall k e res,
      m_ResourceBindings program !! k = Some e -> m_Res e = Some res ->
      (is_uniform_buffer res = true ->
       0 <= m_DataOffset e
       /\ m_DataOffset e + srb_BlockSize res <= m_UniformDataSize info
       /\ 0 <= m_DynamicOffsetIndex e < m_UniformBufferCount info)
      /\ (is_texture res = true -> 0 <= m_TextureUnit e < m_TextureCount info))
  /\ (forall k1 k2 e1 e2 r1 r2,
         k1 <> k2 ->
         m_ResourceBindings program !! k1 = Some e1 ->
         m_ResourceBindings program !! k2 = Some e2 ->
         m_Res e1 = Some r1 -> m_Res e2 = Some r2 ->
         (is_uniform_buffer r1 = true -> is_uniform_buffer r2 = true ->
          (m_DataOffset e1 + srb_BlockSize r1 <= m_DataOffset e2
           \/ m_DataOffset e2 + srb_BlockSize r2 <= m_DataOffset e1)
          /\ m_DynamicOffsetIndex e1 <> m_DynamicOffsetIndex e2)
         /\ (is_texture r1 = true -> is_texture r2 = true ->
             m_TextureUnit e1 <> m_TextureUnit e2)).
Proof.
  intros Hsizes H Hdata Hubos Htextures.
  apply (new_program_bindings_invariant layout_ok) in H
    as (st & (Hnn & _ & _ & Hin & Hdis) & _ & -> & ->).
  - split; [split; [exact Hnn|exact Hdata]|]. split; [exact Hin|exact Hdis].
  - apply layout_ok_empty.
  - intros flag module m res st w0 st' w0' Hwhich _ Hres HJ HP Hstep.
    eapply layout_ok_step; eauto. apply Hsizes. apply elem_of_app.
    destruct Hwhich as [[_ <-]|[_ <-]]; auto.
Qed.

End BindingTable.

(** ** Uniform names *)

Section UniformNames.
Variable K : Constants.

Lemma uniform_weight_nonneg tis res : 0 <= uniform_weight tis res.
Proof.
  unfold uniform_weight. destruct (m_BindingFamily res); try lia.
  destruct (tis !! m_TypeIndex (m_Type res)); lia.
Qed.

Lemma entry_weight_nonneg e : 0 <= entry_weight e.
Proof.
  unfold entry_weight. destruct (m_Res e); [|lia]. destruct (m_ResTypeInfos e); [|lia].
  apply uniform_weight_nonneg.
Qed.

Lemma row_sum_nonneg f t s n :
  (forall e, 0 <= f e) -> forall b, 0 <= row_sum f t s n b.
Proof.
  intros Hf. induction n as [|n IH]; intros b; cbn; [lia|].
  pose proof (Hf (at_slot ProgramResourceBinding_zero t s b)).
  specialize (IH (S b)). lia.
Qed.

Lemma grid_sum_nonneg f t B n :
  (forall e, 0 <= f e) -> forall s, 0 <= grid_sum f t n s B.
Proof.
  intros Hf. induction n as [|n IH]; intros s; cbn; [lia|].
  pose proof (row_sum_nonneg f t s B Hf 0%nat). specialize (IH (S s)). lia.
Qed.

Lemma row_sum_empty f s n :
  f ProgramResourceBinding_zero = 0 -> forall b, row_sum f ∅ s n b = 0.
Proof.
  intros Hf. induction n as [|n IH]; intros b; cbn; [reflexivity|].
  rewrite IH. unfold at_slot. rewrite lookup_empty. cbn. lia.
Qed.

Lemma grid_sum_empty f B n :
  f ProgramResourceBinding_zero = 0 -> forall s, grid_sum f ∅ n s B = 0.
Proof.
  intros Hf. induction n as [|n IH]; intros s; cbn; [reflexivity|].
  rewrite IH, row_sum_empty by exact Hf. reflexivity.
Qed.

Lemma row_sum_insert f t s b e s' n : forall b0,
  f ProgramResourceBinding_zero = 0 ->
  t !! (s, b) = None ->
  row_sum f (<[(s, b) := e]> t) s' n b0
  = row_sum f t s' n b0
    + (if decide (s' = s /\ (b0 <= b < b0 + n)%nat) then f e else 0).
Proof.
  intros b0 Hf Hnone. revert b0.
  induction n as [|n IH]; intros b0; cbn [row_sum].
  - rewrite decide_False by lia. lia.
  - rewrite IH. unfold at_slot.
    destruct (decide ((s', b0) = (s, b))) as [Heq|Hne].
    + inversion Heq; subst s' b0. rewrite lookup_insert_eq, Hnone. cbn [default from_option id].
      rewrite decide_False by lia. rewrite decide_True by lia. lia.
    + rewrite lookup_insert_ne by congruence.
      destruct (decide (s' = s /\ (S b0 <= b < S b0 + n)%nat)) as [[-> Hb]|Hn].
      * rewrite decide_True by lia. lia.
      * rewrite decide_False; [lia|]. intros [-> Hb]. apply Hn. split; [reflexivity|].
        assert (b <> b0) by congruence. lia.
Qed.

Lemma grid_sum_insert f t s b e B n : forall s0,
  f ProgramResourceBinding_zero = 0 ->
  t !! (s, b) = None ->
  grid_sum f (<[(s, b) := e]> t) n s0 B
  = grid_sum f t n s0 B
    + (if decide ((s0 <= s < s0 + n)%nat /\ (b < B)%nat) then f e else 0).
Proof.
  intros s0 Hf Hnone. revert s0.
  induction n as [|n IH]; intros s0; cbn [grid_sum].
  - rewrite decide_False by lia. lia.
  - rewrite IH, row_sum_insert by assumption.
    destruct (decide (s0 = s /\ (0 <= b < 0 + B)%nat)) as [[-> Hb]|Hn1].
    + rewrite decide_False by lia. rewrite decide_True by lia. lia.
    + destruct (decide ((S s0 <= s < S s0 + n)%nat /\ (b < B)%nat)) as [Hy|Hn2].
      * rewrite decide_True by lia. lia.
      * rewrite decide_False; [lia|]. intros [Hs Hb].
        destruct (decide (s0 = s)) as [->|Hne]; [apply Hn1; lia|apply Hn2; lia].
Qed.

Lemma weight_ok_empty : weight_ok (mkFillState ∅ ∅ info_zero).
Proof. intros S B _ _. cbn. apply grid_sum_empty. reflexivity. Qed.

Lemma weight_ok_step tis align flag res st w st' w' :
  tables_agree st -> weight_ok st ->
  Fill_resource K tis align flag res st w = (Done st', w') ->
  weight_ok st'.
Proof.
  intros HJ Hw H.
  destruct (Fill_resource_step K _ _ _ _ _ _ _ _ HJ H)
    as (_ & Hsr & Hbr & [(-> & _)|(Hnone & -> & Hubo)]); [exact Hw|].
  intros S B HS HB. cbn [fs_info fs_ResourceBindings new_info m_MaxSet m_MaxBinding
                         m_TotalUniformCount] in *.
  unfold slot_of. rewrite grid_sum_insert by (reflexivity || exact Hnone).
  rewrite decide_True by lia.
  rewrite Hw by lia. reflexivity.
Qed.

(** The member loop finds the member at [index] when there is one. *)
Lemma GetUniformName_members_scan res n : forall i si index,
  0 <= si <= index -> si + Z.of_nat n < 2 ^ 32 ->
  if decide (index < si + Z.of_nat n)
  then exists m, GetUniformName_members res n i si index = inl (NameOfMember res m)
  else GetUniformName_members res n i si index = inr (si + Z.of_nat n).
Proof.
  induction n as [|n IH]; intros i si index Hsi Hb; cbn [GetUniformName_members].
  - rewrite decide_False by lia. f_equal. lia.
  - destruct (si =? index) eqn:E.
    + rewrite decide_True by lia. eauto.
    + assert (Hu : uint32 (si + 1) = si + 1) by (unfold uint32; apply Z.mod_small; lia).
      rewrite Hu. specialize (IH (S i) (si + 1) index ltac:(lia) ltac:(lia)).
      destruct (decide (index < si + 1 + Z.of_nat n)).
      * rewrite decide_True by lia. exact IH.
      * rewrite decide_False by lia. rewrite IH. f_equal. lia.
Qed.

Lemma GetUniformName_slot_scan st s b si index :
  entries_in_range K st ->
  (s < MAX_SET_COUNT K)%nat -> (b < MAX_BINDINGS_PER_SET_COUNT K)%nat ->
  let weight := entry_weight (at_slot ProgramResourceBinding_zero (fs_ResourceBindings st) s b) in
  0 <= si <= index -> si + weight < 2 ^ 32 ->
  if decide (index < si + weight)
  then exists name, GetUniformName_slot K (fs_ResourceBindings st) s b si index
                    = Done (inl name)
  else GetUniformName_slot K (fs_ResourceBindings st) s b si index = Done (inr (si + weight)).
Proof.
  intros (_ & _ & _ & _ & Hall) Hs Hb weight Hsi Hbound.
  unfold GetUniformName_slot.
  apply Nat.ltb_lt in Hs, Hb. rewrite Hs, Hb. cbn [andb negb].
  subst weight. unfold at_slot in *.
  destruct (fs_ResourceBindings st !! (s, b)) as [e|] eqn:He; cbn [default from_option id] in *.
  - destruct (Hall _ _ He) as (_ & _ & res & tis & Hr & Ht & _ & Hubo).
    unfold entry_weight in *. rewrite Hr, Ht in *. unfold uniform_weight in *.
    unfold is_uniform_buffer in Hubo.
    destruct (m_BindingFamily res).
    + rewrite decide_False by lia. do 2 f_equal. lia.
    + destruct (Hubo eq_refl) as [Hu [ti Hti]]. rewrite Hu, Hti in *. cbn [negb].
      pose proof (GetUniformName_members_scan res (m_Members ti) 0 si index Hsi Hbound) as Hm.
      destruct (decide (index < si + Z.of_nat (m_Members ti))).
      * destruct Hm as [m Hm]. rewrite Hm. eauto.
      * rewrite Hm. reflexivity.
    + destruct (si =? index) eqn:E.
      * rewrite decide_True by lia. eauto.
      * rewrite decide_False by lia. unfold uint32. rewrite Z.mod_small by lia. reflexivity.
    + destruct (si =? index) eqn:E.
      * rewrite decide_True by lia. eauto.
      * rewrite decide_False by lia. unfold uint32. rewrite Z.mod_small by lia. reflexivity.
  - cbn. rewrite decide_False by lia. do 2 f_equal. lia.
Qed.

Lemma GetUniformName_bindings_scan st s n : forall b si index,
  entries_in_range K st ->
  (s < MAX_SET_COUNT K)%nat -> (b + n <= MAX_BINDINGS_PER_SET_COUNT K)%nat ->
  let weight := row_sum entry_weight (fs_ResourceBindings st) s n b in
  0 <= si <= index -> si + weight < 2 ^ 32 ->
  if decide (index < si + weight)
  then exists name, GetUniformName_bindings K (fs_ResourceBindings st) s n b si index
                    = Done (inl name)
  else GetUniformName_bindings K (fs_ResourceBindings st) s n b si index
       = Done (inr (si + weight)).
Proof.
  induction n as [|n IH]; intros b si index Hr Hs Hb weight Hsi Hbound;
    subst weight; cbn [GetUniformName_bindings row_sum] in *.
  - rewrite decide_False by lia. do 2 f_equal. lia.
  - pose proof (row_sum_nonneg entry_weight (fs_ResourceBindings st) s n entry_weight_nonneg (S b)) as Hrow.
    pose proof (entry_weight_nonneg
                  (at_slot ProgramResourceBinding_zero (fs_ResourceBindings st) s b)) as He.
    pose proof (GetUniformName_slot_scan st s b si index Hr Hs ltac:(lia) Hsi ltac:(lia))
      as Hslot. cbv zeta in Hslot.
    destruct (decide (index < si + entry_weight
                                    (at_slot ProgramResourceBinding_zero
                                             (fs_ResourceBindings st) s b))) as [Hlt|Hge].
    + destruct Hslot as [name ->]. rewrite decide_True by lia. eauto.
    + rewrite Hslot.
      specialize (IH (S b) (si + entry_weight
                                   (at_slot ProgramResourceBinding_zero
                                            (fs_ResourceBindings st) s b))
                     index Hr Hs ltac:(lia)).
      cbv zeta in IH. specialize (IH ltac:(lia) ltac:(lia)).
      match type of IH with
      | if decide ?c then _ else _ => destruct (decide c) as [Hlt2|Hge2]
      end.
      * rewrite decide_True by lia. exact IH.
      * rewrite decide_False by lia. rewrite IH. do 2 f_equal. lia.
Qed.

Lemma GetUniformName_sets_scan st B n : forall s si index,
  entries_in_range K st ->
  (s + n <= MAX_SET_COUNT K)%nat -> (B <= MAX_BINDINGS_PER_SET_COUNT K)%nat ->
  let weight := grid_sum entry_weight (fs_ResourceBindings st) n s B in
  0 <= si <= index -> si + weight < 2 ^ 32 ->
  if decide (index < si + weight)
  then exists name, GetUniformName_sets K (fs_ResourceBindings st) n s B si index
                    = Done (inl name)
  else GetUniformName_sets K (fs_ResourceBindings st) n s B si index
       = Done (inr (si + weight)).
Proof.
  induction n as [|n IH]; intros s si index Hr Hs HB weight Hsi Hbound;
    subst weight; cbn [GetUniformName_sets grid_sum] in *.
  - rewrite decide_False by lia. do 2 f_equal. lia.
  - pose proof (grid_sum_nonneg entry_weight (fs_ResourceBindings st) B n entry_weight_nonneg (S s)) as Hgrid.
    pose proof (row_sum_nonneg entry_weight (fs_ResourceBindings st) s B entry_weight_nonneg 0%nat) as Hrow.
    pose proof (GetUniformName_bindings_scan st s B 0%nat si index Hr ltac:(lia) ltac:(lia)
                  Hsi ltac:(lia)) as Hscan. cbv zeta in Hscan.
    destruct (decide (index < si + row_sum entry_weight (fs_ResourceBindings st) s B 0)) as [Hlt|Hge].
    + destruct Hscan as [name ->]. rewrite decide_True by lia. eauto.
    + rewrite Hscan.
      specialize (IH (S s) (si + row_sum entry_weight (fs_ResourceBindings st) s B 0) index Hr
                     ltac:(lia) HB).
      cbv zeta in IH. specialize (IH ltac:(lia) ltac:(lia)).
      match type of IH with
      | if decide ?c then _ else _ => destruct (decide c) as [Hlt2|Hge2]
      end.
      * rewrite decide_True by lia. exact IH.
      * rewrite decide_False by lia. rewrite IH. do 2 f_equal. lia.
Qed.

(** X11. [DX12GetUniformName] and [DX12GetUniformCount] agree: for a
    program whose table [CreateProgramResourceBindings] built, the
    indices at which [DX12GetUniformName] finds a uniform are those
    below the count, and at any other index it finds nothing. It never
    fails an assertion or leaves the table. *)
Theorem GetUniformName_finds_the_counted_uniforms vp fp w prog w' index :
  new_program_bindings K vp fp w = (Done prog, w') ->
  (MAX_SET_COUNT K <= 255)%nat -> (MAX_BINDINGS_PER_SET_COUNT K <= 255)%nat ->
  DX12GetUniformCount prog < 2 ^ 32 ->
  0 <= index ->
  (index < DX12GetUniformCount prog ->
   exists name, DX12GetUniformName K (Some prog) index = Done (Some name))
  /\ (DX12GetUniformCount prog <= index ->
      DX12GetUniformName K (Some prog) index = Done None).
Proof.
  destruct prog as [program info]. intros H HS HB Hcount Hindex.
  apply (new_program_bindings_invariant K (fun st => entries_in_range K st /\ weight_ok st)) in H
    as (st & (Hr & Hw) & _ & Hrb & ->).
  2:{ split; [apply entries_in_range_empty|apply weight_ok_empty]. }
  2:{ intros flag module m res st w0 st' w0' _ _ _ HJ [HP1 HP2] Hstep. split.
      - eapply (entries_in_range_step K); eauto.
      - eapply weight_ok_step; eauto. }
  unfold DX12GetUniformCount, DX12GetUniformName, GetUniformName in *. cbn [snd] in *.
  rewrite Hrb. clear Hrb.
  pose proof Hr as (Hs & Hb & _).
  assert (Hu1 : uint8 (m_MaxSet (fs_info st)) = m_MaxSet (fs_info st))
    by (unfold uint8; apply Z.mod_small; lia).
  assert (Hu2 : uint8 (m_MaxBinding (fs_info st)) = m_MaxBinding (fs_info st))
    by (unfold uint8; apply Z.mod_small; lia).
  rewrite Hu1, Hu2.
  specialize (Hw (Z.to_nat (m_MaxSet (fs_info st))) (Z.to_nat (m_MaxBinding (fs_info st)))
                 ltac:(lia) ltac:(lia)).
  pose proof (GetUniformName_sets_scan st (Z.to_nat (m_MaxBinding (fs_info st)))
                (Z.to_nat (m_MaxSet (fs_info st))) 0%nat 0 index Hr
                ltac:(lia) ltac:(lia)) as Hscan.
  cbv zeta in Hscan. rewrite Hw in Hscan.
  specialize (Hscan ltac:(lia) ltac:(lia)). rewrite Z.add_0_l in Hscan.
  split.
  - intros Hlt. rewrite decide_True in Hscan by exact Hlt.
    destruct Hscan as [name ->]. eauto.
  - intros Hge. rewrite decide_False in Hscan by lia. rewrite Hscan. reflexivity.
Qed.

End UniformNames.

Lemma new_program_bindings_program0 :
  new_program_bindings K0 (Some vertex_module0) (Some fragment_module0) world_init
  = (Done program_bindings0, world_init).
Proof. vm_compute. reflexivity. Qed.

Lemma stage_flag_is_that_of_the_first_stage_witness :
  new_program_bindings K0 (Some vertex_module0) (Some fragment_module0) world_init
  = (Done program_bindings0, world_init)
  /\ exists e, m_ResourceBindings program_bindings0.1 !! slot_of ubo0 = Some e
               /\ m_StageFlags e = SHADER_STAGE_FLAG_VERTEX.
Proof.
  split; [exact new_program_bindings_program0|].
  apply (proj1 (stage_flag_is_that_of_the_first_stage K0 _ _ _ _ _ _
                  new_program_bindings_program0)).
  left.
Defined.

Lemma entries_lie_below_MaxSet_and_MaxBinding_witness :
  new_program_bindings K0 (Some vertex_module0) (Some fragment_module0) world_init
  = (Done program_bindings0, world_init)
  /\ 0 <= m_MaxSet program_bindings0.2 <= Z.of_nat (MAX_SET_COUNT K0).
Proof.
  split; [exact new_program_bindings_program0|].
  exact (proj1 (entries_lie_below_MaxSet_and_MaxBinding K0 _ _ _ _ _ _
                  new_program_bindings_program0)).
Defined.

Lemma uniform_data_layout_witness :
  (forall res, res ∈ module_resources (Some vertex_module0)
                     ++ module_resources (Some fragment_module0) ->
               0 <= srb_BlockSize res)
  /\ new_program_bindings K0 (Some vertex_module0) (Some fragment_module0) world_init
     = (Done program_bindings0, world_init)
  /\ m_UniformDataSize program_bindings0.2 < 2 ^ 32
  /\ m_UniformBufferCount program_bindings0.2 < 2 ^ 16
  /\ m_TextureCount program_bindings0.2 < 2 ^ 16
  /\ forall k e res,
      m_ResourceBindings program_bindings0.1 !! k = Some e -> m_Res e = Some res ->
      is_uniform_buffer res = true ->
      0 <= m_DataOffset e
      /\ m_DataOffset e + srb_BlockSize res <= m_UniformDataSize program_bindings0.2.
Proof.
  assert (Hdata : m_UniformDataSize program_bindings0.2 < 2 ^ 32) by (vm_compute; reflexivity).
  assert (Hubos : m_UniformBufferCount program_bindings0.2 < 2 ^ 16)
    by (vm_compute; reflexivity).
  assert (Htextures : m_TextureCount program_bindings0.2 < 2 ^ 16)
    by (vm_compute; reflexivity).
  assert (Hsizes : forall res, res ∈ module_resources (Some vertex_module0)
                                     ++ module_resources (Some fragment_module0) ->
                               0 <= srb_BlockSize res).
  { intros res Hin. cbn in Hin.
    repeat (apply elem_of_cons in Hin as [->|Hin]; [cbn; lia|]).
    apply elem_of_nil in Hin. contradiction. }
  split; [exact Hsizes|]. split; [exact new_program_bindings_program0|].
  split; [exact Hdata|]. split; [exact Hubos|]. split; [exact Htextures|].
  intros k e res Hk Hr Hf.
  destruct (proj1 (proj2 (uniform_data_layout K0 _ _ _ _ _ _ Hsizes
                            new_program_bindings_program0 Hdata Hubos Htextures))
                  k e res Hk Hr) as [Hub _].
  destruct (Hub Hf) as (H1 & H2 & _). auto.
Defined.

Lemma GetUniformName_finds_the_counted_uniforms_witness :
  new_program_bindings K0 (Some vertex_module0) (Some fragment_module0) world_init
  = (Done program_bindings0, world_init)
  /\ (MAX_SET_COUNT K0 <= 255)%nat /\ (MAX_BINDINGS_PER_SET_COUNT K0 <= 255)%nat
  /\ DX12GetUniformCount program_bindings0 = 2
  /\ (exists name, DX12GetUniformName K0 (Some program_bindings0) 1 = Done (Some name))
  /\ DX12GetUniformName K0 (Some program_bindings0) 2 = Done None.
Proof.
  assert (HS : (MAX_SET_COUNT K0 <= 255)%nat) by (cbn; lia).
  assert (HB : (MAX_BINDINGS_PER_SET_COUNT K0 <= 255)%nat) by (cbn; lia).
  assert (Hc : DX12GetUniformCount program_bindings0 < 2 ^ 32) by (vm_compute; reflexivity).
  split; [exact new_program_bindings_program0|]. split; [exact HS|]. split; [exact HB|].
  split; [reflexivity|].
  split.
  - apply (proj1 (GetUniformName_finds_the_counted_uniforms K0 _ _ _ _ _ 1
                    new_program_bindings_program0 HS HB Hc ltac:(lia))).
    vm_compute. reflexivity.
  - apply (proj2 (GetUniformName_finds_the_counted_uniforms K0 _ _ _ _ _ 2
                    new_program_bindings_program0 HS HB Hc ltac:(lia))).
    vm_compute. discriminate.
Defined.

(** ** Vertex streams and mip levels *)

Lemma find_input_Some inputs name_hash input :
  find_input inputs name_hash = Some input ->
  input ∈ inputs /\ m_NameHash input = name_hash.
Proof.
  induction inputs as [|i rest IH]; cbn; [discriminate|].
  destruct (m_NameHash i =? name_hash) eqn:E.
  - intros [= <-]. split; [left|lia].
  - intros H. destruct (IH H) as [Hin Hn]. split; [right; exact Hin|exact Hn].
Qed.

Lemma find_input_None inputs name_hash :
  find_input inputs name_hash = None <-> name_hash ∉ m_NameHash <$> inputs.
Proof.
  induction inputs as [|i rest IH]; cbn [find_input]; rewrite ?fmap_cons.
  - split; [intros _; apply not_elem_of_nil|reflexivity].
  - destruct (m_NameHash i =? name_hash) eqn:E.
    + split; [discriminate|]. intros H. exfalso. apply H. apply Z.eqb_eq in E. rewrite E. left.
    + rewrite IH. apply Z.eqb_neq in E. rewrite not_elem_of_cons.
      split; [intros H; split; [congruence|exact H]|intros [_ H]; exact H].
Qed.

Lemma match_streams_layout inputs streams :
  stream_layout <$> match_streams inputs streams
  = stream_layout <$> filter (fun s => names_input inputs s = true) streams.
Proof.
  induction streams as [|s rest IH]; cbn [match_streams]; [reflexivity|].
  rewrite filter_cons. unfold names_input at 1.
  destruct (find_input inputs (s_NameHash s)) as [input|] eqn:E.
  - destruct (find_input_Some _ _ _ E) as [Hin Hn].
    rewrite decide_True.
    2:{ apply bool_decide_eq_true. rewrite <- Hn. apply list_elem_of_fmap_2. exact Hin. }
    rewrite !fmap_cons, IH. f_equal. unfold stream_layout. cbn. rewrite Hn. reflexivity.
  - apply find_input_None in E. rewrite decide_False; [exact IH|].
    intros H. apply bool_decide_eq_true in H. contradiction.
Qed.

Lemma match_streams_located inputs streams s :
  s ∈ match_streams inputs streams ->
  exists input, find_input inputs (s_NameHash s) = Some input
                /\ s_Location s = Z.of_nat (m_Binding input).
Proof.
  induction streams as [|s0 rest IH]; cbn [match_streams].
  - intros H. apply elem_of_nil in H. contradiction.
  - destruct (find_input inputs (s_NameHash s0)) as [input|] eqn:E; [|exact IH].
    intros H. apply elem_of_cons in H as [->|H]; [|exact (IH H)].
    destruct (find_input_Some _ _ _ E) as [_ Hn].
    exists input. cbn. rewrite Hn. split; [exact E|reflexivity].
Qed.

Lemma match_streams_keeps inputs streams s :
  s ∈ streams -> names_input inputs s = true ->
  exists s', s' ∈ match_streams inputs streams
             /\ s_Type s' = s_Type s /\ s_Size s' = s_Size s.
Proof.
  intros Hin Hname. induction streams as [|s0 rest IH].
  - apply elem_of_nil in Hin. contradiction.
  - cbn [match_streams].
    apply elem_of_cons in Hin as [->|Hin].
    + destruct (find_input inputs (s_NameHash s0)) as [input|] eqn:E.
      * eexists. split; [left|]. split; reflexivity.
      * apply find_input_None in E. apply bool_decide_eq_true in Hname. contradiction.
    + destruct (IH Hin) as (s' & Hs' & Ht & Hz).
      exists s'. split; [|split; assumption].
      destruct (find_input inputs (s_NameHash s0)); [right|]; exact Hs'.
Qed.

Lemma EnableVertexDeclaration_Done_inv ctx vd bi program w ctx' w' :
  DX12EnableVertexDeclaration ctx vd bi program w = (Done ctx', w') ->
  exists vertex_shader,
    m_VertexModule program = Some vertex_shader
    /\ (bi < length (m_CurrentVertexDeclaration ctx))%nat
    /\ w' = w
    /\ m_CurrentProgram ctx' = m_CurrentProgram ctx
    /\ m_CurrentVertexDeclaration ctx'
       = <[bi := Some (mkVertexDeclaration
                         (match_streams (m_Inputs (m_ShaderMeta vertex_shader))
                                        (take (m_StreamCount vd) (m_Streams vd)))
                         (length (match_streams (m_Inputs (m_ShaderMeta vertex_shader))
                                                (take (m_StreamCount vd) (m_Streams vd))))
                         (m_Stride vd) (m_StepFunction vd) (m_PipelineHash vd))]>
           (m_CurrentVertexDeclaration ctx).
Proof.
  unfold DX12EnableVertexDeclaration.
  destruct (m_VertexModule program) as [vs|]; [|discriminate].
  destruct (bi <? length (m_CurrentVertexDeclaration ctx))%nat eqn:Hb; [|discriminate].
  cbn [negb]. unfold ret. intros H. injection H as <- <-.
  exists vs. apply Nat.ltb_lt in Hb. repeat split; try assumption.
Qed.

(** X12. [DX12EnableVertexDeclaration] keeps, in the order of the
    declaration, exactly the streams whose name the vertex shader has an
    input for, with their size, type, normalisation and offset; each
    gets the binding of the first input of that name as its location.
    Stride, step function and hash are those of the declaration, the
    stream count is the number of streams kept, and the other vertex
    buffer slots are left alone. *)
Theorem EnableVertexDeclaration_keeps_the_streams_the_shader_reads
        ctx vd bi program w ctx' w' :
  DX12EnableVertexDeclaration ctx vd bi program w = (Done ctx', w') ->
  exists vertex_shader main,
    m_VertexModule program = Some vertex_shader
    /\ m_CurrentVertexDeclaration ctx' !! bi = Some (Some main)
    /\ stream_layout <$> m_Streams main
       = stream_layout <$>
             (filter (fun s => names_input (m_Inputs (m_ShaderMeta vertex_shader)) s = true)
                     (take (m_StreamCount vd) (m_Streams vd)))
    /\ (forall s, s ∈ m_Streams main ->
          exists input,
            find_input (m_Inputs (m_ShaderMeta vertex_shader)) (s_NameHash s) = Some input
            /\ s_Location s = Z.of_nat (m_Binding input))
    /\ m_StreamCount main = length (m_Streams main)
    /\ (m_StreamCount main <= m_StreamCount vd)%nat
    /\ m_Stride main = m_Stride vd
    /\ m_StepFunction main = m_StepFunction vd
    /\ m_PipelineHash main = m_PipelineHash vd
    /\ (forall j, j <> bi ->
          m_CurrentVertexDeclaration ctx' !! j = m_CurrentVertexDeclaration ctx !! j)
    /\ w' = w.
Proof.
  intros H. apply EnableVertexDeclaration_Done_inv in H
    as (vs & Hvs & Hbi & -> & _ & Hdecl).
  exists vs. eexists. split; [exact Hvs|]. rewrite Hdecl.
  split; [apply list_lookup_insert_eq; exact Hbi|]. cbn.
  split; [apply match_streams_layout|].
  split; [intros s Hs; eapply match_streams_located; exact Hs|].
  split; [reflexivity|].
  split.
  { rewrite <- (length_fmap stream_layout), match_streams_layout, length_fmap.
    etransitivity; [apply length_filter|]. rewrite length_take. lia. }
  repeat split; try reflexivity.
  intros j Hj. apply list_lookup_insert_ne. congruence.
Qed.

Lemma for_loop_fails {St} (body : nat -> St -> M St) k :
  (forall j s, pure_m (body j s)) ->
  (forall s w, is_done (fst (body k s w)) = false) ->
  forall n i s w, (i <= k < i + n)%nat ->
    is_done (fst (for_loop n i body s w)) = false /\ snd (for_loop n i body s w) = w.
Proof.
  intros Hpure Hfail n. induction n as [|n IH]; intros i s w Hk; [lia|].
  cbn [for_loop]. unfold bind.
  pose proof (Hpure i s w) as Hw.
  destruct (body i s w) as [o w1] eqn:E. cbn in Hw. subst w1.
  destruct (decide (i = k)) as [->|Hne].
  - specialize (Hfail s w). rewrite E in Hfail. cbn in Hfail.
    destruct o; [discriminate| | | |]; cbn; auto.
  - destruct o; cbn; auto. apply IH. lia.
Qed.

Lemma bind_stops_l {A B} (m : M A) (k : A -> M B) w :
  is_done (fst (m w)) = false -> snd (m w) = w ->
  exists o, bind m k w = (o, w) /\ is_done o = false.
Proof.
  unfold bind. destruct (m w) as [o w1]. cbn. intros Hd ->.
  destruct o; [discriminate| | | |]; eexists; split; reflexivity.
Qed.

Lemma bind_stops_r {A B} (m : M A) (k : A -> M B) w :
  pure_m m -> (forall a, exists o, k a w = (o, w) /\ is_done o = false) ->
  exists o, bind m k w = (o, w) /\ is_done o = false.
Proof.
  intros Hm Hk. unfold bind. specialize (Hm w).
  destruct (m w) as [o w1]. cbn in Hm. subst w1.
  destruct o; [apply Hk| | | |]; eexists; split; reflexivity.
Qed.

Lemma GetDXGIFormat_three_narrow type normalized w :
  is_narrow type = true ->
  GetDXGIFormat type 3 normalized w = (AssertFailed, w).
Proof. destruct type; cbn; try discriminate; intros _; reflexivity. Qed.

Section NarrowStreams.
Variable K : Constants.

(** X13. There is no three-component 8-bit or 16-bit vertex format:
    once [DX12EnableVertexDeclaration] has enabled a declaration with
    such a stream that the vertex shader reads, [CreatePipeline] does
    not return. It stops before the device is asked for a pipeline. *)
Theorem CreatePipeline_stops_at_a_three_component_narrow_stream
        ctx vd bi program w ctx' w' s rt w0 :
  DX12EnableVertexDeclaration ctx vd bi program w = (Done ctx', w') ->
  (bi < MAX_VERTEX_BUFFERS K)%nat ->
  s ∈ take (m_StreamCount vd) (m_Streams vd) ->
  is_narrow (s_Type s) = true -> s_Size s = 3 ->
  (forall vertex_shader, m_VertexModule program = Some vertex_shader ->
                         names_input (m_Inputs (m_ShaderMeta vertex_shader)) s = true) ->
  exists o, CreatePipeline K ctx' rt w0 = (o, w0) /\ is_done o = false.
Proof.
  intros H Hbi Hs Hnarrow Hsize Hname.
  apply EnableVertexDeclaration_Done_inv in H as (vs & Hvs & Hlen & -> & _ & Hdecl).
  destruct (match_streams_keeps _ _ _ Hs (Hname _ Hvs)) as (s' & Hs' & Ht & Hz).
  apply list_elem_of_lookup in Hs' as [j Hj].
  set (streams := match_streams (m_Inputs (m_ShaderMeta vs))
                                (take (m_StreamCount vd) (m_Streams vd))) in *.
  set (main := mkVertexDeclaration streams (length streams) (m_Stride vd)
                                   (m_StepFunction vd) (m_PipelineHash vd)) in *.
  assert (Hmain : m_CurrentVertexDeclaration ctx' !! bi = Some (Some main)).
  { rewrite Hdecl. apply list_lookup_insert_eq. exact Hlen. }
  assert (Helems : forall w1, is_done (fst (input_elements bi main w1)) = false
                              /\ snd (input_elements bi main w1) = w1).
  { intros w1. unfold input_elements.
    apply (for_loop_fails _ j).
    - intros j0 l. destruct (m_Streams main !! j0); [|apply pure_fail_oob].
      apply pure_bind; [apply pure_GetDXGIFormat|intros; apply pure_ret].
    - intros l w2. cbn [m_Streams main]. rewrite Hj. unfold bind.
      rewrite Ht, Hz, Hsize, GetDXGIFormat_three_narrow by exact Hnarrow. reflexivity.
    - cbn [m_StreamCount main]. apply lookup_lt_Some in Hj. lia. }
  assert (Hlayout : forall w1,
             let r := for_loop (MAX_VERTEX_BUFFERS K) 0
                        (fun i layout =>
                           match m_CurrentVertexDeclaration ctx' !! i with
                           | None => fail_oob
                           | Some None => ret layout
                           | Some (Some vd0) =>
                               let* elements := input_elements i vd0 in
                               ret (layout ++ elements)
                           end) [] w1 in
             is_done (fst r) = false /\ snd r = w1).
  { intros w1. cbv zeta. apply (for_loop_fails _ bi).
    - intros j0 l. destruct (m_CurrentVertexDeclaration ctx' !! j0) as [[vd0|]|].
      + apply pure_bind; [apply pure_input_elements|intros; apply pure_ret].
      + apply pure_ret.
      + apply pure_fail_oob.
    - intros l w2. rewrite Hmain. unfold bind.
      destruct (Helems w2) as [Hd _].
      destruct (input_elements bi main w2) as [o w3]. cbn in Hd.
      destruct o; [discriminate| | | |]; reflexivity.
    - lia. }
  unfold CreatePipeline.
  destruct (m_CurrentProgram ctx') as [program'|]; [|exists NullDeref; split; reflexivity].
  destruct (m_VertexModule program') as [vm|]; [|exists NullDeref; split; reflexivity].
  destruct (m_FragmentModule program') as [fm|]; [|exists NullDeref; split; reflexivity].
  apply bind_stops_r; [apply pure_deref|intros _].
  apply bind_stops_r; [apply pure_deref|intros _].
  apply bind_stops_l; apply Hlayout.
Qed.

End NarrowStreams.

Lemma GetPitchFromMipMap_loop_shiftr n : forall pitch,
  GetPitchFromMipMap_loop n pitch = Z.shiftr pitch (Z.of_nat n).
Proof.
  induction n as [|n IH]; intros pitch; cbn [GetPitchFromMipMap_loop].
  - rewrite Z.shiftr_0_r. reflexivity.
  - rewrite IH, Nat2Z.inj_succ, <- Z.add_1_l.
    rewrite <- Z.shiftr_shiftr by lia. rewrite (Z.shiftr_div_pow2 pitch 1) by lia.
    reflexivity.
Qed.

(** X14. For a pitch that is a [uint32_t] and a mip level that is a
    [uint8_t], [GetPitchFromMipMap] is the pitch divided by two to the
    power of the mip level, rounded down, which is a [uint32_t] again:
    from one level to the next, up to level 255, it halves, it is not
    kept at one byte or more, and it is zero from the level on at which
    the power of two exceeds the pitch, so at every level from 32 on. *)
Theorem GetPitchFromMipMap_halves_down_to_zero pitch mipmap :
  0 <= pitch < 2 ^ 32 -> 0 <= mipmap <= 255 ->
  GetPitchFromMipMap pitch mipmap = pitch / 2 ^ mipmap
  /\ 0 <= GetPitchFromMipMap pitch mipmap <= pitch
  /\ (mipmap < 255 ->
      GetPitchFromMipMap pitch (mipmap + 1) = GetPitchFromMipMap pitch mipmap / 2)
  /\ (pitch < 2 ^ mipmap -> GetPitchFromMipMap pitch mipmap = 0)
  /\ (32 <= mipmap -> GetPitchFromMipMap pitch mipmap = 0).
Proof.
  intros Hp Hm.
  assert (Heq : forall m, 0 <= m <= 255 -> GetPitchFromMipMap pitch m = pitch / 2 ^ m).
  { intros m Hm'. unfold GetPitchFromMipMap, uint8, uint32.
    rewrite (Z.mod_small m) by lia. rewrite (Z.mod_small pitch) by lia.
    rewrite GetPitchFromMipMap_loop_shiftr, Z2Nat.id by lia.
    apply Z.shiftr_div_pow2. lia. }
  assert (Hpow : 0 < 2 ^ mipmap) by (apply Z.pow_pos_nonneg; lia).
  rewrite Heq by lia.
  split; [reflexivity|]. split.
  { split; [apply Z.div_pos; lia|]. apply Z.div_le_upper_bound; nia. }
  split.
  { intros Hlt. rewrite Heq by lia.
    rewrite Z.pow_add_r, Z.pow_1_r by lia.
    rewrite Z.div_div by lia. reflexivity. }
  split.
  - intros Hlt. apply Z.div_small. lia.
  - intros H32. apply Z.div_small.
    assert (2 ^ 32 <= 2 ^ mipmap) by (apply Z.pow_le_mono_r; lia). lia.
Qed.

Section CacheCapacity.
Variable K : Constants.
Variable dmHash : list Z -> Z.

(** X15. The pipeline cache stays within its capacity: a lookup that
    finds the pipeline leaves the table as it is, and one that does not
    adds one entry and, only when the table was full, four to its
    capacity. The table's [Put] therefore always finds room. *)
Theorem GetOrCreatePipeline_keeps_the_cache_within_its_capacity
        ctx rt w slot pso ctx1 w1 :
  cache_wf (m_PipelineCache ctx) ->
  GetOrCreatePipeline K dmHash ctx rt w = (Done (slot, pso, ctx1), w1) ->
  cache_wf (m_PipelineCache ctx1)
  /\ ((is_Some (pc_Entries (m_PipelineCache ctx) !! slot)
       /\ m_PipelineCache ctx1 = m_PipelineCache ctx)
      \/ (pc_Entries (m_PipelineCache ctx) !! slot = None
          /\ size (pc_Entries (m_PipelineCache ctx1))
             = S (size (pc_Entries (m_PipelineCache ctx)))
          /\ pc_Capacity (m_PipelineCache ctx1)
             = if cache_Full (m_PipelineCache ctx)
               then (pc_Capacity (m_PipelineCache ctx) + 4)%nat
               else pc_Capacity (m_PipelineCache ctx))).
Proof.
  unfold cache_wf. intros Hwf H. unfold GetOrCreatePipeline in H.
  destruct (m_CurrentProgram ctx) as [program|]; [|discriminate].
  cbv zeta in H.
  destruct (pc_Entries (m_PipelineCache ctx) !! pipeline_hash dmHash ctx rt program)
    as [cached|] eqn:Hget.
  - unfold ret in H. injection H as <- <- <- <-.
    split; [exact Hwf|]. left. split; [eauto|reflexivity].
  - apply bind_Done_inv in H as (pc & w2 & Hput & H).
    apply bind_Done_inv in H as (pipeline & w3 & Hcreate & H).
    unfold ret in H. injection H as <- <- <- <-.
    unfold cache_Put in Hput.
    destruct (cache_Full (m_PipelineCache ctx)) eqn:Hfull; cbn [pc_Entries pc_Capacity] in Hput;
      rewrite Hget in Hput.
    + unfold cache_Full in Hput, Hfull. cbn [pc_Entries pc_Capacity] in Hput.
      apply Nat.leb_le in Hfull.
      destruct (pc_Capacity (m_PipelineCache ctx) + 4 <=? size (pc_Entries (m_PipelineCache ctx)))%nat
        eqn:Hfull2; [apply Nat.leb_le in Hfull2; lia|].
      unfold ret in Hput. injection Hput as <- <-.
      cbn. rewrite insert_insert_eq.
      rewrite map_size_insert_None by exact Hget.
      split; [lia|]. right. split; [exact Hget|]. split; reflexivity.
    + rewrite Hfull in Hput. unfold ret in Hput. injection Hput as <- <-.
      cbn. rewrite insert_insert_eq.
      rewrite map_size_insert_None by exact Hget.
      unfold cache_Full in Hfull. apply Nat.leb_gt in Hfull.
      split; [lia|]. right. split; [exact Hget|]. split; reflexivity.
Qed.

End CacheCapacity.

Lemma EnableVertexDeclaration_keeps_the_streams_the_shader_reads_witness :
  DX12EnableVertexDeclaration (DX12EnableProgram context0 program0) declaration_rgb8 0
                              program0 world_init
  = (Done context_rgb8, world_init)
  /\ exists main, m_CurrentVertexDeclaration context_rgb8 !! 0%nat = Some (Some main)
                  /\ m_StreamCount main = length (m_Streams main).
Proof.
  assert (H : DX12EnableVertexDeclaration (DX12EnableProgram context0 program0)
                declaration_rgb8 0 program0 world_init = (Done context_rgb8, world_init))
    by (vm_compute; reflexivity).
  split; [exact H|].
  destruct (EnableVertexDeclaration_keeps_the_streams_the_shader_reads _ _ _ _ _ _ _ H)
    as (vs & main & _ & Hmain & _ & _ & Hcount & _).
  exists main. split; assumption.
Defined.

Lemma CreatePipeline_stops_at_a_three_component_narrow_stream_witness :
  DX12EnableVertexDeclaration (DX12EnableProgram context0 program0) declaration_rgb8 0
                              program0 world_init
  = (Done context_rgb8, world_init)
  /\ exists o, CreatePipeline K0 context_rgb8 rt0 world_init = (o, world_init)
               /\ is_done o = false.
Proof.
  assert (H : DX12EnableVertexDeclaration (DX12EnableProgram context0 program0)
                declaration_rgb8 0 program0 world_init = (Done context_rgb8, world_init))
    by (vm_compute; reflexivity).
  split; [exact H|].
  apply (CreatePipeline_stops_at_a_three_component_narrow_stream
           K0 _ _ _ _ _ _ _ (mkStream 2 (-1) 3 TYPE_UNSIGNED_BYTE true 12) rt0 world_init H).
  - cbn. lia.
  - cbn. right. left.
  - reflexivity.
  - reflexivity.
  - intros vs Hvs. injection Hvs as <-. vm_compute. reflexivity.
Defined.

Lemma GetPitchFromMipMap_halves_down_to_zero_witness :
  0 <= 1024 < 2 ^ 32 /\ 0 <= 10 <= 255
  /\ GetPitchFromMipMap 1024 10 = 1
  /\ GetPitchFromMipMap 1024 (10 + 1) = 0.
Proof.
  assert (Hp : 0 <= 1024 < 2 ^ 32) by lia.
  assert (Hm : 0 <= 10 <= 255) by lia.
  destruct (GetPitchFromMipMap_halves_down_to_zero 1024 10 Hp Hm)
    as (H1 & _ & H2 & _ & _).
  split; [exact Hp|]. split; [exact Hm|].
  split; [rewrite H1; reflexivity|].
  rewrite H2 by lia. rewrite H1. reflexivity.
Defined.

Lemma GetOrCreatePipeline_keeps_the_cache_within_its_capacity_witness :
  cache_wf (m_PipelineCache context_stride20)
  /\ exists slot pso ctx1 w1,
      GetOrCreatePipeline K0 hash0 context_stride20 rt0 world_init
      = (Done (slot, pso, ctx1), w1)
      /\ cache_wf (m_PipelineCache ctx1).
Proof.
  assert (Hwf : cache_wf (m_PipelineCache context_stride20))
    by (unfold cache_wf; vm_compute; lia).
  split; [exact Hwf|].
  destruct (GetOrCreatePipeline K0 hash0 context_stride20 rt0 world_init)
    as [[[[slot pso] ctx1]| | | |] w1] eqn:E; try (vm_compute in E; discriminate).
  exists slot, pso, ctx1, w1. split; [reflexivity|].
  exact (proj1 (GetOrCreatePipeline_keeps_the_cache_within_its_capacity
                  K0 hash0 _ _ _ _ _ _ _ Hwf E)).
Defined.

(** ** The root parameters of a program *)

Lemma for_loop_runs {St} (P : nat -> St -> Prop) (body : nat -> St -> M St) w n :
  forall i s,
    (forall j s0, (i <= j < i + n)%nat -> P j s0 ->
                  exists s1, body j s0 w = (Done s1, w) /\ P (S j) s1) ->
    P i s ->
    exists s', for_loop n i body s w = (Done s', w) /\ P (i + n)%nat s'.
Proof.
  induction n as [|n IH]; intros i s Hbody HP; cbn [for_loop].
  - exists s. rewrite Nat.add_0_r. split; [reflexivity|exact HP].
  - destruct (Hbody i s ltac:(lia) HP) as (s1 & E & HP1).
    unfold bind. rewrite E.
    destruct (IH (S i) s1) as (s' & E' & HP'); [|exact HP1|].
    + intros j s0 Hj. apply Hbody. lia.
    + exists s'. rewrite <- Nat.add_succ_comm. split; assumption.
Qed.

Lemma for_loop_runs_or_asserts {St} (P : nat -> St -> Prop) (body : nat -> St -> M St) w n :
  forall i s,
    (forall j s0, (i <= j < i + n)%nat -> P j s0 ->
                  (exists s1, body j s0 w = (Done s1, w) /\ P (S j) s1)
                  \/ body j s0 w = (AssertFailed, w)) ->
    P i s ->
    (exists s', for_loop n i body s w = (Done s', w) /\ P (i + n)%nat s')
    \/ for_loop n i body s w = (AssertFailed, w).
Proof.
  induction n as [|n IH]; intros i s Hbody HP; cbn [for_loop].
  - left. exists s. rewrite Nat.add_0_r. split; [reflexivity|exact HP].
  - unfold bind.
    destruct (Hbody i s ltac:(lia) HP) as [(s1 & E & HP1)|E]; rewrite E; [|right; reflexivity].
    destruct (IH (S i) s1) as [(s' & E' & HP')|E']; [|exact HP1| |].
    + intros j s0 Hj. apply Hbody. lia.
    + left. exists s'. rewrite <- Nat.add_succ_comm. split; assumption.
    + right. exact E'.
Qed.

Lemma for_loop_asserts {St} (P : nat -> St -> Prop) (body : nat -> St -> M St) w k n :
  forall i s,
    (forall j s0, (i <= j < i + n)%nat -> P j s0 ->
                  (exists s1, body j s0 w = (Done s1, w) /\ P (S j) s1)
                  \/ body j s0 w = (AssertFailed, w)) ->
    (forall s0, P k s0 -> body k s0 w = (AssertFailed, w)) ->
    (i <= k < i + n)%nat ->
    P i s ->
    for_loop n i body s w = (AssertFailed, w).
Proof.
  induction n as [|n IH]; intros i s Hbody Hfail Hk HP; [lia|].
  cbn [for_loop]. unfold bind.
  destruct (decide (i = k)) as [->|Hne].
  - rewrite (Hfail s HP). reflexivity.
  - destruct (Hbody i s ltac:(lia) HP) as [(s1 & E & HP1)|E]; rewrite E; [|reflexivity].
    apply IH; [|exact Hfail|lia|exact HP1].
    intros j s0 Hj. apply Hbody. lia.
Qed.

Lemma row_sum_snoc f t s n : forall b,
  row_sum f t s (S n) b
  = row_sum f t s n b + f (at_slot ProgramResourceBinding_zero t s (b + n)).
Proof.
  induction n as [|n IH]; intros b.
  - cbn. rewrite Nat.add_0_r. lia.
  - change (row_sum f t s (S (S n)) b)
      with (f (at_slot ProgramResourceBinding_zero t s b) + row_sum f t s (S n) (S b)).
    rewrite IH. cbn [row_sum]. rewrite <- Nat.add_succ_comm. lia.
Qed.

Lemma grid_sum_snoc f t B n : forall s,
  grid_sum f t (S n) s B = grid_sum f t n s B + row_sum f t (s + n) B 0.
Proof.
  induction n as [|n IH]; intros s.
  - cbn. rewrite Nat.add_0_r. lia.
  - change (grid_sum f t (S (S n)) s B)
      with (row_sum f t s B 0 + grid_sum f t (S n) (S s) B).
    rewrite IH. cbn [grid_sum]. rewrite <- Nat.add_succ_comm. lia.
Qed.

Lemma row_sum_le f t s :
  (forall e, 0 <= f e) ->
  forall n m b, (n <= m)%nat -> row_sum f t s n b <= row_sum f t s m b.
Proof.
  intros Hf n m b Hle. induction Hle as [|m Hle IH]; [lia|].
  rewrite row_sum_snoc. pose proof (Hf (at_slot ProgramResourceBinding_zero t s (b + m))). lia.
Qed.

Lemma grid_sum_le f t B :
  (forall e, 0 <= f e) ->
  forall n m s, (n <= m)%nat -> grid_sum f t n s B <= grid_sum f t m s B.
Proof.
  intros Hf n m s Hle. induction Hle as [|m Hle IH]; [lia|].
  rewrite grid_sum_snoc. pose proof (row_sum_nonneg f t (s + m) B Hf 0%nat). lia.
Qed.

Lemma ubo_one_nonneg e : 0 <= ubo_one e.
Proof. unfold ubo_one. destruct (m_Res e) as [res|]; [destruct (is_uniform_buffer res)|]; lia. Qed.

(** The cells before [(set, binding)] hold no more uniform buffers than
    the table. *)
Lemma scanned_ubos_le t S B s b :
  (s < S)%nat -> (b < B)%nat ->
  grid_sum ubo_one t s 0 B + row_sum ubo_one t s b 0
  + ubo_one (at_slot ProgramResourceBinding_zero t s b)
  <= grid_sum ubo_one t S 0 B.
Proof.
  intros Hs Hb.
  pose proof (row_sum_snoc ubo_one t s b 0%nat) as H1. rewrite Nat.add_0_l in H1.
  pose proof (row_sum_le ubo_one t s ubo_one_nonneg (Datatypes.S b) B 0%nat ltac:(lia)) as H2.
  pose proof (grid_sum_snoc ubo_one t B s 0%nat) as H3. rewrite Nat.add_0_l in H3.
  pose proof (grid_sum_le ubo_one t B ubo_one_nonneg (Datatypes.S s) S 0%nat ltac:(lia)) as H4.
  lia.
Qed.

Section RootParameters.
Variable K : Constants.

Lemma units_ok_empty : units_ok (mkFillState ∅ ∅ info_zero).
Proof.
  split; [cbn; lia|]. split; [|split; [|split]].
  - intros S B _ _. cbn. apply grid_sum_empty. reflexivity.
  - intros k e res Hk. cbn in Hk. rewrite lookup_empty in Hk. discriminate.
  - intros k1 k2 e1 e2 r1 r2 _ Hk. cbn in Hk. rewrite lookup_empty in Hk. discriminate.
  - intros u Hu. cbn in Hu. lia.
Qed.

Lemma units_ok_step tis align flag res st w st' w' :
  tables_agree st -> units_ok st ->
  Fill_resource K tis align flag res st w = (Done st', w') ->
  units_ok st'.
Proof.
  intros HJ (Hc & Hubo & Hin & Hdis & Hsur) H.
  destruct (Fill_resource_step K _ _ _ _ _ _ _ _ HJ H)
    as (_ & Hsr & Hbr & [(-> & _)|(Hnone & -> & _)]).
  { exact (conj Hc (conj Hubo (conj Hin (conj Hdis Hsur)))). }
  unfold units_ok.
  cbn [fs_info fs_ResourceBindings new_info m_MaxSet m_MaxBinding m_TextureCount
       m_UniformBufferCount].
  assert (Hnew : forall e, <[slot_of res := new_entry tis flag res (fs_info st)]>
                             (fs_ResourceBindings st) !! slot_of res = Some e ->
                           e = new_entry tis flag res (fs_info st)).
  { intros e He. rewrite lookup_insert_eq in He. congruence. }
  split; [destruct (is_texture res); lia|]. split; [|split; [|split]].
  - intros S B HS HB. unfold slot_of.
    rewrite grid_sum_insert by (reflexivity || exact Hnone).
    rewrite decide_True by lia. rewrite Hubo by lia. reflexivity.
  - intros k e r Hk Hr Ht. destruct (decide (k = slot_of res)) as [->|Hne].
    + apply Hnew in Hk. subst e. cbn in Hr. injection Hr as <-. cbn. rewrite Ht. lia.
    + rewrite lookup_insert_ne in Hk by congruence.
      specialize (Hin _ _ _ Hk Hr Ht). destruct (is_texture res); lia.
  - intros k1 k2 e1 e2 r1 r2 Hne H1 H2 Hr1 Hr2 Ht1 Ht2.
    destruct (decide (k1 = slot_of res)) as [->|Hne1];
      destruct (decide (k2 = slot_of res)) as [->|Hne2]; [congruence| | |].
    + apply Hnew in H1. subst e1. rewrite lookup_insert_ne in H2 by congruence.
      cbn in Hr1. injection Hr1 as <-. cbn. rewrite Ht1.
      specialize (Hin _ _ _ H2 Hr2 Ht2). lia.
    + apply Hnew in H2. subst e2. rewrite lookup_insert_ne in H1 by congruence.
      cbn in Hr2. injection Hr2 as <-. cbn. rewrite Ht2.
      specialize (Hin _ _ _ H1 Hr1 Ht1). lia.
    + rewrite lookup_insert_ne in H1, H2 by congruence.
      exact (Hdis k1 k2 e1 e2 r1 r2 Hne H1 H2 Hr1 Hr2 Ht1 Ht2).
  - intros u Hu. destruct (decide (u < m_TextureCount (fs_info st))) as [Hlt|Hge].
    + destruct (Hsur u ltac:(lia)) as (k & e & r & Hk & Hr & Ht & Hunit).
      exists k, e, r. split; [|auto].
      rewrite lookup_insert_ne; [exact Hk|]. intros <-. congruence.
    + destruct (is_texture res) eqn:Ht; [|lia].
      exists (slot_of res), (new_entry tis flag res (fs_info st)), res.
      rewrite lookup_insert_eq. split; [reflexivity|]. split; [reflexivity|].
      split; [exact Ht|]. cbn. rewrite Ht. lia.
Qed.

Lemma entries_from_step vp fp tis align flag res st w st' w' :
  res ∈ module_resources vp ++ module_resources fp ->
  tables_agree st -> entries_from vp fp st ->
  Fill_resource K tis align flag res st w = (Done st', w') ->
  entries_from vp fp st'.
Proof.
  intros Hres HJ Hfrom H.
  destruct (Fill_resource_step K _ _ _ _ _ _ _ _ HJ H)
    as (_ & _ & _ & [(-> & _)|(Hnone & -> & _)]); [exact Hfrom|].
  intros k e r Hk Hr. cbn [fs_ResourceBindings] in Hk.
  destruct (decide (k = slot_of res)) as [->|Hne].
  - rewrite lookup_insert_eq in Hk. injection Hk as <-. cbn in Hr. injection Hr as <-.
    exact Hres.
  - rewrite lookup_insert_ne in Hk by congruence. exact (Hfrom _ _ _ Hk Hr).
Qed.

(** What [CreateProgramResourceBindings] leaves for the loops of
    [DX12NewProgram]. *)
Lemma new_program_bindings_table vp fp w program info w' :
  new_program_bindings K vp fp w = (Done (program, info), w') ->
  exists st,
    entries_in_range K st /\ units_ok st /\ entries_from vp fp st
    /\ m_ResourceBindings program = fs_ResourceBindings st /\ info = fs_info st.
Proof.
  intros H.
  apply (new_program_bindings_invariant K
           (fun st => entries_in_range K st /\ units_ok st /\ entries_from vp fp st)) in H
    as (st & (H1 & H2 & H3) & _ & Hrb & Hinfo).
  - exists st. auto.
  - split; [apply entries_in_range_empty|]. split; [apply units_ok_empty|].
    intros k e res Hk. cbn in Hk. rewrite lookup_empty in Hk. discriminate.
  - intros flag module m res st w0 st' w0' Hwhich _ Hres HJ (H1 & H2 & H3) Hstep.
    split; [eapply (entries_in_range_step K); eauto|].
    split; [eapply units_ok_step; eauto|].
    eapply entries_from_step; eauto. apply elem_of_app.
    destruct Hwhich as [[_ <-]|[_ <-]]; auto.
Qed.

Section Scan.
Variable st : FillState.
Hypothesis Hrange : entries_in_range K st.
Hypothesis Hunits : units_ok st.
Hypothesis Hsize :
  m_UniformBufferCount (fs_info st) + m_TextureCount (fs_info st) * 2 < 2 ^ 32.

Local Abbreviation t := (fs_ResourceBindings st).
Local Abbreviation U := (m_UniformBufferCount (fs_info st)).
Local Abbreviation T := (m_TextureCount (fs_info st)).
Local Abbreviation S_ := (Z.to_nat (m_MaxSet (fs_info st))).
Local Abbreviation B_ := (Z.to_nat (m_MaxBinding (fs_info st))).
Local Abbreviation N := (Z.to_nat (U + T * 2)).

Lemma scan_U : grid_sum ubo_one t S_ 0 B_ = U.
Proof.
  destruct Hrange as (Hs & Hb & _). destruct Hunits as (_ & Hubo & _).
  apply Hubo; lia.
Qed.

Lemma scan_U_nonneg : 0 <= U.
Proof. rewrite <- scan_U. apply grid_sum_nonneg. apply ubo_one_nonneg. Qed.

(** One cell: the loop body returns, or stops at a storage buffer. *)
Lemma NewProgram_slot_scan s b acc w :
  (s < S_)%nat -> (b < B_)%nat ->
  scan_ok t B_ U N s b acc ->
  match m_Res (at_slot ProgramResourceBinding_zero t s b) with
  | Some res =>
      if is_storage_buffer res
      then NewProgram_slot K t U s b acc w = (AssertFailed, w)
      else exists acc', NewProgram_slot K t U s b acc w = (Done acc', w)
                        /\ scan_ok t B_ U N s (S b) acc'
  | None => exists acc', NewProgram_slot K t U s b acc w = (Done acc', w)
                         /\ scan_ok t B_ U N s (S b) acc'
  end.
Proof.
  intros Hs Hb (Hlen & Hcnt & Hcbv & Htex).
  destruct Hrange as (HS & HB & _ & _ & Hall).
  destruct Hunits as (HT & _ & Hin & Hdis & _).
  pose proof scan_U_nonneg as HU.
  pose proof (grid_sum_nonneg ubo_one t B_ s ubo_one_nonneg 0%nat) as Hg0.
  pose proof (row_sum_nonneg ubo_one t s b ubo_one_nonneg 0%nat) as Hrow0.
  pose proof (scanned_ubos_le t S_ B_ s b Hs Hb) as Hle. rewrite scan_U in Hle.
  assert (Hs' : (s <? MAX_SET_COUNT K)%nat = true) by (apply Nat.ltb_lt; lia).
  assert (Hb' : (b <? MAX_BINDINGS_PER_SET_COUNT K)%nat = true) by (apply Nat.ltb_lt; lia).
  destruct acc as [[descs tix] uix]. cbn [fst snd] in *.
  assert (Hscanned : forall k, scanned s (S b) k <-> scanned s b k \/ k = (s, b)).
  { intros [k1 k2]. unfold scanned. cbn. split.
    - intros [H|[H1 H2]]; [auto|].
      destruct (decide (k2 = b)) as [->|Hne]; [right; congruence|left; right; lia].
    - intros [[H|[H1 H2]]|H]; [auto|right; lia|]. inversion H. right. lia. }
  assert (Hnext : row_sum ubo_one t s (S b) 0
                  = row_sum ubo_one t s b 0
                    + ubo_one (at_slot ProgramResourceBinding_zero t s b)).
  { rewrite row_sum_snoc. reflexivity. }
  remember (ubo_one (at_slot ProgramResourceBinding_zero t s b)) as c eqn:Hc.
  unfold NewProgram_slot. rewrite Hs', Hb'. cbn [andb negb].
  unfold at_slot in *.
  destruct (t !! (s, b)) as [e|] eqn:He; cbn [default from_option id] in *.
  2:{ cbn in Hc. cbn. exists (descs, tix, uix). split; [reflexivity|].
      split; [exact Hlen|]. split; [cbn [snd]; rewrite Hnext; lia|].
      split; [exact Hcbv|]. intros k e0 res Hk Hr Ht Hsc.
      apply Hscanned in Hsc as [Hsc| ->]; [eauto|]. congruence. }
  destruct (Hall _ _ He) as (_ & _ & res & tis & Hr & _ & Hslot & _).
  rewrite Hr. unfold ubo_one in Hc. rewrite Hr in Hc.
  unfold is_storage_buffer, is_uniform_buffer in *.
  destruct (m_BindingFamily res) eqn:Hfam; simpl in Hc.
  - (* generic *)
    exists (descs, tix, uix). split; [reflexivity|].
    split; [exact Hlen|]. split; [cbn [snd]; rewrite Hnext; lia|].
    split; [exact Hcbv|]. intros k e0 res0 Hk Hr0 Ht Hsc.
    apply Hscanned in Hsc as [Hsc| ->]; [eauto|].
    assert (e0 = e) by congruence. subst e0.
    assert (res0 = res) by congruence. subst res0.
    unfold is_texture in Ht. rewrite Hfam in Ht. discriminate.
  - (* uniform buffer *)
    unfold root_parameter_init, bind. rewrite Hlen.
    assert (Hu : 0 <= uix < U) by lia.
    assert (HN : (uix <? Z.of_nat N) = true) by (apply Z.ltb_lt; lia).
    rewrite HN. unfold ret.
    eexists. split; [reflexivity|]. unfold scan_ok. cbn [fst snd].
    split; [rewrite length_insert; exact Hlen|].
    split; [rewrite Hnext; unfold uint32; rewrite Z.mod_small by lia; lia|].
    split.
    + intros i Hi. unfold uint32 in Hi. rewrite Z.mod_small in Hi by lia.
      destruct (decide (i = uix)) as [->|Hne].
      * exists (s, b), e, res. split; [exact He|]. split; [exact Hr|].
        split; [unfold is_uniform_buffer; rewrite Hfam; reflexivity|].
        apply list_lookup_insert_eq. lia.
      * destruct (Hcbv i ltac:(lia)) as (k & e0 & r0 & Hk & Hr0 & Hf0 & Hd).
        exists k, e0, r0. split; [exact Hk|]. split; [exact Hr0|]. split; [exact Hf0|].
        rewrite list_lookup_insert_ne by lia. exact Hd.
    + intros k e0 res0 Hk Hr0 Ht Hsc.
      apply Hscanned in Hsc as [Hsc| ->].
      * specialize (Hin _ _ _ Hk Hr0 Ht).
        rewrite !list_lookup_insert_ne by lia. eauto.
      * assert (e0 = e) by congruence. subst e0.
        assert (res0 = res) by congruence. subst res0.
        unfold is_texture in Ht. rewrite Hfam in Ht. discriminate.
  - (* storage buffer *)
    reflexivity.
  - (* texture *)
    assert (Ht : is_texture res = true) by (unfold is_texture; rewrite Hfam; reflexivity).
    pose proof (Hin _ _ _ He Hr Ht) as Hunit.
    unfold root_parameter_init, bind, uint32.
    rewrite Z.add_0_r, Zmod_mod.
    rewrite (Z.mod_small (U + m_TextureUnit e * 2)) by lia.
    rewrite (Z.mod_small (U + m_TextureUnit e * 2 + 1)) by lia.
    rewrite Hlen.
    assert (HN1 : (U + m_TextureUnit e * 2 <? Z.of_nat N) = true)
      by (apply Z.ltb_lt; lia).
    rewrite HN1. unfold ret. rewrite length_insert, Hlen.
    assert (HN2 : (U + m_TextureUnit e * 2 + 1 <? Z.of_nat N) = true)
      by (apply Z.ltb_lt; lia).
    rewrite HN2.
    eexists. split; [reflexivity|]. unfold scan_ok. cbn [fst snd].
    split; [rewrite !length_insert; exact Hlen|].
    split; [rewrite Hnext; lia|].
    split.
    + intros i Hi.
      destruct (Hcbv i Hi) as (k & e0 & r0 & Hk & Hr0 & Hf0 & Hd).
      exists k, e0, r0. split; [exact Hk|]. split; [exact Hr0|]. split; [exact Hf0|].
      rewrite !list_lookup_insert_ne by lia. exact Hd.
    + intros k e0 res0 Hk Hr0 Ht0 Hsc.
      apply Hscanned in Hsc as [Hsc| ->].
      * assert (Hne : k <> (s, b)).
        { intros ->. destruct Hsc as [Hsc|Hsc]; cbn in Hsc; lia. }
        pose proof (Hdis _ _ _ _ _ _ Hne Hk He Hr0 Hr Ht0 Ht) as Hdiff.
        pose proof (Hin _ _ _ Hk Hr0 Ht0) as Hunit0.
        rewrite !list_lookup_insert_ne by lia. eauto.
      * assert (e0 = e) by congruence. subst e0.
        split.
        -- rewrite list_lookup_insert_ne by lia.
           apply list_lookup_insert_eq. lia.
        -- apply list_lookup_insert_eq. rewrite length_insert. lia.
Qed.

Lemma NewProgram_slot_step s b acc w :
  (s < S_)%nat -> (b < B_)%nat ->
  scan_ok t B_ U N s b acc ->
  (exists acc', NewProgram_slot K t U s b acc w = (Done acc', w)
                /\ scan_ok t B_ U N s (S b) acc')
  \/ NewProgram_slot K t U s b acc w = (AssertFailed, w).
Proof.
  intros Hs Hb Hok. pose proof (NewProgram_slot_scan s b acc w Hs Hb Hok) as H.
  destruct (m_Res (at_slot ProgramResourceBinding_zero t s b)) as [res|]; [|left; exact H].
  destruct (is_storage_buffer res); [right|left]; exact H.
Qed.

Lemma scan_ok_next_row s acc :
  scan_ok t B_ U N s B_ acc -> scan_ok t B_ U N (S s) 0 acc.
Proof.
  intros (Hlen & Hcnt & Hcbv & Htex).
  destruct Hrange as (_ & _ & _ & _ & Hall).
  split; [exact Hlen|]. split; [|split; [exact Hcbv|]].
  - rewrite Hcnt, grid_sum_snoc. cbn [row_sum]. rewrite Nat.add_0_l. lia.
  - intros k e res Hk Hr Ht Hsc. apply (Htex k e res Hk Hr Ht).
    destruct (Hall _ _ Hk) as (_ & Hb & _).
    destruct Hsc as [Hsc|[_ Hsc]]; [|lia].
    unfold scanned. destruct (decide (k.1 = s)); [right|left]; lia.
Qed.

Lemma NewProgram_row_step s acc w :
  (s < S_)%nat ->
  scan_ok t B_ U N s 0 acc ->
  (exists acc', for_loop B_ 0 (fun binding st0 => NewProgram_slot K t U s binding st0) acc w
                = (Done acc', w)
                /\ scan_ok t B_ U N (S s) 0 acc')
  \/ for_loop B_ 0 (fun binding st0 => NewProgram_slot K t U s binding st0) acc w
     = (AssertFailed, w).
Proof.
  intros Hs Hok.
  destruct (for_loop_runs_or_asserts (fun b a => scan_ok t B_ U N s b a)
              (fun binding st0 => NewProgram_slot K t U s binding st0) w B_ 0%nat acc)
    as [(acc' & E & Hok')|E]; [|exact Hok| |right; exact E].
  - intros j a Hj Ha. apply NewProgram_slot_step; [exact Hs|lia|exact Ha].
  - left. exists acc'. split; [exact E|]. apply scan_ok_next_row. exact Hok'.
Qed.

Lemma scan_ok_start :
  scan_ok t B_ U N 0 0 (replicate N RootParameter_uninitialized, 0, 0).
Proof.
  split; [apply length_replicate|]. split; [reflexivity|]. split.
  - intros i Hi. cbn in Hi. lia.
  - intros k e res _ _ _ [Hsc|[_ Hsc]]; lia.
Qed.

(** The loops return when no entry is a storage buffer. *)
Lemma NewProgram_loops_run w :
  (forall k e res, t !! k = Some e -> m_Res e = Some res -> is_storage_buffer res = false) ->
  exists acc,
    for_loop S_ 0
      (fun set st0 =>
         for_loop B_ 0 (fun binding st1 => NewProgram_slot K t U set binding st1) st0)
      (replicate N RootParameter_uninitialized, 0, 0) w = (Done acc, w)
    /\ scan_ok t B_ U N S_ 0 acc.
Proof.
  intros Hno.
  destruct (for_loop_runs (fun s a => scan_ok t B_ U N s 0 a)
              (fun set st0 =>
                 for_loop B_ 0 (fun binding st1 => NewProgram_slot K t U set binding st1) st0)
              w S_ 0%nat (replicate N RootParameter_uninitialized, 0, 0))
    as (acc & E & Hok); [|apply scan_ok_start|exists acc; split; assumption].
  intros s a Hs Ha.
  destruct (for_loop_runs (fun b a0 => scan_ok t B_ U N s b a0)
              (fun binding st1 => NewProgram_slot K t U s binding st1) w B_ 0%nat a)
    as (a' & E & Hok); [|exact Ha|].
  - intros b a0 Hb Ha0.
    pose proof (NewProgram_slot_scan s b a0 w ltac:(lia) ltac:(lia) Ha0) as H.
    unfold at_slot in H.
    destruct (t !! (s, b)) as [e|] eqn:He; cbn [default from_option id] in H; [|exact H].
    destruct (m_Res e) as [res|] eqn:Hr; [|exact H].
    rewrite (Hno _ _ _ He Hr) in H. exact H.
  - exists a'. split; [exact E|]. apply scan_ok_next_row. exact Hok.
Qed.

(** The loops stop at a failed assertion when an entry is a storage
    buffer. *)
Lemma NewProgram_loops_assert w k e res :
  t !! k = Some e -> m_Res e = Some res -> is_storage_buffer res = true ->
  for_loop S_ 0
    (fun set st0 =>
       for_loop B_ 0 (fun binding st1 => NewProgram_slot K t U set binding st1) st0)
    (replicate N RootParameter_uninitialized, 0, 0) w = (AssertFailed, w).
Proof.
  intros Hk Hr Hsb. destruct k as [s b].
  destruct Hrange as (_ & _ & _ & _ & Hall).
  destruct (Hall _ _ Hk) as (Hs & Hb & _). cbn [fst snd] in Hs, Hb.
  apply (for_loop_asserts (fun s0 a => scan_ok t B_ U N s0 0 a) _ w s);
    [| |lia|apply scan_ok_start].
  - intros j a Hj Ha. apply NewProgram_row_step; [lia|exact Ha].
  - intros a Ha.
    apply (for_loop_asserts (fun b0 a0 => scan_ok t B_ U N s b0 a0) _ w b);
      [| |lia|exact Ha].
    + intros j a0 Hj Ha0. apply NewProgram_slot_step; [lia|lia|exact Ha0].
    + intros a0 Ha0.
      pose proof (NewProgram_slot_scan s b a0 w ltac:(lia) ltac:(lia) Ha0)
        as H.
      unfold at_slot in H. rewrite Hk in H. cbn [default from_option id] in H.
      rewrite Hr, Hsb in H. exact H.
Qed.

End Scan.

(** X16. For a program without storage buffers [DX12NewProgram] leaves
    no root parameter uninitialised: the array has one parameter for
    every uniform buffer, followed by two for every texture; the first
    are constant buffer views, each for the binding of a uniform buffer
    of the program, and every texture has its shader resource table and
    its sampler table at twice its unit past the uniform buffers, with
    the visibility of its entry. No index leaves the array. *)
Theorem NewProgram_initialises_every_root_parameter vp fp w prog w' w0 :
  new_program_bindings K vp fp w = (Done prog, w') ->
  (forall res, res ∈ module_resources vp ++ module_resources fp ->
               is_storage_buffer res = false) ->
  m_UniformBufferCount prog.2 + m_TextureCount prog.2 * 2 < 2 ^ 32 ->
  exists descs,
    NewProgram_root_parameters K prog w0 = (Done descs, w0)
    /\ Z.of_nat (length descs) = m_UniformBufferCount prog.2 + m_TextureCount prog.2 * 2
    /\ (forall i, 0 <= i < m_UniformBufferCount prog.2 ->
          exists k e res,
            m_ResourceBindings prog.1 !! k = Some e /\ m_Res e = Some res
            /\ is_uniform_buffer res = true
            /\ descs !! Z.to_nat i
               = Some (InitAsConstantBufferView (Z.of_nat (m_Binding res))
                         (GetShaderVisibilityFromStage (m_StageFlags e))))
    /\ (forall k e res,
          m_ResourceBindings prog.1 !! k = Some e -> m_Res e = Some res ->
          is_texture res = true ->
          descs !! Z.to_nat (m_UniformBufferCount prog.2 + m_TextureUnit e * 2)
          = Some (InitAsDescriptorTable D3D12_DESCRIPTOR_RANGE_TYPE_SRV
                    (GetShaderVisibilityFromStage (m_StageFlags e)))
          /\ descs !! Z.to_nat (m_UniformBufferCount prog.2 + m_TextureUnit e * 2 + 1)
             = Some (InitAsDescriptorTable D3D12_DESCRIPTOR_RANGE_TYPE_SAMPLER
                       (GetShaderVisibilityFromStage (m_StageFlags e))))
    /\ Forall (fun d => d <> RootParameter_uninitialized) descs.
Proof.
  destruct prog as [program info]. cbn [fst snd]. intros H Hno Hsize.
  apply new_program_bindings_table in H as (st & Hrange & Hunits & Hfrom & Hrb & ->).
  pose proof (scan_U_nonneg st Hrange Hunits) as HU.
  pose proof Hunits as (HT & _ & Hin & _ & Hsur).
  pose proof Hrange as (HS & HB & _ & _ & Hall).
  destruct (NewProgram_loops_run st Hrange Hunits Hsize w0)
    as ([[descs tix] uix] & E & Hlen & Hcnt & Hcbv & Htex).
  { intros k e res Hk Hr. apply Hno. exact (Hfrom _ _ _ Hk Hr). }
  cbn [fst snd] in Hlen, Hcnt, Hcbv, Htex.
  assert (Huix : uix = m_UniformBufferCount (fs_info st)).
  { rewrite Hcnt. cbn [row_sum]. rewrite Z.add_0_r. apply (scan_U st Hrange Hunits). }
  clear Hcnt. subst uix.
  assert (Htex' : forall k e res,
             fs_ResourceBindings st !! k = Some e -> m_Res e = Some res ->
             is_texture res = true ->
             descs !! Z.to_nat (m_UniformBufferCount (fs_info st) + m_TextureUnit e * 2)
             = Some (InitAsDescriptorTable D3D12_DESCRIPTOR_RANGE_TYPE_SRV
                       (GetShaderVisibilityFromStage (m_StageFlags e)))
             /\ descs !! Z.to_nat (m_UniformBufferCount (fs_info st) + m_TextureUnit e * 2 + 1)
                = Some (InitAsDescriptorTable D3D12_DESCRIPTOR_RANGE_TYPE_SAMPLER
                          (GetShaderVisibilityFromStage (m_StageFlags e)))).
  { intros k e res Hk Hr Ht. apply (Htex k e res Hk Hr Ht).
    destruct (Hall _ _ Hk) as (Hs & _). left. lia. }
  exists descs. unfold NewProgram_root_parameters. cbn [fst snd]. rewrite Hrb.
  unfold uint32. rewrite Z.mod_small by lia.
  unfold bind. rewrite E. split; [reflexivity|].
  split; [rewrite Hlen; lia|]. split; [exact Hcbv|]. split; [exact Htex'|].
  apply Forall_lookup. intros i d Hd.
  pose proof (lookup_lt_Some _ _ _ Hd) as Hi. rewrite Hlen in Hi.
  destruct (decide (Z.of_nat i < m_UniformBufferCount (fs_info st))) as [Hlt|Hge].
  - destruct (Hcbv (Z.of_nat i) ltac:(lia)) as (k & e & res & _ & _ & _ & Hd').
    rewrite Nat2Z.id in Hd'. congruence.
  - set (u := (Z.of_nat i - m_UniformBufferCount (fs_info st)) / 2).
    assert (Hu : 0 <= u < m_TextureCount (fs_info st)).
    { subst u. split; [apply Z.div_pos; lia|]. apply Z.div_lt_upper_bound; lia. }
    destruct (Hsur u Hu) as (k & e & res & Hk & Hr & Ht & Hunit).
    destruct (Htex' k e res Hk Hr Ht) as [H1 H2]. rewrite Hunit in H1, H2.
    pose proof (Z.div_mod (Z.of_nat i - m_UniformBufferCount (fs_info st)) 2 ltac:(lia)) as Hdm.
    pose proof (Z.mod_pos_bound (Z.of_nat i - m_UniformBufferCount (fs_info st)) 2 ltac:(lia))
      as Hm. fold u in Hdm.
    destruct (decide ((Z.of_nat i - m_UniformBufferCount (fs_info st)) mod 2 = 0)) as [H0|Hn0].
    + replace (Z.to_nat (m_UniformBufferCount (fs_info st) + u * 2)) with i in H1 by lia.
      congruence.
    + replace (Z.to_nat (m_UniformBufferCount (fs_info st) + u * 2 + 1)) with i in H2 by lia.
      congruence.
Qed.

(** X17. Storage buffers are not supported: when the table of the
    program holds one, [DX12NewProgram] stops at a failed assertion
    before it creates a root signature. *)
Theorem NewProgram_asserts_at_a_storage_buffer vp fp w prog w' w0 k e res :
  new_program_bindings K vp fp w = (Done prog, w') ->
  m_UniformBufferCount prog.2 + m_TextureCount prog.2 * 2 < 2 ^ 32 ->
  m_ResourceBindings prog.1 !! k = Some e -> m_Res e = Some res ->
  is_storage_buffer res = true ->
  NewProgram_root_parameters K prog w0 = (AssertFailed, w0).
Proof.
  destruct prog as [program info]. cbn [fst snd]. intros H Hsize Hk Hr Hsb.
  apply new_program_bindings_table in H as (st & Hrange & Hunits & _ & Hrb & ->).
  pose proof (scan_U_nonneg st Hrange Hunits) as HU.
  pose proof Hunits as (HT & _).
  rewrite Hrb in Hk.
  unfold NewProgram_root_parameters. cbn [fst snd]. rewrite Hrb.
  unfold uint32. rewrite Z.mod_small by lia.
  unfold bind.
  rewrite (NewProgram_loops_assert st Hrange Hunits Hsize w0 k e res Hk Hr Hsb).
  reflexivity.
Qed.

End RootParameters.

Lemma new_program_bindings_ssbo :
  new_program_bindings K0 (Some vertex_module_ssbo) (Some fragment_module0) world_init
  = (Done program_bindings_ssbo, world_init).
Proof. vm_compute. reflexivity. Qed.

Lemma NewProgram_initialises_every_root_parameter_witness :
  new_program_bindings K0 (Some vertex_module0) (Some fragment_module0) world_init
  = (Done program_bindings0, world_init)
  /\ exists descs,
       NewProgram_root_parameters K0 program_bindings0 world_init = (Done descs, world_init)
       /\ length descs = 3%nat
       /\ Forall (fun d => d <> RootParameter_uninitialized) descs.
Proof.
  split; [exact new_program_bindings_program0|].
  destruct (NewProgram_initialises_every_root_parameter K0 _ _ _ _ _ world_init
              new_program_bindings_program0)
    as (descs & E & Hlen & _ & _ & Hall).
  - intros res Hin. cbn in Hin.
    repeat (apply elem_of_cons in Hin as [->|Hin]; [reflexivity|]).
    apply elem_of_nil in Hin. contradiction.
  - vm_compute. reflexivity.
  - exists descs. split; [exact E|]. split; [|exact Hall].
    apply Nat2Z.inj. rewrite Hlen. vm_compute. reflexivity.
Defined.

Lemma NewProgram_asserts_at_a_storage_buffer_witness :
  new_program_bindings K0 (Some vertex_module_ssbo) (Some fragment_module0) world_init
  = (Done program_bindings_ssbo, world_init)
  /\ NewProgram_root_parameters K0 program_bindings_ssbo world_init
     = (AssertFailed, world_init).
Proof.
  split; [exact new_program_bindings_ssbo|].
  apply (NewProgram_asserts_at_a_storage_buffer K0 _ _ _ _ _ world_init (0%nat, 2%nat)
           (mkProgramResourceBinding (Some ssbo0)
              (Some [mkShaderResourceTypeInfo 1]) 0 0 0 0 SHADER_STAGE_FLAG_VERTEX)
           ssbo0 new_program_bindings_ssbo).
  - vm_compute. reflexivity.
  - vm_compute. reflexivity.
  - reflexivity.
  - reflexivity.
Defined.

(** ** The context after initialisation *)

Lemma create_checked_Done_inv c w hr h w1 line u w2 :
  create c w = (Done (hr, h), w1) ->
  CHECK_HR_ERROR true line hr w1 = (Done u, w2) ->
  h = w_next w /\ w_next w2 = S (w_next w).
Proof.
  intros Hc Hk. apply CHECK_HR_ERROR_Done_inv in Hk as [-> Hok].
  specialize (Hok eq_refl). subst hr.
  apply create_Done_inv in Hc as [_ Hc]. cbn in Hc. exact Hc.
Qed.

Lemma create_next_le c w a w1 :
  create c w = (Done a, w1) -> (w_next w <= w_next w1)%nat.
Proof.
  destruct a as [hr h]. intros Hc. apply create_Done_inv in Hc as [_ Hc].
  destruct (FAILED hr); destruct Hc as [_ ->]; lia.
Qed.

Lemma call_next_eq c w hr w1 : call c w = (Done hr, w1) -> w_next w1 = w_next w.
Proof. unfold call. intros H. inversion H; subst. reflexivity. Qed.

Lemma CreateDeviceAdapter_next_le rounds factory w adapter w' :
  CreateDeviceAdapter rounds factory w = (Done adapter, w') -> (w_next w <= w_next w')%nat.
Proof.
  unfold CreateDeviceAdapter. generalize 0%nat. revert w.
  induction rounds as [|rounds IH]; intros w i H; cbn [CreateDeviceAdapter_loop] in H;
    [discriminate|].
  apply bind_Done_inv in H as (? & w1 & Hd1 & H). apply deref_Done_inv in Hd1 as [_ ->].
  apply bind_Done_inv in H as ([hr a] & w2 & Hc & H). apply create_next_le in Hc.
  destruct (hr =? DXGI_ERROR_NOT_FOUND); [inversion H; subst; exact Hc|].
  apply bind_Done_inv in H as (? & w3 & Hd2 & H). apply deref_Done_inv in Hd2 as [_ ->].
  apply bind_Done_inv in H as (flags & w4 & Hf & H). apply call_next_eq in Hf.
  destruct (negb _); [apply IH in H; lia|].
  apply bind_Done_inv in H as (hr' & w5 & Hp & H). apply call_next_eq in Hp.
  destruct (SUCCEEDED hr'); [inversion H; subst; lia|apply IH in H; lia].
Qed.

Section Initialized.
Variable K : Constants.
Hypothesis HK : constants_ok K.

Lemma Initialize_next_le dev frame w sb w' :
  Initialize K dev true frame w = (Done sb, w') -> (w_next w <= w_next w')%nat.
Proof.
  unfold Initialize. intros H.
  apply bind_Done_inv in H as (pools & w1 & Hloop & H). inversion H; subst. clear H.
  set (N := Z.to_nat (MAX_BLOCK_SIZE K / BLOCK_STEP_SIZE K)) in *.
  assert (Hinv : (w_next w <= w_next w')%nat); [|exact Hinv].
  eapply (for_loop_Done_inv_w (fun _ _ w0 => (w_next w <= w_next w0)%nat) _ N);
    [| | |exact Hloop]; [|lia|lia].
  intros j s w0 s1 w2 _ Hb Hle.
  apply bind_Done_inv in Hb as (q & w3 & Hq & Hb). inversion Hb; subst. clear Hb.
  apply Initialize_pool_verified in Hq as [_ Hnext]. lia.
Qed.

Lemma Initialize_frame_fresh device swap_chain i w fr w' :
  (0 < w_next w)%nat ->
  Initialize_frame K device swap_chain true i w = (Done fr, w') ->
  frame_fresh K fr /\ is_null swap_chain = false /\ (0 < w_next w')%nat.
Proof.
  intros Hpos H. unfold Initialize_frame in H.
  apply bind_Done_inv in H as (? & w1 & Hd1 & H). apply deref_Done_inv in Hd1 as [Hsw ->].
  apply bind_Done_inv in H as ([hr1 rt] & w2 & Hc1 & H).
  apply bind_Done_inv in H as (? & w3 & Hk1 & H).
  destruct (create_checked_Done_inv _ _ _ _ _ _ _ _ Hc1 Hk1) as [_ Hn1].
  apply bind_Done_inv in H as (? & w4 & Hd2 & H). apply deref_Done_inv in Hd2 as [_ ->].
  apply bind_Done_inv in H as ([hr2 ca] & w5 & Hc2 & H).
  apply bind_Done_inv in H as (? & w6 & Hk2 & H).
  destruct (create_checked_Done_inv _ _ _ _ _ _ _ _ Hc2 Hk2) as [Hca Hn2].
  apply bind_Done_inv in H as ([hr3 fence] & w7 & Hc3 & H).
  apply bind_Done_inv in H as (? & w8 & Hk3 & H).
  destruct (create_checked_Done_inv _ _ _ _ _ _ _ _ Hc3 Hk3) as [Hfe Hn3].
  apply bind_Done_inv in H as (? & w9 & Hnf & H).
  assert (Hn4 : w_next w9 = w_next w8).
  { unfold new_fence in Hnf. inversion Hnf; subst. reflexivity. }
  apply bind_Done_inv in H as (sb & w10 & Hsb & H).
  unfold ret in H. injection H as <- <-.
  pose proof (Initialize_next_le _ _ _ _ _ Hsb) as Hn5.
  split; [|split; [exact Hsw|lia]].
  unfold frame_fresh. cbn.
  split; [subst fence; unfold is_null, null; apply Nat.eqb_neq; lia|].
  split; [subst ca; unfold is_null, null; apply Nat.eqb_neq; lia|].
  split; [eapply (Initialize_scratch_wf K HK); [|exact Hsb]; lia|].
  split; [eapply Initialize_cursors; exact Hsb|].
  split; reflexivity.
Qed.

(** X18. When [DX12Initialize] returns true with verified calls on,
    the context is ready for its first frame: there is one frame
    resource for every back buffer, every slot can be begun (swap
    chain, command list, command queue, descriptor heap, fence and
    command allocator exist), its scratch buffer is well formed with
    all cursors at zero, its fence value is the free state and nothing
    waits to be destroyed; no frame is begun, no program is enabled, no
    vertex declaration is enabled and the pipeline cache is empty. *)
Theorem DX12Initialize_leaves_every_frame_ready rounds default_state w ctx w' :
  (0 < w_next w)%nat ->
  DX12Initialize K rounds true default_state w = (Done (true, ctx), w') ->
  length (m_FrameResources ctx) = MAX_FRAMEBUFFERS K
  /\ (forall s, (s < MAX_FRAMEBUFFERS K)%nat -> frame_ready ctx s)
  /\ (forall s fr, m_FrameResources ctx !! s = Some fr -> frame_fresh K fr)
  /\ m_FrameBegun ctx = false
  /\ m_CurrentFrameIndex ctx = 0%nat
  /\ m_CurrentProgram ctx = None
  /\ m_CurrentVertexDeclaration ctx = replicate (MAX_VERTEX_BUFFERS K) None
  /\ pc_Entries (m_PipelineCache ctx) = ∅
  /\ m_PipelineState ctx = default_state
  /\ m_VerifyGraphicsCalls ctx = true.
Proof.
  intros Hpos H. unfold DX12Initialize in H.
  apply bind_Done_inv in H as ([hr1 di] & w1 & Hc1 & H).
  apply bind_Done_inv in H as (? & w2 & Hk1 & H).
  destruct (create_checked_Done_inv _ _ _ _ _ _ _ _ Hc1 Hk1) as [_ Hn1].
  apply bind_Done_inv in H as (? & w3 & Hd1 & H). apply deref_Done_inv in Hd1 as [_ ->].
  apply bind_Done_inv in H as ([hr2 factory] & w4 & Hc2 & H).
  apply create_next_le in Hc2 as Hn2.
  apply bind_Done_inv in H as (adapter & w5 & Had & H).
  apply CreateDeviceAdapter_next_le in Had as Hn2'.
  apply bind_Done_inv in H as ([hr3 device] & w6 & Hc3 & H).
  apply bind_Done_inv in H as (? & w7 & Hk3 & H).
  destruct (create_checked_Done_inv _ _ _ _ _ _ _ _ Hc3 Hk3) as [_ Hn3].
  apply bind_Done_inv in H as (? & w8 & Hd3 & H). apply deref_Done_inv in Hd3 as [_ ->].
  apply bind_Done_inv in H as ([hr4 queue] & w9 & Hc4 & H).
  apply bind_Done_inv in H as (? & w10 & Hk4 & H).
  destruct (create_checked_Done_inv _ _ _ _ _ _ _ _ Hc4 Hk4) as [Hq Hn4].
  apply bind_Done_inv in H as (? & w10' & Hd2 & H). apply deref_Done_inv in Hd2 as [_ ->].
  apply bind_Done_inv in H as ([hr5 swap_chain] & w11 & Hc5 & H).
  apply create_next_le in Hc5 as Hn5.
  apply bind_Done_inv in H as ([hr6 sampler_heap] & w12 & Hc6 & H).
  apply bind_Done_inv in H as (? & w13 & Hk6 & H).
  destruct (create_checked_Done_inv _ _ _ _ _ _ _ _ Hc6 Hk6) as [_ Hn6].
  apply bind_Done_inv in H as ([hr7 rtv_heap] & w14 & Hc7 & H).
  apply bind_Done_inv in H as (? & w15 & Hk7 & H).
  destruct (create_checked_Done_inv _ _ _ _ _ _ _ _ Hc7 Hk7) as [_ Hn7].
  apply bind_Done_inv in H as (? & w16 & Hd4 & H). apply deref_Done_inv in Hd4 as [Hrtv ->].
  apply bind_Done_inv in H as (frames & w17 & Hloop & H).
  apply bind_Done_inv in H as ([hr8 fence_event] & w18 & Hc8 & H).
  assert (Hframes : length frames = (MAX_FRAMEBUFFERS K + 0)%nat
                    /\ Forall (fun fr => frame_fresh K fr /\ is_null swap_chain = false) frames
                    /\ (0 < w_next w17)%nat).
  { eapply (for_loop_Done_inv_w
              (fun j frames w0 =>
                 length frames = j
                 /\ Forall (fun fr => frame_fresh K fr /\ is_null swap_chain = false) frames
                 /\ (0 < w_next w0)%nat) _ (MAX_FRAMEBUFFERS K)); [| | |exact Hloop].
    - intros j s w0 s1 w19 _ Hb (Hl & Hall & Hw).
      apply bind_Done_inv in Hb as (fr & w20 & Hfr & Hb).
      unfold ret in Hb. injection Hb as <- <-.
      destruct (Initialize_frame_fresh _ _ _ _ _ _ Hw Hfr) as (Hfresh & Hsw & Hw').
      split; [rewrite length_app; cbn; lia|].
      split; [apply Forall_app; split; [exact Hall|]; apply Forall_singleton; split; assumption|exact Hw'].
    - lia.
    - split; [reflexivity|]. split; [constructor|lia]. }
  destruct Hframes as (Hlen & Hall & _). rewrite Nat.add_0_r in Hlen.
  destruct (is_null fence_event) eqn:Hfe.
  { apply bind_Done_inv in H as (? & w19 & _ & H). unfold ret in H. discriminate. }
  destruct (frames !! 0%nat) as [fr0|] eqn:Hfr0; [|discriminate].
  apply bind_Done_inv in H as ([hr9 command_list] & w19 & Hc9 & H).
  apply bind_Done_inv in H as (? & w20 & Hk9 & H).
  apply bind_Done_inv in H as (? & w21 & Hd5 & H). apply deref_Done_inv in Hd5 as [Hcl ->].
  apply bind_Done_inv in H as (? & w22 & Hd6 & H). apply deref_Done_inv in Hd6 as [_ ->].
  unfold ret in H. injection H as <- <-.
  cbn [m_FrameResources m_FrameBegun m_CurrentFrameIndex m_CurrentProgram
       m_CurrentVertexDeclaration m_PipelineCache pc_Entries m_PipelineState
       m_VerifyGraphicsCalls].
  assert (Hqueue : is_null queue = false).
  { subst queue. unfold is_null, null. apply Nat.eqb_neq. lia. }
  split; [exact Hlen|]. split; [|split; [|repeat split]].
  - intros s Hs. unfold frame_ready.
    cbn [m_FrameResources m_SwapChain m_CommandList m_CommandQueue m_RtvDescriptorHeap].
    destruct (frames !! s) as [fr|] eqn:Hfr.
    2:{ apply lookup_ge_None in Hfr. lia. }
    rewrite Forall_lookup in Hall.
    destruct (Hall _ _ Hfr) as ((Hf & Hca & Hwf & _) & Hsw).
    rewrite Hsw, Hcl, Hqueue, Hrtv, Hf, Hca. cbn [negb andb].
    unfold scratch_wf in Hwf. apply andb_prop in Hwf as [Hwf _].
    apply andb_prop in Hwf as [Hwf _]. apply Nat.eqb_eq in Hwf. rewrite Hwf.
    apply negb_true_iff, Nat.eqb_neq.
    destruct (constants_ok_facts K HK) as (Hstep & Hmod & Hmax & _).
    assert (0 < MAX_BLOCK_SIZE K / BLOCK_STEP_SIZE K); [|lia].
    apply Z.div_str_pos. split; [lia|].
    apply Z.mod_divide in Hmod; [|lia]. apply Z.divide_pos_le in Hmod; lia.
  - intros s fr Hfr. rewrite Forall_lookup in Hall. exact (proj1 (Hall _ _ Hfr)).
Qed.

End Initialized.

Lemma DX12Initialize_leaves_every_frame_ready_witness :
  constants_ok K0 /\ (0 < w_next (world0 all_ok))%nat
  /\ exists ctx w',
      DX12Initialize K0 rounds0 true default_state0 (world0 all_ok) = (Done (true, ctx), w')
      /\ forall s, (s < MAX_FRAMEBUFFERS K0)%nat -> frame_ready ctx s.
Proof.
  assert (Hpos : (0 < w_next (world0 all_ok))%nat) by (cbn; lia).
  split; [exact constants_ok_K0|]. split; [exact Hpos|].
  destruct (DX12Initialize K0 rounds0 true default_state0 (world0 all_ok))
    as [[[[] ctx]| | | |] w'] eqn:E; try (vm_compute in E; discriminate).
  exists ctx, w'. split; [reflexivity|].
  exact (proj1 (proj2 (DX12Initialize_leaves_every_frame_ready
                         K0 constants_ok_K0 rounds0 default_state0 _ _ _ Hpos E))).
Defined.

(** ** The commands of a frame *)

Lemma recorded_commands_app tr1 tr2 :
  recorded_commands (tr1 ++ tr2) = recorded_commands tr1 ++ recorded_commands tr2.
Proof. apply omap_app. Qed.

Lemma recorded_commands_EvRelease l : recorded_commands (map EvRelease l) = [].
Proof. induction l as [|h l IH]; [reflexivity|exact IH]. Qed.

Section FrameCommands.
Variable K : Constants.

Lemma BeginRenderPass_unbound_back_buffer ctx w :
  back_buffer_unbound K ctx ->
  is_null (m_CommandList ctx) = false -> is_null (m_RtvDescriptorHeap ctx) = false ->
  BeginRenderPass K ctx w
  = (Done (set_MainRenderTarget ctx
             (mkRenderTarget (rt_Resource (m_MainRenderTarget ctx))
                             (rt_Id (m_MainRenderTarget ctx))
                             (rt_Format (m_MainRenderTarget ctx)) true)),
     emits [EvRecord (ResourceBarrier_PresentToRenderTarget
                        (rt_Resource (m_MainRenderTarget ctx)));
            EvRecord (OMSetRenderTargets (m_CurrentFrameIndex ctx))] w).
Proof.
  intros [Hid Hb] Hcl Hrtv. unfold BeginRenderPass. rewrite Hb, Hid, Z.eqb_refl.
  unfold bind. rewrite !(deref_nonnull _ _ Hcl). cbn.
  rewrite (deref_nonnull _ _ Hrtv). rewrite !(deref_nonnull _ _ Hcl). cbn.
  unfold emit, emits. cbn. rewrite <- app_assoc. reflexivity.
Qed.

Lemma EndRenderPass_bound_back_buffer ctx w :
  rt_Id (m_MainRenderTarget ctx) = DM_RENDERTARGET_BACKBUFFER_ID K ->
  rt_IsBound (m_MainRenderTarget ctx) = true ->
  is_null (m_CommandList ctx) = false ->
  EndRenderPass K ctx w
  = (Done (true, set_MainRenderTarget ctx
                   (mkRenderTarget (rt_Resource (m_MainRenderTarget ctx))
                                   (rt_Id (m_MainRenderTarget ctx))
                                   (rt_Format (m_MainRenderTarget ctx)) false)),
     emits [EvRecord (ResourceBarrier_RenderTargetToPresent
                        (rt_Resource (m_MainRenderTarget ctx)))] w).
Proof.
  intros Hid Hb Hcl. unfold EndRenderPass. rewrite Hb, Hid, Z.eqb_refl. cbn [negb].
  unfold bind. rewrite (deref_nonnull _ _ Hcl). cbn. reflexivity.
Qed.

(** X19. A frame on the back buffer balances its resource barriers:
    [DX12BeginFrame] on a slot followed by [DX12Flip] records, in this
    order, the descriptor heaps, the transition of the slot's back
    buffer from present to render target, the render target of the
    slot, and the transition of the same back buffer back to present.
    Afterwards no render pass is open and no frame is begun, so that
    the next frame starts as this one did. *)
Theorem frame_balances_the_back_buffer_barriers ctx s w fr :
  frame_ready ctx s -> calls_succeed w ->
  m_FrameResources ctx !! s = Some fr ->
  fence_reachable w (m_Fence fr) (m_FenceValue fr) ->
  back_buffer_unbound K ctx ->
  exists ctx1 w1 ctx2 w2 tr pool0,
    DX12BeginFrame K ctx s w = (Done ctx1, w1)
    /\ DX12Flip K ctx1 w1 = (Done ctx2, w2)
    /\ w_trace w2 = w_trace w ++ tr
    /\ m_MemoryPools (m_ScratchBuffer fr) !! 0%nat = Some pool0
    /\ recorded_commands tr
       = [SetDescriptorHeaps [m_SamplerPool ctx; m_DescriptorHeap pool0];
          ResourceBarrier_PresentToRenderTarget (m_RenderTarget_Resource fr);
          OMSetRenderTargets s;
          ResourceBarrier_RenderTargetToPresent (m_RenderTarget_Resource fr)]
    /\ back_buffer_unbound K ctx2
    /\ m_FrameBegun ctx2 = false
    /\ m_CurrentFrameIndex ctx2 = s
    /\ (forall s', frame_ready ctx s' -> frame_ready ctx2 s').
Proof.
  intros Hready Hok Hfr Hreach [Hid Hb].
  destruct (frame_ready_facts _ _ Hready)
    as (fr0 & pool0 & Hfr0 & Hp0 & Hsc & Hcl & Hq & Hrtv & Hf & Hca).
  rewrite Hfr in Hfr0. injection Hfr0 as <-.
  destruct (fence_reachable_after_wait _ _ _ Hreach) as [w1 Hw].
  destruct (after_wait_facts _ _ _ _ Hw) as (Hv & Hhr & Hnext & Htr).
  assert (Hok1 : calls_succeed w1) by (unfold calls_succeed; rewrite Hhr; exact Hok).
  assert (Hlt : (s < length (m_FrameResources ctx))%nat)
    by (eapply lookup_lt_Some; eauto).
  assert (Hbegin :
    exists ctx1 w2,
      DX12BeginFrame K ctx s w = (Done ctx1, w2)
      /\ w_trace w2
         = w_trace w1 ++ [EvCall CommandAllocator_Reset S_OK]
             ++ map EvRelease (m_ResourcesToDestroy fr)
             ++ [EvCall CommandList_Reset S_OK; EvScratchReset s]
             ++ map EvRecord
                  [SetDescriptorHeaps [m_SamplerPool ctx; m_DescriptorHeap pool0];
                   ResourceBarrier_PresentToRenderTarget (m_RenderTarget_Resource fr);
                   OMSetRenderTargets s]
      /\ calls_succeed w2
      /\ m_MainRenderTarget ctx1
         = mkRenderTarget (m_RenderTarget_Resource fr) (rt_Id (m_MainRenderTarget ctx))
                          (rt_Format (m_MainRenderTarget ctx)) true
      /\ m_CurrentFrameIndex ctx1 = s
      /\ m_CommandList ctx1 = m_CommandList ctx
      /\ m_CommandQueue ctx1 = m_CommandQueue ctx
      /\ m_SwapChain ctx1 = m_SwapChain ctx
      /\ m_RtvDescriptorHeap ctx1 = m_RtvDescriptorHeap ctx
      /\ m_FrameResources ctx1 = <[s := frame_begun fr]> (m_FrameResources ctx)).
  { unfold DX12BeginFrame. unfold bind at 1.
    rewrite (SyncronizeFrame_eval ctx s w fr w1) by auto.
    simpl_ctx. rewrite list_lookup_insert_eq by exact Hlt. simpl_ctx.
    unfold bind at 1. rewrite (deref_nonnull _ _ Hca).
    unfold bind at 1. rewrite (call_ok _ _ Hok1).
    unfold bind at 1. rewrite CHECK_HR_ERROR_ok.
    unfold bind at 1. rewrite FlushResourcesToDestroy_eval. simpl_ctx.
    unfold bind at 1. rewrite (deref_nonnull _ _ Hcl).
    unfold bind at 1. rewrite call_ok by (intros n c; cbn; apply Hok1).
    unfold bind at 1. rewrite CHECK_HR_ERROR_ok.
    unfold bind at 1. unfold tell at 1.
    rewrite list_lookup_fmap, Hp0. cbn [fmap option_fmap option_map].
    unfold bind at 1. unfold tell at 1.
    rewrite BeginRenderPass_unbound_back_buffer;
      [|split; simpl_ctx; assumption|simpl_ctx; exact Hcl|simpl_ctx; exact Hrtv].
    eexists _, _. split; [reflexivity|].
    split; [simpl_ctx; unfold emit, emits; cbn [w_trace]; rewrite <- !app_assoc; reflexivity|].
    split; [intros n c; unfold emit, emits; cbn [w_hr]; apply Hok1|].
    simpl_ctx. repeat (split; [reflexivity|]).
    rewrite list_insert_insert_eq. reflexivity. }
  destruct Hbegin
    as (ctx1 & w2 & Hbegin & Htr2 & Hok2 & Hrt1 & Hidx1 & Hcl1 & Hq1 & Hsc1 & Hrtv1 & Hfrs1).
  assert (Hcl' : is_null (m_CommandList ctx1) = false) by (rewrite Hcl1; exact Hcl).
  assert (Hq' : is_null (m_CommandQueue ctx1) = false) by (rewrite Hq1; exact Hq).
  assert (Hsc' : is_null (m_SwapChain ctx1) = false) by (rewrite Hsc1; exact Hsc).
  assert (Hflip :
    exists w3,
      DX12Flip K ctx1 w2
      = (Done (set_FrameBegun
                 (set_MainRenderTarget ctx1
                    (mkRenderTarget (rt_Resource (m_MainRenderTarget ctx1))
                                    (rt_Id (m_MainRenderTarget ctx1))
                                    (rt_Format (m_MainRenderTarget ctx1)) false)) false), w3)
      /\ w_trace w3
         = w_trace w2
             ++ map EvRecord [ResourceBarrier_RenderTargetToPresent (m_RenderTarget_Resource fr)]
             ++ [EvSubmit; EvSignal (m_Fence fr) (uint64 (m_FenceValue fr + 1));
                 EvCall CommandQueue_Signal S_OK; EvCall SwapChain_Present S_OK]).
  { unfold DX12Flip. unfold bind at 1.
    rewrite EndRenderPass_bound_back_buffer;
      [|rewrite Hrt1; exact Hid|rewrite Hrt1; reflexivity|exact Hcl'].
    simpl_ctx. rewrite Hidx1, Hfrs1.
    rewrite list_lookup_insert_eq by exact Hlt.
    unfold bind at 1. rewrite (deref_nonnull _ _ Hcl').
    unfold bind at 1. rewrite (deref_nonnull _ _ Hq').
    unfold bind at 1. unfold tell at 1.
    unfold bind at 1.
    unfold bind at 1. unfold tell at 1.
    unfold bind at 1. rewrite call_ok by (intros n c; cbn; apply Hok2).
    unfold bind at 1. change (FAILED S_OK) with false. cbn iota.
    unfold bind at 1. rewrite CHECK_HR_ERROR_ok.
    unfold bind at 1. rewrite (deref_nonnull _ _ Hsc').
    unfold bind at 1. rewrite call_ok by (intros n c; cbn; apply Hok2).
    unfold bind at 1. rewrite CHECK_HR_ERROR_ok.
    eexists. unfold ret. split; [reflexivity|].
    rewrite Hrt1. unfold emit, emits, enqueue, frame_begun. simpl_ctx.
    rewrite <- !app_assoc. reflexivity. }
  destruct Hflip as (w3 & Hflip & Htr3).
  eexists ctx1, w2, _, w3, _, pool0.
  split; [exact Hbegin|]. split; [exact Hflip|].
  split; [rewrite Htr3, Htr2, Htr, <- !app_assoc; reflexivity|].
  split; [exact Hp0|].
  split.
  { rewrite !recorded_commands_app, recorded_commands_EvRelease.
    destruct (w_fence w (m_Fence fr) <? m_FenceValue fr); reflexivity. }
  simpl_ctx. rewrite Hrt1. simpl_ctx.
  split; [split; [exact Hid|reflexivity]|].
  split; [reflexivity|]. split; [exact Hidx1|].
  intros s' Hs'. unfold frame_ready in *. simpl_ctx.
  rewrite Hfrs1, Hsc1, Hcl1, Hq1, Hrtv1.
  destruct (decide (s' = s)) as [->|Hne].
  - rewrite list_lookup_insert_eq by exact Hlt. rewrite Hfr in Hs'.
    unfold frame_begun. simpl_ctx. rewrite length_fmap. exact Hs'.
  - rewrite list_lookup_insert_ne by congruence. exact Hs'.
Qed.

End FrameCommands.

Lemma frame_balances_the_back_buffer_barriers_witness :
  frame_ready context0 0 /\ calls_succeed world_init
  /\ back_buffer_unbound K0 context0
  /\ exists ctx1 w1 ctx2 w2,
      DX12BeginFrame K0 context0 0 world_init = (Done ctx1, w1)
      /\ DX12Flip K0 ctx1 w1 = (Done ctx2, w2)
      /\ back_buffer_unbound K0 ctx2.
Proof.
  assert (Hunbound : back_buffer_unbound K0 context0) by (split; reflexivity).
  split; [exact frame_ready_context0|]. split; [exact calls_succeed_world_init|].
  split; [exact Hunbound|].
  destruct (frame_ready_facts _ _ frame_ready_context0) as (fr & _ & Hfr & _).
  assert (Hreach : fence_reachable world_init (m_Fence fr) (m_FenceValue fr)).
  { vm_compute in Hfr. injection Hfr as <-. vm_compute. eauto. }
  destruct (frame_balances_the_back_buffer_barriers K0 context0 0 world_init fr
              frame_ready_context0 calls_succeed_world_init Hfr Hreach Hunbound)
    as (ctx1 & w1 & ctx2 & w2 & _ & _ & H1 & H2 & _ & _ & _ & Hu & _).
  exists ctx1, w1, ctx2, w2. auto.
Defined.

(** ** Descriptor slots of one frame *)

Section DescriptorSlots.
Variable K : Constants.
Hypothesis HK : constants_ok K.

Lemma pool0_descriptors_cons op rest k :
  pool0_descriptors K (op :: rest) (S k)
  = (if uses_pool0 K op then 1 else 0) + pool0_descriptors K rest k.
Proof.
  unfold pool0_descriptors. cbn [take]. rewrite filter_cons.
  destruct (uses_pool0 K op).
  - rewrite decide_True by reflexivity. cbn [length]. lia.
  - rewrite decide_False by discriminate. lia.
Qed.

Lemma pool0_descriptors_bounds ops k :
  0 <= pool0_descriptors K ops k <= Z.of_nat (length ops).
Proof.
  unfold pool0_descriptors. split; [lia|].
  apply inj_le. etransitivity; [apply length_filter|].
  rewrite length_take. lia.
Qed.

Lemma pool0_descriptors_lt ops : forall k1 k2 op,
  ops !! k1 = Some op -> uses_pool0 K op = true -> (k1 < k2)%nat ->
  pool0_descriptors K ops k1 < pool0_descriptors K ops k2.
Proof.
  induction ops as [|op0 rest IH]; intros k1 k2 op Hk Hu Hlt; [discriminate|].
  destruct k2 as [|k2]; [lia|].
  destruct k1 as [|k1].
  - cbn in Hk. inversion Hk; subst op0.
    rewrite pool0_descriptors_cons, Hu.
    pose proof (pool0_descriptors_bounds rest k2).
    unfold pool0_descriptors at 1. cbn [take].
    change (filter _ []) with (@nil AllocOp). cbn [length]. lia.
  - cbn in Hk. rewrite !pool0_descriptors_cons.
    specialize (IH k1 k2 op Hk Hu ltac:(lia)). lia.
Qed.

Lemma AllocateTexture2D_eval sb desc_size texture ti so si w pool0 :
  m_MemoryPools sb !! 0%nat = Some pool0 ->
  is_null (m_DescriptorHeap pool0) = false ->
  AllocateTexture2D sb desc_size texture ti so si w
  = (Done (mkScratchBuffer
             (<[0%nat := set_cursors pool0 (uint32 (m_DescriptorCursor pool0 + 1))
                                     (m_MemoryCursor pool0)]> (m_MemoryPools sb))
             (m_FrameIndex sb)),
     emits [EvCreateSRV (m_DescriptorHeap pool0) (m_DescriptorCursor pool0) texture;
            EvRecord (SetGraphicsRootDescriptorTable_Texture ti (m_DescriptorHeap pool0)
                        (uint32 (desc_size * m_DescriptorCursor pool0)));
            EvRecord (SetGraphicsRootDescriptorTable_Sampler si so)] w).
Proof.
  intros Hp0 Hnn. unfold AllocateTexture2D. rewrite Hp0.
  unfold bind. rewrite (deref_nonnull _ _ Hnn). cbn.
  unfold emit, emits. cbn. rewrite <- !app_assoc. reflexivity.
Qed.

(** The descriptors a run of allocations takes from pool 0. *)
Lemma run_allocs_descriptors ops : forall sb w pool0,
  scratch_wf K sb -> Forall (alloc_in_range K) ops ->
  m_MemoryPools sb !! 0%nat = Some pool0 ->
  0 <= m_DescriptorCursor pool0 ->
  m_DescriptorCursor pool0 + Z.of_nat (length ops) < 2 ^ 32 ->
  exists sb' w' tr,
    run_allocs K ops sb w = (Done sb', w')
    /\ w_trace w' = w_trace w ++ tr
    /\ (forall k desc_size texture ti so si,
          ops !! k = Some (OpTexture2D desc_size texture ti so si) ->
          EvCreateSRV (m_DescriptorHeap pool0)
                      (m_DescriptorCursor pool0 + pool0_descriptors K ops k) texture ∈ tr
          /\ EvRecord (SetGraphicsRootDescriptorTable_Texture ti (m_DescriptorHeap pool0)
                         (uint32 (desc_size
                                  * (m_DescriptorCursor pool0 + pool0_descriptors K ops k))))
             ∈ tr)
    /\ (forall heap slot texture,
          EvCreateSRV heap slot texture ∈ tr ->
          heap = m_DescriptorHeap pool0
          /\ exists k desc_size ti so si,
              ops !! k = Some (OpTexture2D desc_size texture ti so si)
              /\ slot = m_DescriptorCursor pool0 + pool0_descriptors K ops k).
Proof.
  destruct (constants_ok_facts K HK) as (Hs & Hm & Hmax & _).
  assert (H0 : (0 < Z.to_nat (MAX_BLOCK_SIZE K / BLOCK_STEP_SIZE K))%nat).
  { assert (0 < MAX_BLOCK_SIZE K / BLOCK_STEP_SIZE K); [|lia].
    apply Z.div_str_pos. split; [lia|].
    apply Z.mod_divide in Hm; [|lia]. apply Z.divide_pos_le in Hm; lia. }
  induction ops as [|op rest IH]; intros sb w pool0 Hwf Hall Hp0 Hc Hbound.
  - exists sb, w, []. split; [reflexivity|]. split; [rewrite app_nil_r; reflexivity|].
    split.
    + intros k ? ? ? ? ? Hk. discriminate.
    + intros heap slot texture Hin. apply elem_of_nil in Hin. contradiction.
  - apply Forall_cons in Hall as [Hop Hall].
    cbn [length] in Hbound. rewrite Nat2Z.inj_succ in Hbound.
    destruct (scratch_wf_lookup K sb _ Hwf H0) as (p0 & Hp0' & _ & Hnn & Hdn & _).
    rewrite Hp0 in Hp0'. injection Hp0' as <-.
    assert (Hstep : forall sb1 w1 pool1 tr1,
               scratch_wf K sb1 ->
               m_MemoryPools sb1 !! 0%nat = Some pool1 ->
               m_DescriptorHeap pool1 = m_DescriptorHeap pool0 ->
               m_DescriptorCursor pool1
               = m_DescriptorCursor pool0 + (if uses_pool0 K op then 1 else 0) ->
               w_trace w1 = w_trace w ++ tr1 ->
               (forall heap slot texture, EvCreateSRV heap slot texture ∈ tr1 ->
                  heap = m_DescriptorHeap pool0 /\ slot = m_DescriptorCursor pool0
                  /\ exists desc_size ti so si, op = OpTexture2D desc_size texture ti so si) ->
               (forall desc_size texture ti so si,
                  op = OpTexture2D desc_size texture ti so si ->
                  EvCreateSRV (m_DescriptorHeap pool0) (m_DescriptorCursor pool0) texture ∈ tr1
                  /\ EvRecord (SetGraphicsRootDescriptorTable_Texture ti
                                 (m_DescriptorHeap pool0)
                                 (uint32 (desc_size * m_DescriptorCursor pool0))) ∈ tr1) ->
               exists sb' w' tr,
                 run_allocs K rest sb1 w1 = (Done sb', w')
                 /\ w_trace w' = w_trace w ++ tr
                 /\ (forall k desc_size texture ti so si,
                       (op :: rest) !! k = Some (OpTexture2D desc_size texture ti so si) ->
                       EvCreateSRV (m_DescriptorHeap pool0)
                         (m_DescriptorCursor pool0 + pool0_descriptors K (op :: rest) k)
                         texture ∈ tr
                       /\ EvRecord (SetGraphicsRootDescriptorTable_Texture ti
                                      (m_DescriptorHeap pool0)
                                      (uint32 (desc_size
                                               * (m_DescriptorCursor pool0
                                                  + pool0_descriptors K (op :: rest) k))))
                          ∈ tr)
                 /\ (forall heap slot texture,
                       EvCreateSRV heap slot texture ∈ tr ->
                       heap = m_DescriptorHeap pool0
                       /\ exists k desc_size ti so si,
                           (op :: rest) !! k = Some (OpTexture2D desc_size texture ti so si)
                           /\ slot = m_DescriptorCursor pool0
                                     + pool0_descriptors K (op :: rest) k)).
    { intros sb1 w1 pool1 tr1 Hwf1 Hp1 Hheap Hcur Htr1 Honly Hmine.
      destruct (IH sb1 w1 pool1 Hwf1 Hall Hp1) as (sb' & w' & tr & Hrun & Htr & Hfwd & Hbwd).
      { rewrite Hcur. destruct (uses_pool0 K op); lia. }
      { rewrite Hcur. destruct (uses_pool0 K op); lia. }
      exists sb', w', (tr1 ++ tr). split; [exact Hrun|].
      split; [rewrite Htr, Htr1, <- app_assoc; reflexivity|].
      split.
      - intros k desc_size texture ti so si Hk. destruct k as [|k].
        + cbn in Hk. injection Hk as ->.
          unfold pool0_descriptors. cbn [take]. change (filter _ []) with (@nil AllocOp).
          cbn [length]. rewrite Z.add_0_r.
          destruct (Hmine _ _ _ _ _ eq_refl) as [H1 H2].
          split; apply elem_of_app; left; assumption.
        + change ((op :: rest) !! S k) with (rest !! k) in Hk.
          destruct (Hfwd _ _ _ _ _ _ Hk) as [H1 H2].
          rewrite pool0_descriptors_cons. rewrite Hheap, Hcur in H1, H2.
          rewrite Z.add_assoc.
          split; apply elem_of_app; right; assumption.
      - intros heap slot texture Hin. apply elem_of_app in Hin as [Hin|Hin].
        + destruct (Honly _ _ _ Hin) as (-> & -> & desc_size & ti & so & si & ->).
          split; [reflexivity|]. exists 0%nat, desc_size, ti, so, si.
          split; [reflexivity|].
          unfold pool0_descriptors. cbn [take]. change (filter _ []) with (@nil AllocOp).
          cbn [length]. lia.
        + destruct (Hbwd _ _ _ Hin) as (-> & k & desc_size & ti & so & si & Hk & ->).
          split; [exact Hheap|]. exists (S k), desc_size, ti, so, si.
          split; [exact Hk|]. rewrite pool0_descriptors_cons, Hcur. lia. }
    destruct op as [bi size|desc_size texture ti so si]; cbn [run_allocs].
    + cbn in Hop.
      pose proof (pool_index_lt K HK size Hop) as Hi.
      destruct (scratch_wf_lookup K sb _ Hwf Hi) as (pool & Hp & _).
      unfold bind at 1.
      rewrite (AllocateConstantBuffer_eval K sb bi size w pool pool0) by (auto; lia).
      set (pool' := set_cursors pool (uint32 (m_DescriptorCursor pool + 1))
                                (uint32 (m_MemoryCursor pool + m_BlockSize pool))).
      assert (Hlt : (Z.to_nat (size / BLOCK_STEP_SIZE K) < length (m_MemoryPools sb))%nat)
        by (eapply lookup_lt_Some; eauto).
      cbn [uses_pool0] in Hstep. unfold pool_index_of in Hstep.
      destruct (Nat.eqb (Z.to_nat (size / BLOCK_STEP_SIZE K)) 0) eqn:E.
      * apply Nat.eqb_eq in E. rewrite E in *. rewrite Hp0 in Hp. injection Hp as <-.
        eapply (Hstep _ _ pool'); [apply scratch_wf_insert_cursors; assumption| | | | | |].
        -- cbn [m_MemoryPools]. apply list_lookup_insert_eq. exact Hlt.
        -- reflexivity.
        -- subst pool'. cbn. unfold uint32. apply Z.mod_small. lia.
        -- unfold emit. cbn [w_trace]. reflexivity.
        -- intros heap slot texture Hin. apply list_elem_of_singleton in Hin. discriminate.
        -- intros ? ? ? ? ? Heq. discriminate.
      * apply Nat.eqb_neq in E.
        eapply (Hstep _ _ pool0); [apply scratch_wf_insert_cursors; assumption| | | | | |].
        -- cbn [m_MemoryPools]. rewrite list_lookup_insert_ne by congruence. exact Hp0.
        -- reflexivity.
        -- lia.
        -- unfold emit. cbn [w_trace]. reflexivity.
        -- intros heap slot texture Hin. apply list_elem_of_singleton in Hin. discriminate.
        -- intros ? ? ? ? ? Heq. discriminate.
    + unfold bind at 1.
      rewrite (AllocateTexture2D_eval sb desc_size texture ti so si w pool0 Hp0 Hdn).
      assert (Hlt : (0 < length (m_MemoryPools sb))%nat) by (eapply lookup_lt_Some; eauto).
      cbn [uses_pool0] in Hstep.
      eapply (Hstep _ _ (set_cursors pool0 (uint32 (m_DescriptorCursor pool0 + 1))
                                     (m_MemoryCursor pool0)));
        [apply scratch_wf_insert_cursors; assumption| | | | | |].
      * cbn [m_MemoryPools]. apply list_lookup_insert_eq. exact Hlt.
      * reflexivity.
      * cbn. unfold uint32. apply Z.mod_small. lia.
      * unfold emits. cbn [w_trace]. reflexivity.
      * intros heap slot tex Hin.
        apply elem_of_cons in Hin as [Hin|Hin].
        -- injection Hin as -> -> ->. split; [reflexivity|]. split; [reflexivity|]. eauto.
        -- apply elem_of_cons in Hin as [Hin|Hin]; [discriminate|].
           apply list_elem_of_singleton in Hin. discriminate.
      * intros ds tex ti0 so0 si0 Heq. injection Heq as <- <- <- <- <-.
        split; [left|right; left].
Qed.

(** X20. The textures of a frame get descriptors of their own: after
    [Reset], a run of allocations returns, the shader resource view of
    every texture is created in the descriptor heap of pool 0 at the
    slot numbered by the earlier allocations that take a descriptor of
    that pool (textures, and constant buffers of less than one step),
    its descriptor table is set to that slot, no other view is created,
    and two textures never share a slot. *)
Theorem textures_of_a_frame_get_descriptors_of_their_own sb ops w pool0 :
  scratch_wf K sb -> Forall (alloc_in_range K) ops ->
  m_MemoryPools sb !! 0%nat = Some pool0 ->
  Z.of_nat (length ops) < 2 ^ 32 ->
  exists sb' w' tr,
    run_allocs K ops (Reset sb) w = (Done sb', w')
    /\ w_trace w' = w_trace w ++ tr
    /\ (forall k desc_size texture ti so si,
          ops !! k = Some (OpTexture2D desc_size texture ti so si) ->
          EvCreateSRV (m_DescriptorHeap pool0) (pool0_descriptors K ops k) texture ∈ tr
          /\ EvRecord (SetGraphicsRootDescriptorTable_Texture ti (m_DescriptorHeap pool0)
                         (uint32 (desc_size * pool0_descriptors K ops k))) ∈ tr)
    /\ (forall heap slot texture,
          EvCreateSRV heap slot texture ∈ tr ->
          heap = m_DescriptorHeap pool0
          /\ exists k desc_size ti so si,
              ops !! k = Some (OpTexture2D desc_size texture ti so si)
              /\ slot = pool0_descriptors K ops k)
    /\ (forall k1 k2 d1 t1 a1 b1 c1 d2 t2 a2 b2 c2,
          k1 <> k2 ->
          ops !! k1 = Some (OpTexture2D d1 t1 a1 b1 c1) ->
          ops !! k2 = Some (OpTexture2D d2 t2 a2 b2 c2) ->
          pool0_descriptors K ops k1 <> pool0_descriptors K ops k2).
Proof.
  intros Hwf Hall Hp0 Hlen.
  assert (Hp0' : m_MemoryPools (Reset sb) !! 0%nat = Some (set_cursors pool0 0 0)).
  { unfold Reset. cbn [m_MemoryPools]. rewrite list_lookup_fmap, Hp0. reflexivity. }
  destruct (run_allocs_descriptors ops (Reset sb) w (set_cursors pool0 0 0))
    as (sb' & w' & tr & Hrun & Htr & Hfwd & Hbwd);
    [apply (Reset_scratch_wf K); exact Hwf|exact Hall|exact Hp0'|cbn; lia|cbn; lia|].
  cbn [set_cursors m_DescriptorHeap m_DescriptorCursor] in Hfwd, Hbwd.
  exists sb', w', tr. split; [exact Hrun|]. split; [exact Htr|].
  split; [|split].
  - intros k desc_size texture ti so si Hk.
    destruct (Hfwd _ _ _ _ _ _ Hk) as [H1 H2]. rewrite Z.add_0_l in H1, H2. auto.
  - intros heap slot texture Hin.
    destruct (Hbwd _ _ _ Hin) as (-> & k & desc_size & ti & so & si & Hk & ->).
    split; [reflexivity|]. exists k, desc_size, ti, so, si. split; [exact Hk|lia].
  - intros k1 k2 d1 t1 a1 b1 c1 d2 t2 a2 b2 c2 Hne H1 H2.
    destruct (Nat.lt_total k1 k2) as [Hlt|[Heq|Hgt]]; [|congruence|].
    + pose proof (pool0_descriptors_lt ops k1 k2 _ H1 eq_refl Hlt). lia.
    + pose proof (pool0_descriptors_lt ops k2 k1 _ H2 eq_refl Hgt). lia.
Qed.

(** X21. Nothing compares the descriptor cursor of pool 0 with the
    [DESCRIPTORS_PER_POOL] descriptors of its heap: the texture
    allocated after that many allocations of the frame have taken a
    descriptor of pool 0 has its view created at a slot past the last
    descriptor of the heap, and the allocation returns. *)
Theorem texture_descriptor_past_the_end_of_the_heap
        sb ops w pool0 desc_size texture ti so si :
  scratch_wf K sb -> Forall (alloc_in_range K) ops ->
  m_MemoryPools sb !! 0%nat = Some pool0 ->
  Z.of_nat (length ops) + 1 < 2 ^ 32 ->
  Z.of_nat (DESCRIPTORS_PER_POOL K) <= pool0_descriptors K ops (length ops) ->
  exists sb' w' slot,
    run_allocs K (ops ++ [OpTexture2D desc_size texture ti so si]) (Reset sb) w
    = (Done sb', w')
    /\ (EvCreateSRV (m_DescriptorHeap pool0) slot texture ∈ w_trace w')
    /\ Z.of_nat (DESCRIPTORS_PER_POOL K) <= slot.
Proof.
  intros Hwf Hall Hp0 Hlen Hfull.
  assert (Hp0' : m_MemoryPools (Reset sb) !! 0%nat = Some (set_cursors pool0 0 0)).
  { unfold Reset. cbn [m_MemoryPools]. rewrite list_lookup_fmap, Hp0. reflexivity. }
  destruct (run_allocs_descriptors (ops ++ [OpTexture2D desc_size texture ti so si])
              (Reset sb) w (set_cursors pool0 0 0))
    as (sb' & w' & tr & Hrun & Htr & Hfwd & _);
    [apply (Reset_scratch_wf K); exact Hwf
    |apply Forall_app; split; [exact Hall|apply Forall_singleton; exact I]
    |exact Hp0'|cbn; lia|cbn; rewrite length_app; cbn; lia|].
  cbn [set_cursors m_DescriptorHeap m_DescriptorCursor] in Hfwd.
  destruct (Hfwd (length ops) desc_size texture ti so si) as [H1 _].
  { rewrite lookup_app_r by lia. rewrite Nat.sub_diag. reflexivity. }
  exists sb', w', (0 + pool0_descriptors K (ops ++ [OpTexture2D desc_size texture ti so si])
                                         (length ops)).
  split; [exact Hrun|]. split; [rewrite Htr; apply elem_of_app; right; exact H1|].
  unfold pool0_descriptors in *. rewrite take_app_length. rewrite firstn_all in Hfull. lia.
Qed.

End DescriptorSlots.

Lemma ops_textures_in_range : Forall (alloc_in_range K0) ops_textures.
Proof. repeat constructor; cbn; lia. Qed.

Lemma textures_of_a_frame_get_descriptors_of_their_own_witness :
  scratch_wf K0 scratch0 /\ Forall (alloc_in_range K0) ops_textures
  /\ exists pool0 sb' w',
      m_MemoryPools scratch0 !! 0%nat = Some pool0
      /\ run_allocs K0 ops_textures (Reset scratch0) world1 = (Done sb', w')
      /\ (EvCreateSRV (m_DescriptorHeap pool0) 3 73%nat ∈ w_trace w').
Proof.
  split; [exact scratch_wf_scratch0|]. split; [exact ops_textures_in_range|].
  destruct (m_MemoryPools scratch0 !! 0%nat) as [pool0|] eqn:Hp0; [|discriminate].
  destruct (textures_of_a_frame_get_descriptors_of_their_own K0 constants_ok_K0
              scratch0 ops_textures world1 pool0 scratch_wf_scratch0 ops_textures_in_range Hp0)
    as (sb' & w' & tr & Hrun & Htr & Hfwd & _); [cbn; lia|].
  exists pool0, sb', w'. split; [reflexivity|]. split; [exact Hrun|].
  rewrite Htr. apply elem_of_app. right.
  exact (proj1 (Hfwd 4%nat 32 73%nat 5 0 6 eq_refl)).
Defined.

Lemma texture_descriptor_past_the_end_of_the_heap_witness :
  scratch_wf K0 scratch0 /\ Forall (alloc_in_range K0) (take 6 ops_textures)
  /\ Z.of_nat (DESCRIPTORS_PER_POOL K0) <= pool0_descriptors K0 (take 6 ops_textures) 6
  /\ exists pool0 sb' w' slot,
      m_MemoryPools scratch0 !! 0%nat = Some pool0
      /\ run_allocs K0 (take 6 ops_textures ++ [OpTexture2D 32 75%nat 9 0 10])
                    (Reset scratch0) world1 = (Done sb', w')
      /\ (EvCreateSRV (m_DescriptorHeap pool0) slot 75%nat ∈ w_trace w')
      /\ Z.of_nat (DESCRIPTORS_PER_POOL K0) <= slot.
Proof.
  assert (Hall : Forall (alloc_in_range K0) (take 6 ops_textures))
    by (repeat constructor; cbn; lia).
  assert (Hfull : Z.of_nat (DESCRIPTORS_PER_POOL K0)
                  <= pool0_descriptors K0 (take 6 ops_textures) 6)
    by (vm_compute; discriminate).
  split; [exact scratch_wf_scratch0|]. split; [exact Hall|]. split; [exact Hfull|].
  destruct (m_MemoryPools scratch0 !! 0%nat) as [pool0|] eqn:Hp0; [|discriminate].
  destruct (texture_descriptor_past_the_end_of_the_heap K0 constants_ok_K0
              scratch0 (take 6 ops_textures) world1 pool0 32 75%nat 9 0 10
              scratch_wf_scratch0 Hall Hp0)
    as (sb' & w' & slot & Hrun & Hin & Hslot); [cbn; lia|exact Hfull|].
  exists pool0, sb', w', slot. auto.
Defined.
